(** * goMicroServiceUtils: JSON request decoding and response encoding

    A shallow embedding of [json-comms.go] (methods [ReadJSON], [WriteJSON]
    and [ErrorJSON] of [*Tools]) together with the parts of the Go standard
    library those methods drive: error values and [errors.Is]/[errors.As],
    [http.Header], [http.MaxBytesReader], the [encoding/json] stream decoder
    (its byte-level scanner and the [Decoder.Decode] loop) and [json.Marshal].

    Go strings and byte slices are Rocq [string]s (sequences of 8-bit
    [ascii]); runes and Go [int]/[int64] are [Z]; a Go map is a [gmap];
    a Go interface that the code uses through reflection is a type
    class. *)

From Stdlib Require Import ZArith String Ascii List Bool Lia DecimalString DecimalPos.
From stdpp Require Import gmap strings list fin_maps.

Local Open Scope string_scope.
Local Open Scope Z_scope.

#[local] Set Warnings "-register-all".

(** ** Bytes and runes *)

Module utf8.

Definition byte_val (c : ascii) : Z := Z.of_N (N_of_ascii c).

Definition byte_of (z : Z) : ascii := ascii_of_N (Z.to_N z).

(** [utf8.DecodeRune] on the head of a string: the rune and its width.
    Ill-formed input yields [(RuneError, 1)], as does the empty string
    with width 0. *)
Definition RuneError : Z := 65533.

Definition cont (c : ascii) : bool :=
  (128 <=? byte_val c) && (byte_val c <=? 191).

Definition DecodeRune (s : string) : Z * nat :=
  match s with
  | EmptyString => (RuneError, 0%nat)
  | String c0 r0 =>
      let b0 := byte_val c0 in
      if b0 <? 128 then (b0, 1%nat)
      else if (194 <=? b0) && (b0 <=? 223) then
        match r0 with
        | String c1 _ =>
            if cont c1 then ((b0 - 192) * 64 + (byte_val c1 - 128), 2%nat)
            else (RuneError, 1%nat)
        | _ => (RuneError, 1%nat)
        end
      else if (224 <=? b0) && (b0 <=? 239) then
        match r0 with
        | String c1 (String c2 _) =>
            let b1 := byte_val c1 in
            let lo := if b0 =? 224 then 160 else 128 in
            let hi := if b0 =? 237 then 159 else 191 in
            if (lo <=? b1) && (b1 <=? hi) && cont c2
            then ((b0 - 224) * 4096 + (b1 - 128) * 64 + (byte_val c2 - 128), 3%nat)
            else (RuneError, 1%nat)
        | _ => (RuneError, 1%nat)
        end
      else if (240 <=? b0) && (b0 <=? 244) then
        match r0 with
        | String c1 (String c2 (String c3 _)) =>
            let b1 := byte_val c1 in
            let lo := if b0 =? 240 then 144 else 128 in
            let hi := if b0 =? 244 then 143 else 191 in
            if (lo <=? b1) && (b1 <=? hi) && cont c2 && cont c3
            then ((b0 - 240) * 262144 + (b1 - 128) * 4096
                  + (byte_val c2 - 128) * 64 + (byte_val c3 - 128), 4%nat)
            else (RuneError, 1%nat)
        | _ => (RuneError, 1%nat)
        end
      else (RuneError, 1%nat)
  end.

(** [utf8.AppendRune]: surrogates and out-of-range values encode
    [RuneError]. *)
Definition EncodeRune (r : Z) : string :=
  let r := if (r <? 0) || (1114111 <? r) || ((55296 <=? r) && (r <=? 57343))
           then RuneError else r in
  if r <? 128 then String (byte_of r) EmptyString
  else if r <? 2048 then
    String (byte_of (192 + r / 64)) (String (byte_of (128 + r mod 64)) EmptyString)
  else if r <? 65536 then
    String (byte_of (224 + r / 4096))
      (String (byte_of (128 + (r / 64) mod 64))
         (String (byte_of (128 + r mod 64)) EmptyString))
  else
    String (byte_of (240 + r / 262144))
      (String (byte_of (128 + (r / 4096) mod 64))
         (String (byte_of (128 + (r / 64) mod 64))
            (String (byte_of (128 + r mod 64)) EmptyString))).

End utf8.

(** ** Package [unicode]: the tables

    The tables below are the simple case mappings and the general
    categories of the Unicode Character Database, version 14.0.0, cut
    into ranges.  An entry [(lo, hi, stride, delta)] stands for the
    runes [lo], [lo + stride], ... up to [hi], each of which maps to
    itself plus [delta]; a rune in no entry maps to itself. *)

Module unicode.

Definition MaxASCII : Z := 127.

Fixpoint shift (table : list (Z * Z * Z * Z)) (r : Z) : Z :=
  match table with
  | [] => r
  | (lo, hi, stride, delta) :: rest =>
      if (lo <=? r) && (r <=? hi) && ((r - lo) mod stride =? 0) then r + delta
      else shift rest r
  end.

(** The runes above ASCII that have a lower-case form other than
    themselves. *)
Definition lowerRanges : list (Z * Z * Z * Z) :=
  [(0x00C0, 0x00D6, 1, 32); (0x00D8, 0x00DE, 1, 32); (0x0100, 0x012E, 2, 1);
   (0x0130, 0x0130, 1, -199); (0x0132, 0x0136, 2, 1); (0x0139, 0x0147, 2, 1);
   (0x014A, 0x0176, 2, 1); (0x0178, 0x0178, 1, -121); (0x0179, 0x017D, 2, 1);
   (0x0181, 0x0181, 1, 210); (0x0182, 0x0184, 2, 1); (0x0186, 0x0186, 1, 206);
   (0x0187, 0x0187, 1, 1); (0x0189, 0x018A, 1, 205); (0x018B, 0x018B, 1, 1);
   (0x018E, 0x018E, 1, 79); (0x018F, 0x018F, 1, 202); (0x0190, 0x0190, 1, 203);
   (0x0191, 0x0191, 1, 1); (0x0193, 0x0193, 1, 205); (0x0194, 0x0194, 1, 207);
   (0x0196, 0x0196, 1, 211); (0x0197, 0x0197, 1, 209); (0x0198, 0x0198, 1, 1);
   (0x019C, 0x019C, 1, 211); (0x019D, 0x019D, 1, 213); (0x019F, 0x019F, 1, 214);
   (0x01A0, 0x01A4, 2, 1); (0x01A6, 0x01A6, 1, 218); (0x01A7, 0x01A7, 1, 1);
   (0x01A9, 0x01A9, 1, 218); (0x01AC, 0x01AC, 1, 1); (0x01AE, 0x01AE, 1, 218);
   (0x01AF, 0x01AF, 1, 1); (0x01B1, 0x01B2, 1, 217); (0x01B3, 0x01B5, 2, 1);
   (0x01B7, 0x01B7, 1, 219); (0x01B8, 0x01B8, 1, 1); (0x01BC, 0x01BC, 1, 1);
   (0x01C4, 0x01C4, 1, 2); (0x01C5, 0x01C5, 1, 1); (0x01C7, 0x01C7, 1, 2);
   (0x01C8, 0x01C8, 1, 1); (0x01CA, 0x01CA, 1, 2); (0x01CB, 0x01DB, 2, 1);
   (0x01DE, 0x01EE, 2, 1); (0x01F1, 0x01F1, 1, 2); (0x01F2, 0x01F4, 2, 1);
   (0x01F6, 0x01F6, 1, -97); (0x01F7, 0x01F7, 1, -56); (0x01F8, 0x021E, 2, 1);
   (0x0220, 0x0220, 1, -130); (0x0222, 0x0232, 2, 1); (0x023A, 0x023A, 1, 10795);
   (0x023B, 0x023B, 1, 1); (0x023D, 0x023D, 1, -163); (0x023E, 0x023E, 1, 10792);
   (0x0241, 0x0241, 1, 1); (0x0243, 0x0243, 1, -195); (0x0244, 0x0244, 1, 69);
   (0x0245, 0x0245, 1, 71); (0x0246, 0x024E, 2, 1); (0x0370, 0x0372, 2, 1);
   (0x0376, 0x0376, 1, 1); (0x037F, 0x037F, 1, 116); (0x0386, 0x0386, 1, 38);
   (0x0388, 0x038A, 1, 37); (0x038C, 0x038C, 1, 64); (0x038E, 0x038F, 1, 63);
   (0x0391, 0x03A1, 1, 32); (0x03A3, 0x03AB, 1, 32); (0x03CF, 0x03CF, 1, 8);
   (0x03D8, 0x03EE, 2, 1); (0x03F4, 0x03F4, 1, -60); (0x03F7, 0x03F7, 1, 1);
   (0x03F9, 0x03F9, 1, -7); (0x03FA, 0x03FA, 1, 1); (0x03FD, 0x03FF, 1, -130);
   (0x0400, 0x040F, 1, 80); (0x0410, 0x042F, 1, 32); (0x0460, 0x0480, 2, 1);
   (0x048A, 0x04BE, 2, 1); (0x04C0, 0x04C0, 1, 15); (0x04C1, 0x04CD, 2, 1);
   (0x04D0, 0x052E, 2, 1); (0x0531, 0x0556, 1, 48); (0x10A0, 0x10C5, 1, 7264);
   (0x10C7, 0x10C7, 1, 7264); (0x10CD, 0x10CD, 1, 7264); (0x13A0, 0x13EF, 1, 38864);
   (0x13F0, 0x13F5, 1, 8); (0x1C90, 0x1CBA, 1, -3008); (0x1CBD, 0x1CBF, 1, -3008);
   (0x1E00, 0x1E94, 2, 1); (0x1E9E, 0x1E9E, 1, -7615); (0x1EA0, 0x1EFE, 2, 1);
   (0x1F08, 0x1F0F, 1, -8); (0x1F18, 0x1F1D, 1, -8); (0x1F28, 0x1F2F, 1, -8);
   (0x1F38, 0x1F3F, 1, -8); (0x1F48, 0x1F4D, 1, -8); (0x1F59, 0x1F5F, 2, -8);
   (0x1F68, 0x1F6F, 1, -8); (0x1F88, 0x1F8F, 1, -8); (0x1F98, 0x1F9F, 1, -8);
   (0x1FA8, 0x1FAF, 1, -8); (0x1FB8, 0x1FB9, 1, -8); (0x1FBA, 0x1FBB, 1, -74);
   (0x1FBC, 0x1FBC, 1, -9); (0x1FC8, 0x1FCB, 1, -86); (0x1FCC, 0x1FCC, 1, -9);
   (0x1FD8, 0x1FD9, 1, -8); (0x1FDA, 0x1FDB, 1, -100); (0x1FE8, 0x1FE9, 1, -8);
   (0x1FEA, 0x1FEB, 1, -112); (0x1FEC, 0x1FEC, 1, -7); (0x1FF8, 0x1FF9, 1, -128);
   (0x1FFA, 0x1FFB, 1, -126); (0x1FFC, 0x1FFC, 1, -9); (0x2126, 0x2126, 1, -7517);
   (0x212A, 0x212A, 1, -8383); (0x212B, 0x212B, 1, -8262); (0x2132, 0x2132, 1, 28);
   (0x2160, 0x216F, 1, 16); (0x2183, 0x2183, 1, 1); (0x24B6, 0x24CF, 1, 26);
   (0x2C00, 0x2C2F, 1, 48); (0x2C60, 0x2C60, 1, 1); (0x2C62, 0x2C62, 1, -10743);
   (0x2C63, 0x2C63, 1, -3814); (0x2C64, 0x2C64, 1, -10727); (0x2C67, 0x2C6B, 2, 1);
   (0x2C6D, 0x2C6D, 1, -10780); (0x2C6E, 0x2C6E, 1, -10749);
   (0x2C6F, 0x2C6F, 1, -10783); (0x2C70, 0x2C70, 1, -10782); (0x2C72, 0x2C72, 1, 1);
   (0x2C75, 0x2C75, 1, 1); (0x2C7E, 0x2C7F, 1, -10815); (0x2C80, 0x2CE2, 2, 1);
   (0x2CEB, 0x2CED, 2, 1); (0x2CF2, 0x2CF2, 1, 1); (0xA640, 0xA66C, 2, 1);
   (0xA680, 0xA69A, 2, 1); (0xA722, 0xA72E, 2, 1); (0xA732, 0xA76E, 2, 1);
   (0xA779, 0xA77B, 2, 1); (0xA77D, 0xA77D, 1, -35332); (0xA77E, 0xA786, 2, 1);
   (0xA78B, 0xA78B, 1, 1); (0xA78D, 0xA78D, 1, -42280); (0xA790, 0xA792, 2, 1);
   (0xA796, 0xA7A8, 2, 1); (0xA7AA, 0xA7AA, 1, -42308); (0xA7AB, 0xA7AB, 1, -42319);
   (0xA7AC, 0xA7AC, 1, -42315); (0xA7AD, 0xA7AD, 1, -42305);
   (0xA7AE, 0xA7AE, 1, -42308); (0xA7B0, 0xA7B0, 1, -42258);
   (0xA7B1, 0xA7B1, 1, -42282); (0xA7B2, 0xA7B2, 1, -42261); (0xA7B3, 0xA7B3, 1, 928);
   (0xA7B4, 0xA7C2, 2, 1); (0xA7C4, 0xA7C4, 1, -48); (0xA7C5, 0xA7C5, 1, -42307);
   (0xA7C6, 0xA7C6, 1, -35384); (0xA7C7, 0xA7C9, 2, 1); (0xA7D0, 0xA7D0, 1, 1);
   (0xA7D6, 0xA7D8, 2, 1); (0xA7F5, 0xA7F5, 1, 1); (0xFF21, 0xFF3A, 1, 32);
   (0x10400, 0x10427, 1, 40); (0x104B0, 0x104D3, 1, 40); (0x10570, 0x1057A, 1, 39);
   (0x1057C, 0x1058A, 1, 39); (0x1058C, 0x10592, 1, 39); (0x10594, 0x10595, 1, 39);
   (0x10C80, 0x10CB2, 1, 64); (0x118A0, 0x118BF, 1, 32); (0x16E40, 0x16E5F, 1, 32);
   (0x1E900, 0x1E921, 1, 34)].

(** [unicode.ToLower]. *)
Definition lowerRune (r : Z) : Z :=
  if r <=? MaxASCII then
    if (65 <=? r) && (r <=? 90) then r + 32 else r
  else shift lowerRanges r.

(** The orbits of [unicode.SimpleFold] are the classes of runes with
    the same simple case folding; the table sends every rune above
    ASCII that is not the smallest of its orbit to that smallest one.
    U+0130 and U+0131 are orbits of their own. *)
Definition orbitRanges : list (Z * Z * Z * Z) :=
  [(0x00E0, 0x00F6, 1, -32); (0x00F8, 0x00FE, 1, -32); (0x0101, 0x012F, 2, -1);
   (0x0133, 0x0137, 2, -1); (0x013A, 0x0148, 2, -1); (0x014B, 0x0177, 2, -1);
   (0x0178, 0x0178, 1, -121); (0x017A, 0x017E, 2, -1); (0x017F, 0x017F, 1, -300);
   (0x0183, 0x0185, 2, -1); (0x0188, 0x0188, 1, -1); (0x018C, 0x018C, 1, -1);
   (0x0192, 0x0192, 1, -1); (0x0199, 0x0199, 1, -1); (0x01A1, 0x01A5, 2, -1);
   (0x01A8, 0x01A8, 1, -1); (0x01AD, 0x01AD, 1, -1); (0x01B0, 0x01B0, 1, -1);
   (0x01B4, 0x01B6, 2, -1); (0x01B9, 0x01B9, 1, -1); (0x01BD, 0x01BD, 1, -1);
   (0x01C5, 0x01C5, 1, -1); (0x01C6, 0x01C6, 1, -2); (0x01C8, 0x01C8, 1, -1);
   (0x01C9, 0x01C9, 1, -2); (0x01CB, 0x01CB, 1, -1); (0x01CC, 0x01CC, 1, -2);
   (0x01CE, 0x01DC, 2, -1); (0x01DD, 0x01DD, 1, -79); (0x01DF, 0x01EF, 2, -1);
   (0x01F2, 0x01F2, 1, -1); (0x01F3, 0x01F3, 1, -2); (0x01F5, 0x01F5, 1, -1);
   (0x01F6, 0x01F6, 1, -97); (0x01F7, 0x01F7, 1, -56); (0x01F9, 0x021F, 2, -1);
   (0x0220, 0x0220, 1, -130); (0x0223, 0x0233, 2, -1); (0x023C, 0x023C, 1, -1);
   (0x023D, 0x023D, 1, -163); (0x0242, 0x0242, 1, -1); (0x0243, 0x0243, 1, -195);
   (0x0247, 0x024F, 2, -1); (0x0253, 0x0253, 1, -210); (0x0254, 0x0254, 1, -206);
   (0x0256, 0x0257, 1, -205); (0x0259, 0x0259, 1, -202); (0x025B, 0x025B, 1, -203);
   (0x0260, 0x0260, 1, -205); (0x0263, 0x0263, 1, -207); (0x0268, 0x0268, 1, -209);
   (0x0269, 0x0269, 1, -211); (0x026F, 0x026F, 1, -211); (0x0272, 0x0272, 1, -213);
   (0x0275, 0x0275, 1, -214); (0x0280, 0x0280, 1, -218); (0x0283, 0x0283, 1, -218);
   (0x0288, 0x0288, 1, -218); (0x0289, 0x0289, 1, -69); (0x028A, 0x028B, 1, -217);
   (0x028C, 0x028C, 1, -71); (0x0292, 0x0292, 1, -219); (0x0371, 0x0373, 2, -1);
   (0x0377, 0x0377, 1, -1); (0x0399, 0x0399, 1, -84); (0x039C, 0x039C, 1, -743);
   (0x03AC, 0x03AC, 1, -38); (0x03AD, 0x03AF, 1, -37); (0x03B1, 0x03B8, 1, -32);
   (0x03B9, 0x03B9, 1, -116); (0x03BA, 0x03BB, 1, -32); (0x03BC, 0x03BC, 1, -775);
   (0x03BD, 0x03C1, 1, -32); (0x03C2, 0x03C2, 1, -31); (0x03C3, 0x03CB, 1, -32);
   (0x03CC, 0x03CC, 1, -64); (0x03CD, 0x03CE, 1, -63); (0x03D0, 0x03D0, 1, -62);
   (0x03D1, 0x03D1, 1, -57); (0x03D5, 0x03D5, 1, -47); (0x03D6, 0x03D6, 1, -54);
   (0x03D7, 0x03D7, 1, -8); (0x03D9, 0x03EF, 2, -1); (0x03F0, 0x03F0, 1, -86);
   (0x03F1, 0x03F1, 1, -80); (0x03F3, 0x03F3, 1, -116); (0x03F4, 0x03F4, 1, -92);
   (0x03F5, 0x03F5, 1, -96); (0x03F8, 0x03F8, 1, -1); (0x03F9, 0x03F9, 1, -7);
   (0x03FB, 0x03FB, 1, -1); (0x03FD, 0x03FF, 1, -130); (0x0430, 0x044F, 1, -32);
   (0x0450, 0x045F, 1, -80); (0x0461, 0x0481, 2, -1); (0x048B, 0x04BF, 2, -1);
   (0x04C2, 0x04CE, 2, -1); (0x04CF, 0x04CF, 1, -15); (0x04D1, 0x052F, 2, -1);
   (0x0561, 0x0586, 1, -48); (0x13F8, 0x13FD, 1, -8); (0x1C80, 0x1C80, 1, -6254);
   (0x1C81, 0x1C81, 1, -6253); (0x1C82, 0x1C82, 1, -6244); (0x1C83, 0x1C84, 1, -6242);
   (0x1C85, 0x1C85, 1, -6243); (0x1C86, 0x1C86, 1, -6236); (0x1C87, 0x1C87, 1, -6181);
   (0x1C90, 0x1CBA, 1, -3008); (0x1CBD, 0x1CBF, 1, -3008); (0x1E01, 0x1E95, 2, -1);
   (0x1E9B, 0x1E9B, 1, -59); (0x1E9E, 0x1E9E, 1, -7615); (0x1EA1, 0x1EFF, 2, -1);
   (0x1F08, 0x1F0F, 1, -8); (0x1F18, 0x1F1D, 1, -8); (0x1F28, 0x1F2F, 1, -8);
   (0x1F38, 0x1F3F, 1, -8); (0x1F48, 0x1F4D, 1, -8); (0x1F59, 0x1F5F, 2, -8);
   (0x1F68, 0x1F6F, 1, -8); (0x1F88, 0x1F8F, 1, -8); (0x1F98, 0x1F9F, 1, -8);
   (0x1FA8, 0x1FAF, 1, -8); (0x1FB8, 0x1FB9, 1, -8); (0x1FBA, 0x1FBB, 1, -74);
   (0x1FBC, 0x1FBC, 1, -9); (0x1FBE, 0x1FBE, 1, -7289); (0x1FC8, 0x1FCB, 1, -86);
   (0x1FCC, 0x1FCC, 1, -9); (0x1FD8, 0x1FD9, 1, -8); (0x1FDA, 0x1FDB, 1, -100);
   (0x1FE8, 0x1FE9, 1, -8); (0x1FEA, 0x1FEB, 1, -112); (0x1FEC, 0x1FEC, 1, -7);
   (0x1FF8, 0x1FF9, 1, -128); (0x1FFA, 0x1FFB, 1, -126); (0x1FFC, 0x1FFC, 1, -9);
   (0x2126, 0x2126, 1, -7549); (0x212A, 0x212A, 1, -8415); (0x212B, 0x212B, 1, -8294);
   (0x214E, 0x214E, 1, -28); (0x2170, 0x217F, 1, -16); (0x2184, 0x2184, 1, -1);
   (0x24D0, 0x24E9, 1, -26); (0x2C30, 0x2C5F, 1, -48); (0x2C61, 0x2C61, 1, -1);
   (0x2C62, 0x2C62, 1, -10743); (0x2C63, 0x2C63, 1, -3814); (0x2C64, 0x2C64, 1, -10727);
   (0x2C65, 0x2C65, 1, -10795); (0x2C66, 0x2C66, 1, -10792); (0x2C68, 0x2C6C, 2, -1);
   (0x2C6D, 0x2C6D, 1, -10780); (0x2C6E, 0x2C6E, 1, -10749);
   (0x2C6F, 0x2C6F, 1, -10783); (0x2C70, 0x2C70, 1, -10782); (0x2C73, 0x2C73, 1, -1);
   (0x2C76, 0x2C76, 1, -1); (0x2C7E, 0x2C7F, 1, -10815); (0x2C81, 0x2CE3, 2, -1);
   (0x2CEC, 0x2CEE, 2, -1); (0x2CF3, 0x2CF3, 1, -1); (0x2D00, 0x2D25, 1, -7264);
   (0x2D27, 0x2D27, 1, -7264); (0x2D2D, 0x2D2D, 1, -7264); (0xA641, 0xA649, 2, -1);
   (0xA64A, 0xA64A, 1, -35266); (0xA64B, 0xA64B, 1, -35267); (0xA64D, 0xA66D, 2, -1);
   (0xA681, 0xA69B, 2, -1); (0xA723, 0xA72F, 2, -1); (0xA733, 0xA76F, 2, -1);
   (0xA77A, 0xA77C, 2, -1); (0xA77D, 0xA77D, 1, -35332); (0xA77F, 0xA787, 2, -1);
   (0xA78C, 0xA78C, 1, -1); (0xA78D, 0xA78D, 1, -42280); (0xA791, 0xA793, 2, -1);
   (0xA797, 0xA7A9, 2, -1); (0xA7AA, 0xA7AA, 1, -42308); (0xA7AB, 0xA7AB, 1, -42319);
   (0xA7AC, 0xA7AC, 1, -42315); (0xA7AD, 0xA7AD, 1, -42305);
   (0xA7AE, 0xA7AE, 1, -42308); (0xA7B0, 0xA7B0, 1, -42258);
   (0xA7B1, 0xA7B1, 1, -42282); (0xA7B2, 0xA7B2, 1, -42261); (0xA7B5, 0xA7C3, 2, -1);
   (0xA7C4, 0xA7C4, 1, -48); (0xA7C5, 0xA7C5, 1, -42307); (0xA7C6, 0xA7C6, 1, -35384);
   (0xA7C8, 0xA7CA, 2, -1); (0xA7D1, 0xA7D1, 1, -1); (0xA7D7, 0xA7D9, 2, -1);
   (0xA7F6, 0xA7F6, 1, -1); (0xAB53, 0xAB53, 1, -928); (0xAB70, 0xABBF, 1, -38864);
   (0xFF41, 0xFF5A, 1, -32); (0x10428, 0x1044F, 1, -40); (0x104D8, 0x104FB, 1, -40);
   (0x10597, 0x105A1, 1, -39); (0x105A3, 0x105B1, 1, -39); (0x105B3, 0x105B9, 1, -39);
   (0x105BB, 0x105BC, 1, -39); (0x10CC0, 0x10CF2, 1, -64); (0x118C0, 0x118DF, 1, -32);
   (0x16E60, 0x16E7F, 1, -32); (0x1E922, 0x1E943, 1, -34)].

(** The smallest rune of the orbit of [r]: what iterating
    [unicode.SimpleFold] until it wraps around arrives at ([foldRune]
    in fold.go of [encoding/json]). *)
Definition foldRune (r : Z) : Z :=
  if r <=? MaxASCII then
    if (97 <=? r) && (r <=? 122) then r - 32 else r
  else shift orbitRanges r.

(** The runes above Latin-1 of the categories L, M, N, P and S, as
    ranges [(lo, hi)]. *)
Definition printRanges : list (Z * Z) :=
  [(0x0100, 0x0377); (0x037A, 0x037F); (0x0384, 0x038A); (0x038C, 0x038C);
   (0x038E, 0x03A1); (0x03A3, 0x052F); (0x0531, 0x0556); (0x0559, 0x058A);
   (0x058D, 0x058F); (0x0591, 0x05C7); (0x05D0, 0x05EA); (0x05EF, 0x05F4);
   (0x0606, 0x061B); (0x061D, 0x06DC); (0x06DE, 0x070D); (0x0710, 0x074A);
   (0x074D, 0x07B1); (0x07C0, 0x07FA); (0x07FD, 0x082D); (0x0830, 0x083E);
   (0x0840, 0x085B); (0x085E, 0x085E); (0x0860, 0x086A); (0x0870, 0x088E);
   (0x0898, 0x08E1); (0x08E3, 0x0983); (0x0985, 0x098C); (0x098F, 0x0990);
   (0x0993, 0x09A8); (0x09AA, 0x09B0); (0x09B2, 0x09B2); (0x09B6, 0x09B9);
   (0x09BC, 0x09C4); (0x09C7, 0x09C8); (0x09CB, 0x09CE); (0x09D7, 0x09D7);
   (0x09DC, 0x09DD); (0x09DF, 0x09E3); (0x09E6, 0x09FE); (0x0A01, 0x0A03);
   (0x0A05, 0x0A0A); (0x0A0F, 0x0A10); (0x0A13, 0x0A28); (0x0A2A, 0x0A30);
   (0x0A32, 0x0A33); (0x0A35, 0x0A36); (0x0A38, 0x0A39); (0x0A3C, 0x0A3C);
   (0x0A3E, 0x0A42); (0x0A47, 0x0A48); (0x0A4B, 0x0A4D); (0x0A51, 0x0A51);
   (0x0A59, 0x0A5C); (0x0A5E, 0x0A5E); (0x0A66, 0x0A76); (0x0A81, 0x0A83);
   (0x0A85, 0x0A8D); (0x0A8F, 0x0A91); (0x0A93, 0x0AA8); (0x0AAA, 0x0AB0);
   (0x0AB2, 0x0AB3); (0x0AB5, 0x0AB9); (0x0ABC, 0x0AC5); (0x0AC7, 0x0AC9);
   (0x0ACB, 0x0ACD); (0x0AD0, 0x0AD0); (0x0AE0, 0x0AE3); (0x0AE6, 0x0AF1);
   (0x0AF9, 0x0AFF); (0x0B01, 0x0B03); (0x0B05, 0x0B0C); (0x0B0F, 0x0B10);
   (0x0B13, 0x0B28); (0x0B2A, 0x0B30); (0x0B32, 0x0B33); (0x0B35, 0x0B39);
   (0x0B3C, 0x0B44); (0x0B47, 0x0B48); (0x0B4B, 0x0B4D); (0x0B55, 0x0B57);
   (0x0B5C, 0x0B5D); (0x0B5F, 0x0B63); (0x0B66, 0x0B77); (0x0B82, 0x0B83);
   (0x0B85, 0x0B8A); (0x0B8E, 0x0B90); (0x0B92, 0x0B95); (0x0B99, 0x0B9A);
   (0x0B9C, 0x0B9C); (0x0B9E, 0x0B9F); (0x0BA3, 0x0BA4); (0x0BA8, 0x0BAA);
   (0x0BAE, 0x0BB9); (0x0BBE, 0x0BC2); (0x0BC6, 0x0BC8); (0x0BCA, 0x0BCD);
   (0x0BD0, 0x0BD0); (0x0BD7, 0x0BD7); (0x0BE6, 0x0BFA); (0x0C00, 0x0C0C);
   (0x0C0E, 0x0C10); (0x0C12, 0x0C28); (0x0C2A, 0x0C39); (0x0C3C, 0x0C44);
   (0x0C46, 0x0C48); (0x0C4A, 0x0C4D); (0x0C55, 0x0C56); (0x0C58, 0x0C5A);
   (0x0C5D, 0x0C5D); (0x0C60, 0x0C63); (0x0C66, 0x0C6F); (0x0C77, 0x0C8C);
   (0x0C8E, 0x0C90); (0x0C92, 0x0CA8); (0x0CAA, 0x0CB3); (0x0CB5, 0x0CB9);
   (0x0CBC, 0x0CC4); (0x0CC6, 0x0CC8); (0x0CCA, 0x0CCD); (0x0CD5, 0x0CD6);
   (0x0CDD, 0x0CDE); (0x0CE0, 0x0CE3); (0x0CE6, 0x0CEF); (0x0CF1, 0x0CF2);
   (0x0D00, 0x0D0C); (0x0D0E, 0x0D10); (0x0D12, 0x0D44); (0x0D46, 0x0D48);
   (0x0D4A, 0x0D4F); (0x0D54, 0x0D63); (0x0D66, 0x0D7F); (0x0D81, 0x0D83);
   (0x0D85, 0x0D96); (0x0D9A, 0x0DB1); (0x0DB3, 0x0DBB); (0x0DBD, 0x0DBD);
   (0x0DC0, 0x0DC6); (0x0DCA, 0x0DCA); (0x0DCF, 0x0DD4); (0x0DD6, 0x0DD6);
   (0x0DD8, 0x0DDF); (0x0DE6, 0x0DEF); (0x0DF2, 0x0DF4); (0x0E01, 0x0E3A);
   (0x0E3F, 0x0E5B); (0x0E81, 0x0E82); (0x0E84, 0x0E84); (0x0E86, 0x0E8A);
   (0x0E8C, 0x0EA3); (0x0EA5, 0x0EA5); (0x0EA7, 0x0EBD); (0x0EC0, 0x0EC4);
   (0x0EC6, 0x0EC6); (0x0EC8, 0x0ECD); (0x0ED0, 0x0ED9); (0x0EDC, 0x0EDF);
   (0x0F00, 0x0F47); (0x0F49, 0x0F6C); (0x0F71, 0x0F97); (0x0F99, 0x0FBC);
   (0x0FBE, 0x0FCC); (0x0FCE, 0x0FDA); (0x1000, 0x10C5); (0x10C7, 0x10C7);
   (0x10CD, 0x10CD); (0x10D0, 0x1248); (0x124A, 0x124D); (0x1250, 0x1256);
   (0x1258, 0x1258); (0x125A, 0x125D); (0x1260, 0x1288); (0x128A, 0x128D);
   (0x1290, 0x12B0); (0x12B2, 0x12B5); (0x12B8, 0x12BE); (0x12C0, 0x12C0);
   (0x12C2, 0x12C5); (0x12C8, 0x12D6); (0x12D8, 0x1310); (0x1312, 0x1315);
   (0x1318, 0x135A); (0x135D, 0x137C); (0x1380, 0x1399); (0x13A0, 0x13F5);
   (0x13F8, 0x13FD); (0x1400, 0x167F); (0x1681, 0x169C); (0x16A0, 0x16F8);
   (0x1700, 0x1715); (0x171F, 0x1736); (0x1740, 0x1753); (0x1760, 0x176C);
   (0x176E, 0x1770); (0x1772, 0x1773); (0x1780, 0x17DD); (0x17E0, 0x17E9);
   (0x17F0, 0x17F9); (0x1800, 0x180D); (0x180F, 0x1819); (0x1820, 0x1878);
   (0x1880, 0x18AA); (0x18B0, 0x18F5); (0x1900, 0x191E); (0x1920, 0x192B);
   (0x1930, 0x193B); (0x1940, 0x1940); (0x1944, 0x196D); (0x1970, 0x1974);
   (0x1980, 0x19AB); (0x19B0, 0x19C9); (0x19D0, 0x19DA); (0x19DE, 0x1A1B);
   (0x1A1E, 0x1A5E); (0x1A60, 0x1A7C); (0x1A7F, 0x1A89); (0x1A90, 0x1A99);
   (0x1AA0, 0x1AAD); (0x1AB0, 0x1ACE); (0x1B00, 0x1B4C); (0x1B50, 0x1B7E);
   (0x1B80, 0x1BF3); (0x1BFC, 0x1C37); (0x1C3B, 0x1C49); (0x1C4D, 0x1C88);
   (0x1C90, 0x1CBA); (0x1CBD, 0x1CC7); (0x1CD0, 0x1CFA); (0x1D00, 0x1F15);
   (0x1F18, 0x1F1D); (0x1F20, 0x1F45); (0x1F48, 0x1F4D); (0x1F50, 0x1F57);
   (0x1F59, 0x1F59); (0x1F5B, 0x1F5B); (0x1F5D, 0x1F5D); (0x1F5F, 0x1F7D);
   (0x1F80, 0x1FB4); (0x1FB6, 0x1FC4); (0x1FC6, 0x1FD3); (0x1FD6, 0x1FDB);
   (0x1FDD, 0x1FEF); (0x1FF2, 0x1FF4); (0x1FF6, 0x1FFE); (0x2010, 0x2027);
   (0x2030, 0x205E); (0x2070, 0x2071); (0x2074, 0x208E); (0x2090, 0x209C);
   (0x20A0, 0x20C0); (0x20D0, 0x20F0); (0x2100, 0x218B); (0x2190, 0x2426);
   (0x2440, 0x244A); (0x2460, 0x2B73); (0x2B76, 0x2B95); (0x2B97, 0x2CF3);
   (0x2CF9, 0x2D25); (0x2D27, 0x2D27); (0x2D2D, 0x2D2D); (0x2D30, 0x2D67);
   (0x2D6F, 0x2D70); (0x2D7F, 0x2D96); (0x2DA0, 0x2DA6); (0x2DA8, 0x2DAE);
   (0x2DB0, 0x2DB6); (0x2DB8, 0x2DBE); (0x2DC0, 0x2DC6); (0x2DC8, 0x2DCE);
   (0x2DD0, 0x2DD6); (0x2DD8, 0x2DDE); (0x2DE0, 0x2E5D); (0x2E80, 0x2E99);
   (0x2E9B, 0x2EF3); (0x2F00, 0x2FD5); (0x2FF0, 0x2FFB); (0x3001, 0x303F);
   (0x3041, 0x3096); (0x3099, 0x30FF); (0x3105, 0x312F); (0x3131, 0x318E);
   (0x3190, 0x31E3); (0x31F0, 0x321E); (0x3220, 0xA48C); (0xA490, 0xA4C6);
   (0xA4D0, 0xA62B); (0xA640, 0xA6F7); (0xA700, 0xA7CA); (0xA7D0, 0xA7D1);
   (0xA7D3, 0xA7D3); (0xA7D5, 0xA7D9); (0xA7F2, 0xA82C); (0xA830, 0xA839);
   (0xA840, 0xA877); (0xA880, 0xA8C5); (0xA8CE, 0xA8D9); (0xA8E0, 0xA953);
   (0xA95F, 0xA97C); (0xA980, 0xA9CD); (0xA9CF, 0xA9D9); (0xA9DE, 0xA9FE);
   (0xAA00, 0xAA36); (0xAA40, 0xAA4D); (0xAA50, 0xAA59); (0xAA5C, 0xAAC2);
   (0xAADB, 0xAAF6); (0xAB01, 0xAB06); (0xAB09, 0xAB0E); (0xAB11, 0xAB16);
   (0xAB20, 0xAB26); (0xAB28, 0xAB2E); (0xAB30, 0xAB6B); (0xAB70, 0xABED);
   (0xABF0, 0xABF9); (0xAC00, 0xD7A3); (0xD7B0, 0xD7C6); (0xD7CB, 0xD7FB);
   (0xF900, 0xFA6D); (0xFA70, 0xFAD9); (0xFB00, 0xFB06); (0xFB13, 0xFB17);
   (0xFB1D, 0xFB36); (0xFB38, 0xFB3C); (0xFB3E, 0xFB3E); (0xFB40, 0xFB41);
   (0xFB43, 0xFB44); (0xFB46, 0xFBC2); (0xFBD3, 0xFD8F); (0xFD92, 0xFDC7);
   (0xFDCF, 0xFDCF); (0xFDF0, 0xFE19); (0xFE20, 0xFE52); (0xFE54, 0xFE66);
   (0xFE68, 0xFE6B); (0xFE70, 0xFE74); (0xFE76, 0xFEFC); (0xFF01, 0xFFBE);
   (0xFFC2, 0xFFC7); (0xFFCA, 0xFFCF); (0xFFD2, 0xFFD7); (0xFFDA, 0xFFDC);
   (0xFFE0, 0xFFE6); (0xFFE8, 0xFFEE); (0xFFFC, 0xFFFD); (0x10000, 0x1000B);
   (0x1000D, 0x10026); (0x10028, 0x1003A); (0x1003C, 0x1003D); (0x1003F, 0x1004D);
   (0x10050, 0x1005D); (0x10080, 0x100FA); (0x10100, 0x10102); (0x10107, 0x10133);
   (0x10137, 0x1018E); (0x10190, 0x1019C); (0x101A0, 0x101A0); (0x101D0, 0x101FD);
   (0x10280, 0x1029C); (0x102A0, 0x102D0); (0x102E0, 0x102FB); (0x10300, 0x10323);
   (0x1032D, 0x1034A); (0x10350, 0x1037A); (0x10380, 0x1039D); (0x1039F, 0x103C3);
   (0x103C8, 0x103D5); (0x10400, 0x1049D); (0x104A0, 0x104A9); (0x104B0, 0x104D3);
   (0x104D8, 0x104FB); (0x10500, 0x10527); (0x10530, 0x10563); (0x1056F, 0x1057A);
   (0x1057C, 0x1058A); (0x1058C, 0x10592); (0x10594, 0x10595); (0x10597, 0x105A1);
   (0x105A3, 0x105B1); (0x105B3, 0x105B9); (0x105BB, 0x105BC); (0x10600, 0x10736);
   (0x10740, 0x10755); (0x10760, 0x10767); (0x10780, 0x10785); (0x10787, 0x107B0);
   (0x107B2, 0x107BA); (0x10800, 0x10805); (0x10808, 0x10808); (0x1080A, 0x10835);
   (0x10837, 0x10838); (0x1083C, 0x1083C); (0x1083F, 0x10855); (0x10857, 0x1089E);
   (0x108A7, 0x108AF); (0x108E0, 0x108F2); (0x108F4, 0x108F5); (0x108FB, 0x1091B);
   (0x1091F, 0x10939); (0x1093F, 0x1093F); (0x10980, 0x109B7); (0x109BC, 0x109CF);
   (0x109D2, 0x10A03); (0x10A05, 0x10A06); (0x10A0C, 0x10A13); (0x10A15, 0x10A17);
   (0x10A19, 0x10A35); (0x10A38, 0x10A3A); (0x10A3F, 0x10A48); (0x10A50, 0x10A58);
   (0x10A60, 0x10A9F); (0x10AC0, 0x10AE6); (0x10AEB, 0x10AF6); (0x10B00, 0x10B35);
   (0x10B39, 0x10B55); (0x10B58, 0x10B72); (0x10B78, 0x10B91); (0x10B99, 0x10B9C);
   (0x10BA9, 0x10BAF); (0x10C00, 0x10C48); (0x10C80, 0x10CB2); (0x10CC0, 0x10CF2);
   (0x10CFA, 0x10D27); (0x10D30, 0x10D39); (0x10E60, 0x10E7E); (0x10E80, 0x10EA9);
   (0x10EAB, 0x10EAD); (0x10EB0, 0x10EB1); (0x10F00, 0x10F27); (0x10F30, 0x10F59);
   (0x10F70, 0x10F89); (0x10FB0, 0x10FCB); (0x10FE0, 0x10FF6); (0x11000, 0x1104D);
   (0x11052, 0x11075); (0x1107F, 0x110BC); (0x110BE, 0x110C2); (0x110D0, 0x110E8);
   (0x110F0, 0x110F9); (0x11100, 0x11134); (0x11136, 0x11147); (0x11150, 0x11176);
   (0x11180, 0x111DF); (0x111E1, 0x111F4); (0x11200, 0x11211); (0x11213, 0x1123E);
   (0x11280, 0x11286); (0x11288, 0x11288); (0x1128A, 0x1128D); (0x1128F, 0x1129D);
   (0x1129F, 0x112A9); (0x112B0, 0x112EA); (0x112F0, 0x112F9); (0x11300, 0x11303);
   (0x11305, 0x1130C); (0x1130F, 0x11310); (0x11313, 0x11328); (0x1132A, 0x11330);
   (0x11332, 0x11333); (0x11335, 0x11339); (0x1133B, 0x11344); (0x11347, 0x11348);
   (0x1134B, 0x1134D); (0x11350, 0x11350); (0x11357, 0x11357); (0x1135D, 0x11363);
   (0x11366, 0x1136C); (0x11370, 0x11374); (0x11400, 0x1145B); (0x1145D, 0x11461);
   (0x11480, 0x114C7); (0x114D0, 0x114D9); (0x11580, 0x115B5); (0x115B8, 0x115DD);
   (0x11600, 0x11644); (0x11650, 0x11659); (0x11660, 0x1166C); (0x11680, 0x116B9);
   (0x116C0, 0x116C9); (0x11700, 0x1171A); (0x1171D, 0x1172B); (0x11730, 0x11746);
   (0x11800, 0x1183B); (0x118A0, 0x118F2); (0x118FF, 0x11906); (0x11909, 0x11909);
   (0x1190C, 0x11913); (0x11915, 0x11916); (0x11918, 0x11935); (0x11937, 0x11938);
   (0x1193B, 0x11946); (0x11950, 0x11959); (0x119A0, 0x119A7); (0x119AA, 0x119D7);
   (0x119DA, 0x119E4); (0x11A00, 0x11A47); (0x11A50, 0x11AA2); (0x11AB0, 0x11AF8);
   (0x11C00, 0x11C08); (0x11C0A, 0x11C36); (0x11C38, 0x11C45); (0x11C50, 0x11C6C);
   (0x11C70, 0x11C8F); (0x11C92, 0x11CA7); (0x11CA9, 0x11CB6); (0x11D00, 0x11D06);
   (0x11D08, 0x11D09); (0x11D0B, 0x11D36); (0x11D3A, 0x11D3A); (0x11D3C, 0x11D3D);
   (0x11D3F, 0x11D47); (0x11D50, 0x11D59); (0x11D60, 0x11D65); (0x11D67, 0x11D68);
   (0x11D6A, 0x11D8E); (0x11D90, 0x11D91); (0x11D93, 0x11D98); (0x11DA0, 0x11DA9);
   (0x11EE0, 0x11EF8); (0x11FB0, 0x11FB0); (0x11FC0, 0x11FF1); (0x11FFF, 0x12399);
   (0x12400, 0x1246E); (0x12470, 0x12474); (0x12480, 0x12543); (0x12F90, 0x12FF2);
   (0x13000, 0x1342E); (0x14400, 0x14646); (0x16800, 0x16A38); (0x16A40, 0x16A5E);
   (0x16A60, 0x16A69); (0x16A6E, 0x16ABE); (0x16AC0, 0x16AC9); (0x16AD0, 0x16AED);
   (0x16AF0, 0x16AF5); (0x16B00, 0x16B45); (0x16B50, 0x16B59); (0x16B5B, 0x16B61);
   (0x16B63, 0x16B77); (0x16B7D, 0x16B8F); (0x16E40, 0x16E9A); (0x16F00, 0x16F4A);
   (0x16F4F, 0x16F87); (0x16F8F, 0x16F9F); (0x16FE0, 0x16FE4); (0x16FF0, 0x16FF1);
   (0x17000, 0x187F7); (0x18800, 0x18CD5); (0x18D00, 0x18D08); (0x1AFF0, 0x1AFF3);
   (0x1AFF5, 0x1AFFB); (0x1AFFD, 0x1AFFE); (0x1B000, 0x1B122); (0x1B150, 0x1B152);
   (0x1B164, 0x1B167); (0x1B170, 0x1B2FB); (0x1BC00, 0x1BC6A); (0x1BC70, 0x1BC7C);
   (0x1BC80, 0x1BC88); (0x1BC90, 0x1BC99); (0x1BC9C, 0x1BC9F); (0x1CF00, 0x1CF2D);
   (0x1CF30, 0x1CF46); (0x1CF50, 0x1CFC3); (0x1D000, 0x1D0F5); (0x1D100, 0x1D126);
   (0x1D129, 0x1D172); (0x1D17B, 0x1D1EA); (0x1D200, 0x1D245); (0x1D2E0, 0x1D2F3);
   (0x1D300, 0x1D356); (0x1D360, 0x1D378); (0x1D400, 0x1D454); (0x1D456, 0x1D49C);
   (0x1D49E, 0x1D49F); (0x1D4A2, 0x1D4A2); (0x1D4A5, 0x1D4A6); (0x1D4A9, 0x1D4AC);
   (0x1D4AE, 0x1D4B9); (0x1D4BB, 0x1D4BB); (0x1D4BD, 0x1D4C3); (0x1D4C5, 0x1D505);
   (0x1D507, 0x1D50A); (0x1D50D, 0x1D514); (0x1D516, 0x1D51C); (0x1D51E, 0x1D539);
   (0x1D53B, 0x1D53E); (0x1D540, 0x1D544); (0x1D546, 0x1D546); (0x1D54A, 0x1D550);
   (0x1D552, 0x1D6A5); (0x1D6A8, 0x1D7CB); (0x1D7CE, 0x1DA8B); (0x1DA9B, 0x1DA9F);
   (0x1DAA1, 0x1DAAF); (0x1DF00, 0x1DF1E); (0x1E000, 0x1E006); (0x1E008, 0x1E018);
   (0x1E01B, 0x1E021); (0x1E023, 0x1E024); (0x1E026, 0x1E02A); (0x1E100, 0x1E12C);
   (0x1E130, 0x1E13D); (0x1E140, 0x1E149); (0x1E14E, 0x1E14F); (0x1E290, 0x1E2AE);
   (0x1E2C0, 0x1E2F9); (0x1E2FF, 0x1E2FF); (0x1E7E0, 0x1E7E6); (0x1E7E8, 0x1E7EB);
   (0x1E7ED, 0x1E7EE); (0x1E7F0, 0x1E7FE); (0x1E800, 0x1E8C4); (0x1E8C7, 0x1E8D6);
   (0x1E900, 0x1E94B); (0x1E950, 0x1E959); (0x1E95E, 0x1E95F); (0x1EC71, 0x1ECB4);
   (0x1ED01, 0x1ED3D); (0x1EE00, 0x1EE03); (0x1EE05, 0x1EE1F); (0x1EE21, 0x1EE22);
   (0x1EE24, 0x1EE24); (0x1EE27, 0x1EE27); (0x1EE29, 0x1EE32); (0x1EE34, 0x1EE37);
   (0x1EE39, 0x1EE39); (0x1EE3B, 0x1EE3B); (0x1EE42, 0x1EE42); (0x1EE47, 0x1EE47);
   (0x1EE49, 0x1EE49); (0x1EE4B, 0x1EE4B); (0x1EE4D, 0x1EE4F); (0x1EE51, 0x1EE52);
   (0x1EE54, 0x1EE54); (0x1EE57, 0x1EE57); (0x1EE59, 0x1EE59); (0x1EE5B, 0x1EE5B);
   (0x1EE5D, 0x1EE5D); (0x1EE5F, 0x1EE5F); (0x1EE61, 0x1EE62); (0x1EE64, 0x1EE64);
   (0x1EE67, 0x1EE6A); (0x1EE6C, 0x1EE72); (0x1EE74, 0x1EE77); (0x1EE79, 0x1EE7C);
   (0x1EE7E, 0x1EE7E); (0x1EE80, 0x1EE89); (0x1EE8B, 0x1EE9B); (0x1EEA1, 0x1EEA3);
   (0x1EEA5, 0x1EEA9); (0x1EEAB, 0x1EEBB); (0x1EEF0, 0x1EEF1); (0x1F000, 0x1F02B);
   (0x1F030, 0x1F093); (0x1F0A0, 0x1F0AE); (0x1F0B1, 0x1F0BF); (0x1F0C1, 0x1F0CF);
   (0x1F0D1, 0x1F0F5); (0x1F100, 0x1F1AD); (0x1F1E6, 0x1F202); (0x1F210, 0x1F23B);
   (0x1F240, 0x1F248); (0x1F250, 0x1F251); (0x1F260, 0x1F265); (0x1F300, 0x1F6D7);
   (0x1F6DD, 0x1F6EC); (0x1F6F0, 0x1F6FC); (0x1F700, 0x1F773); (0x1F780, 0x1F7D8);
   (0x1F7E0, 0x1F7EB); (0x1F7F0, 0x1F7F0); (0x1F800, 0x1F80B); (0x1F810, 0x1F847);
   (0x1F850, 0x1F859); (0x1F860, 0x1F887); (0x1F890, 0x1F8AD); (0x1F8B0, 0x1F8B1);
   (0x1F900, 0x1FA53); (0x1FA60, 0x1FA6D); (0x1FA70, 0x1FA74); (0x1FA78, 0x1FA7C);
   (0x1FA80, 0x1FA86); (0x1FA90, 0x1FAAC); (0x1FAB0, 0x1FABA); (0x1FAC0, 0x1FAC5);
   (0x1FAD0, 0x1FAD9); (0x1FAE0, 0x1FAE7); (0x1FAF0, 0x1FAF6); (0x1FB00, 0x1FB92);
   (0x1FB94, 0x1FBCA); (0x1FBF0, 0x1FBF9); (0x20000, 0x2A6DF); (0x2A700, 0x2B738);
   (0x2B740, 0x2B81D); (0x2B820, 0x2CEA1); (0x2CEB0, 0x2EBE0); (0x2F800, 0x2FA1D);
   (0x30000, 0x3134A); (0xE0100, 0xE01EF)].

(** [unicode.IsPrint] and [strconv.IsPrint]: letters, marks, numbers,
    punctuation, symbols and the ASCII space. *)
Definition IsPrint (r : Z) : bool :=
  if r <=? 255 then
    ((32 <=? r) && (r <=? 126)) || ((161 <=? r) && (r <=? 255) && negb (r =? 173))
  else existsb (fun e : Z * Z => (fst e <=? r) && (r <=? snd e)) printRanges.

End unicode.

(** ** Package [strings] *)

Module strings.
Export utf8.

Definition len (s : string) : Z := Z.of_nat (String.length s).

(** The double quote, as a byte and as a one-byte string. *)
Definition dquote : ascii := ascii_of_nat 34.

Definition dq : string := String dquote EmptyString.

(** Sample JSON texts are written with apostrophes where the double
    quotes go. *)
Fixpoint quoted (s : string) : string :=
  match s with
  | EmptyString => EmptyString
  | String c rest =>
      String (if Ascii.eqb c (ascii_of_nat 39) then dquote else c) (quoted rest)
  end.

(** [unicode.ToLower] on one byte of an ASCII string. *)
Definition lower_byte (c : ascii) : ascii :=
  if (65 <=? byte_val c) && (byte_val c <=? 90)
  then byte_of (byte_val c + 32) else c.

(** [strings.ToLower]: [strings.Map] with [unicode.ToLower], rune by
    rune.  An ASCII byte is lowered in place; from any other byte a rune
    is decoded, and the encoding of its lower-case form is written (for
    bytes that are not UTF-8 that is the encoding of [RuneError]).
    [skip] counts the bytes of the rune at hand that are still to be
    passed over. *)
Fixpoint lowerFrom (skip : nat) (s : string) : string :=
  match s with
  | EmptyString => EmptyString
  | String c rest =>
      match skip with
      | S k => lowerFrom k rest
      | O =>
          if byte_val c <? 128 then String (lower_byte c) (lowerFrom 0 rest)
          else
            let '(r, w) := DecodeRune s in
            EncodeRune (unicode.lowerRune r) +:+ lowerFrom (w - 1) rest
      end
  end.

Definition ToLower (s : string) : string := lowerFrom 0 s.

(** [strings.HasPrefix s prefix]. *)
Definition HasPrefix (s prefix : string) : bool := String.prefix prefix s.

Fixpoint drop (n : nat) (s : string) : string :=
  match n, s with
  | O, _ => s
  | S n', String _ rest => drop n' rest
  | S _, EmptyString => EmptyString
  end.

Fixpoint take (n : nat) (s : string) : string :=
  match n, s with
  | S n', String c rest => String c (take n' rest)
  | _, _ => EmptyString
  end.

(** [strings.TrimPrefix s prefix]. *)
Definition TrimPrefix (s prefix : string) : string :=
  if HasPrefix s prefix then drop (String.length prefix) s else s.

(** [strings.Contains s substr]. *)
Fixpoint Contains (s substr : string) : bool :=
  String.prefix substr s ||
  match s with
  | EmptyString => false
  | String _ rest => Contains rest substr
  end.

(** Equality up to ASCII case: equal after folding the letters A-Z
    onto a-z, position by position.  A notion for the statements
    below, narrower than Go's [strings.EqualFold], which folds runes
    as [json.equalFold] does. *)
Fixpoint EqualFold (s t : string) : bool :=
  match s, t with
  | EmptyString, EmptyString => true
  | String a s', String b t' =>
      Ascii.eqb (lower_byte a) (lower_byte b) && EqualFold s' t'
  | _, _ => false
  end.

(** Every byte is below 128. *)
Fixpoint isASCII (s : string) : bool :=
  match s with
  | EmptyString => true
  | String c rest => (byte_val c <? 128) && isASCII rest
  end.

End strings.

(** ** Formatting verbs of [fmt] and [strconv] *)

Module strconv.
Import strings.

(** [%d]: a signed decimal numeral. *)
Definition Itoa (z : Z) : string := NilZero.string_of_int (Z.to_int z).

Definition hex_digit (z : Z) : ascii :=
  if z <? 10 then byte_of (48 + z) else byte_of (87 + z).

(** The body of [strconv.Quote] for one ASCII byte. *)
Definition quote_byte (c : ascii) : string :=
  let b := byte_val c in
  if b =? 34 then "\" +:+ dq
  else if b =? 92 then "\\"
  else if (32 <=? b) && (b <=? 126) then String c EmptyString
  else if b =? 7 then "\a"
  else if b =? 8 then "\b"
  else if b =? 12 then "\f"
  else if b =? 10 then "\n"
  else if b =? 13 then "\r"
  else if b =? 9 then "\t"
  else if b =? 11 then "\v"
  else String "\" (String "x" (String (hex_digit (b / 16))
                                (String (hex_digit (b mod 16)) EmptyString))).

(** A rune of two bytes or more in [strconv.Quote]: copied when
    [IsPrint] holds of it, else written [\u] and four hexadecimal
    digits, or [\U] and eight above U+FFFF.  [bytes] is its encoding. *)
Definition quote_rune (r : Z) (bytes : string) : string :=
  if unicode.IsPrint r then bytes
  else if r <? 65536 then
    String "\" (String "u"
      (String (hex_digit (r / 4096 mod 16)) (String (hex_digit (r / 256 mod 16))
        (String (hex_digit (r / 16 mod 16)) (String (hex_digit (r mod 16))
          EmptyString)))))
  else
    String "\" (String "U"
      (String (hex_digit (r / 268435456 mod 16)) (String (hex_digit (r / 16777216 mod 16))
        (String (hex_digit (r / 1048576 mod 16)) (String (hex_digit (r / 65536 mod 16))
          (String (hex_digit (r / 4096 mod 16)) (String (hex_digit (r / 256 mod 16))
            (String (hex_digit (r / 16 mod 16)) (String (hex_digit (r mod 16))
              EmptyString))))))))).

(** [strconv.Quote] without its surrounding quotes.  Bytes that do not
    decode as UTF-8 are written [\xNN]. *)
Fixpoint quote_body (fuel : nat) (s : string) : string :=
  match fuel, s with
  | O, _ => EmptyString
  | _, EmptyString => EmptyString
  | S fuel', String c rest =>
      if byte_val c <? 128 then quote_byte c +:+ quote_body fuel' rest
      else
        match DecodeRune s with
        | (r, S (S _ as w')) =>
            quote_rune r (take (S w') s) +:+ quote_body fuel' (drop w' rest)
        | _ => quote_byte c +:+ quote_body fuel' rest
        end
  end.

(** [%q] on a string. *)
Definition Quote (s : string) : string :=
  String dquote (quote_body (String.length s) s +:+ dq).

End strconv.

(** ** Go error values *)

Module errors.

(** Why [json.Unmarshal] refused its target ([InvalidUnmarshalError]). *)
Inductive InvalidTarget : Type :=
| NilInterface
| NonPointer (tname : string)
| NilPointer (tname : string).

(** The dynamic error values that reach [ReadJSON] and [WriteJSON].
    [EOF] and [ErrUnexpectedEOF] are the sentinels of package [io];
    [errorString] is what [errors.New] and [fmt.Errorf] without [%w]
    build; [wrapError] is [fmt.Errorf] with [%w]. *)
Inductive error : Type :=
| EOF
| ErrUnexpectedEOF
| SyntaxError (msg : string) (Offset : Z)
| UnmarshalTypeError (Value Type_ : string) (Offset : Z) (Struct Field : string)
| InvalidUnmarshalError (target : InvalidTarget)
| UnsupportedTypeError (Type_ : string)
| MaxBytesError (Limit : Z)
| errorString (s : string)
| wrapError (msg : string) (err : error).

(** The [Error() string] method. *)
Definition Error (e : error) : string :=
  match e with
  | EOF => "EOF"
  | ErrUnexpectedEOF => "unexpected EOF"
  | SyntaxError msg _ => msg
  | UnmarshalTypeError v t _ st f =>
      if negb (String.eqb st "") || negb (String.eqb f "")
      then "json: cannot unmarshal " +:+ v +:+ " into Go struct field "
           +:+ st +:+ "." +:+ f +:+ " of type " +:+ t
      else "json: cannot unmarshal " +:+ v +:+ " into Go value of type " +:+ t
  | InvalidUnmarshalError NilInterface => "json: Unmarshal(nil)"
  | InvalidUnmarshalError (NonPointer t) => "json: Unmarshal(non-pointer " +:+ t +:+ ")"
  | InvalidUnmarshalError (NilPointer t) => "json: Unmarshal(nil " +:+ t +:+ ")"
  | UnsupportedTypeError t => "json: unsupported type: " +:+ t
  | MaxBytesError _ => "http: request body too large"
  | errorString s => s
  | wrapError msg _ => msg
  end.

(** [errors.New]. *)
Definition New (s : string) : error := errorString s.

(** [err == io.EOF]: identity with the sentinel, no unwrapping. *)
Definition is_EOF (e : error) : bool :=
  match e with EOF => true | _ => false end.

(** [errors.Is err io.EOF]. *)
Fixpoint Is_EOF (e : error) : bool :=
  match e with
  | EOF => true
  | wrapError _ e' => Is_EOF e'
  | _ => false
  end.

(** [errors.Is err io.ErrUnexpectedEOF]. *)
Fixpoint Is_ErrUnexpectedEOF (e : error) : bool :=
  match e with
  | ErrUnexpectedEOF => true
  | wrapError _ e' => Is_ErrUnexpectedEOF e'
  | _ => false
  end.

(** [errors.As err &syntaxError]: the first [*json.SyntaxError] in the
    chain, as its offset. *)
Fixpoint As_SyntaxError (e : error) : option Z :=
  match e with
  | SyntaxError _ off => Some off
  | wrapError _ e' => As_SyntaxError e'
  | _ => None
  end.

(** [errors.As err &unmarshalTypeError]: field and offset. *)
Fixpoint As_UnmarshalTypeError (e : error) : option (string * Z) :=
  match e with
  | UnmarshalTypeError _ _ off _ f => Some (f, off)
  | wrapError _ e' => As_UnmarshalTypeError e'
  | _ => None
  end.

(** [errors.As err &invalidUnmarshalError]. *)
Fixpoint As_InvalidUnmarshalError (e : error) : bool :=
  match e with
  | InvalidUnmarshalError _ => true
  | wrapError _ e' => As_InvalidUnmarshalError e'
  | _ => false
  end.

End errors.

Abbreviation error := errors.error.

(** ** Package [net/http]: headers, the request body, the response sink *)

Module http.
Import strings.

Abbreviation Header := (gmap string (list string)).

(** [Header.Get key] for a key in canonical form: the first value, or
    the empty string. *)
Definition Get (h : Header) (key : string) : string :=
  match h !! key with
  | Some (v :: _) => v
  | _ => ""
  end.

(** [Header.Set key value] for a key in canonical form. *)
Definition Set_ (h : Header) (key value : string) : Header :=
  <[key := [value]]> h.

Definition StatusBadRequest : Z := 400.

(** An [io.Reader] over a finite body: [rd_data] is what has not been
    read yet, [rd_err] is what [Read] reports once the data is
    exhausted ([io.EOF] for a body that simply ends). *)
Record Reader : Type := mkReader { rd_data : string; rd_err : error }.

(** One [Read] with room for everything: hands over the pending bytes. *)
Definition drain (r : Reader) : Reader :=
  {| rd_data := ""; rd_err := rd_err r |}.

(** [http.MaxBytesReader w r n]: at most [n] bytes come through; a
    body longer than that ends in [*http.MaxBytesError] instead of its
    own end.  A negative limit counts as 0. *)
Definition MaxBytesReader (r : Reader) (n : Z) : Reader :=
  let n := if n <? 0 then 0 else n in
  if len (rd_data r) <=? n then r
  else {| rd_data := take (Z.to_nat n) (rd_data r);
          rd_err := errors.MaxBytesError n |}.

Record Request : Type := mkRequest { Header_ : Header; Body : Reader }.

(** What the handler asked of the response sink, in order. *)
Inductive Call : Type :=
| CallWriteHeader (status : Z)
| CallWrite (p : string).

(** An [http.ResponseWriter]: the header map that [Header()] returns,
    the calls made so far, and the error the transport gives to
    [Write] ([None] for a healthy connection). *)
Record ResponseWriter : Type := mkResponseWriter {
  rw_header : Header;
  rw_calls : list Call;
  rw_broken : option error
}.

Definition set_header (w : ResponseWriter) (h : Header) : ResponseWriter :=
  {| rw_header := h; rw_calls := rw_calls w; rw_broken := rw_broken w |}.

Definition WriteHeader (w : ResponseWriter) (status : Z) : ResponseWriter :=
  {| rw_header := rw_header w;
     rw_calls := (rw_calls w ++ [CallWriteHeader status])%list;
     rw_broken := rw_broken w |}.

Definition Write (w : ResponseWriter) (p : string)
  : ResponseWriter * (Z * option error) :=
  ({| rw_header := rw_header w;
      rw_calls := (rw_calls w ++ [CallWrite p])%list;
      rw_broken := rw_broken w |},
   match rw_broken w with
   | Some e => (0, Some e)
   | None => (len p, None)
   end).

End http.

(** ** Package [encoding/json]: the scanner *)

Module json.
Import strings strconv errors.

Inductive ParseFrame : Type :=
| parseObjectKey | parseObjectValue | parseArrayValue.

(** The scanner's transition functions, by name. *)
Inductive stepFn : Type :=
| stateBeginValueOrEmpty | stateBeginValue
| stateBeginStringOrEmpty | stateBeginString
| stateEndValue | stateEndTop
| stateInString | stateInStringEsc
| stateInStringEscU | stateInStringEscU1 | stateInStringEscU12 | stateInStringEscU123
| stateNeg | state1 | state0 | stateDot | stateDot0 | stateE | stateESign | stateE0
| stateT | stateTr | stateTru
| stateF | stateFa | stateFal | stateFals
| stateN | stateNu | stateNul
| stateError.

Inductive opcode : Type :=
| scanContinue | scanBeginLiteral | scanBeginObject | scanObjectKey
| scanObjectValue | scanEndObject | scanBeginArray | scanArrayValue
| scanEndArray | scanSkipSpace | scanEnd | scanError.

Definition is_scanEnd (o : opcode) : bool :=
  match o with scanEnd => true | _ => false end.

(** The top of the parse stack is the head of [parseState]. *)
Record scanner : Type := mkScanner {
  step : stepFn;
  endTop : bool;
  parseState : list ParseFrame;
  err : option error;
  bytes : Z
}.

Definition maxNestingDepth : Z := 10000.

Definition with_step (s : scanner) (f : stepFn) : scanner :=
  mkScanner f (endTop s) (parseState s) (err s) (bytes s).

Definition with_stack (s : scanner) (ps : list ParseFrame) : scanner :=
  mkScanner (step s) (endTop s) ps (err s) (bytes s).

Definition with_bytes (s : scanner) (n : Z) : scanner :=
  mkScanner (step s) (endTop s) (parseState s) (err s) n.

Definition reset (s : scanner) : scanner :=
  mkScanner stateBeginValue false [] None (bytes s).

Definition newScanner : scanner :=
  mkScanner stateBeginValue false [] None 0.

Definition isSpace (c : ascii) : bool :=
  let b := byte_val c in
  (b =? 32) || (b =? 9) || (b =? 13) || (b =? 10).

Definition isDigit (c : ascii) : bool :=
  (48 <=? byte_val c) && (byte_val c <=? 57).

Definition isHex (c : ascii) : bool :=
  let b := byte_val c in
  ((48 <=? b) && (b <=? 57)) || ((97 <=? b) && (b <=? 102))
  || ((65 <=? b) && (b <=? 70)).

Definition byte_is (c : ascii) (lit : string) : bool :=
  String.eqb (String c EmptyString) lit.

Definition quoteChar (c : ascii) : string :=
  if byte_is c "'" then "'\''"
  else if byte_is c dq then "'" +:+ dq +:+ "'"
  else let r := EncodeRune (byte_val c) in
       "'" +:+ quote_body (String.length r) r +:+ "'".

(** [s.error(c, context)]. *)
Definition error_ (s : scanner) (c : ascii) (context : string)
  : scanner * opcode :=
  (mkScanner stateError (endTop s) (parseState s)
     (Some (SyntaxError ("invalid character " +:+ quoteChar c +:+ " " +:+ context)
              (bytes s)))
     (bytes s),
   scanError).

Definition pushParseState (s : scanner) (c : ascii) (f : ParseFrame)
    (ok : opcode) : scanner * opcode :=
  let s' := with_stack s (f :: parseState s) in
  if Z.of_nat (length (parseState s')) <=? maxNestingDepth then (s', ok)
  else error_ s' c "exceeded max depth".

Definition popParseState (s : scanner) : scanner :=
  match parseState s with
  | _ :: (_ :: _) as ps => mkScanner stateEndValue (endTop s) ps (err s) (bytes s)
  | _ => mkScanner stateEndTop true [] (err s) (bytes s)
  end.

Definition stateEndTop_ (s : scanner) (c : ascii) : scanner * opcode :=
  if negb (isSpace c)
  then (fst (error_ s c "after top-level value"), scanEnd)
  else (s, scanEnd).

Definition stateEndValue_ (s : scanner) (c : ascii) : scanner * opcode :=
  match parseState s with
  | [] =>
      stateEndTop_ (mkScanner stateEndTop true [] (err s) (bytes s)) c
  | ps :: rest =>
      if isSpace c then (with_step s stateEndValue, scanSkipSpace)
      else
        match ps with
        | parseObjectKey =>
            if byte_is c ":" then
              (mkScanner stateBeginValue (endTop s) (parseObjectValue :: rest)
                 (err s) (bytes s), scanObjectKey)
            else error_ s c "after object key"
        | parseObjectValue =>
            if byte_is c "," then
              (mkScanner stateBeginString (endTop s) (parseObjectKey :: rest)
                 (err s) (bytes s), scanObjectValue)
            else if byte_is c "}" then (popParseState s, scanEndObject)
            else error_ s c "after object key:value pair"
        | parseArrayValue =>
            if byte_is c "," then (with_step s stateBeginValue, scanArrayValue)
            else if byte_is c "]" then (popParseState s, scanEndArray)
            else error_ s c "after array element"
        end
  end.

Definition stateBeginValue_ (s : scanner) (c : ascii) : scanner * opcode :=
  if isSpace c then (s, scanSkipSpace)
  else if byte_is c "{" then
    pushParseState (with_step s stateBeginStringOrEmpty) c parseObjectKey scanBeginObject
  else if byte_is c "[" then
    pushParseState (with_step s stateBeginValueOrEmpty) c parseArrayValue scanBeginArray
  else if byte_is c dq then (with_step s stateInString, scanBeginLiteral)
  else if byte_is c "-" then (with_step s stateNeg, scanBeginLiteral)
  else if byte_is c "0" then (with_step s state0, scanBeginLiteral)
  else if byte_is c "t" then (with_step s stateT, scanBeginLiteral)
  else if byte_is c "f" then (with_step s stateF, scanBeginLiteral)
  else if byte_is c "n" then (with_step s stateN, scanBeginLiteral)
  else if (49 <=? byte_val c) && (byte_val c <=? 57)
    then (with_step s state1, scanBeginLiteral)
  else error_ s c "looking for beginning of value".

Definition stateBeginValueOrEmpty_ (s : scanner) (c : ascii) : scanner * opcode :=
  if isSpace c then (s, scanSkipSpace)
  else if byte_is c "]" then stateEndValue_ s c
  else stateBeginValue_ s c.

Definition stateBeginString_ (s : scanner) (c : ascii) : scanner * opcode :=
  if isSpace c then (s, scanSkipSpace)
  else if byte_is c dq then (with_step s stateInString, scanBeginLiteral)
  else error_ s c "looking for beginning of object key string".

Definition stateBeginStringOrEmpty_ (s : scanner) (c : ascii) : scanner * opcode :=
  if isSpace c then (s, scanSkipSpace)
  else if byte_is c "}" then
    stateEndValue_
      (with_stack s (match parseState s with
                     | _ :: rest => parseObjectValue :: rest
                     | [] => []
                     end)) c
  else stateBeginString_ s c.

Definition stateInString_ (s : scanner) (c : ascii) : scanner * opcode :=
  if byte_is c dq then (with_step s stateEndValue, scanContinue)
  else if byte_is c "\" then (with_step s stateInStringEsc, scanContinue)
  else if byte_val c <? 32 then error_ s c "in string literal"
  else (s, scanContinue).

Definition stateInStringEsc_ (s : scanner) (c : ascii) : scanner * opcode :=
  if byte_is c "b" || byte_is c "f" || byte_is c "n" || byte_is c "r" || byte_is c "t"
     || byte_is c "\" || byte_is c "/" || byte_is c dq
  then (with_step s stateInString, scanContinue)
  else if byte_is c "u" then (with_step s stateInStringEscU, scanContinue)
  else error_ s c "in string escape code".

Definition hexStep (s : scanner) (c : ascii) (next : stepFn) : scanner * opcode :=
  if isHex c then (with_step s next, scanContinue)
  else error_ s c "in \u hexadecimal character escape".

Definition state0_ (s : scanner) (c : ascii) : scanner * opcode :=
  if byte_is c "." then (with_step s stateDot, scanContinue)
  else if byte_is c "e" || byte_is c "E" then (with_step s stateE, scanContinue)
  else stateEndValue_ s c.

Definition state1_ (s : scanner) (c : ascii) : scanner * opcode :=
  if isDigit c then (with_step s state1, scanContinue)
  else state0_ s c.

Definition stateNeg_ (s : scanner) (c : ascii) : scanner * opcode :=
  if byte_is c "0" then (with_step s state0, scanContinue)
  else if (49 <=? byte_val c) && (byte_val c <=? 57)
    then (with_step s state1, scanContinue)
  else error_ s c "in numeric literal".

Definition stateDot_ (s : scanner) (c : ascii) : scanner * opcode :=
  if isDigit c then (with_step s stateDot0, scanContinue)
  else error_ s c "after decimal point in numeric literal".

Definition stateDot0_ (s : scanner) (c : ascii) : scanner * opcode :=
  if isDigit c then (s, scanContinue)
  else if byte_is c "e" || byte_is c "E" then (with_step s stateE, scanContinue)
  else stateEndValue_ s c.

Definition stateESign_ (s : scanner) (c : ascii) : scanner * opcode :=
  if isDigit c then (with_step s stateE0, scanContinue)
  else error_ s c "in exponent of numeric literal".

Definition stateE_ (s : scanner) (c : ascii) : scanner * opcode :=
  if byte_is c "+" || byte_is c "-" then (with_step s stateESign, scanContinue)
  else stateESign_ s c.

Definition stateE0_ (s : scanner) (c : ascii) : scanner * opcode :=
  if isDigit c then (s, scanContinue)
  else stateEndValue_ s c.

(** One letter of [true], [false] or [null]. *)
Definition letter (s : scanner) (c : ascii) (want : string) (next : stepFn)
    (context : string) : scanner * opcode :=
  if byte_is c want then (with_step s next, scanContinue)
  else error_ s c context.

(** [s.step(s, c)]. *)
Definition scan_step (s : scanner) (c : ascii) : scanner * opcode :=
  match step s with
  | stateBeginValueOrEmpty => stateBeginValueOrEmpty_ s c
  | stateBeginValue => stateBeginValue_ s c
  | stateBeginStringOrEmpty => stateBeginStringOrEmpty_ s c
  | stateBeginString => stateBeginString_ s c
  | stateEndValue => stateEndValue_ s c
  | stateEndTop => stateEndTop_ s c
  | stateInString => stateInString_ s c
  | stateInStringEsc => stateInStringEsc_ s c
  | stateInStringEscU => hexStep s c stateInStringEscU1
  | stateInStringEscU1 => hexStep s c stateInStringEscU12
  | stateInStringEscU12 => hexStep s c stateInStringEscU123
  | stateInStringEscU123 => hexStep s c stateInString
  | stateNeg => stateNeg_ s c
  | state1 => state1_ s c
  | state0 => state0_ s c
  | stateDot => stateDot_ s c
  | stateDot0 => stateDot0_ s c
  | stateE => stateE_ s c
  | stateESign => stateESign_ s c
  | stateE0 => stateE0_ s c
  | stateT => letter s c "r" stateTr "in literal true (expecting 'r')"
  | stateTr => letter s c "u" stateTru "in literal true (expecting 'u')"
  | stateTru => letter s c "e" stateEndValue "in literal true (expecting 'e')"
  | stateF => letter s c "a" stateFa "in literal false (expecting 'a')"
  | stateFa => letter s c "l" stateFal "in literal false (expecting 'l')"
  | stateFal => letter s c "s" stateFals "in literal false (expecting 's')"
  | stateFals => letter s c "e" stateEndValue "in literal false (expecting 'e')"
  | stateN => letter s c "u" stateNu "in literal null (expecting 'u')"
  | stateNu => letter s c "l" stateNul "in literal null (expecting 'l')"
  | stateNul => letter s c "l" stateEndValue "in literal null (expecting 'l')"
  | stateError => (s, scanError)
  end.

(** The inner loop of [Decoder.readValue]: feed buffered bytes to the
    scanner until a value ends, a syntax error shows, or the buffer
    runs out.  [n] counts the bytes that belong to the value so far. *)
Inductive ScanResult : Type :=
| ValueEnds (n : nat) (s : scanner)
| Malformed (e : error) (s : scanner)
| BufferExhausted (n : nat) (s : scanner).

Fixpoint scanBuffer (s : scanner) (buf : string) (n : nat) : ScanResult :=
  match buf with
  | EmptyString => BufferExhausted n s
  | String c rest =>
      let '(s1, op) := scan_step (with_bytes s (bytes s + 1)) c in
      match op with
      | scanEnd => ValueEnds n (with_bytes s1 (bytes s1 - 1))
      | scanEndObject | scanEndArray =>
          let '(s2, op2) := stateEndValue_ s1 " " in
          if is_scanEnd op2 then ValueEnds (S n) s2
          else scanBuffer s2 rest (S n)
      | scanError =>
          match err s1 with
          | Some e => Malformed e s1
          | None => Malformed (SyntaxError "" (bytes s1)) s1
          end
      | _ => scanBuffer s1 rest (S n)
      end
  end.


(** *** The value tree that [decodeState] walks

    [decodeState] re-scans the bytes of one value and dispatches on
    what it meets.  The tree below records exactly what it looks at:
    the raw text of each literal with the offset just after it
    ([d.readIndex()] once the literal is consumed), and for arrays and
    objects the offset just after the opening bracket ([d.off] on entry
    to [d.array]/[d.object]).  Object keys are kept as raw literals. *)
Inductive Value : Type :=
| Literal (item : string) (endOff : Z)
| Array (off : Z) (elems : list Value)
| Object (off : Z) (members : list (string * Value)).

Fixpoint skipSpace (s : string) (pos : Z) : string * Z :=
  match s with
  | String c rest => if isSpace c then skipSpace rest (pos + 1) else (s, pos)
  | EmptyString => (s, pos)
  end.

(** The extent of a string literal after its opening quote
    ([rescanLiteral], string case). *)
Fixpoint stringExtent (s : string) (esc : bool) : nat :=
  match s with
  | EmptyString => 0%nat
  | String c rest =>
      if esc then S (stringExtent rest false)
      else if byte_is c "\" then S (stringExtent rest true)
      else if byte_is c dq then 1%nat
      else S (stringExtent rest false)
  end.

Definition isNumberByte (c : ascii) : bool :=
  isDigit c || byte_is c "." || byte_is c "e" || byte_is c "E"
  || byte_is c "+" || byte_is c "-".

Fixpoint numberExtent (s : string) : nat :=
  match s with
  | String c rest => if isNumberByte c then S (numberExtent rest) else 0%nat
  | EmptyString => 0%nat
  end.

(** [rescanLiteral]: the length of the literal that starts at the head
    of [s]. *)
Definition literalExtent (s : string) : nat :=
  match s with
  | EmptyString => 0%nat
  | String c rest =>
      if byte_is c dq then S (stringExtent rest false)
      else if byte_is c "t" then 4%nat
      else if byte_is c "f" then 5%nat
      else if byte_is c "n" then 4%nat
      else S (numberExtent rest)
  end.

Fixpoint parseValue (fuel : nat) (s : string) (pos : Z)
  : option (Value * string * Z) :=
  match fuel with
  | O => None
  | S fuel' =>
      let '(s, pos) := skipSpace s pos in
      match s with
      | EmptyString => None
      | String c rest =>
          if byte_is c "{" then
            let '(r1, p1) := skipSpace rest (pos + 1) in
            match r1 with
            | String c1 r2 =>
                if byte_is c1 "}" then Some (Object (pos + 1) [], r2, p1 + 1)
                else
                  match parseMembers fuel' r1 p1 with
                  | Some (ms, r3, p3) => Some (Object (pos + 1) ms, r3, p3)
                  | None => None
                  end
            | EmptyString => None
            end
          else if byte_is c "[" then
            let '(r1, p1) := skipSpace rest (pos + 1) in
            match r1 with
            | String c1 r2 =>
                if byte_is c1 "]" then Some (Array (pos + 1) [], r2, p1 + 1)
                else
                  match parseElems fuel' r1 p1 with
                  | Some (es, r3, p3) => Some (Array (pos + 1) es, r3, p3)
                  | None => None
                  end
            | EmptyString => None
            end
          else
            let n := literalExtent s in
            Some (Literal (take n s) (pos + Z.of_nat n),
                  drop n s, pos + Z.of_nat n)
      end
  end
with parseElems (fuel : nat) (s : string) (pos : Z)
  : option (list Value * string * Z) :=
  match fuel with
  | O => None
  | S fuel' =>
      match parseValue fuel' s pos with
      | Some (v, r1, p1) =>
          let '(r2, p2) := skipSpace r1 p1 in
          match r2 with
          | String c r3 =>
              if byte_is c "," then
                match parseElems fuel' r3 (p2 + 1) with
                | Some (vs, r4, p4) => Some (v :: vs, r4, p4)
                | None => None
                end
              else if byte_is c "]" then Some ([v], r3, p2 + 1)
              else None
          | EmptyString => None
          end
      | None => None
      end
  end
with parseMembers (fuel : nat) (s : string) (pos : Z)
  : option (list (string * Value) * string * Z) :=
  match fuel with
  | O => None
  | S fuel' =>
      let '(s, pos) := skipSpace s pos in
      let n := literalExtent s in
      let key := take n s in
      let '(r1, p1) := skipSpace (drop n s) (pos + Z.of_nat n) in
      match r1 with
      | String c r2 =>
          if byte_is c ":" then
            match parseValue fuel' r2 (p1 + 1) with
            | Some (v, r3, p3) =>
                let '(r4, p4) := skipSpace r3 p3 in
                match r4 with
                | String c' r5 =>
                    if byte_is c' "," then
                      match parseMembers fuel' r5 (p4 + 1) with
                      | Some (ms, r6, p6) => Some ((key, v) :: ms, r6, p6)
                      | None => None
                      end
                    else if byte_is c' "}" then Some ([(key, v)], r5, p4 + 1)
                    else None
                | EmptyString => None
                end
            | None => None
            end
          else None
      | EmptyString => None
      end
  end.

(** The tree of one scanned value. *)
Definition parse (data : string) : option Value :=
  match parseValue (S (String.length data)) data 0 with
  | Some (v, _, _) => Some v
  | None => None
  end.

(** *** String literals: [unquote] *)

Definition hexVal (c : ascii) : Z :=
  let b := byte_val c in
  if (48 <=? b) && (b <=? 57) then b - 48
  else if (97 <=? b) && (b <=? 102) then b - 87
  else if (65 <=? b) && (b <=? 70) then b - 55
  else -1.

(** [getu4]: the code unit of a [\uXXXX] at the head of [s], or -1. *)
Definition getu4 (s : string) : Z :=
  match s with
  | String b (String u (String h1 (String h2 (String h3 (String h4 _))))) =>
      if byte_is b "\" && byte_is u "u" && isHex h1 && isHex h2 && isHex h3 && isHex h4
      then ((hexVal h1 * 16 + hexVal h2) * 16 + hexVal h3) * 16 + hexVal h4
      else -1
  | _ => -1
  end.

Definition isSurrogate (r : Z) : bool := (55296 <=? r) && (r <? 57344).

(** [utf16.DecodeRune]. *)
Definition decodeSurrogates (r1 r2 : Z) : Z :=
  if (55296 <=? r1) && (r1 <? 56320) && (56320 <=? r2) && (r2 <? 57344)
  then (r1 - 55296) * 1024 + (r2 - 56320) + 65536
  else RuneError.

(** The loop of [unquoteBytes] over the text between the quotes.  The
    scanner has already accepted the literal, so the [ok = false] exits
    of the Go code are not taken; here they end the string. *)
Fixpoint unquoteBody (fuel : nat) (s : string) : string :=
  match fuel, s with
  | S fuel', String c rest =>
      if byte_is c "\" then
        match rest with
        | String e rest' =>
            if byte_is e "u" then
              let rr := getu4 s in
              if rr <? 0 then EmptyString
              else
                let after := drop 4 rest' in
                if isSurrogate rr then
                  let dec := decodeSurrogates rr (getu4 after) in
                  if negb (dec =? RuneError)
                  then EncodeRune dec +:+ unquoteBody fuel' (drop 6 after)
                  else EncodeRune RuneError +:+ unquoteBody fuel' after
                else EncodeRune rr +:+ unquoteBody fuel' after
            else
              let out :=
                if byte_is e "b" then Some (byte_of 8)
                else if byte_is e "f" then Some (byte_of 12)
                else if byte_is e "n" then Some (byte_of 10)
                else if byte_is e "r" then Some (byte_of 13)
                else if byte_is e "t" then Some (byte_of 9)
                else if byte_is e dq || byte_is e "\" || byte_is e "/"
                        || byte_is e "'" then Some e
                else None in
              match out with
              | Some b => String b (unquoteBody fuel' rest')
              | None => EmptyString
              end
        | EmptyString => EmptyString
        end
      else if byte_is c dq || (byte_val c <? 32) then EmptyString
      else if byte_val c <? 128 then String c (unquoteBody fuel' rest)
      else
        let '(r, w) := DecodeRune s in
        EncodeRune r +:+ unquoteBody fuel' (drop (Nat.pred w) rest)
  | _, _ => EmptyString
  end.

(** [unquote] of a literal that still carries its quotes. *)
Definition unquote (item : string) : string :=
  match item with
  | String _ rest => unquoteBody (String.length rest) rest
  | EmptyString => EmptyString
  end.


(** *** Destinations and [decodeState]

    The Go types that the decoder is followed into here: [bool], [int],
    [string], and structs of those (each field with its JSON name and
    its [omitempty] flag).  [tname] is [Type.Name()], [tstring] is
    [Type.String()]. *)
Inductive GoType : Type :=
| TBool
| TInt
| TString
| TStruct (tname tstring : string) (fields : list (string * bool * GoType)).

Inductive GoValue : Type :=
| VBool (b : bool)
| VInt (n : Z)
| VString (s : string)
| VStruct (fields : list GoValue).

Definition typeString (ty : GoType) : string :=
  match ty with
  | TBool => "bool"
  | TInt => "int"
  | TString => "string"
  | TStruct _ ts _ => ts
  end.

Fixpoint zero (ty : GoType) : GoValue :=
  match ty with
  | TBool => VBool false
  | TInt => VInt 0
  | TString => VString ""
  | TStruct _ _ fs => VStruct (map (fun f => zero (snd f)) fs)
  end.

Fixpoint digitsVal (s : string) (acc : Z) : option Z :=
  match s with
  | EmptyString => Some acc
  | String c rest =>
      if isDigit c then digitsVal rest (acc * 10 + (byte_val c - 48)) else None
  end.

(** [strconv.ParseInt s 10 64]. *)
Definition ParseInt (s : string) : option Z :=
  let '(neg, body) :=
    match s with
    | String c rest =>
        if byte_is c "-" then (true, rest)
        else if byte_is c "+" then (false, rest)
        else (false, s)
    | EmptyString => (false, s)
    end in
  match body with
  | EmptyString => None
  | _ =>
      match digitsVal body 0 with
      | Some n =>
          let v := if neg then - n else n in
          if (- 2 ^ 63 <=? v) && (v <=? 2 ^ 63 - 1) then Some v else None
      | None => None
      end
  end.

(** [foldName] (fold.go): ASCII letters go to upper case and every
    other rune to the smallest rune of its orbit, so that two names
    have the same folded form exactly when [bytes.EqualFold] holds of
    them.  [skip] counts the bytes of the rune at hand that are still
    to be passed over. *)
Definition upper_byte (c : ascii) : ascii :=
  if (97 <=? byte_val c) && (byte_val c <=? 122)
  then byte_of (byte_val c - 32) else c.

Fixpoint foldFrom (skip : nat) (s : string) : string :=
  match s with
  | EmptyString => EmptyString
  | String c rest =>
      match skip with
      | S k => foldFrom k rest
      | O =>
          if byte_val c <? 128 then String (upper_byte c) (foldFrom 0 rest)
          else
            let '(r, w) := DecodeRune s in
            EncodeRune (unicode.foldRune r) +:+ foldFrom (w - 1) rest
      end
  end.

Definition foldName (s : string) : string := foldFrom 0 s.

(** Equality of a key and a field name under Unicode simple case
    folding. *)
Definition equalFold (key name : string) : bool :=
  String.eqb (foldName key) (foldName name).

(** The field that a key selects in [d.object]: the field of that exact
    name if there is one, else the first field whose name is the key
    under case folding.  [fs] is the list [cachedTypeFields] gives for
    the struct, in which no two fields have the same name. *)
Fixpoint findBy (eq : string -> string -> bool) (key : string)
    (fs : list (string * bool * GoType)) (i : nat)
  : option (nat * string * GoType) :=
  match fs with
  | [] => None
  | (name, _, ty) :: rest =>
      if eq key name then Some (i, name, ty) else findBy eq key rest (S i)
  end.

Definition findField (key : string) (fs : list (string * bool * GoType))
  : option (nat * string * GoType) :=
  match findBy String.eqb key fs 0 with
  | Some f => Some f
  | None => findBy equalFold key fs 0
  end.

(** [errorContext]: the struct being filled and the path of field
    names that leads to the value at hand; [None] before the first
    struct field is entered. *)
Definition Context : Type := option (string * list string).

Definition fieldStack (ctx : Context) : list string :=
  match ctx with
  | Some (_, st) => st
  | None => []
  end.

Fixpoint join (l : list string) (sep : string) : string :=
  match l with
  | [] => ""
  | [x] => x
  | x :: rest => x +:+ sep +:+ join rest sep
  end.

(** [addErrorContext] applied to a fresh [UnmarshalTypeError]. *)
Definition typeError (ctx : Context) (value : string) (ty : GoType) (off : Z)
  : error :=
  match ctx with
  | Some (st, path) => UnmarshalTypeError value (typeString ty) off st (join path ".")
  | None => UnmarshalTypeError value (typeString ty) off "" ""
  end.

(** [literalStore]: the new value and the error it saves, if any. *)
Definition literalStore (ctx : Context) (ty : GoType) (item : string)
    (endOff : Z) (v : GoValue) : GoValue * list error :=
  match item with
  | EmptyString => (v, [])
  | String c _ =>
      if byte_is c "n" then (v, [])
      else if byte_is c "t" || byte_is c "f" then
        match ty with
        | TBool => (VBool (byte_is c "t"), [])
        | _ => (v, [typeError ctx "bool" ty endOff])
        end
      else if byte_is c dq then
        match ty with
        | TString => (VString (unquote item), [])
        | _ => (v, [typeError ctx "string" ty endOff])
        end
      else
        match ty with
        | TInt =>
            match ParseInt item with
            | Some n => (VInt n, [])
            | None => (v, [typeError ctx ("number " +:+ item) ty endOff])
            end
        | _ => (v, [typeError ctx "number" ty endOff])
        end
  end.

Definition getField (i : nat) (ty : GoType) (v : GoValue) : GoValue :=
  match v with
  | VStruct vs => match vs !! i with Some x => x | None => zero ty end
  | _ => zero ty
  end.

Definition setField (i : nat) (x : GoValue) (v : GoValue) : GoValue :=
  match v with
  | VStruct vs => VStruct (<[i := x]> vs)
  | _ => v
  end.

Definition unknownField (key : string) : error :=
  errorString ("json: unknown field " +:+ Quote key).

(** The loop of [d.object] over the members of an object that is
    stored into a struct; [rec] is [d.value] for the member values. *)
Definition objectLoop (strict : bool) (tname : string)
    (fields : list (string * bool * GoType)) (ctx : Context)
    (rec : Context -> GoType -> Value -> GoValue -> GoValue * list error)
  : list (string * Value) -> GoValue -> GoValue * list error :=
  fix loop (ms : list (string * Value)) (v : GoValue) : GoValue * list error :=
    match ms with
    | [] => (v, [])
    | (keylit, val) :: ms' =>
        let key := unquote keylit in
        match findField key fields with
        | Some (i, name, fty) =>
            let '(sub, errs) :=
              rec (Some (tname, (fieldStack ctx ++ [name])%list))
                fty val (getField i fty v) in
            let '(v', errs') := loop ms' (setField i sub v) in
            (v', (errs ++ errs')%list)
        | None =>
            let '(v', errs') := loop ms' v in
            (v', ((if strict then [unknownField key] else []) ++ errs')%list)
        end
    end.

(** [d.value(v)] on one value: the destination afterwards and every
    error handed to [d.saveError], in order.  Decoding goes on after an
    error; [strict] is [d.disallowUnknownFields]. *)
Fixpoint value (strict : bool) (ctx : Context) (ty : GoType) (j : Value)
    (v : GoValue) {struct j} : GoValue * list error :=
  match j with
  | Literal item endOff => literalStore ctx ty item endOff v
  | Array off _ => (v, [typeError ctx "array" ty off])
  | Object off members =>
      match ty with
      | TStruct tname _ fields =>
          objectLoop strict tname fields ctx
            (fun ctx' fty val sub => value strict ctx' fty val sub) members v
      | _ => (v, [typeError ctx "object" ty off])
      end
  end.

(** The keys of [j] that select no field of [ty], in the order the
    decoder meets them.  The value under such a key is skipped whole. *)
Fixpoint unknownKeys (ty : GoType) (j : Value) {struct j} : list string :=
  match j with
  | Object _ members =>
      match ty with
      | TStruct _ _ fields =>
          flat_map (fun m : string * Value =>
                      match findField (unquote (fst m)) fields with
                      | Some (_, _, fty) => unknownKeys fty (snd m)
                      | None => [unquote (fst m)]
                      end) members
      | _ => []
      end
  | _ => []
  end.

(** [j] without the members that select no field of [ty]. *)
Fixpoint prune (ty : GoType) (j : Value) {struct j} : Value :=
  match j with
  | Object off members =>
      match ty with
      | TStruct _ _ fields =>
          Object off
            (flat_map (fun m : string * Value =>
                         match findField (unquote (fst m)) fields with
                         | Some (_, _, fty) => [(fst m, prune fty (snd m))]
                         | None => []
                         end) members)
      | _ => j
      end
  | _ => j
  end.

Definition phasePanicMsg : string :=
  "JSON decoder out of sync - data changing underfoot?".

(** [d.unmarshal] into a valid pointer to a value of type [ty]: the
    first saved error is the result. *)
Definition unmarshalInto (ty : GoType) (strict : bool) (data : string)
    (v : GoValue) : GoValue * option error :=
  match parse data with
  | Some j => let '(v', errs) := value strict None ty j v in (v', head errs)
  | None => (v, Some (errorString phasePanicMsg))
  end.

(** What reflection gives the decoder for a destination type [T]: the
    name of the type and how one scanned value is stored into it. *)
Class Unmarshaler (T : Type) : Type := {
  typeName : string;
  unmarshalValue : bool -> string -> T -> T * option error
}.

(** The [data interface{}] argument of [Decode]: a pointer to a [T], or
    something [InvalidUnmarshalError] is raised for. *)
Inductive Target (T : Type) : Type :=
| Pointer (v : T)
| Invalid (why : InvalidTarget).
Arguments Pointer {T} v.
Arguments Invalid {T} why.

#[export] Instance Typed_Unmarshaler (ty : GoType) : Unmarshaler GoValue := {|
  typeName := typeString ty;
  unmarshalValue := unmarshalInto ty
|}.

(** [struct{}], the throwaway target of [ReadJSON]. *)
Definition emptyStruct : GoType := TStruct "" "struct {}" [].

(** *** The stream decoder ([Decoder], stream.go)

    [d_buf] holds the bytes read from [d_r] and not yet consumed by a
    [Decode].  How the reader cuts the body into chunks is left out:
    the scanner resumes where it stopped and [readValue] scans all it
    has buffered before it looks at the error of the last [Read], so a
    [Decode] depends only on the bytes the reader delivers and on the
    error it ends with.  [refill] takes everything pending in one
    [Read]; the next [Read] returns no bytes and the reader's error.
    The decoder of the library reads in chunks and stops reading once a
    value has ended or the scanner has failed, so that bytes of a long
    body can still be unread when its [Decode] returns; here they are
    in [d_buf] by then.  The error a [Decode] returns and the value it
    stores are the same either way.  [d_r] is the reader as the
    library leaves it wherever the stream has been read to its end:
    after a [Decode] that returned [io.EOF], and for a reader that has
    failed. *)
Record Decoder : Type := mkDecoder {
  d_r : http.Reader;
  d_buf : string;
  d_scan : scanner;
  d_err : option error;
  d_strict : bool
}.

Definition NewDecoder (r : http.Reader) : Decoder :=
  mkDecoder r "" newScanner None false.

Definition DisallowUnknownFields (dec : Decoder) : Decoder :=
  mkDecoder (d_r dec) (d_buf dec) (d_scan dec) (d_err dec) true.

Fixpoint nonSpace (b : string) : bool :=
  match b with
  | EmptyString => false
  | String c rest => negb (isSpace c) || nonSpace rest
  end.

(** What [readValue] does once the buffer is scanned: on a finished
    value or a syntax error it returns; otherwise the pending [Read]
    has failed with [rd_err r], and an [io.EOF] there still ends a
    top-level number or literal, else becomes [io.ErrUnexpectedEOF]
    when anything but white space was buffered. *)
Definition settle (r : http.Reader) (buf : string) (strict : bool)
    (res : ScanResult) : Decoder * (nat + error) :=
  match res with
  | ValueEnds n s => (mkDecoder r buf s None strict, inl n)
  | Malformed e s => (mkDecoder r buf s (Some e) strict, inr e)
  | BufferExhausted n s =>
      let e := http.rd_err r in
      if is_EOF e then
        let '(s', op) := scan_step s " " in
        if is_scanEnd op then (mkDecoder r buf s' None strict, inl n)
        else
          let e' := if nonSpace buf then ErrUnexpectedEOF else e in
          (mkDecoder r buf s' (Some e') strict, inr e')
      else (mkDecoder r buf s (Some e) strict, inr e)
  end.

(** [dec.readValue()]: the length of the next value in the buffer, or
    the error that stopped the read. *)
Definition readValue (dec : Decoder) : Decoder * (nat + error) :=
  match scanBuffer (reset (d_scan dec)) (d_buf dec) 0 with
  | BufferExhausted n s =>
      settle (http.drain (d_r dec)) (d_buf dec +:+ http.rd_data (d_r dec))
        (d_strict dec) (scanBuffer s (http.rd_data (d_r dec)) n)
  | res => settle (d_r dec) (d_buf dec) (d_strict dec) res
  end.

(** [dec.Decode(v)]. *)
Definition Decode {T : Type} {U : Unmarshaler T} (dec : Decoder) (v : Target T)
  : Decoder * Target T * option error :=
  match d_err dec with
  | Some e => (dec, v, Some e)
  | None =>
      match readValue dec with
      | (dec1, inr e) => (dec1, v, Some e)
      | (dec1, inl n) =>
          let data := take n (d_buf dec1) in
          let dec2 := mkDecoder (d_r dec1) (drop n (d_buf dec1)) (d_scan dec1)
                        (d_err dec1) (d_strict dec1) in
          match v with
          | Invalid why => (dec2, v, Some (InvalidUnmarshalError why))
          | Pointer x =>
              let '(x', e) := unmarshalValue (d_strict dec1) data x in
              (dec2, Pointer x', e)
          end
      end
  end.

(** *** [json.Marshal] *)

(** One byte below 128 inside a string, HTML-safe escaping on. *)
Definition encodeByte (c : ascii) : string :=
  let b := byte_val c in
  if byte_is c "\" || byte_is c dq then String "\" (String c EmptyString)
  else if b =? 8 then "\b"
  else if b =? 12 then "\f"
  else if b =? 10 then "\n"
  else if b =? 13 then "\r"
  else if b =? 9 then "\t"
  else if (b <? 32) || byte_is c "<" || byte_is c ">" || byte_is c "&" then
    "\u00" +:+ String (hex_digit (b / 16)) (String (hex_digit (b mod 16)) EmptyString)
  else String c EmptyString.

Fixpoint encodeBody (fuel : nat) (s : string) : string :=
  match fuel, s with
  | S fuel', String c rest =>
      if byte_val c <? 128 then encodeByte c +:+ encodeBody fuel' rest
      else
        let '(r, w) := DecodeRune s in
        if (r =? RuneError) && (w =? 1)%nat then "\ufffd" +:+ encodeBody fuel' rest
        else if r =? 8232 then "\u2028" +:+ encodeBody fuel' (drop (Nat.pred w) rest)
        else if r =? 8233 then "\u2029" +:+ encodeBody fuel' (drop (Nat.pred w) rest)
        else take w s +:+ encodeBody fuel' (drop (Nat.pred w) rest)
  | _, _ => EmptyString
  end.

(** [appendString]: a Go string as a JSON string literal. *)
Definition encodeString (s : string) : string :=
  dq +:+ encodeBody (String.length s) s +:+ dq.

(** [isEmptyValue], which [omitempty] consults. *)
Definition isEmptyValue (v : GoValue) : bool :=
  match v with
  | VBool b => negb b
  | VInt n => n =? 0
  | VString s => String.eqb s ""
  | VStruct _ => false
  end.

Fixpoint joinFields (l : list string) : string :=
  match l with
  | [] => ""
  | [x] => x
  | x :: rest => x +:+ "," +:+ joinFields rest
  end.

Definition encodeBool (b : bool) : string := if b then "true" else "false".

Fixpoint encodeValue (ty : GoType) (v : GoValue) {struct v} : string :=
  match v with
  | VBool b => encodeBool b
  | VInt n => Itoa n
  | VString s => encodeString s
  | VStruct vs =>
      let fs := match ty with TStruct _ _ fs => fs | _ => [] end in
      "{" +:+ joinFields
        ((fix fieldsOf (vs : list GoValue) (fs : list (string * bool * GoType))
            {struct vs} : list string :=
            match vs, fs with
            | x :: vs', (name, omit, fty) :: fs' =>
                if omit && isEmptyValue x then fieldsOf vs' fs'
                else (encodeString name +:+ ":" +:+ encodeValue fty x)
                       :: fieldsOf vs' fs'
            | _, _ => []
            end) vs fs) +:+ "}"
  end.

(** What reflection gives the encoder for a value of type [T]: its
    JSON text, or the error [Marshal] returns for it. *)
Class Marshaler (T : Type) : Type := {
  Marshal : T -> string + error
}.

#[export] Instance Typed_Marshaler (ty : GoType) : Marshaler GoValue := {|
  Marshal := fun v => inl (encodeValue ty v)
|}.

(** A channel value: one of the things [Marshal] has no encoding for. *)
Inductive Chan : Type := mkChan (elem : string).

#[export] Instance Chan_Marshaler : Marshaler Chan := {|
  Marshal := fun c => match c with
                      | mkChan elem => inr (UnsupportedTypeError ("chan " +:+ elem))
                      end
|}.

(** A non-nil [interface{}]: a value together with its dynamic type. *)
Record Dynamic : Type := mkDynamic {
  dyn_type : Type;
  dyn_marshaler : Marshaler dyn_type;
  dyn_value : dyn_type
}.

Definition MarshalDynamic (d : Dynamic) : string + error :=
  @Marshal (dyn_type d) (dyn_marshaler d) (dyn_value d).

End json.

(** ** json-comms.go *)

Import strings strconv.

(** [Tools] is the receiver of the three methods. *)
Record Tools : Type := mkTools {
  MaxJSONSize : Z;
  MaxXMLSize : Z;
  MaxFileSize : Z;
  AllowedFileTypes : list string;
  AllowUnknownFields : bool
}.

(** [JSONResponse] is the envelope sent around; [Data] is an
    [interface{}], [None] when nil. *)
Record JSONResponse : Type := mkJSONResponse {
  Error : bool;
  Message : string;
  Data : option json.Dynamic
}.

(** What [json.Marshal] makes of a [JSONResponse], from its field tags
    [error], [message] and [data,omitempty]. *)
Definition marshalJSONResponse (p : JSONResponse) : string + error :=
  let head := "{" +:+ json.encodeString "error" +:+ ":" +:+ json.encodeBool (Error p)
              +:+ "," +:+ json.encodeString "message" +:+ ":"
              +:+ json.encodeString (Message p) in
  match Data p with
  | None => inl (head +:+ "}")
  | Some d =>
      match json.MarshalDynamic d with
      | inl out => inl (head +:+ "," +:+ json.encodeString "data" +:+ ":" +:+ out +:+ "}")
      | inr e => inr e
      end
  end.

#[export] Instance JSONResponse_Marshaler : json.Marshaler JSONResponse := {|
  json.Marshal := marshalJSONResponse
|}.

(** [BrokerRequestPayload] and [AuthPayload], as destinations. *)
Definition AuthPayload : json.GoType :=
  json.TStruct "AuthPayload" "goMicroServiceUtils.AuthPayload"
    [("email", false, json.TString); ("password", false, json.TString)].

Definition BrokerRequestPayload : json.GoType :=
  json.TStruct "BrokerRequestPayload" "goMicroServiceUtils.BrokerRequestPayload"
    [("action", false, json.TString); ("auth", true, AuthPayload)].

(** The [switch] of [ReadJSON] over a failed first [Decode]: the cases
    are tried in source order and the first that matches decides. *)
Definition classify (maxBytes : Z) (err : error) : error :=
  match errors.As_SyntaxError err with
  | Some offset =>
      errors.errorString
        ("body contains badly-formed JSON (at character " +:+ Itoa offset +:+ ")")
  | None =>
      if errors.Is_ErrUnexpectedEOF err then
        errors.New "body contains badly-formed JSON"
      else
        match errors.As_UnmarshalTypeError err with
        | Some (field, offset) =>
            errors.errorString
              ("body contains incorrect JSON type for field " +:+ Quote field
               +:+ " at offset " +:+ Itoa offset)
        | None =>
            if errors.Is_EOF err then errors.New "body must not be empty"
            else if HasPrefix (errors.Error err) "json: unknown field " then
              let fieldName := TrimPrefix (errors.Error err) "json: unknown field " in
              errors.errorString ("body contains unknown key " +:+ fieldName)
            else if String.eqb (errors.Error err) "http: request body too large" then
              errors.errorString
                ("body must not be larger than " +:+ Itoa maxBytes +:+ " bytes")
            else if errors.As_InvalidUnmarshalError err then
              errors.errorString ("error unmarshalling json: " +:+ errors.Error err)
            else err
        end
  end.

(** The ceiling [ReadJSON] reads under. *)
Definition maxBytesOf (t : Tools) : Z :=
  if negb (MaxJSONSize t =? 0) then MaxJSONSize t else 1024 * 1024.

(** The decoder [ReadJSON] sets up: over the body capped at the
    ceiling, strict unless unknown fields are allowed. *)
Definition openDecoder (t : Tools) (r : http.Request) : json.Decoder :=
  let maxBytes := maxBytesOf t in
  let body := http.MaxBytesReader (http.Body r) maxBytes in
  let dec := json.NewDecoder body in
  if negb (AllowUnknownFields t) then json.DisallowUnknownFields dec else dec.

Definition singleValueError : error :=
  errors.New "body must only contain a single JSON value".

(** [ReadJSON] past the content-type check: both [Decode] calls and the
    classification in between.  The request comes back with the capped
    reader for its body, in the state the decoder above leaves it in
    (see there for when that is the state the library leaves behind). *)
Definition readBody {T : Type} {U : json.Unmarshaler T} (t : Tools)
    (r : http.Request) (data : json.Target T)
  : http.Request * json.Target T * option error :=
  let maxBytes := maxBytesOf t in
  let dec := openDecoder t r in
  let '(dec, data, err) := json.Decode dec data in
  match err with
  | Some err =>
      (http.mkRequest (http.Header_ r) (json.d_r dec), data,
       Some (classify maxBytes err))
  | None =>
      let '(dec, _, err) :=
        json.Decode (U := json.Typed_Unmarshaler json.emptyStruct) dec
          (json.Pointer (json.zero json.emptyStruct)) in
      let r := http.mkRequest (http.Header_ r) (json.d_r dec) in
      match err with
      | Some errors.EOF => (r, data, None)
      | _ => (r, data, Some singleValueError)
      end
  end.

(** [ReadJSON]: the request, the destination and the returned error.
    The response writer is only handed on to [http.MaxBytesReader] and is
    left out. *)
Definition ReadJSON {T : Type} {U : json.Unmarshaler T} (t : Tools)
    (r : http.Request) (data : json.Target T)
  : http.Request * json.Target T * option error :=
  if negb (String.eqb (http.Get (http.Header_ r) "Content-Type") "") then
    let contentType := http.Get (http.Header_ r) "Content-Type" in
    if negb (String.eqb (ToLower contentType) "application/json") then
      (r, data, Some (errors.New "the Content-Type header is not application/json"))
    else readBody t r data
  else readBody t r data.

(** The [range] loop of [WriteJSON] over the first header set. *)
Definition copyHeaders (hs : http.Header) (into : http.Header) : http.Header :=
  map_fold (fun key value acc => <[key := value]> acc) into hs.

(** [WriteJSON]. *)
Definition WriteJSON {T : Type} {M : json.Marshaler T} (t : Tools)
    (w : http.ResponseWriter) (status : Z) (data : T)
    (headers : list http.Header) : http.ResponseWriter * option error :=
  match json.Marshal data with
  | inr err => (w, Some err)
  | inl out =>
      let w := match headers with
               | hs :: _ => http.set_header w (copyHeaders hs (http.rw_header w))
               | [] => w
               end in
      let w := http.set_header w
                 (http.Set_ (http.rw_header w) "Content-Type" "application/json") in
      let w := http.WriteHeader w status in
      let '(w, _) := http.Write w out in
      (w, None)
  end.

(** [ErrorJSON], for a non-nil [err]. *)
Definition ErrorJSON (t : Tools) (w : http.ResponseWriter) (err : error)
    (status : list Z) : http.ResponseWriter * option error :=
  let statusCode := match status with
                    | s :: _ => s
                    | [] => http.StatusBadRequest
                    end in
  let payload := {| Error := true; Message := errors.Error err; Data := None |} in
  WriteJSON t w statusCode payload [].

(** ** Notions used in the statements *)

(** The request passes the content-type check of [ReadJSON]: no
    content type is declared, or the declared one lowers to
    [application/json]. *)
Definition acceptsContentType (r : http.Request) : bool :=
  let ct := http.Get (http.Header_ r) "Content-Type" in
  String.eqb ct "" || String.eqb (ToLower ct) "application/json".

Definition wrongContentType : error :=
  errors.New "the Content-Type header is not application/json".

(** A body that ends in the middle of a value: the scanner has consumed
    all of it, wants more, would not be satisfied by a closing space
    (a top-level number is complete as it stands), and has seen
    something other than white space. *)
Definition endsMidValue (body : string) : bool :=
  match json.scanBuffer json.newScanner body 0 with
  | json.BufferExhausted _ s =>
      negb (json.is_scanEnd (snd (json.scan_step s " "))) && json.nonSpace body
  | _ => false
  end.

(** The first bytes of a body are the opening of a value that is still
    incomplete and so far well-formed. *)
Definition opensValue (prefix : string) : bool :=
  match json.scanBuffer json.newScanner prefix 0 with
  | json.BufferExhausted _ _ => true
  | _ => false
  end.

Definition bodyTooLarge (maxBytes : Z) : error :=
  errors.errorString ("body must not be larger than " +:+ Itoa maxBytes +:+ " bytes").

(** Printable ASCII without the two characters [%q] escapes. *)
Fixpoint plain (s : string) : bool :=
  match s with
  | EmptyString => true
  | String c rest =>
      (32 <=? byte_val c) && (byte_val c <=? 126) && negb (byte_val c =? 34)
      && negb (byte_val c =? 92) && plain rest
  end.

(** The tree of the first value of the body, as the first [Decode] of
    [ReadJSON] hands it to [d.unmarshal]. *)
Definition firstValue (t : Tools) (r : http.Request) : option json.Value :=
  match json.readValue (openDecoder t r) with
  | (dec, inl n) => json.parse (take n (json.d_buf dec))
  | (_, inr _) => None
  end.

(** What the body holds behind its first value: what is left for the
    second [Decode] of [ReadJSON]. *)
Definition afterFirstValue (t : Tools) (r : http.Request) : string :=
  match json.readValue (openDecoder t r) with
  | (dec, inl n) => drop n (json.d_buf dec)
  | (_, inr _) => ""
  end.

Definition withUnknownFields (t : Tools) (allow : bool) : Tools :=
  mkTools (MaxJSONSize t) (MaxXMLSize t) (MaxFileSize t) (AllowedFileTypes t) allow.

(** The response writer as [WriteJSON] leaves it just before the body
    is written: caller headers copied, content type set, status sent. *)
Definition prepared (w : http.ResponseWriter) (status : Z)
    (headers : list http.Header) : http.ResponseWriter :=
  let w := match headers with
           | hs :: _ => http.set_header w (copyHeaders hs (http.rw_header w))
           | [] => w
           end in
  let w := http.set_header w
             (http.Set_ (http.rw_header w) "Content-Type" "application/json") in
  http.WriteHeader w status.

(** The header set a caller passed, if any. *)
Definition givenHeaders (headers : list http.Header) : http.Header :=
  match headers with
  | hs :: _ => hs
  | [] => ∅
  end.

(** The envelope [ErrorJSON] builds and its wire form. *)
Definition errorEnvelope (err : error) : JSONResponse :=
  {| Error := true; Message := errors.Error err; Data := None |}.

Definition errorWire (err : error) : string :=
  "{" +:+ json.encodeString "error" +:+ ":true," +:+ json.encodeString "message"
  +:+ ":" +:+ json.encodeString (errors.Error err) +:+ "}".

Definition statusOf (status : list Z) : Z :=
  match status with
  | s :: _ => s
  | [] => 400
  end.

(** The scanner's error, when set, is a syntax error. *)
Definition errIsSyntax (s : json.scanner) : Prop :=
  match json.err s with
  | None => True
  | Some e => exists msg off, e = errors.SyntaxError msg off
  end.

(** What [scanBuffer] can come back with. *)
Definition resultOK (res : json.ScanResult) : Prop :=
  match res with
  | json.Malformed e _ => exists msg off, e = errors.SyntaxError msg off
  | json.BufferExhausted _ s => errIsSyntax s
  | json.ValueEnds _ _ => True
  end.

(** Induction on value trees that reaches the members of objects. *)
Section ValueInduction.
Import json.
Variable P : Value -> Prop.
Hypothesis HLiteral : forall item off, P (Literal item off).
Hypothesis HArray : forall off elems, Forall P elems -> P (Array off elems).
Hypothesis HObject :
  forall off ms, Forall (fun m => P (snd m)) ms -> P (Object off ms).

Fixpoint Value_induction (j : Value) : P j :=
  match j with
  | Literal item off => HLiteral item off
  | Array off elems =>
      HArray off elems
        ((fix all (l : list Value) : Forall P l :=
            match l with
            | [] => @List.Forall_nil _ P
            | x :: l' => @List.Forall_cons _ P x l' (Value_induction x) (all l')
            end) elems)
  | Object off ms =>
      HObject off ms
        ((fix all (l : list (string * Value)) : Forall (fun m => P (snd m)) l :=
            match l with
            | [] => @List.Forall_nil _ _
            | m :: l' => @List.Forall_cons _ _ m l' (Value_induction (snd m)) (all l')
            end) ms)
  end.
End ValueInduction.

(** ** Values that come back from their serialization

    [json.Marshal] writes a string as it is only where it is
    well-formed UTF-8 (other bytes are replaced by the replacement
    rune), and the decoder selects a struct field by the name of the
    member; [conforms] and [wellFormed] say when nothing is lost. *)

Section RoundTripNotions.
Import json.

(** [utf8.ValidString]. *)
Fixpoint validUTF8 (fuel : nat) (s : string) : bool :=
  match fuel, s with
  | _, EmptyString => true
  | O, _ => false
  | S fuel', String c rest =>
      if byte_val c <? 128 then validUTF8 fuel' rest
      else
        let '(r, w) := DecodeRune s in
        (2 <=? w)%nat && validUTF8 fuel' (drop (Nat.pred w) rest)
  end.

Definition ValidUTF8 (s : string) : bool := validUTF8 (String.length s) s.

Fixpoint distinct (names : list string) : bool :=
  match names with
  | [] => true
  | n :: rest => negb (existsb (String.eqb n) rest) && distinct rest
  end.

(** A struct type whose JSON names are well-formed UTF-8 and differ
    from one another, at every depth. *)
Fixpoint wellFormed (ty : GoType) : bool :=
  match ty with
  | TStruct _ _ fs =>
      distinct (map (fun f => fst (fst f)) fs)
      && forallb (fun f => ValidUTF8 (fst (fst f)) && wellFormed (snd f)) fs
  | _ => true
  end.

Definition conformsAll (conf : GoType -> GoValue -> bool)
  : list GoValue -> list (string * bool * GoType) -> bool :=
  fix all (vs : list GoValue) (fs : list (string * bool * GoType)) : bool :=
    match vs, fs with
    | [], [] => true
    | x :: vs', (_, _, fty) :: fs' => conf fty x && all vs' fs'
    | _, _ => false
    end.

(** [v] is a value of the type [ty]: an [int] is in the range of
    [int64], a string is well-formed UTF-8, a struct has one value for
    each field. *)
Fixpoint conforms (ty : GoType) (v : GoValue) {struct v} : bool :=
  match v, ty with
  | VBool _, TBool => true
  | VInt n, TInt => (- 2 ^ 63 <=? n) && (n <=? 2 ^ 63 - 1)
  | VString s, TString => ValidUTF8 s
  | VStruct vs, TStruct _ _ fs => conformsAll conforms vs fs
  | _, _ => false
  end.

(** The member texts of a struct, as the loop inside [encodeValue]
    collects them. *)
Definition encodeFields (enc : GoType -> GoValue -> string)
  : list GoValue -> list (string * bool * GoType) -> list string :=
  fix fieldsOf (vs : list GoValue) (fs : list (string * bool * GoType)) : list string :=
    match vs, fs with
    | x :: vs', (name, omit, fty) :: fs' =>
        if omit && isEmptyValue x then fieldsOf vs' fs'
        else (encodeString name +:+ ":" +:+ enc fty x) :: fieldsOf vs' fs'
    | _, _ => []
    end.

Fixpoint allHigh (s : string) : bool :=
  match s with
  | EmptyString => true
  | String c rest => (128 <=? byte_val c) && allHigh rest
  end.

Fixpoint allNumber (s : string) : bool :=
  match s with
  | EmptyString => true
  | String c rest => isNumberByte c && allNumber rest
  end.

(** What may follow a value in a text: nothing, or a byte that ends a
    number. *)
Definition endsValue (X : string) : bool :=
  match X with
  | EmptyString => true
  | String c _ => negb (isNumberByte c)
  end.

Definition isNumStart (c : ascii) : bool := isDigit c || byte_is c "-".

(** The tree [j] is stored into a zero value of type [ty] as [v],
    without an error, strict or not. *)
Definition Decodes (ty : GoType) (j : Value) (v : GoValue) : Prop :=
  forall (strict : bool) (ctx : Context), value strict ctx ty j (zero ty) = (v, []).

Definition names (fs : list (string * bool * GoType)) : list string :=
  map (fun f => fst (fst f)) fs.

(** The members [Marshal] writes for the fields [fs] holding [vs]: an
    empty [omitempty] field leaves no member. *)
Inductive MembersOf :
  list (string * bool * GoType) -> list GoValue -> list (string * Value) -> Prop :=
| MembersOf_nil : MembersOf [] [] []
| MembersOf_skip name omit fty fs vs ms :
    MembersOf fs vs ms ->
    MembersOf ((name, omit, fty) :: fs) (zero fty :: vs) ms
| MembersOf_keep name omit fty x j fs vs ms :
    ValidUTF8 name = true ->
    Decodes fty j x ->
    MembersOf fs vs ms ->
    MembersOf ((name, omit, fty) :: fs) (x :: vs) ((encodeString name, j) :: ms).

Definition fieldsWF (fs : list (string * bool * GoType)) : bool :=
  forallb (fun f => ValidUTF8 (fst (fst f)) && wellFormed (snd f)) fs.

(** What the parser makes of a marshalled value, whatever follows it. *)
Definition Parses (v : GoValue) : Prop :=
  forall (ty : GoType) (fuel : nat) (X : string) (pos : Z),
    conforms ty v = true -> wellFormed ty = true -> endsValue X = true ->
    (String.length (encodeValue ty v) < fuel)%nat ->
    exists j pos',
      parseValue fuel (encodeValue ty v +:+ X) pos = Some (j, X, pos')
      /\ Decodes ty j v.

End RoundTripNotions.

Section GoValueInduction.
Import json.
Variable P : GoValue -> Prop.
Hypothesis HBool : forall b, P (VBool b).
Hypothesis HInt : forall n, P (VInt n).
Hypothesis HString : forall s, P (VString s).
Hypothesis HStruct : forall vs, Forall P vs -> P (VStruct vs).

Fixpoint GoValue_induction (v : GoValue) : P v :=
  match v with
  | VBool b => HBool b
  | VInt n => HInt n
  | VString s => HString s
  | VStruct vs =>
      HStruct vs
        ((fix all (l : list GoValue) : Forall P l :=
            match l with
            | [] => @List.Forall_nil _ P
            | x :: l' => @List.Forall_cons _ P x l' (GoValue_induction x) (all l')
            end) vs)
  end.
End GoValueInduction.

(** ** The scanner over marshalled text, and what is asked of a body *)

Section ScanningNotions.
Import json.

(** The scanner goes through [text] without finishing a top-level value
    or failing, from step [st] and stack [ps] to step [st'] and stack
    [ps']. *)
Definition RunsTo (st : stepFn) (ps : list ParseFrame) (st' : stepFn)
    (ps' : list ParseFrame) (text : string) : Prop :=
  forall (eT : bool) (e : option error) (b : Z) (n : nat),
    exists b' : Z,
      scanBuffer (mkScanner st eT ps e b) text n
      = BufferExhausted (n + String.length text) (mkScanner st' eT ps' e b').

(** The opcodes after which [readValue] goes on to the next byte. *)
Definition continues (op : opcode) : Prop :=
  match op with
  | scanEnd | scanEndObject | scanEndArray | scanError => False
  | _ => True
  end.

(** A value has just ended: after a string, a literal or a closing
    brace, or inside a number that may still go on. *)
Definition valueEnd (st : stepFn) : Prop :=
  st = stateEndValue \/ st = state0 \/ st = state1.

(** An object key may begin. *)
Definition keyStart (st : stepFn) : Prop :=
  st = stateBeginStringOrEmpty \/ st = stateBeginString.

(** How deep the structs of a value nest. *)
Fixpoint nesting (v : GoValue) : nat :=
  match v with
  | VStruct vs => S (fold_right (fun x acc => Nat.max (nesting x) acc) 0%nat vs)
  | _ => 0%nat
  end.

Definition isStruct (v : GoValue) : bool :=
  match v with VStruct _ => true | _ => false end.

(** The text of [v] is scanned as one value, at any depth the scanner
    allows. *)
Definition Scans (v : GoValue) : Prop :=
  forall (ty : GoType) (ps : list ParseFrame),
    Z.of_nat (nesting v + length ps) <= 10000 ->
    ps <> [] \/ isStruct v = false ->
    exists st', valueEnd st' /\ RunsTo stateBeginValue ps st' ps (encodeValue ty v).

(** An object with one member whose value is a string, as [Marshal]
    writes it. *)
Definition oneMember (name s : string) : string :=
  "{" +:+ (encodeString name +:+ ":" +:+ encodeString s) +:+ "}".

(** A text without control bytes and without the three characters that
    HTML gives a meaning to. *)
Fixpoint wireSafe (s : string) : bool :=
  match s with
  | EmptyString => true
  | String c rest =>
      (32 <=? byte_val c) && negb (byte_is c "<") && negb (byte_is c ">")
      && negb (byte_is c "&") && wireSafe rest
  end.

(** [n] opening brackets: arrays inside arrays. *)
Fixpoint brackets (n : nat) : string :=
  match n with
  | O => EmptyString
  | S k => String "[" (brackets k)
  end.

End ScanningNotions.

(** A destination for the two members of the error wire shape. *)
Definition errorReply : json.GoType :=
  json.TStruct "" "struct { Error bool; Message string }"
    [("error", false, json.TBool); ("message", false, json.TString)].

(** A destination for the wire shape of [JSONResponse] with its data
    decoded as a [ty]. *)
Definition envelopeOf (ty : json.GoType) : json.GoType :=
  json.TStruct "" "struct { Error bool; Message string; Data T }"
    [("error", false, json.TBool); ("message", false, json.TString);
     ("data", true, ty)].

(** A [JSONResponse] whose data is the value [V] of type [ty]. *)
Definition envelopeWith (failed : bool) (message : string) (ty : json.GoType)
    (V : json.GoValue) : JSONResponse :=
  {| Error := failed; Message := message;
     Data := Some (json.mkDynamic json.GoValue (json.Typed_Marshaler ty) V) |}.

(** ** Sample configurations, requests and destinations *)

Definition tools (maxJSONSize : Z) (allowUnknownFields : bool) : Tools :=
  mkTools maxJSONSize 0 0 [] allowUnknownFields.

(** A request whose body ends normally, with or without a declared
    content type. *)
Definition request (contentType : option string) (body : string) : http.Request :=
  http.mkRequest
    (match contentType with
     | Some ct => {["Content-Type" := [ct]]}
     | None => ∅
     end)
    (http.mkReader body errors.EOF).

(** [struct { A int }] and [struct { Name string }]. *)
Definition shapeA : json.GoType :=
  json.TStruct "" "struct { A int }" [("A", false, json.TInt)].

Definition shapeName : json.GoType :=
  json.TStruct "" "struct { Name string }" [("Name", false, json.TString)].

Definition freshWriter : http.ResponseWriter := http.mkResponseWriter ∅ [] None.

Definition brokenWriter : http.ResponseWriter :=
  http.mkResponseWriter ∅ [] (Some (errors.New "write: broken pipe")).

Definition brokerPayload : json.GoValue :=
  json.VStruct [json.VString "auth";
                json.VStruct [json.VString "me@example.com"; json.VString "secret"]].

(** * Properties *)

(** ** Strings *)

Section StringFacts.

Lemma prefix_app (p s : string) : String.prefix p (p +:+ s) = true.
Proof.
  induction p as [|a p IH]; simpl.
  - destruct s; reflexivity.
  - destruct (ascii_dec a a); [exact IH | congruence].
Qed.

Lemma HasPrefix_app (p s : string) : HasPrefix (p +:+ s) p = true.
Proof. apply prefix_app. Qed.

Lemma drop_app (p s : string) : drop (String.length p) (p +:+ s) = s.
Proof. induction p as [|a p IH]; simpl; [reflexivity | exact IH]. Qed.

Lemma TrimPrefix_app (p s : string) : TrimPrefix (p +:+ s) p = s.
Proof. unfold TrimPrefix. rewrite HasPrefix_app. apply drop_app. Qed.

Lemma Contains_prefix (s b : string) :
  String.prefix b s = true -> Contains s b = true.
Proof. intros H. destruct s; cbn [Contains]; rewrite H; reflexivity. Qed.

Lemma Contains_here (b c : string) : Contains (b +:+ c) b = true.
Proof. apply Contains_prefix, prefix_app. Qed.

Lemma Contains_skip (a s b : string) :
  Contains s b = true -> Contains (a +:+ s) b = true.
Proof.
  intros H. induction a as [|x a IH]; simpl; [exact H |].
  fold (String.append a s). rewrite IH. apply orb_true_r.
Qed.

Lemma Contains_mid (a b c : string) : Contains (a +:+ b +:+ c) b = true.
Proof. apply Contains_skip, Contains_here. Qed.

Lemma prefix_refl (s : string) : String.prefix s s = true.
Proof.
  induction s as [|a s IH]; simpl; [reflexivity |].
  destruct (ascii_dec a a); [exact IH | congruence].
Qed.

Lemma Contains_end (a b : string) : Contains (a +:+ b) b = true.
Proof. apply Contains_skip, Contains_prefix, prefix_refl. Qed.

Lemma append_assoc (a b c : string) : (a +:+ b) +:+ c = a +:+ (b +:+ c).
Proof.
  induction a as [|x a IH]; [reflexivity |].
  change (String x ((a +:+ b) +:+ c) = String x (a +:+ (b +:+ c))).
  f_equal. exact IH.
Qed.

(** Bytes *)

Lemma byte_of_val (c : ascii) : byte_of (byte_val c) = c.
Proof. unfold byte_of, byte_val. rewrite N2Z.id. apply ascii_N_embedding. Qed.

Lemma byte_val_range (c : ascii) : 0 <= byte_val c < 256.
Proof.
  unfold byte_val. pose proof (N_ascii_bounded c) as H.
  split; [apply N2Z.is_nonneg |]. apply (N2Z.inj_lt _ 256). exact H.
Qed.

Lemma byte_val_of (z : Z) : 0 <= z < 256 -> byte_val (byte_of z) = z.
Proof.
  intros H. unfold byte_of, byte_val.
  rewrite N_ascii_embedding by (apply (N2Z.inj_lt _ 256); rewrite Z2N.id; lia).
  apply Z2N.id. lia.
Qed.

Lemma byte_of_inj_val (c : ascii) (z : Z) : byte_val c = z -> byte_of z = c.
Proof. intros <-. apply byte_of_val. Qed.

Lemma length_append (a b : string) :
  String.length (a +:+ b) = (String.length a + String.length b)%nat.
Proof.
  induction a as [|c a IH]; [reflexivity |].
  change (S (String.length (a +:+ b)) = S (String.length a + String.length b)).
  f_equal. exact IH.
Qed.

(** The lower-case form of a byte: itself, or a letter below 128. *)
Lemma lower_byte_val (c : ascii) :
  byte_val (lower_byte c)
  = if (65 <=? byte_val c) && (byte_val c <=? 90) then byte_val c + 32 else byte_val c.
Proof.
  unfold lower_byte. pose proof (byte_val_range c).
  destruct ((65 <=? byte_val c) && (byte_val c <=? 90)) eqn:E; [| reflexivity].
  apply andb_prop in E. destruct E as [E1 E2].
  apply Z.leb_le in E1, E2. apply byte_val_of. lia.
Qed.

(** Two bytes with the same lower-case form are the same byte or two
    ASCII letters. *)
Lemma lower_byte_cases (a b : ascii) :
  lower_byte a = lower_byte b ->
  a = b \/ (byte_val a < 128 /\ byte_val b < 128).
Proof.
  intros H. pose proof (f_equal byte_val H) as Hv. rewrite !lower_byte_val in Hv.
  unfold lower_byte in H.
  destruct ((65 <=? byte_val a) && (byte_val a <=? 90)) eqn:Ea;
    destruct ((65 <=? byte_val b) && (byte_val b <=? 90)) eqn:Eb.
  all: try (apply andb_prop in Ea; destruct Ea as [Ea1 Ea2]; apply Z.leb_le in Ea1, Ea2).
  all: try (apply andb_prop in Eb; destruct Eb as [Eb1 Eb2]; apply Z.leb_le in Eb1, Eb2).
  - right. lia.
  - right. lia.
  - right. lia.
  - left. exact H.
Qed.

Lemma isASCII_cons (c : ascii) (s : string) :
  isASCII (String c s) = true <-> byte_val c < 128 /\ isASCII s = true.
Proof.
  cbn [isASCII]. rewrite andb_true_iff, Z.ltb_lt. reflexivity.
Qed.

Lemma EqualFold_isASCII (s t : string) :
  EqualFold s t = true -> isASCII t = true -> isASCII s = true.
Proof.
  revert t. induction s as [|a s IH]; intros [|b t] Hf Ht; try discriminate;
    [reflexivity |].
  cbn [EqualFold] in Hf. apply andb_prop in Hf. destruct Hf as [Hab Hf].
  apply Ascii.eqb_eq in Hab. apply isASCII_cons in Ht. destruct Ht as [Hb Ht].
  apply isASCII_cons. split; [| exact (IH _ Hf Ht)].
  destruct (lower_byte_cases _ _ Hab) as [-> | [Ha _]]; assumption.
Qed.

Lemma lowerFrom_low (c : ascii) (s : string) :
  byte_val c < 128 ->
  lowerFrom 0 (String c s) = String (lower_byte c) (lowerFrom 0 s).
Proof.
  intros H. cbn [lowerFrom]. apply Z.ltb_lt in H. rewrite H. reflexivity.
Qed.

(** On ASCII strings [ToLower] decides equality up to ASCII case. *)
Lemma eqb_ToLower (s t : string) :
  isASCII s = true -> isASCII t = true ->
  String.eqb (ToLower s) (ToLower t) = EqualFold s t.
Proof.
  unfold ToLower. revert t.
  induction s as [|a s IH]; intros [|b t] Hs Ht.
  - reflexivity.
  - apply isASCII_cons in Ht. destruct Ht as [Hb Ht]. rewrite (lowerFrom_low _ _ Hb).
    reflexivity.
  - apply isASCII_cons in Hs. destruct Hs as [Ha Hs]. rewrite (lowerFrom_low _ _ Ha).
    reflexivity.
  - apply isASCII_cons in Hs, Ht. destruct Hs as [Ha Hs], Ht as [Hb Ht].
    rewrite (lowerFrom_low _ _ Ha), (lowerFrom_low _ _ Hb).
    cbn [String.eqb EqualFold]. rewrite (IH _ Hs Ht). reflexivity.
Qed.

(** A content type that is [application/json] up to ASCII case lowers
    to it. *)
Lemma ToLower_json (s : string) :
  EqualFold s "application/json" = true ->
  String.eqb (ToLower s) "application/json" = true.
Proof.
  intros H.
  assert (Hs : isASCII s = true) by (apply (EqualFold_isASCII _ _ H); reflexivity).
  change "application/json" with (ToLower "application/json") at 1.
  rewrite eqb_ToLower by (exact Hs || reflexivity). exact H.
Qed.

Lemma ToLower_json_ascii (s : string) :
  isASCII s = true ->
  String.eqb (ToLower s) "application/json" = EqualFold s "application/json".
Proof.
  intros Hs. change "application/json" with (ToLower "application/json") at 1.
  apply eqb_ToLower; [exact Hs | reflexivity].
Qed.


Lemma lowerFrom_app (p q : string) :
  isASCII p = true -> lowerFrom 0 (p +:+ q) = lowerFrom 0 p +:+ lowerFrom 0 q.
Proof.
  induction p as [|c p IH]; intros Hp; [reflexivity |].
  apply isASCII_cons in Hp. destruct Hp as [Hc Hp].
  change (String c p +:+ q) with (String c (p +:+ q)).
  rewrite !(lowerFrom_low _ _ Hc), (IH Hp). reflexivity.
Qed.

(** The encoding of a rune is not empty, and its first byte is below 128
    only for a rune below 128, which is that byte. *)
Lemma EncodeRune_head (x : Z) :
  exists (b : ascii) (y : string),
    EncodeRune x = String b y
    /\ (byte_val b < 128 -> 0 <= x < 128 /\ b = byte_of x /\ y = "").
Proof.
  unfold EncodeRune.
  destruct ((x <? 0) || (1114111 <? x) || ((55296 <=? x) && (x <=? 57343))) eqn:E.
  - change (RuneError <? 128) with false. change (RuneError <? 2048) with false.
    change (RuneError <? 65536) with true. cbv iota.
    eexists _, _. split; [reflexivity |].
    change (byte_val (byte_of (224 + RuneError / 4096))) with 239. lia.
  - apply orb_false_elim in E. destruct E as [E _].
    apply orb_false_elim in E. destruct E as [E1 E2].
    apply Z.ltb_ge in E1, E2.
    destruct (x <? 128) eqn:L1; [apply Z.ltb_lt in L1 | apply Z.ltb_ge in L1].
    { eexists _, _. split; [reflexivity |]. intros _. split; [lia | split; reflexivity]. }
    destruct (x <? 2048) eqn:L2; [apply Z.ltb_lt in L2 | apply Z.ltb_ge in L2].
    { eexists _, _. split; [reflexivity |].
      assert (2 <= x / 64 < 32)
        by (split; [apply Z.div_le_lower_bound | apply Z.div_lt_upper_bound]; lia).
      rewrite byte_val_of; lia. }
    destruct (x <? 65536) eqn:L3; [apply Z.ltb_lt in L3 | apply Z.ltb_ge in L3].
    { eexists _, _. split; [reflexivity |].
      assert (0 <= x / 4096 < 16)
        by (split; [apply Z.div_le_lower_bound | apply Z.div_lt_upper_bound]; lia).
      rewrite byte_val_of; lia. }
    eexists _, _. split; [reflexivity |].
    assert (0 <= x / 262144 < 5)
      by (split; [apply Z.div_le_lower_bound | apply Z.div_lt_upper_bound]; lia).
    rewrite byte_val_of; lia.
Qed.

Lemma lowerFrom_nonempty (s : string) : s <> "" -> lowerFrom 0 s <> "".
Proof.
  destruct s as [|c s]; [congruence |]. intros _. cbn [lowerFrom].
  destruct (byte_val c <? 128); [discriminate |].
  destruct (DecodeRune (String c s)) as [r w].
  destruct (EncodeRune_head (unicode.lowerRune r)) as (b & y & -> & _). discriminate.
Qed.

(** Nothing follows [application/json] in a content type that lowers
    to it. *)
Lemma ToLower_json_longer (p suffix : string) :
  EqualFold p "application/json" = true -> suffix <> "" ->
  String.eqb (ToLower (p +:+ suffix)) "application/json" = false.
Proof.
  intros Hp Hs.
  assert (Ha : isASCII p = true) by (apply (EqualFold_isASCII _ _ Hp); reflexivity).
  apply String.eqb_neq. unfold ToLower. rewrite (lowerFrom_app _ _ Ha).
  pose proof (ToLower_json _ Hp) as H. apply String.eqb_eq in H. unfold ToLower in H.
  rewrite H. intros Heq. apply (f_equal String.length) in Heq.
  rewrite length_append in Heq.
  apply (lowerFrom_nonempty _) in Hs.
  destruct (lowerFrom 0 suffix); [congruence |]. cbn [String.length] in Heq. lia.
Qed.

(** Only U+0130 and U+212A have an ASCII lower-case form without being
    ASCII. *)
Definition staysAbove (e : Z * Z * Z * Z) : bool :=
  let '(lo, hi, _, delta) := e in
  (128 <=? lo + delta) || ((lo =? hi) && ((lo =? 304) || (lo =? 8490))).

Lemma shift_above (table : list (Z * Z * Z * Z)) (r : Z) :
  forallb staysAbove table = true ->
  128 <= r -> unicode.shift table r < 128 -> r = 304 \/ r = 8490.
Proof.
  induction table as [|[[[lo hi] st] d] table IH]; intros Hall Hr Hlt;
    cbn [unicode.shift] in Hlt; [lia |].
  cbn [forallb] in Hall. apply andb_prop in Hall. destruct Hall as [He Hall].
  destruct ((lo <=? r) && (r <=? hi) && ((r - lo) mod st =? 0)) eqn:E;
    [| exact (IH Hall Hr Hlt)].
  apply andb_prop in E. destruct E as [E _].
  apply andb_prop in E. destruct E as [E1 E2]. apply Z.leb_le in E1, E2.
  unfold staysAbove in He. apply orb_prop in He. destruct He as [He | He].
  - apply Z.leb_le in He. lia.
  - apply andb_prop in He. destruct He as [He1 He2]. apply Z.eqb_eq in He1.
    apply orb_prop in He2. destruct He2 as [He2 | He2]; apply Z.eqb_eq in He2; lia.
Qed.

Lemma lowerRune_ascii (r : Z) :
  128 <= r -> unicode.lowerRune r < 128 -> r = 304 \/ r = 8490.
Proof.
  intros Hr Hlt. unfold unicode.lowerRune in Hlt.
  destruct (r <=? unicode.MaxASCII) eqn:E;
    [apply Z.leb_le in E; unfold unicode.MaxASCII in E; lia |].
  apply (shift_above unicode.lowerRanges); [vm_compute; reflexivity | exact Hr | exact Hlt].
Qed.

(** A rune decoded at a byte above 127 is above 127, and U+0130 is
    decoded from its two bytes only. *)
Lemma DecodeRune_above (c : ascii) (rest : string) :
  128 <= byte_val c -> 128 <= fst (DecodeRune (String c rest)).
Proof.
  intros Hc. unfold DecodeRune. pose proof (byte_val_range c) as Rc.
  destruct (byte_val c <? 128) eqn:E0; [apply Z.ltb_lt in E0; lia |].
  destruct ((194 <=? byte_val c) && (byte_val c <=? 223)) eqn:E1.
  { apply andb_prop in E1. destruct E1 as [A B]. apply Z.leb_le in A, B.
    destruct rest as [|c1 r1]; [cbn; unfold RuneError; lia |].
    unfold cont. destruct ((128 <=? byte_val c1) && (byte_val c1 <=? 191)) eqn:C1;
      [| cbn; unfold RuneError; lia].
    apply andb_prop in C1. destruct C1 as [C1 C2]. apply Z.leb_le in C1, C2.
    cbn [fst]. lia. }
  destruct ((224 <=? byte_val c) && (byte_val c <=? 239)) eqn:E2.
  { apply andb_prop in E2. destruct E2 as [A B]. apply Z.leb_le in A, B.
    destruct rest as [|c1 [|c2 r2]]; try (cbn; unfold RuneError; lia).
    match goal with |- context [if ?g then _ else _] => destruct g eqn:G end;
      [| cbn; unfold RuneError; lia].
    apply andb_prop in G. destruct G as [G G3].
    apply andb_prop in G. destruct G as [G1 G2].
    apply Z.leb_le in G1, G2. unfold cont in G3.
    apply andb_prop in G3. destruct G3 as [G3 G4]. apply Z.leb_le in G3, G4.
    cbn [fst]. destruct (byte_val c =? 224) eqn:Q; [apply Z.eqb_eq in Q | apply Z.eqb_neq in Q]; lia. }
  destruct ((240 <=? byte_val c) && (byte_val c <=? 244)) eqn:E3;
    [| cbn; unfold RuneError; lia].
  apply andb_prop in E3. destruct E3 as [A B]. apply Z.leb_le in A, B.
  destruct rest as [|c1 [|c2 [|c3 r3]]]; try (cbn; unfold RuneError; lia).
  match goal with |- context [if ?g then _ else _] => destruct g eqn:G end;
    [| cbn; unfold RuneError; lia].
  apply andb_prop in G. destruct G as [G G5].
  apply andb_prop in G. destruct G as [G G3].
  apply andb_prop in G. destruct G as [G1 G2].
  apply Z.leb_le in G1, G2. unfold cont in G3, G5.
  apply andb_prop in G3. destruct G3 as [G3 G4]. apply Z.leb_le in G3, G4.
  apply andb_prop in G5. destruct G5 as [G5 G6]. apply Z.leb_le in G5, G6.
  cbn [fst]. destruct (byte_val c =? 240) eqn:Q; [apply Z.eqb_eq in Q | apply Z.eqb_neq in Q]; lia.
Qed.

Lemma DecodeRune_two (c : ascii) (rest : string) (r : Z) (w : nat) :
  DecodeRune (String c rest) = (r, w) -> 128 <= byte_val c -> r < 2048 ->
  exists (c1 : ascii) (r1 : string),
    rest = String c1 r1
    /\ r = (byte_val c - 192) * 64 + (byte_val c1 - 128)
    /\ 194 <= byte_val c <= 223 /\ 128 <= byte_val c1 <= 191.
Proof.
  intros HD Hc Hr. unfold DecodeRune in HD. pose proof (byte_val_range c) as Rc.
  destruct (byte_val c <? 128) eqn:E0; [apply Z.ltb_lt in E0; lia |].
  destruct ((194 <=? byte_val c) && (byte_val c <=? 223)) eqn:E1.
  { apply andb_prop in E1. destruct E1 as [A B]. apply Z.leb_le in A, B.
    destruct rest as [|c1 r1]; [inversion HD; subst; unfold RuneError in Hr; lia |].
    unfold cont in HD.
    destruct ((128 <=? byte_val c1) && (byte_val c1 <=? 191)) eqn:C1;
      [| inversion HD; subst; unfold RuneError in Hr; lia].
    apply andb_prop in C1. destruct C1 as [C1 C2]. apply Z.leb_le in C1, C2.
    inversion HD; subst. exists c1, r1. repeat split; lia. }
  exfalso.
  destruct ((224 <=? byte_val c) && (byte_val c <=? 239)) eqn:E2.
  { apply andb_prop in E2. destruct E2 as [A B]. apply Z.leb_le in A, B.
    destruct rest as [|c1 [|c2 r2]];
      try (inversion HD; subst; unfold RuneError in Hr; lia).
    match type of HD with context [if ?g then _ else _] => destruct g eqn:G end;
      [| inversion HD; subst; unfold RuneError in Hr; lia].
    apply andb_prop in G. destruct G as [G G3].
    apply andb_prop in G. destruct G as [G1 G2].
    apply Z.leb_le in G1, G2. unfold cont in G3.
    apply andb_prop in G3. destruct G3 as [G3 G4]. apply Z.leb_le in G3, G4.
    inversion HD; subst.
    destruct (byte_val c =? 224) eqn:Q; [apply Z.eqb_eq in Q | apply Z.eqb_neq in Q]; lia. }
  destruct ((240 <=? byte_val c) && (byte_val c <=? 244)) eqn:E3;
    [| inversion HD; subst; unfold RuneError in Hr; lia].
  apply andb_prop in E3. destruct E3 as [A B]. apply Z.leb_le in A, B.
  destruct rest as [|c1 [|c2 [|c3 r3]]];
    try (inversion HD; subst; unfold RuneError in Hr; lia).
  match type of HD with context [if ?g then _ else _] => destruct g eqn:G end;
    [| inversion HD; subst; unfold RuneError in Hr; lia].
  apply andb_prop in G. destruct G as [G G5].
  apply andb_prop in G. destruct G as [G G3].
  apply andb_prop in G. destruct G as [G1 G2].
  apply Z.leb_le in G1, G2. unfold cont in G3, G5.
  apply andb_prop in G3. destruct G3 as [G3 G4]. apply Z.leb_le in G3, G4.
  apply andb_prop in G5. destruct G5 as [G5 G6]. apply Z.leb_le in G5, G6.
  inversion HD; subst.
  destruct (byte_val c =? 240) eqn:Q; [apply Z.eqb_eq in Q | apply Z.eqb_neq in Q]; lia.
Qed.

Lemma prefix_nil (s : string) : String.prefix "" s = true.
Proof. destruct s; reflexivity. Qed.

Lemma prefix_cons (c : ascii) (p s : string) :
  String.prefix (String c p) (String c s) = String.prefix p s.
Proof. cbn [String.prefix]. destruct (ascii_dec c c); [reflexivity | congruence]. Qed.

Lemma Contains_cons_false (b : ascii) (t sub : string) :
  Contains (String b t) sub = false ->
  String.prefix sub (String b t) = false /\ Contains t sub = false.
Proof. cbn [Contains]. apply orb_false_elim. Qed.

Lemma Contains_tail (b : ascii) (t sub : string) :
  Contains t sub = true -> Contains (String b t) sub = true.
Proof. intros H. cbn [Contains]. rewrite H. apply orb_true_r. Qed.

(** A string whose lower-case form is ASCII and has no [k] is ASCII
    itself, unless U+0130 occurs in it. *)
Lemma lowerFrom_ascii (s : string) :
  forall t : string,
    lowerFrom 0 s = t -> isASCII t = true -> Contains t "k" = false ->
    isASCII s = true \/ Contains s (EncodeRune 304) = true.
Proof.
  induction s as [|c s IH]; intros t Ht Ha Hk; [left; reflexivity |].
  cbn [lowerFrom] in Ht.
  destruct (byte_val c <? 128) eqn:E; [apply Z.ltb_lt in E | apply Z.ltb_ge in E].
  - subst t. apply isASCII_cons in Ha. destruct Ha as [_ Ha].
    apply Contains_cons_false in Hk. destruct Hk as [_ Hk].
    destruct (IH _ eq_refl Ha Hk) as [H | H].
    + left. apply isASCII_cons. split; assumption.
    + right. apply Contains_tail. exact H.
  - right.
    destruct (DecodeRune (String c s)) as [r w] eqn:HD.
    pose proof (DecodeRune_above c s ltac:(lia)) as Hr. rewrite HD in Hr. cbn [fst] in Hr.
    destruct (EncodeRune_head (unicode.lowerRune r)) as (b & y & Hb & Hlow).
    rewrite Hb in Ht. subst t.
    change (String b y +:+ lowerFrom (w - 1) s)
      with (String b (y +:+ lowerFrom (w - 1) s)) in Ha, Hk.
    apply isASCII_cons in Ha. destruct Ha as [Hb128 _].
    destruct (Hlow Hb128) as (Hlr & Hbv & _).
    destruct (lowerRune_ascii r Hr ltac:(lia)) as [-> | ->].
    + destruct (DecodeRune_two _ _ _ _ HD ltac:(lia) ltac:(lia))
        as (c1 & r1 & -> & Hval & Hc & Hc1).
      assert (byte_val c = 196 /\ byte_val c1 = 176) as [Hv Hv1] by lia.
      apply byte_of_inj_val in Hv, Hv1. subst c c1.
      apply Contains_prefix.
      change (EncodeRune 304) with (String (byte_of 196) (String (byte_of 176) "")).
      rewrite !prefix_cons. apply prefix_nil.
    + exfalso. apply Contains_cons_false in Hk. destruct Hk as [Hk _].
      change (unicode.lowerRune 8490) with 107 in Hbv. subst b.
      change (byte_of 107) with "k"%char in Hk.
      rewrite prefix_cons, prefix_nil in Hk. discriminate.
Qed.

Lemma quote_body_plain (s : string) (fuel : nat) :
  plain s = true -> (String.length s <= fuel)%nat -> quote_body fuel s = s.
Proof.
  revert fuel. induction s as [|c s IH]; intros fuel Hp Hf.
  - destruct fuel; reflexivity.
  - destruct fuel as [|fuel]; [simpl in Hf; lia |].
    simpl in Hp. repeat (apply andb_prop in Hp; destruct Hp as [Hp ?]).
    cbn [quote_body].
    assert (Hlt : (byte_val c <? 128) = true) by (apply Z.ltb_lt; lia).
    rewrite Hlt. unfold quote_byte.
    destruct (byte_val c =? 34); [discriminate |].
    destruct (byte_val c =? 92); [discriminate |].
    rewrite Hp, H2. simpl. rewrite IH; [reflexivity | assumption | simpl in Hf; lia].
Qed.

Lemma Quote_plain (s : string) :
  plain s = true -> Quote s = dq +:+ s +:+ dq.
Proof.
  intros Hp. unfold Quote. rewrite quote_body_plain by (auto with arith).
  reflexivity.
Qed.

(** A plain name shows verbatim wherever its [%q] form is printed. *)
Lemma Contains_Quote_plain (a s c : string) :
  plain s = true -> Contains (a +:+ Quote s +:+ c) s = true.
Proof.
  intros Hp. rewrite (Quote_plain _ Hp). apply Contains_skip.
  rewrite append_assoc. apply Contains_skip.
  rewrite append_assoc. apply Contains_here.
Qed.

Lemma Contains_Quote_plain_end (a s : string) :
  plain s = true -> Contains (a +:+ Quote s) s = true.
Proof.
  intros Hp. rewrite (Quote_plain _ Hp).
  do 2 apply Contains_skip. apply Contains_here.
Qed.

End StringFacts.

(** ** Case folding of JSON names *)

Section Folding.
Import json.

Lemma upper_byte_val (c : ascii) :
  byte_val (upper_byte c)
  = if (97 <=? byte_val c) && (byte_val c <=? 122) then byte_val c - 32 else byte_val c.
Proof.
  unfold upper_byte. pose proof (byte_val_range c).
  destruct ((97 <=? byte_val c) && (byte_val c <=? 122)) eqn:E; [| reflexivity].
  apply andb_prop in E. destruct E as [E1 E2].
  apply Z.leb_le in E1, E2. apply byte_val_of. lia.
Qed.

Lemma byte_val_inj (a b : ascii) : byte_val a = byte_val b -> a = b.
Proof. intros H. rewrite <- (byte_of_val a), <- (byte_of_val b), H. reflexivity. Qed.

Lemma lower_upper_byte (a b : ascii) :
  lower_byte a = lower_byte b -> upper_byte a = upper_byte b.
Proof.
  intros H. apply byte_val_inj. apply (f_equal byte_val) in H.
  rewrite !lower_byte_val in H. rewrite !upper_byte_val.
  destruct ((65 <=? byte_val a) && (byte_val a <=? 90)) eqn:Ea;
    destruct ((65 <=? byte_val b) && (byte_val b <=? 90)) eqn:Eb;
    destruct ((97 <=? byte_val a) && (byte_val a <=? 122)) eqn:Fa;
    destruct ((97 <=? byte_val b) && (byte_val b <=? 122)) eqn:Fb.
  all: repeat match goal with
         | H : (_ && _) = true |- _ => apply andb_prop in H; destruct H
         | H : (_ && _) = false |- _ => apply andb_false_iff in H
         | H : (_ <=? _) = true |- _ => apply Z.leb_le in H
         end.
  all: repeat match goal with
         | H : _ \/ _ |- _ => destruct H
         | H : (_ <=? _) = false |- _ => apply Z.leb_gt in H
         end; lia.
Qed.

(** Two strings equal up to ASCII case decode to the same rune behind
    the same byte. *)
Lemma DecodeRune_fold (x : ascii) (a b : string) :
  EqualFold a b = true -> DecodeRune (String x a) = DecodeRune (String x b).
Proof.
  assert (Hc : forall c d : ascii,
             lower_byte c = lower_byte d ->
             c = d \/ (forall lo hi, 128 <= lo ->
                          ((lo <=? byte_val c) && (byte_val c <=? hi)) = false
                          /\ ((lo <=? byte_val d) && (byte_val d <=? hi)) = false)).
  { intros c d H. destruct (lower_byte_cases _ _ H) as [-> | [Hc Hd]]; [left; reflexivity |].
    right. intros lo hi Hlo. split; apply andb_false_iff; left; apply Z.leb_gt; lia. }
  intros H. unfold DecodeRune, cont.
  destruct (byte_val x <? 128); [reflexivity |].
  destruct a as [|a1 a], b as [|b1 b]; try discriminate; [reflexivity |].
  cbn [EqualFold] in H. apply andb_prop in H. destruct H as [H1 H].
  apply Ascii.eqb_eq in H1.
  destruct (Hc _ _ H1) as [-> | N1].
  2:{ destruct ((194 <=? byte_val x) && (byte_val x <=? 223)).
      { destruct (N1 128 191 ltac:(lia)) as [-> ->]. reflexivity. }
      destruct ((224 <=? byte_val x) && (byte_val x <=? 239)).
      { destruct a, b; try discriminate; [reflexivity |].
        destruct (N1 (if byte_val x =? 224 then 160 else 128)
                     (if byte_val x =? 237 then 159 else 191)
                     ltac:(destruct (byte_val x =? 224); lia)) as [-> ->].
        reflexivity. }
      destruct ((240 <=? byte_val x) && (byte_val x <=? 244)); [| reflexivity].
      destruct a as [|a2 [|a3 a]], b as [|b2 [|b3 b]]; try discriminate;
        try reflexivity.
      { cbn [EqualFold] in H. apply andb_prop in H. destruct H as [_ H]. discriminate. }
      { cbn [EqualFold] in H. apply andb_prop in H. destruct H as [_ H]. discriminate. }
      destruct (N1 (if byte_val x =? 240 then 144 else 128)
                   (if byte_val x =? 244 then 143 else 191)
                   ltac:(destruct (byte_val x =? 240); lia)) as [-> ->].
      reflexivity. }
  destruct ((194 <=? byte_val x) && (byte_val x <=? 223)); [reflexivity |].
  destruct a as [|a2 a], b as [|b2 b]; try discriminate; [reflexivity |].
  cbn [EqualFold] in H. apply andb_prop in H. destruct H as [H2 H].
  apply Ascii.eqb_eq in H2.
  destruct (Hc _ _ H2) as [-> | N2].
  2:{ destruct ((224 <=? byte_val x) && (byte_val x <=? 239)).
      { destruct (N2 128 191 ltac:(lia)) as [-> ->].
        rewrite !andb_false_r. reflexivity. }
      destruct ((240 <=? byte_val x) && (byte_val x <=? 244)); [| reflexivity].
      destruct a as [|a3 a], b as [|b3 b]; try discriminate; [reflexivity |].
      destruct (N2 128 191 ltac:(lia)) as [-> ->].
      rewrite !andb_false_r. reflexivity. }
  destruct ((224 <=? byte_val x) && (byte_val x <=? 239)); [reflexivity |].
  destruct ((240 <=? byte_val x) && (byte_val x <=? 244)); [| reflexivity].
  destruct a as [|a3 a], b as [|b3 b]; try discriminate; [reflexivity |].
  cbn [EqualFold] in H. apply andb_prop in H. destruct H as [H3 H].
  apply Ascii.eqb_eq in H3.
  destruct (Hc _ _ H3) as [-> | N3]; [reflexivity |].
  destruct (N3 128 191 ltac:(lia)) as [-> ->]. rewrite !andb_false_r. reflexivity.
Qed.

(** Names equal up to ASCII case are equal under case folding. *)
Lemma EqualFold_foldFrom (a : string) :
  forall (b : string) (skip : nat),
    EqualFold a b = true -> foldFrom skip a = foldFrom skip b.
Proof.
  induction a as [|x a IH]; intros [|y b] skip H; try discriminate; [reflexivity |].
  pose proof H as Hab.
  cbn [EqualFold] in H. apply andb_prop in H. destruct H as [Hxy H].
  apply Ascii.eqb_eq in Hxy.
  cbn [foldFrom]. destruct skip as [|k]; [| apply IH; exact H].
  destruct (lower_byte_cases _ _ Hxy) as [<- | [Hx Hy]].
  - destruct (byte_val x <? 128); [rewrite (IH _ _ H); reflexivity |].
    rewrite (DecodeRune_fold x a b H).
    destruct (DecodeRune (String x b)) as [r w]. rewrite (IH _ _ H). reflexivity.
  - apply Z.ltb_lt in Hx, Hy. rewrite Hx, Hy.
    rewrite (lower_upper_byte _ _ Hxy), (IH _ _ H). reflexivity.
Qed.

Lemma EqualFold_equalFold (a b : string) :
  EqualFold a b = true -> equalFold a b = true.
Proof.
  intros H. unfold equalFold, foldName. rewrite (EqualFold_foldFrom _ _ _ H).
  apply String.eqb_refl.
Qed.

End Folding.

(** ** WriteJSON and ErrorJSON *)

Section Writing.

Context {T : Type} {M : json.Marshaler T}.
Variable t : Tools.

Lemma copyHeaders_union (hs into : http.Header) :
  copyHeaders hs into = hs ∪ into.
Proof.
  unfold copyHeaders.
  apply (map_fold_weak_ind (fun acc m => acc = m ∪ into)).
  - symmetry. apply (left_id_L ∅ (∪)).
  - intros i x m acc _ ->. apply insert_union_l.
Qed.

Lemma WriteJSON_ok (w : http.ResponseWriter) (status : Z) (data : T)
    (headers : list http.Header) (out : string) :
  json.Marshal data = inl out ->
  WriteJSON t w status data headers
  = (fst (http.Write (prepared w status headers) out), None).
Proof.
  intros HM. unfold WriteJSON, prepared. rewrite HM.
  destruct headers; reflexivity.
Qed.

Lemma prepared_header (w : http.ResponseWriter) (status : Z)
    (headers : list http.Header) :
  http.rw_header (prepared w status headers)
  = <["Content-Type" := ["application/json"]]>
      (givenHeaders headers ∪ http.rw_header w).
Proof.
  unfold prepared, givenHeaders. destruct headers as [|hs rest]; simpl.
  - unfold http.Set_. f_equal. symmetry. apply (left_id_L ∅ (∪)).
  - unfold http.Set_. rewrite copyHeaders_union. reflexivity.
Qed.

Lemma prepared_calls (w : http.ResponseWriter) (status : Z)
    (headers : list http.Header) :
  http.rw_calls (prepared w status headers)
  = (http.rw_calls w ++ [http.CallWriteHeader status])%list.
Proof. unfold prepared. destruct headers; reflexivity. Qed.

Lemma prepared_broken (w : http.ResponseWriter) (status : Z)
    (headers : list http.Header) :
  http.rw_broken (prepared w status headers) = http.rw_broken w.
Proof. unfold prepared. destruct headers; reflexivity. Qed.

(** C7.  When [json.Marshal] fails, [WriteJSON] returns that very
    error and leaves the response writer as it found it: no header is
    set, no status is written, no body byte is sent. *)
Theorem WriteJSON_marshal_failure (w : http.ResponseWriter) (status : Z)
    (data : T) (headers : list http.Header) (e : error) :
  json.Marshal data = inr e ->
  WriteJSON t w status data headers = (w, Some e).
Proof. intros HM. unfold WriteJSON. rewrite HM. reflexivity. Qed.

(** C10.  When [json.Marshal] succeeds, [WriteJSON] returns nil
    whatever becomes of the body: on a writer whose [Write] fails with
    [e], that error is what [Write] returned and [WriteJSON] still
    reports success. *)
Theorem WriteJSON_discards_write_error (w : http.ResponseWriter)
    (status : Z) (data : T) (headers : list http.Header) (out : string) :
  json.Marshal data = inl out ->
  snd (WriteJSON t w status data headers) = None
  /\ forall e : error,
       http.rw_broken w = Some e ->
       snd (http.Write (prepared w status headers) out) = (0, Some e).
Proof.
  intros HM. split.
  - rewrite (WriteJSON_ok _ _ _ _ _ HM). reflexivity.
  - intros e He. unfold http.Write. rewrite prepared_broken, He. reflexivity.
Qed.

End Writing.

(** ** ReadJSON: the content-type gate and the first Decode *)

Section Reading.

Context {T : Type} {U : json.Unmarshaler T}.
Variable t : Tools.

Lemma ReadJSON_accepted (r : http.Request) (data : json.Target T) :
  acceptsContentType r = true -> ReadJSON t r data = readBody t r data.
Proof.
  unfold acceptsContentType, ReadJSON. intros H.
  destruct (String.eqb (http.Get (http.Header_ r) "Content-Type") ""); simpl in *;
    [reflexivity |].
  rewrite H. reflexivity.
Qed.

Lemma ReadJSON_rejected (r : http.Request) (data : json.Target T) :
  acceptsContentType r = false ->
  ReadJSON t r data = (r, data, Some wrongContentType).
Proof.
  unfold acceptsContentType, ReadJSON. intros H.
  apply orb_false_elim in H. destruct H as [H1 H2]. rewrite H1, H2. reflexivity.
Qed.

Lemma settle_reader (r : http.Reader) (buf : string) (strict : bool)
    (res : json.ScanResult) :
  json.d_r (fst (json.settle r buf strict res)) = r.
Proof.
  unfold json.settle. destruct res; try reflexivity.
  destruct (errors.is_EOF (http.rd_err r)); [| reflexivity].
  destruct (json.scan_step s " ") as [s' op].
  destruct (json.is_scanEnd op); reflexivity.
Qed.

(** The first [Decode] of [ReadJSON] reads the whole capped body and
    settles on what the scanner makes of it. *)
Lemma readValue_open (r : http.Request) :
  let body := http.MaxBytesReader (http.Body r) (maxBytesOf t) in
  json.readValue (openDecoder t r)
  = json.settle (http.drain body) (http.rd_data body)
      (negb (AllowUnknownFields t))
      (json.scanBuffer json.newScanner (http.rd_data body) 0).
Proof.
  unfold openDecoder. destruct (AllowUnknownFields t); reflexivity.
Qed.

Lemma openDecoder_err (r : http.Request) : json.d_err (openDecoder t r) = None.
Proof. unfold openDecoder. destruct (AllowUnknownFields t); reflexivity. Qed.

Lemma openDecoder_strict (r : http.Request) :
  json.d_strict (openDecoder t r) = negb (AllowUnknownFields t).
Proof. unfold openDecoder. destruct (AllowUnknownFields t); reflexivity. Qed.

Lemma Decode_read_error (dec dec1 : json.Decoder) (data : json.Target T)
    (e : error) :
  json.d_err dec = None ->
  json.readValue dec = (dec1, inr e) ->
  json.Decode dec data = (dec1, data, Some e).
Proof. intros He Hr. unfold json.Decode. rewrite He, Hr. reflexivity. Qed.

Lemma readBody_first_error (r : http.Request) (data data1 : json.Target T)
    (dec1 : json.Decoder) (e : error) :
  json.Decode (openDecoder t r) data = (dec1, data1, Some e) ->
  readBody t r data
  = (http.mkRequest (http.Header_ r) (json.d_r dec1), data1,
     Some (classify (maxBytesOf t) e)).
Proof. intros H. unfold readBody. rewrite H. reflexivity. Qed.

Lemma MaxBytesReader_fits (body : http.Reader) (n : Z) :
  len (http.rd_data body) <= n -> http.MaxBytesReader body n = body.
Proof.
  intros H. unfold http.MaxBytesReader.
  assert (Hn : (n <? 0) = false) by (apply Z.ltb_ge; unfold len in *; lia).
  rewrite Hn. apply Z.leb_le in H. rewrite H. reflexivity.
Qed.

Lemma MaxBytesReader_empty (body : http.Reader) (n : Z) :
  http.rd_data body = "" -> http.MaxBytesReader body n = body.
Proof.
  intros H. unfold http.MaxBytesReader. rewrite H. change (len "") with 0.
  destruct (n <? 0) eqn:E; [reflexivity |].
  apply Z.ltb_ge in E. apply Z.leb_le in E. rewrite E. reflexivity.
Qed.

Lemma MaxBytesReader_cut (body : http.Reader) (n : Z) :
  n < len (http.rd_data body) -> 0 < len (http.rd_data body) ->
  http.MaxBytesReader body n
  = {| http.rd_data := take (Z.to_nat (Z.max 0 n)) (http.rd_data body);
       http.rd_err := errors.MaxBytesError (Z.max 0 n) |}.
Proof.
  intros H H0. unfold http.MaxBytesReader.
  destruct (n <? 0) eqn:E.
  - apply Z.ltb_lt in E. rewrite Z.max_l by lia.
    destruct (len (http.rd_data body) <=? 0) eqn:E'; [apply Z.leb_le in E'; lia |].
    reflexivity.
  - apply Z.ltb_ge in E. rewrite Z.max_r by lia.
    destruct (len (http.rd_data body) <=? n) eqn:E'; [apply Z.leb_le in E'; lia |].
    reflexivity.
Qed.

(** C3 (as the code has it).  The declared content type is lowered
    with [strings.ToLower] and compared with [application/json].  When
    the lowered form differs, [ReadJSON] fails with the
    wrong-content-type error and hands the request back untouched, its
    body unread; that is so for every declared content type that is
    not [application/json] up to ASCII case, unless U+0130 occurs in
    it.  With no content type declared the request passes the check
    and [ReadJSON] goes on to decode the body. *)
Theorem ReadJSON_content_type (r : http.Request) (data : json.Target T) :
  let ct := http.Get (http.Header_ r) "Content-Type" in
  (ct <> "" -> ToLower ct <> "application/json" ->
   ReadJSON t r data = (r, data, Some wrongContentType))
  /\ (ct <> "" -> EqualFold ct "application/json" = false ->
      Contains ct (EncodeRune 304) = false ->
      ReadJSON t r data = (r, data, Some wrongContentType))
  /\ (ct = "" ->
      acceptsContentType r = true /\ ReadJSON t r data = readBody t r data).
Proof.
  intros ct.
  assert (Hrej : ct <> "" -> ToLower ct <> "application/json" ->
                 ReadJSON t r data = (r, data, Some wrongContentType)).
  { intros Hne Hlow. apply ReadJSON_rejected. unfold acceptsContentType. fold ct.
    destruct (String.eqb_spec ct ""); [contradiction |].
    destruct (String.eqb_spec (ToLower ct) "application/json"); [contradiction |].
    reflexivity. }
  split; [exact Hrej | split].
  - intros Hne Hfold Hdot. apply (Hrej Hne). intros Hlow.
    destruct (lowerFrom_ascii ct "application/json" Hlow eq_refl eq_refl)
      as [Hascii | Hin]; [| rewrite Hin in Hdot; discriminate].
    pose proof (ToLower_json_ascii ct Hascii) as Heq.
    rewrite Hlow, Hfold in Heq. discriminate.
  - intros Hct.
    assert (Hacc : acceptsContentType r = true).
    { unfold acceptsContentType. fold ct. rewrite Hct. reflexivity. }
    split; [exact Hacc | exact (ReadJSON_accepted _ _ Hacc)].
Qed.

End Reading.

(** ** ReadJSON: how a failed first Decode is reported *)

Section Classification.

Context {T : Type} {U : json.Unmarshaler T}.
Variable t : Tools.

Lemma readValue_decides (r : http.Request) (data : json.Target T)
    (dec1 : json.Decoder) (e : error) :
  json.readValue (openDecoder t r) = (dec1, inr e) ->
  readBody t r data
  = (http.mkRequest (http.Header_ r) (json.d_r dec1), data,
     Some (classify (maxBytesOf t) e)).
Proof.
  intros H. apply readBody_first_error.
  apply Decode_read_error; [apply openDecoder_err | exact H].
Qed.

(** C2 (as the code has it).  The ceiling is [MaxJSONSize] when that is
    non-zero and 1,048,576 otherwise.  A request that passes the
    content-type check, whose body is longer than the ceiling and whose
    bytes up to the ceiling open a value without completing it or
    breaking the syntax, fails with the body-too-large error, and that
    message shows the ceiling. *)
Theorem ReadJSON_body_too_large (r : http.Request) (data : json.Target T) :
  maxBytesOf t = (if MaxJSONSize t =? 0 then 1048576 else MaxJSONSize t)
  /\ (acceptsContentType r = true ->
      maxBytesOf t < len (http.rd_data (http.Body r)) ->
      0 < len (http.rd_data (http.Body r)) ->
      opensValue (take (Z.to_nat (maxBytesOf t)) (http.rd_data (http.Body r))) = true ->
      snd (ReadJSON t r data) = Some (bodyTooLarge (maxBytesOf t))
      /\ snd (fst (ReadJSON t r data)) = data
      /\ Contains (errors.Error (bodyTooLarge (maxBytesOf t)))
                  (Itoa (maxBytesOf t)) = true).
Proof.
  split.
  - unfold maxBytesOf. destruct (MaxJSONSize t =? 0); reflexivity.
  - intros Hacc Hlen Hpos Hopen.
    rewrite (ReadJSON_accepted _ _ _ Hacc).
    pose proof (readValue_open t r) as Hrv. cbv zeta in Hrv.
    rewrite (MaxBytesReader_cut _ _ Hlen Hpos) in Hrv. simpl in Hrv.
    replace (Z.to_nat (Z.max 0 (maxBytesOf t))) with (Z.to_nat (maxBytesOf t)) in Hrv
      by lia.
    unfold opensValue in Hopen.
    destruct (json.scanBuffer json.newScanner _ 0) as [n s | e s | n s] eqn:Hsb;
      try discriminate.
    simpl in Hrv. rewrite (readValue_decides _ data _ _ Hrv).
    split; [reflexivity | split; [reflexivity |]].
    unfold bodyTooLarge. cbn [errors.Error]. apply Contains_mid.
Qed.

(** C5.  On a request that passes the content-type check and whose
    body ends normally: an empty body fails with "body must not be
    empty"; a body within the ceiling that ends in the middle of a
    value fails with "body contains badly-formed JSON", which carries
    no offset.  The two errors differ, and the empty body is not a body
    that ends mid-value. *)
Theorem ReadJSON_empty_vs_truncated (r : http.Request) (data : json.Target T) :
  acceptsContentType r = true ->
  http.rd_err (http.Body r) = errors.EOF ->
  (http.rd_data (http.Body r) = "" ->
   snd (ReadJSON t r data) = Some (errors.New "body must not be empty"))
  /\ (len (http.rd_data (http.Body r)) <= maxBytesOf t ->
      endsMidValue (http.rd_data (http.Body r)) = true ->
      snd (ReadJSON t r data) = Some (errors.New "body contains badly-formed JSON"))
  /\ errors.New "body must not be empty" <> errors.New "body contains badly-formed JSON"
  /\ endsMidValue "" = false.
Proof.
  intros Hacc Heof. rewrite (ReadJSON_accepted _ _ _ Hacc).
  pose proof (readValue_open t r) as Hrv. cbv zeta in Hrv.
  repeat split.
  - intros Hempty. rewrite (MaxBytesReader_empty _ _ Hempty) in Hrv.
    rewrite Hempty in Hrv. simpl in Hrv. rewrite Heof in Hrv. simpl in Hrv.
    rewrite (readValue_decides _ data _ _ Hrv). reflexivity.
  - intros Hfit Hmid. rewrite (MaxBytesReader_fits _ _ Hfit) in Hrv.
    unfold endsMidValue in Hmid.
    destruct (json.scanBuffer json.newScanner _ 0) as [n s | e s | n s] eqn:Hsb;
      try discriminate.
    apply andb_prop in Hmid. destruct Hmid as [Hend Hns].
    simpl in Hrv. rewrite Heof in Hrv. simpl in Hrv.
    destruct (json.scan_step s " ") as [s' op]. simpl in Hend.
    destruct (json.is_scanEnd op); [discriminate |].
    rewrite Hns in Hrv.
    rewrite (readValue_decides _ data _ _ Hrv). reflexivity.
  - discriminate.
Qed.

(** C6.  When the first [Decode] fails because a JSON value does not
    fit the type of the destination field, that is with an
    [UnmarshalTypeError] for field [field] at offset [off], [ReadJSON]
    fails with "body contains incorrect JSON type for field ... at
    offset ...": the message carries the field name as [%q] prints it
    (verbatim between quotes for a plain name) and the offset in
    decimal. *)
Theorem ReadJSON_type_mismatch (r : http.Request) (data data1 : json.Target T)
    (dec1 : json.Decoder) (value ty st field : string) (off : Z) :
  acceptsContentType r = true ->
  json.Decode (openDecoder t r) data
  = (dec1, data1, Some (errors.UnmarshalTypeError value ty off st field)) ->
  let msg := "body contains incorrect JSON type for field " +:+ Quote field
             +:+ " at offset " +:+ Itoa off in
  snd (ReadJSON t r data) = Some (errors.errorString msg)
  /\ Contains msg (Quote field) = true
  /\ Contains msg (Itoa off) = true
  /\ (plain field = true -> Contains msg field = true).
Proof.
  intros Hacc HD msg. rewrite (ReadJSON_accepted _ _ _ Hacc).
  rewrite (readBody_first_error _ _ _ _ _ _ HD).
  split; [reflexivity | split; [| split]].
  - apply Contains_mid.
  - unfold msg. do 2 apply Contains_skip. apply Contains_end.
  - intros Hp. apply Contains_Quote_plain. exact Hp.
Qed.

End Classification.

(** ** The scanner: what it can report *)

Section ScannerFacts.
Import json.

Lemma error_isSyntax (s : scanner) (c : ascii) (ctx : string) :
  errIsSyntax (fst (error_ s c ctx)).
Proof. unfold error_, errIsSyntax. simpl. eauto. Qed.

Ltac scan_cases :=
  repeat first
    [ progress simpl
    | match goal with
      | |- context [match ?x with _ => _ end] => is_var x; destruct x
      | |- context [if ?x then _ else _] => destruct x
      end ].

Lemma stateEndValue_isSyntax (s : scanner) (c : ascii) :
  errIsSyntax s -> errIsSyntax (fst (stateEndValue_ s c)).
Proof.
  intros H. unfold stateEndValue_, stateEndTop_, popParseState, with_step.
  destruct s as [st et ps e b]. unfold errIsSyntax in *. simpl in *.
  destruct e as [e |]; [destruct H as (msg & off & ->) |];
    scan_cases; simpl; try exact I; eauto.
Qed.

Lemma scan_step_isSyntax (s : scanner) (c : ascii) :
  errIsSyntax s -> errIsSyntax (fst (scan_step s c)).
Proof.
  intros H. destruct s as [st et ps e b]. unfold errIsSyntax in H. simpl in H.
  unfold scan_step; simpl.
  destruct e as [e |]; [destruct H as (msg & off & ->) |];
  destruct st;
    unfold stateBeginValueOrEmpty_, stateBeginValue_, stateBeginStringOrEmpty_,
      stateBeginString_, stateInString_, stateInStringEsc_, hexStep,
      stateNeg_, state1_, state0_, stateDot_, stateDot0_, stateE_, stateESign_,
      stateE0_, letter, stateEndValue_, stateEndTop_, pushParseState,
      popParseState, with_step, with_stack, error_, errIsSyntax; simpl;
    scan_cases; simpl; try exact I; eauto.
Qed.

Lemma with_bytes_isSyntax (s : scanner) (n : Z) :
  errIsSyntax s -> errIsSyntax (with_bytes s n).
Proof. intros H. exact H. Qed.

Lemma scanBuffer_resultOK (buf : string) :
  forall (s : scanner) (n : nat), errIsSyntax s -> resultOK (scanBuffer s buf n).
Proof.
  induction buf as [|c rest IH]; intros s n Hs; [exact Hs |].
  cbn [scanBuffer].
  pose proof (scan_step_isSyntax (with_bytes s (bytes s + 1)) c
                (with_bytes_isSyntax _ _ Hs)) as H1.
  destruct (scan_step (with_bytes s (bytes s + 1)) c) as [s1 op]. simpl in H1.
  destruct op; try (apply IH; exact H1); try exact I.
  - pose proof (stateEndValue_isSyntax s1 " " H1) as H2.
    destruct (stateEndValue_ s1 " ") as [s2 op2]. simpl in H2.
    destruct (is_scanEnd op2); [exact I | apply IH; exact H2].
  - pose proof (stateEndValue_isSyntax s1 " " H1) as H2.
    destruct (stateEndValue_ s1 " ") as [s2 op2]. simpl in H2.
    destruct (is_scanEnd op2); [exact I | apply IH; exact H2].
  - unfold errIsSyntax in H1. destruct (err s1); simpl; eauto.
Qed.

Lemma scan_step_space (s : scanner) (c : ascii) :
  step s = stateBeginValue -> isSpace c = true ->
  scan_step s c = (s, scanSkipSpace).
Proof.
  intros Hst Hsp. unfold scan_step. rewrite Hst.
  unfold stateBeginValue_. rewrite Hsp. reflexivity.
Qed.

(** White space before a value is skipped and leaves the scanner
    where it was, waiting for the value to begin. *)
Lemma scanBuffer_blank (buf : string) :
  forall (s : scanner) (n : nat),
    nonSpace buf = false -> step s = stateBeginValue ->
    exists s', scanBuffer s buf n = BufferExhausted (n + String.length buf) s'
               /\ step s' = stateBeginValue /\ err s' = err s.
Proof.
  induction buf as [|c rest IH]; intros s n Hns Hst.
  - exists s. simpl. rewrite Nat.add_0_r. auto.
  - simpl in Hns. apply orb_false_elim in Hns. destruct Hns as [Hc Hrest].
    apply negb_false_iff in Hc.
    cbn [scanBuffer]. rewrite scan_step_space by assumption.
    destruct (IH (with_bytes s (bytes s + 1)) (S n) Hrest Hst) as (s' & Heq & Hst' & He).
    exists s'. rewrite Heq. simpl. rewrite Nat.add_succ_r. auto.
Qed.

Lemma nonSpace_app (a b : string) :
  nonSpace (a +:+ b) = nonSpace a || nonSpace b.
Proof.
  induction a as [|c a IH]; [reflexivity |].
  change (nonSpace (String c (a +:+ b)) = nonSpace (String c a) || nonSpace b).
  simpl. rewrite IH. apply orb_assoc.
Qed.

Lemma is_EOF_spec (e : error) : errors.is_EOF e = true <-> e = errors.EOF.
Proof. destruct e; simpl; split; intros H; try discriminate; reflexivity. Qed.

(** The errors of [d.object] on a struct without fields. *)
Lemma objectLoop_empty (strict : bool) (ctx : Context)
    (rec : Context -> GoType -> Value -> GoValue -> GoValue * list error)
    (ms : list (string * Value)) :
  forall v : GoValue,
    Forall (fun e => errors.is_EOF e = false)
      (snd (objectLoop strict "" [] ctx rec ms v)).
Proof.
  induction ms as [|[k val] ms IH]; intros v; [constructor |].
  cbn [objectLoop]. unfold findField. cbn [findBy].
  specialize (IH v). fold (objectLoop strict "" [] ctx rec) in *.
  destruct (objectLoop strict "" [] ctx rec ms v) as [v' errs']. simpl in *.
  destruct strict; [constructor; [reflexivity | exact IH] | exact IH].
Qed.

(** Whatever the throwaway [struct{}] target is given, [d.unmarshal]
    never answers [io.EOF]. *)
Lemma unmarshal_emptyStruct_notEOF (strict : bool) (data : string) (v : GoValue) :
  snd (unmarshalInto emptyStruct strict data v) <> Some errors.EOF.
Proof.
  unfold unmarshalInto. destruct (parse data) as [j |]; [| discriminate].
  assert (H : Forall (fun e => errors.is_EOF e = false)
                (snd (value strict None emptyStruct j v))).
  { destruct j as [item off | off elems | off ms].
    - cbn [value emptyStruct]. unfold literalStore, typeError.
      destruct item as [|c item]; [constructor |].
      destruct (byte_is c "n"); [constructor |].
      destruct (byte_is c "t" || byte_is c "f");
        [repeat constructor |].
      destruct (byte_is c dq); repeat constructor.
    - repeat constructor.
    - cbn [value emptyStruct]. apply objectLoop_empty. }
  destruct (value strict None emptyStruct j v) as [v' errs]. simpl in *.
  destruct errs as [|e errs]; [discriminate |].
  inversion H as [|? ? He _]; subst. simpl. intros Heq. inversion Heq; subst.
  discriminate.
Qed.

Lemma settle_ok (r : http.Reader) (buf : string) (strict : bool)
    (res : ScanResult) (d : Decoder) (n : nat) :
  settle r buf strict res = (d, inl n) ->
  d_r d = r /\ d_buf d = buf /\ d_err d = None /\ d_strict d = strict.
Proof.
  unfold settle. destruct res as [m s | e s | m s]; intros H.
  - inversion H; subst; auto.
  - inversion H.
  - destruct (errors.is_EOF (http.rd_err r)); [| inversion H].
    destruct (scan_step s " ") as [s' op].
    destruct (is_scanEnd op); inversion H; subst; auto.
Qed.

Lemma settle_notEOF (r : http.Reader) (buf : string) (strict : bool)
    (res : ScanResult) (d : Decoder) (e : error) :
  resultOK res ->
  nonSpace buf = true \/ http.rd_err r <> errors.EOF ->
  settle r buf strict res = (d, inr e) -> e <> errors.EOF.
Proof.
  unfold settle. intros Hres Hcase H. destruct res as [m s | e0 s | m s].
  - inversion H.
  - inversion H; subst. destruct Hres as (msg & off & ->). discriminate.
  - destruct (errors.is_EOF (http.rd_err r)) eqn:HE.
    + apply is_EOF_spec in HE.
      destruct Hcase as [Hns | Hne]; [| contradiction].
      destruct (scan_step s " ") as [s' op].
      destruct (is_scanEnd op); [inversion H |].
      rewrite Hns in H. inversion H; subst. discriminate.
    + inversion H; subst. intros Heq. rewrite Heq in HE. discriminate.
Qed.

(** The second [Decode] of [ReadJSON], on a decoder that has read its
    whole stream: it answers [io.EOF] exactly when nothing but white
    space is left and the stream ended normally. *)
Lemma second_Decode (dec : Decoder) (v : GoValue) :
  d_err dec = None ->
  http.rd_data (d_r dec) = "" ->
  let e := snd (Decode (U := Typed_Unmarshaler emptyStruct) dec (Pointer v)) in
  (nonSpace (d_buf dec) = false -> http.rd_err (d_r dec) = errors.EOF ->
   e = Some errors.EOF)
  /\ (nonSpace (d_buf dec) = true \/ http.rd_err (d_r dec) <> errors.EOF ->
      e <> Some errors.EOF).
Proof.
  intros Herr Hdata e. subst e. unfold Decode. rewrite Herr.
  unfold readValue. rewrite Hdata. split.
  - intros Hns Heof.
    destruct (scanBuffer_blank (d_buf dec) (reset (d_scan dec)) 0 Hns eq_refl)
      as (s' & Hsb & Hst & _).
    rewrite Hsb. cbn [scanBuffer]. unfold settle. cbn [http.drain http.rd_err].
    rewrite Heof. cbn [errors.is_EOF].
    rewrite (scan_step_space s' " " Hst eq_refl). cbn [is_scanEnd].
    rewrite nonSpace_app, Hns. reflexivity.
  - intros Hcase.
    pose proof (scanBuffer_resultOK (d_buf dec) (reset (d_scan dec)) 0 I) as Hres.
    assert (Hfin : forall r buf res,
               resultOK res ->
               nonSpace buf = true \/ http.rd_err r <> errors.EOF ->
               snd (match settle r buf (d_strict dec) res with
                    | (dec1, inr e) => (dec1, @Pointer GoValue v, Some e)
                    | (dec1, inl n) =>
                        let data := take n (d_buf dec1) in
                        let dec2 := mkDecoder (d_r dec1) (drop n (d_buf dec1))
                                      (d_scan dec1) (d_err dec1) (d_strict dec1) in
                        let '(x', e) := unmarshalInto emptyStruct (d_strict dec1) data v in
                        (dec2, Pointer x', e)
                    end) <> Some errors.EOF).
    { intros r buf res Hok Hc.
      destruct (settle r buf (d_strict dec) res) as [d1 [n | e1]] eqn:Hset.
      - pose proof (unmarshal_emptyStruct_notEOF (d_strict d1)
                      (take n (d_buf d1)) v) as Hne.
        cbv zeta.
        destruct (unmarshalInto emptyStruct (d_strict d1) (take n (d_buf d1)) v).
        exact Hne.
      - pose proof (settle_notEOF _ _ _ _ _ _ Hok Hc Hset) as Hne.
        simpl. intros Heq. inversion Heq. contradiction. }
    destruct (scanBuffer (reset (d_scan dec)) (d_buf dec) 0) as [n s | e0 s | n s].
    + apply (Hfin (d_r dec) (d_buf dec)); assumption.
    + apply (Hfin (d_r dec) (d_buf dec)); assumption.
    + apply (Hfin (http.drain (d_r dec)) (d_buf dec +:+ "")).
      * exact Hres.
      * rewrite nonSpace_app. simpl. rewrite orb_false_r. exact Hcase.
Qed.

End ScannerFacts.

(** ** ReadJSON: exactly one value *)

Section SingleValue.

Context {T : Type} {U : json.Unmarshaler T}.
Variable t : Tools.

(** A successful first [Decode] took the leading [n] bytes of the
    capped body as its value and left the rest in the buffer. *)
Lemma Decode_open_ok (r : http.Request) (x x' : T) (dec1 : json.Decoder) :
  json.Decode (openDecoder t r) (json.Pointer x) = (dec1, json.Pointer x', None) ->
  let body := http.MaxBytesReader (http.Body r) (maxBytesOf t) in
  json.d_r dec1 = http.drain body
  /\ json.d_err dec1 = None
  /\ exists n : nat,
       json.d_buf dec1 = drop n (http.rd_data body)
       /\ json.unmarshalValue (negb (AllowUnknownFields t))
            (take n (http.rd_data body)) x = (x', None).
Proof.
  intros HD body. unfold json.Decode in HD.
  rewrite openDecoder_err, readValue_open in HD. fold body in HD.
  destruct (json.settle (http.drain body) (http.rd_data body)
              (negb (AllowUnknownFields t))
              (json.scanBuffer json.newScanner (http.rd_data body) 0))
    as [d [n | e]] eqn:Hset; [| inversion HD].
  apply settle_ok in Hset. destruct Hset as (Hr & Hb & He & Hs).
  rewrite Hs, Hb in HD.
  destruct (json.unmarshalValue (negb (AllowUnknownFields t))
              (take n (http.rd_data body)) x) as [y e] eqn:HU.
  inversion HD; subst. simpl. repeat split; try assumption.
  exists n. split; [reflexivity | exact HU].
Qed.

(** C1.  Let the request pass the content-type check and let the first
    [Decode] succeed, storing [x'] and leaving [rest] of the stream
    behind the value.  If [rest] holds anything but white space (a
    second value, trailing garbage), or the stream does not end with a
    plain end-of-stream, [ReadJSON] fails with "body must only contain a
    single JSON value".  If [rest] is at most white space and the
    stream ends normally, so that the body holds exactly one value,
    [ReadJSON] returns nil.  Either way the destination holds the
    decoded value [x']. *)
Theorem ReadJSON_single_value (r : http.Request) (x x' : T)
    (dec1 : json.Decoder) :
  acceptsContentType r = true ->
  json.Decode (openDecoder t r) (json.Pointer x) = (dec1, json.Pointer x', None) ->
  let body := http.MaxBytesReader (http.Body r) (maxBytesOf t) in
  let rest := json.d_buf dec1 in
  (exists n : nat,
      rest = drop n (http.rd_data body)
      /\ json.unmarshalValue (negb (AllowUnknownFields t))
           (take n (http.rd_data body)) x = (x', None))
  /\ (json.nonSpace rest = true \/ http.rd_err body <> errors.EOF ->
      snd (ReadJSON t r (json.Pointer x)) = Some singleValueError)
  /\ (json.nonSpace rest = false -> http.rd_err body = errors.EOF ->
      snd (ReadJSON t r (json.Pointer x)) = None)
  /\ snd (fst (ReadJSON t r (json.Pointer x))) = json.Pointer x'.
Proof.
  intros Hacc HD body rest.
  destruct (Decode_open_ok _ _ _ _ HD) as (Hr & He & Hn). fold body in Hr, Hn.
  assert (Hdata : http.rd_data (json.d_r dec1) = "") by (rewrite Hr; reflexivity).
  assert (Herr : http.rd_err (json.d_r dec1) = http.rd_err body)
    by (rewrite Hr; reflexivity).
  pose proof (second_Decode dec1 (json.zero json.emptyStruct) He Hdata) as H2.
  cbv zeta in H2. rewrite Herr in H2. destruct H2 as [Hyes Hno].
  rewrite (ReadJSON_accepted _ _ _ Hacc). unfold readBody. rewrite HD.
  fold rest in Hyes, Hno.
  destruct (json.Decode dec1 (json.Pointer (json.zero json.emptyStruct)))
    as [[dec2 d2] e2]. simpl in Hyes, Hno.
  split; [exact Hn |]. split; [| split].
  - intros Hcase. specialize (Hno Hcase).
    destruct e2 as [[] |]; try reflexivity. contradiction.
  - intros Hns Heof. rewrite (Hyes Hns Heof). reflexivity.
  - destruct e2 as [[] |]; reflexivity.
Qed.

End SingleValue.

(** ** The typed decoder: unknown fields *)

Section UnknownFields.
Import json.

(** Strictness changes what is reported, never what is stored; and on
    an input the lenient decoder has no complaint about, the strict
    decoder reports the unknown keys and nothing else. *)
Lemma value_modes (j : Value) :
  forall (ctx : Context) (ty : GoType) (v : GoValue),
    fst (value true ctx ty j v) = fst (value false ctx ty j v)
    /\ (snd (value false ctx ty j v) = [] ->
        snd (value true ctx ty j v) = map unknownField (unknownKeys ty j)).
Proof.
  induction j as [item off | off elems _ | off ms IH] using Value_induction;
    intros ctx ty v.
  - split; [reflexivity |]. intros H. exact H.
  - split; [reflexivity |]. intros H. exact H.
  - destruct ty as [| | | tname ts fields];
      try (split; [reflexivity | intros H; exact H]).
    cbn [value unknownKeys]. revert v.
    induction ms as [|[k val] ms IHms]; intros v; [split; reflexivity |].
    inversion IH as [|? ? Hval Hrest]; subst. specialize (IHms Hrest).
    cbn [snd] in Hval.
    cbn [objectLoop flat_map fst snd].
    destruct (findField (unquote k) fields) as [[[i name] fty] |].
    + destruct (Hval (Some (tname, (fieldStack ctx ++ [name])%list)) fty
                  (getField i fty v)) as [Hfst Hsnd].
      destruct (value true _ fty val (getField i fty v)) as [sub1 errs1].
      destruct (value false _ fty val (getField i fty v)) as [sub2 errs2].
      simpl in Hfst, Hsnd. subst sub2.
      destruct (IHms (setField i sub1 v)) as [Hfst' Hsnd'].
      destruct (objectLoop true tname fields ctx _ ms (setField i sub1 v))
        as [v1 errs1'].
      destruct (objectLoop false tname fields ctx _ ms (setField i sub1 v))
        as [v2 errs2'].
      simpl in *. split; [exact Hfst' |].
      intros Happ. apply app_eq_nil in Happ. destruct Happ as [H1 H2].
      rewrite map_app, (Hsnd H1), (Hsnd' H2). reflexivity.
    + destruct (IHms v) as [Hfst' Hsnd'].
      destruct (objectLoop true tname fields ctx _ ms v) as [v1 errs1'].
      destruct (objectLoop false tname fields ctx _ ms v) as [v2 errs2'].
      simpl in *. split; [exact Hfst' |].
      intros H2. rewrite (Hsnd' H2). reflexivity.
Qed.

(** The lenient decoder does the same with an input and with that
    input stripped of its unknown members. *)
Lemma value_prune (j : Value) :
  forall (ctx : Context) (ty : GoType) (v : GoValue),
    value false ctx ty (prune ty j) v = value false ctx ty j v.
Proof.
  induction j as [item off | off elems _ | off ms IH] using Value_induction;
    intros ctx ty v; try reflexivity.
  destruct ty as [| | | tname ts fields]; try reflexivity.
  cbn [value prune]. revert v.
  induction ms as [|[k val] ms IHms]; intros v; [reflexivity |].
  inversion IH as [|? ? Hval Hrest]; subst. specialize (IHms Hrest).
    cbn [snd] in Hval.
  cbn [flat_map fst snd].
  destruct (findField (unquote k) fields) as [[[i name] fty] |] eqn:Hf.
  - cbn [app objectLoop]. rewrite Hf. rewrite Hval.
    destruct (value false _ fty val (getField i fty v)) as [sub errs].
    rewrite IHms. reflexivity.
  - cbn [app objectLoop]. rewrite Hf. rewrite IHms.
    destruct (objectLoop false tname fields ctx _ ms v) as [v' errs'].
    reflexivity.
Qed.

Lemma classify_unknownField (maxBytes : Z) (key : string) :
  classify maxBytes (unknownField key)
  = errors.errorString ("body contains unknown key " +:+ Quote key).
Proof.
  unfold classify, unknownField.
  cbn [errors.As_SyntaxError errors.Is_ErrUnexpectedEOF
       errors.As_UnmarshalTypeError errors.Is_EOF errors.Error].
  rewrite HasPrefix_app, TrimPrefix_app. reflexivity.
Qed.

End UnknownFields.

(** ** The codec: what [json.Marshal] writes, the decoder reads back *)

Section RoundTrip.
Import json.

Lemma encodeValue_struct (ty : GoType) (vs : list GoValue) :
  encodeValue ty (VStruct vs)
  = "{" +:+ joinFields (encodeFields encodeValue vs
                          (match ty with TStruct _ _ fs => fs | _ => [] end)) +:+ "}".
Proof. reflexivity. Qed.

Lemma take_app (a b : string) : take (String.length a) (a +:+ b) = a.
Proof.
  induction a as [|c a IH]; [destruct b; reflexivity |].
  change (String c (take (String.length a) (a +:+ b)) = String c a).
  f_equal. exact IH.
Qed.

Lemma take_drop (n : nat) (s : string) : take n s +:+ drop n s = s.
Proof.
  revert s. induction n as [|n IH]; intros s; [reflexivity |].
  destruct s as [|c s]; [reflexivity |].
  change (String c (take n s +:+ drop n s) = String c s). f_equal. apply IH.
Qed.

Lemma length_take (n : nat) (s : string) :
  (n <= String.length s)%nat -> String.length (take n s) = n.
Proof.
  revert s. induction n as [|n IH]; intros s H; [reflexivity |].
  destruct s as [|c s]; [simpl in H; lia |]. simpl. f_equal. apply IH. simpl in H. lia.
Qed.

Lemma append_nil_r (a : string) : a +:+ "" = a.
Proof.
  induction a as [|c a IH]; [reflexivity |].
  change (String c (a +:+ "") = String c a). f_equal. exact IH.
Qed.

(** UTF-8: a decoded multi-byte rune encodes back to the bytes it came from. *)
Lemma EncodeRune_DecodeRune (s : string) (r : Z) (w : nat) :
  DecodeRune s = (r, w) -> (2 <= w)%nat ->
  EncodeRune r = take w s /\ (w <= String.length s)%nat /\ 128 <= r.
Proof.
  unfold DecodeRune. destruct s as [|c0 s]; [intros H; inversion H; lia |].
  pose proof (byte_val_range c0) as R0.
  destruct (byte_val c0 <? 128) eqn:E0; [intros H; inversion H; lia |].
  apply Z.ltb_ge in E0.
  destruct ((194 <=? byte_val c0) && (byte_val c0 <=? 223)) eqn:E2.
  { apply andb_prop in E2. destruct E2 as [L H]. apply Z.leb_le in L, H.
    destruct s as [|c1 s]; [intros HH; inversion HH; lia |].
    unfold cont. pose proof (byte_val_range c1) as R1.
    destruct ((128 <=? byte_val c1) && (byte_val c1 <=? 191)) eqn:C1;
      [| intros HH; inversion HH; lia].
    apply andb_prop in C1. destruct C1 as [L1 H1]. apply Z.leb_le in L1, H1.
    intros HH _. inversion HH; subst. clear HH.
    set (r := (byte_val c0 - 192) * 64 + (byte_val c1 - 128)).
    assert (Hr : 128 <= r < 2048) by (unfold r; lia).
    assert (Hq : r / 64 = byte_val c0 - 192)
      by (symmetry; apply (Z.div_unique r 64 _ (byte_val c1 - 128)); unfold r; lia).
    assert (Hm : r mod 64 = byte_val c1 - 128)
      by (symmetry; apply (Z.mod_unique r 64 (byte_val c0 - 192)); unfold r; lia).
    split; [| split; [simpl; lia | lia]].
    unfold EncodeRune.
    replace ((r <? 0) || (1114111 <? r) || ((55296 <=? r) && (r <=? 57343))) with false
      by (symmetry; repeat rewrite orb_false_iff; repeat split;
          [apply Z.ltb_ge | apply Z.ltb_ge | apply andb_false_iff; left; apply Z.leb_gt]; lia).
    replace (r <? 128) with false by (symmetry; apply Z.ltb_ge; lia).
    replace (r <? 2048) with true by (symmetry; apply Z.ltb_lt; lia).
    rewrite Hq, Hm. simpl take.
    f_equal; [apply byte_of_inj_val; lia |]. f_equal. apply byte_of_inj_val. lia. }
  destruct ((224 <=? byte_val c0) && (byte_val c0 <=? 239)) eqn:E3.
  { apply andb_prop in E3. destruct E3 as [L H]. apply Z.leb_le in L, H.
    destruct s as [|c1 [|c2 s]]; try (intros HH; inversion HH; lia).
    unfold cont. pose proof (byte_val_range c1) as R1. pose proof (byte_val_range c2) as R2.
    destruct (((if byte_val c0 =? 224 then 160 else 128) <=? byte_val c1)
              && (byte_val c1 <=? (if byte_val c0 =? 237 then 159 else 191))
              && ((128 <=? byte_val c2) && (byte_val c2 <=? 191))) eqn:C;
      [| intros HH; inversion HH; lia].
    apply andb_prop in C. destruct C as [C C2]. apply andb_prop in C. destruct C as [Lo Hi].
    apply andb_prop in C2. destruct C2 as [L2 H2].
    apply Z.leb_le in Lo, Hi, L2, H2.
    intros HH _. inversion HH; subst. clear HH.
    set (r := (byte_val c0 - 224) * 4096 + (byte_val c1 - 128) * 64 + (byte_val c2 - 128)).
    assert (Hlo : (byte_val c0 = 224 -> 160 <= byte_val c1)
                  /\ (byte_val c0 = 237 -> byte_val c1 <= 159)
                  /\ 128 <= byte_val c1 <= 191).
    { revert Lo Hi.
      destruct (Z.eqb_spec (byte_val c0) 224); destruct (Z.eqb_spec (byte_val c0) 237);
        intros; lia. }
    clear Lo Hi.
    assert (Hr : 2048 <= r < 65536 /\ ~ (55296 <= r <= 57343)) by (unfold r; lia).
    destruct Hr as [Hr Hsur].
    assert (Hq : r / 4096 = byte_val c0 - 224)
      by (symmetry; apply (Z.div_unique r 4096 _ ((byte_val c1 - 128) * 64 + (byte_val c2 - 128)));
          unfold r; lia).
    assert (Hq2 : r / 64 = (byte_val c0 - 224) * 64 + (byte_val c1 - 128))
      by (symmetry; apply (Z.div_unique r 64 _ (byte_val c2 - 128)); unfold r; lia).
    assert (Hm2 : (r / 64) mod 64 = byte_val c1 - 128)
      by (rewrite Hq2; symmetry; apply (Z.mod_unique _ 64 (byte_val c0 - 224)); lia).
    assert (Hm : r mod 64 = byte_val c2 - 128)
      by (symmetry;
          apply (Z.mod_unique r 64 ((byte_val c0 - 224) * 64 + (byte_val c1 - 128)));
          unfold r; lia).
    split; [| split; [simpl; lia | lia]].
    unfold EncodeRune.
    replace ((r <? 0) || (1114111 <? r) || ((55296 <=? r) && (r <=? 57343))) with false.
    2:{ symmetry. repeat rewrite orb_false_iff. repeat split;
          [apply Z.ltb_ge; lia | apply Z.ltb_ge; lia |].
        apply andb_false_iff.
        destruct (Z.le_gt_cases 55296 r); [right; apply Z.leb_gt; lia | left; apply Z.leb_gt; lia]. }
    replace (r <? 128) with false by (symmetry; apply Z.ltb_ge; lia).
    replace (r <? 2048) with false by (symmetry; apply Z.ltb_ge; lia).
    replace (r <? 65536) with true by (symmetry; apply Z.ltb_lt; lia).
    rewrite Hq, Hm2, Hm. simpl take.
    f_equal; [apply byte_of_inj_val; lia |].
    f_equal; [apply byte_of_inj_val; lia |]. f_equal. apply byte_of_inj_val. lia. }
  destruct ((240 <=? byte_val c0) && (byte_val c0 <=? 244)) eqn:E4;
    [| intros HH; inversion HH; lia].
  apply andb_prop in E4. destruct E4 as [L H]. apply Z.leb_le in L, H.
  destruct s as [|c1 [|c2 [|c3 s]]]; try (intros HH; inversion HH; lia).
  unfold cont. pose proof (byte_val_range c1) as R1.
  pose proof (byte_val_range c2) as R2. pose proof (byte_val_range c3) as R3.
  destruct (((if byte_val c0 =? 240 then 144 else 128) <=? byte_val c1)
            && (byte_val c1 <=? (if byte_val c0 =? 244 then 143 else 191))
            && ((128 <=? byte_val c2) && (byte_val c2 <=? 191))
            && ((128 <=? byte_val c3) && (byte_val c3 <=? 191))) eqn:C;
    [| intros HH; inversion HH; lia].
  apply andb_prop in C. destruct C as [C C3]. apply andb_prop in C. destruct C as [C C2].
  apply andb_prop in C. destruct C as [Lo Hi].
  apply andb_prop in C2. destruct C2 as [L2 H2].
  apply andb_prop in C3. destruct C3 as [L3 H3].
  apply Z.leb_le in Lo, Hi, L2, H2, L3, H3.
  intros HH _. inversion HH; subst. clear HH.
  set (r := (byte_val c0 - 240) * 262144 + (byte_val c1 - 128) * 4096
            + (byte_val c2 - 128) * 64 + (byte_val c3 - 128)).
  assert (Hlo : (byte_val c0 = 240 -> 144 <= byte_val c1)
                /\ (byte_val c0 = 244 -> byte_val c1 <= 143)
                /\ 128 <= byte_val c1 <= 191).
  { revert Lo Hi.
    destruct (Z.eqb_spec (byte_val c0) 240); destruct (Z.eqb_spec (byte_val c0) 244);
      intros; lia. }
  clear Lo Hi.
  assert (Hr : 65536 <= r <= 1114111) by (unfold r; lia).
  assert (Hq : r / 262144 = byte_val c0 - 240)
    by (symmetry;
        apply (Z.div_unique r 262144 _
                 ((byte_val c1 - 128) * 4096 + (byte_val c2 - 128) * 64 + (byte_val c3 - 128)));
        unfold r; lia).
  assert (Hq1 : r / 4096 = (byte_val c0 - 240) * 64 + (byte_val c1 - 128))
    by (symmetry;
        apply (Z.div_unique r 4096 _ ((byte_val c2 - 128) * 64 + (byte_val c3 - 128)));
        unfold r; lia).
  assert (Hq2 : r / 64 = ((byte_val c0 - 240) * 64 + (byte_val c1 - 128)) * 64
                         + (byte_val c2 - 128))
    by (symmetry; apply (Z.div_unique r 64 _ (byte_val c3 - 128)); unfold r; lia).
  assert (Hm1 : (r / 4096) mod 64 = byte_val c1 - 128)
    by (rewrite Hq1; symmetry; apply (Z.mod_unique _ 64 (byte_val c0 - 240)); lia).
  assert (Hm2 : (r / 64) mod 64 = byte_val c2 - 128)
    by (rewrite Hq2; symmetry;
        apply (Z.mod_unique _ 64 ((byte_val c0 - 240) * 64 + (byte_val c1 - 128))); lia).
  assert (Hm : r mod 64 = byte_val c3 - 128)
    by (symmetry;
        apply (Z.mod_unique r 64 (((byte_val c0 - 240) * 64 + (byte_val c1 - 128)) * 64
                                  + (byte_val c2 - 128)));
        unfold r; lia).
  split; [| split; [simpl; lia | lia]].
  unfold EncodeRune.
  replace ((r <? 0) || (1114111 <? r) || ((55296 <=? r) && (r <=? 57343))) with false
    by (symmetry; repeat rewrite orb_false_iff; repeat split;
        [apply Z.ltb_ge | apply Z.ltb_ge | apply andb_false_iff; right; apply Z.leb_gt]; lia).
  replace (r <? 128) with false by (symmetry; apply Z.ltb_ge; lia).
  replace (r <? 2048) with false by (symmetry; apply Z.ltb_ge; lia).
  replace (r <? 65536) with false by (symmetry; apply Z.ltb_ge; lia).
  rewrite Hq, Hm1, Hm2, Hm. simpl take.
  f_equal; [apply byte_of_inj_val; lia |].
  f_equal; [apply byte_of_inj_val; lia |].
  f_equal; [apply byte_of_inj_val; lia |]. f_equal. apply byte_of_inj_val. lia.
Qed.

Lemma DecodeRune_prefix (s Y : string) (r : Z) (w : nat) :
  DecodeRune s = (r, w) -> (2 <= w)%nat ->
  DecodeRune (take w s +:+ Y) = (r, w) /\ allHigh (take w s) = true.
Proof.
  unfold DecodeRune. destruct s as [|c0 s]; [intros H; inversion H; lia |].
  destruct (byte_val c0 <? 128) eqn:E0; [intros H; inversion H; lia |].
  assert (H0 : (128 <=? byte_val c0) = true)
    by (apply Z.leb_le; apply Z.ltb_ge in E0; exact E0).
  destruct ((194 <=? byte_val c0) && (byte_val c0 <=? 223)) eqn:E2.
  { destruct s as [|c1 s]; [intros HH; inversion HH; lia |].
    destruct (cont c1) eqn:C1; [| intros HH; inversion HH; lia].
    intros HH _. inversion HH; subst. simpl. rewrite E0, E2, C1, H0.
    unfold cont in C1. apply andb_prop in C1. destruct C1 as [-> _]. auto. }
  destruct ((224 <=? byte_val c0) && (byte_val c0 <=? 239)) eqn:E3.
  { destruct s as [|c1 [|c2 s]]; try (intros HH; inversion HH; lia).
    destruct (((if byte_val c0 =? 224 then 160 else 128) <=? byte_val c1)
              && (byte_val c1 <=? (if byte_val c0 =? 237 then 159 else 191))
              && cont c2) eqn:C; [| intros HH; inversion HH; lia].
    intros HH _. inversion HH; subst. simpl. rewrite E0, E2, E3, C, H0.
    apply andb_prop in C. destruct C as [C C2]. apply andb_prop in C. destruct C as [Lo _].
    unfold cont in C2. apply andb_prop in C2. destruct C2 as [-> _].
    split; [reflexivity |].
    replace (128 <=? byte_val c1) with true; [reflexivity |].
    symmetry. apply Z.leb_le. apply Z.leb_le in Lo.
    destruct (byte_val c0 =? 224); lia. }
  destruct ((240 <=? byte_val c0) && (byte_val c0 <=? 244)) eqn:E4;
    [| intros HH; inversion HH; lia].
  destruct s as [|c1 [|c2 [|c3 s]]]; try (intros HH; inversion HH; lia).
  destruct (((if byte_val c0 =? 240 then 144 else 128) <=? byte_val c1)
            && (byte_val c1 <=? (if byte_val c0 =? 244 then 143 else 191))
            && cont c2 && cont c3) eqn:C; [| intros HH; inversion HH; lia].
  intros HH _. inversion HH; subst. simpl. rewrite E0, E2, E3, E4, C, H0.
  apply andb_prop in C. destruct C as [C C3]. apply andb_prop in C. destruct C as [C C2].
  apply andb_prop in C. destruct C as [Lo _].
  unfold cont in C2, C3. apply andb_prop in C2. destruct C2 as [-> _].
  apply andb_prop in C3. destruct C3 as [-> _].
  split; [reflexivity |].
  replace (128 <=? byte_val c1) with true; [reflexivity |].
  symmetry. apply Z.leb_le. apply Z.leb_le in Lo.
  destruct (byte_val c0 =? 240); lia.
Qed.

Lemma byte_is_val (c d : ascii) :
  byte_is c (String d EmptyString) = (byte_val c =? byte_val d).
Proof.
  unfold byte_is. simpl. destruct (Ascii.eqb_spec c d) as [-> | Hne].
  - symmetry. apply Z.eqb_refl.
  - symmetry. apply Z.eqb_neq. intros Heq. apply Hne.
    rewrite <- (byte_of_val c), <- (byte_of_val d), Heq. reflexivity.
Qed.

(** One ASCII byte through [encodeByte], then through the literal scan
    and through [unquote]. *)
Lemma encodeByte_spec (c : ascii) (f : nat) (X : string) :
  byte_val c < 128 ->
  unquoteBody (S f) (encodeByte c +:+ X) = String c (unquoteBody f X)
  /\ stringExtent (encodeByte c +:+ X) false
     = (String.length (encodeByte c) + stringExtent X false)%nat
  /\ (1 <= String.length (encodeByte c))%nat.
Proof.
  intros H.
  destruct c as [b0 b1 b2 b3 b4 b5 b6 b7].
  destruct b7; [exfalso; destruct b0, b1, b2, b3, b4, b5, b6; compute in H; discriminate |].
  destruct b0, b1, b2, b3, b4, b5, b6;
    (split; [reflexivity | split; [reflexivity | simpl; lia]]).
Qed.

Lemma high_not (c : ascii) :
  128 <= byte_val c ->
  byte_is c "\" = false /\ byte_is c dq = false
  /\ (byte_val c <? 32) = false /\ (byte_val c <? 128) = false.
Proof.
  intros H. unfold dq. rewrite !byte_is_val.
  change (byte_val "\") with 92. change (byte_val dquote) with 34.
  repeat split;
    [apply Z.eqb_neq; lia | apply Z.eqb_neq; lia | apply Z.ltb_ge; lia | apply Z.ltb_ge; lia].
Qed.

Lemma stringExtent_high (t Y : string) :
  allHigh t = true ->
  stringExtent (t +:+ Y) false = (String.length t + stringExtent Y false)%nat.
Proof.
  induction t as [|c t IH]; intros H; [reflexivity |].
  simpl in H. apply andb_prop in H. destruct H as [Hc Ht]. apply Z.leb_le in Hc.
  destruct (high_not c Hc) as (H1 & H2 & _).
  change (String c t +:+ Y) with (String c (t +:+ Y)).
  cbn [stringExtent]. rewrite H1, H2, (IH Ht). reflexivity.
Qed.

Lemma unquoteBody_high (f : nat) (c : ascii) (rest : string) :
  128 <= byte_val c ->
  unquoteBody (S f) (String c rest)
  = (let '(r, w) := DecodeRune (String c rest) in
     EncodeRune r +:+ unquoteBody f (drop (Nat.pred w) rest)).
Proof.
  intros H. destruct (high_not c H) as (H1 & H2 & H3 & H4).
  cbn [unquoteBody]. rewrite H1, H2, H3, H4. reflexivity.
Qed.

Lemma drop_length_le (n : nat) (s : string) :
  (String.length (drop n s) <= String.length s)%nat.
Proof.
  revert s. induction n as [|n IH]; intros s; [simpl; lia |].
  destruct s as [|c s]; [simpl; lia |]. simpl. specialize (IH s). lia.
Qed.

Lemma encodeBody_nil (fuel : nat) : encodeBody fuel "" = "".
Proof. destruct fuel; reflexivity. Qed.

(** A well-formed string through [encodeString]: the literal scan finds
    its closing quote and [unquote] gives the string back. *)
Lemma encodeBody_spec (fuel : nat) :
  forall (s X : string),
    validUTF8 fuel s = true ->
    stringExtent (encodeBody fuel s +:+ dq +:+ X) false
    = (String.length (encodeBody fuel s) + 1)%nat
    /\ (String.length s <= String.length (encodeBody fuel s))%nat
    /\ forall f : nat,
         (String.length s < f)%nat ->
         unquoteBody f (encodeBody fuel s +:+ dq +:+ X) = s.
Proof.
  induction fuel as [|fuel IH]; intros s X Hv.
  - destruct s; [| discriminate]. repeat split; [simpl; lia |].
    intros f Hf. destruct f; [simpl in Hf; lia | reflexivity].
  - destruct s as [|c rest].
    { repeat split; [simpl; lia |].
      intros f Hf. destruct f; [simpl in Hf; lia | reflexivity]. }
    cbn [validUTF8] in Hv. cbn [encodeBody].
    destruct (byte_val c <? 128) eqn:Hc.
    + apply Z.ltb_lt in Hc.
      destruct (IH rest X Hv) as (He & Hl & Hu).
      rewrite append_assoc.
      destruct (encodeByte_spec c 0 (encodeBody fuel rest +:+ dq +:+ X) Hc)
        as (_ & Hext & Hlen).
      rewrite Hext, He, length_append. split; [lia |]. split; [simpl; lia |].
      intros f Hf. destruct f as [|f]; [lia |].
      destruct (encodeByte_spec c f (encodeBody fuel rest +:+ dq +:+ X) Hc) as (Hq & _).
      rewrite Hq, Hu by (simpl in Hf; lia). reflexivity.
    + apply Z.ltb_ge in Hc.
      destruct (DecodeRune (String c rest)) as [r w] eqn:HD.
      apply andb_prop in Hv. destruct Hv as [Hw Hv]. apply Nat.leb_le in Hw.
      destruct (EncodeRune_DecodeRune _ _ _ HD Hw) as (Henc & Hwl & Hr).
      destruct (IH (drop (Nat.pred w) rest) X Hv) as (He & Hl & Hu).
      set (rest' := drop (Nat.pred w) rest) in *.
      set (Z0 := encodeBody fuel rest' +:+ dq +:+ X) in *.
      assert (Hsplit : String c rest = take w (String c rest) +:+ rest').
      { destruct w as [|w]; [lia |]. symmetry. apply (take_drop (S w) (String c rest)). }
      assert (Hlt : String.length (take w (String c rest)) = w) by (apply length_take; exact Hwl).
      assert (Hlr : (S (String.length rest) = w + String.length rest')%nat).
      { change (S (String.length rest)) with (String.length (String c rest)).
        rewrite Hsplit at 1. rewrite length_append, Hlt. reflexivity. }
      replace ((r =? RuneError) && (w =? 1)%nat) with false
        by (symmetry; apply andb_false_iff; right; apply Nat.eqb_neq; lia).
      assert (Hcopy :
        stringExtent (take w (String c rest) +:+ Z0) false
        = (w + (String.length (encodeBody fuel rest') + 1))%nat
        /\ forall f, (String.length (String c rest) < f)%nat ->
             unquoteBody f (take w (String c rest) +:+ Z0) = String c rest).
      { destruct (DecodeRune_prefix _ Z0 _ _ HD Hw) as [HDp Hhigh].
        split.
        - rewrite (stringExtent_high _ _ Hhigh), Hlt. rewrite He. reflexivity.
        - intros f Hf. destruct f as [|f]; [lia |].
          destruct w as [|w]; [lia |].
          change (take (S w) (String c rest) +:+ Z0)
            with (String c (take w rest +:+ Z0)) in *.
          rewrite (unquoteBody_high f c _ Hc), HDp, Henc.
          cbn [Nat.pred].
          assert (Hlw : String.length (take w rest) = w)
            by (apply length_take; simpl in Hwl; lia).
          rewrite <- Hlw at 2. rewrite drop_app.
          rewrite Hu by (simpl in Hf; lia).
          rewrite <- Hsplit. reflexivity. }
      destruct Hcopy as [Hcx Hcu].
      destruct (r =? 8232) eqn:E1; [| destruct (r =? 8233) eqn:E2].
      * apply Z.eqb_eq in E1. subst r. rewrite append_assoc. fold Z0.
        assert (Hw3 : w = 3%nat) by (rewrite <- Hlt, <- Henc; reflexivity).
        split; [| split].
        -- change (stringExtent ("\u2028" +:+ Z0) false)
             with (6 + stringExtent Z0 false)%nat.
           rewrite He, length_append. simpl. lia.
        -- rewrite length_append. simpl. simpl in Hwl. lia.
        -- intros f Hf. destruct f as [|f]; [lia |].
           change (unquoteBody (S f) ("\u2028" +:+ Z0))
             with (EncodeRune 8232 +:+ unquoteBody f Z0).
           rewrite Henc. rewrite Hu by (simpl in Hf; lia).
           rewrite <- Hsplit. reflexivity.
      * apply Z.eqb_eq in E2. subst r. rewrite append_assoc. fold Z0.
        assert (Hw3 : w = 3%nat) by (rewrite <- Hlt, <- Henc; reflexivity).
        split; [| split].
        -- change (stringExtent ("\u2029" +:+ Z0) false)
             with (6 + stringExtent Z0 false)%nat.
           rewrite He, length_append. simpl. lia.
        -- rewrite length_append. simpl. simpl in Hwl. lia.
        -- intros f Hf. destruct f as [|f]; [lia |].
           change (unquoteBody (S f) ("\u2029" +:+ Z0))
             with (EncodeRune 8233 +:+ unquoteBody f Z0).
           rewrite Henc. rewrite Hu by (simpl in Hf; lia).
           rewrite <- Hsplit. reflexivity.
      * rewrite append_assoc. fold Z0. split; [| split].
        -- rewrite Hcx, length_append, Hlt. lia.
        -- rewrite length_append, Hlt. simpl. lia.
        -- exact Hcu.
Qed.

(** Strings, as literals *)
Lemma encodeString_spec (s X : string) :
  ValidUTF8 s = true ->
  literalExtent (encodeString s +:+ X) = String.length (encodeString s)
  /\ unquote (encodeString s) = s.
Proof.
  intros Hv. unfold ValidUTF8 in Hv. unfold encodeString.
  destruct (encodeBody_spec _ s X Hv) as (He & _ & _).
  destruct (encodeBody_spec _ s "" Hv) as (_ & Hl & Hu).
  set (E := encodeBody (String.length s) s) in *.
  change (dq +:+ E +:+ dq) with (String dquote (E +:+ dq)).
  split.
  - change (String dquote (E +:+ dq) +:+ X) with (String dquote ((E +:+ dq) +:+ X)).
    cbn [literalExtent]. change (byte_is dquote dq) with true. cbn iota.
    rewrite append_assoc, He. cbn [String.length]. rewrite length_append. reflexivity.
  - cbn [unquote]. specialize (Hu (String.length (E +:+ dq))).
    change (E +:+ dq +:+ "") with (E +:+ dq) in Hu. apply Hu.
    rewrite length_append. simpl. lia.
Qed.

(** Numbers *)
Lemma digitsVal_acc (d : Decimal.uint) :
  forall p : positive,
    digitsVal (NilEmpty.string_of_uint d) (Z.pos p) = Some (Z.pos (Pos.of_uint_acc d p)).
Proof.
  induction d; intros p; cbn [NilEmpty.string_of_uint digitsVal Pos.of_uint_acc];
    try reflexivity;
    change (isDigit _) with true; cbn iota;
    match goal with
    | |- digitsVal _ ?a = _ =>
        match goal with
        | |- _ = Some (Z.pos (Pos.of_uint_acc _ ?q)) =>
            replace a with (Z.pos q)
              by (match goal with
                  | |- context [byte_val ?c] =>
                      let z := eval vm_compute in (byte_val c) in
                      change (byte_val c) with z
                  end; lia)
        end
    end; apply IHd.
Qed.

Lemma digitsVal_0 (d : Decimal.uint) :
  digitsVal (NilEmpty.string_of_uint d) 0 = Some (Z.of_N (Pos.of_uint d)).
Proof.
  induction d; cbn [NilEmpty.string_of_uint digitsVal Pos.of_uint];
    try reflexivity; try exact IHd;
    change (isDigit _) with true; cbn iota;
    match goal with
    | |- digitsVal _ ?a = Some (Z.of_N (N.pos (Pos.of_uint_acc _ ?q))) =>
        change a with (Z.pos q)
    end; apply digitsVal_acc.
Qed.

Lemma allNumber_uint (d : Decimal.uint) : allNumber (NilEmpty.string_of_uint d) = true.
Proof. induction d; simpl; try reflexivity; exact IHd. Qed.

Lemma numberExtent_app (t X : string) :
  allNumber t = true -> endsValue X = true ->
  numberExtent (t +:+ X) = String.length t.
Proof.
  intros Ht HX. induction t as [|c t IH].
  - destruct X as [|x X]; [reflexivity |]. simpl in HX. simpl.
    apply negb_true_iff in HX. rewrite HX. reflexivity.
  - simpl in Ht. apply andb_prop in Ht. destruct Ht as [Hc Ht].
    change (String c t +:+ X) with (String c (t +:+ X)).
    cbn [numberExtent String.length]. rewrite Hc, (IH Ht). reflexivity.
Qed.

Lemma to_uint_nonnil (p : positive) : Pos.to_uint p <> Decimal.Nil.
Proof.
  intros H. pose proof (DecimalPos.Unsigned.of_to p) as Hp.
  rewrite H in Hp. discriminate.
Qed.

Lemma numStart_not (c : ascii) :
  isNumStart c = true ->
  byte_is c dq = false /\ byte_is c "t" = false /\ byte_is c "f" = false
  /\ byte_is c "n" = false /\ byte_is c "+" = false.
Proof.
  unfold isNumStart, isDigit, dq. rewrite !byte_is_val.
  change (byte_val "-") with 45. change (byte_val dquote) with 34.
  change (byte_val "t") with 116. change (byte_val "f") with 102.
  change (byte_val "n") with 110. change (byte_val "+") with 43.
  intros H. apply orb_prop in H.
  destruct H as [H | H];
    [apply andb_prop in H; destruct H as [A B]; apply Z.leb_le in A, B
    | apply Z.eqb_eq in H];
    repeat split; apply Z.eqb_neq; lia.
Qed.

Lemma uint_shape (d : Decimal.uint) :
  d <> Decimal.Nil ->
  exists c rest, NilEmpty.string_of_uint d = String c rest /\ isDigit c = true.
Proof. destruct d; intros H; try contradiction; simpl; eauto. Qed.

(** The decimal numeral of an [int]: how the literal scan, [ParseInt]
    and [literalStore] take it. *)
Lemma Itoa_spec (n : Z) :
  - 2 ^ 63 <= n <= 2 ^ 63 - 1 ->
  (forall X, endsValue X = true ->
     literalExtent (Itoa n +:+ X) = String.length (Itoa n))
  /\ (forall ctx off v, literalStore ctx TInt (Itoa n) off v = (VInt n, []))
  /\ (1 <= String.length (Itoa n))%nat.
Proof.
  intros Hrange.
  assert (Hshape : exists c rest,
             Itoa n = String c rest /\ isNumStart c = true
             /\ allNumber (Itoa n) = true /\ ParseInt (Itoa n) = Some n).
  { unfold Itoa. destruct n as [|p |p]; cbn [Z.to_int NilZero.string_of_int].
    - exists "0"%char, "". repeat split; reflexivity.
    - unfold NilZero.string_of_uint.
      pose proof (to_uint_nonnil p) as Hnn.
      pose proof (DecimalPos.Unsigned.of_to p) as Hof.
      destruct (Pos.to_uint p) eqn:Hd; try contradiction;
        rewrite <- Hd in *; clear Hd.
      all: destruct (uint_shape _ Hnn) as (c & rest & Hs & Hc).
      all: exists c, rest; split; [exact Hs |].
      all: assert (Hst : isNumStart c = true) by (unfold isNumStart; rewrite Hc; reflexivity).
      all: split; [exact Hst |]; split; [apply allNumber_uint |].
      all: destruct (numStart_not c Hst) as (_ & _ & _ & _ & Hplus).
      all: assert (Hminus : byte_is c "-" = false)
             by (unfold isDigit in Hc; rewrite byte_is_val; change (byte_val "-") with 45;
                 apply andb_prop in Hc; destruct Hc as [A _]; apply Z.leb_le in A;
                 apply Z.eqb_neq; lia).
      all: unfold ParseInt; rewrite Hs, Hminus, Hplus, <- Hs, digitsVal_0, Hof.
      all: cbn [Z.of_N].
      all: replace ((- 2 ^ 63 <=? Z.pos p) && (Z.pos p <=? 2 ^ 63 - 1)) with true
             by (symmetry; apply andb_true_iff; split; apply Z.leb_le; lia).
      all: reflexivity.
    - unfold NilZero.string_of_uint.
      pose proof (to_uint_nonnil p) as Hnn.
      pose proof (DecimalPos.Unsigned.of_to p) as Hof.
      destruct (Pos.to_uint p) eqn:Hd; try contradiction;
        rewrite <- Hd in *; clear Hd.
      all: destruct (uint_shape _ Hnn) as (c & rest & Hs & Hc).
      all: exists "-"%char, (NilEmpty.string_of_uint (Pos.to_uint p)).
      all: split; [reflexivity |]; split; [reflexivity |].
      all: split; [cbn [allNumber]; rewrite allNumber_uint; reflexivity |].
      all: unfold ParseInt; change (byte_is "-" "-") with true; cbn iota.
      all: rewrite Hs, <- Hs, digitsVal_0, Hof; cbn [Z.of_N].
      all: replace ((- 2 ^ 63 <=? - Z.pos p) && (- Z.pos p <=? 2 ^ 63 - 1)) with true
             by (symmetry; apply andb_true_iff; split; apply Z.leb_le; lia).
      all: reflexivity. }
  destruct Hshape as (c & rest & Hs & Hst & Hall & Hparse).
  destruct (numStart_not c Hst) as (Hq & Ht & Hf & Hn & _).
  split; [| split].
  - intros X HX. rewrite Hs in *.
    change (String c rest +:+ X) with (String c (rest +:+ X)).
    cbn [literalExtent]. rewrite Hq, Ht, Hf, Hn.
    simpl in Hall. apply andb_prop in Hall. destruct Hall as [_ Hall].
    rewrite (numberExtent_app _ _ Hall HX). reflexivity.
  - intros ctx off v. unfold literalStore. rewrite Hs at 1.
    rewrite Hn, Ht, Hf, Hq. cbn [orb]. rewrite Hparse. reflexivity.
  - rewrite Hs. simpl. lia.
Qed.

(** Decoding the members of a marshalled struct *)

Lemma findBy_shift (eq : string -> string -> bool) (key : string)
    (fs : list (string * bool * GoType)) :
  forall i, findBy eq key fs (S i)
            = option_map (fun r => (S (fst (fst r)), snd (fst r), snd r)) (findBy eq key fs i).
Proof.
  induction fs as [|[[n o] ty] fs IH]; intros i; [reflexivity |].
  cbn [findBy]. destruct (eq key n); [reflexivity | apply IH].
Qed.

Lemma findBy_middle (pre post : list (string * bool * GoType))
    (name : string) (omit : bool) (fty : GoType) :
  existsb (String.eqb name) (names pre) = false ->
  findBy String.eqb name (pre ++ (name, omit, fty) :: post) 0
  = Some (length pre, name, fty).
Proof.
  induction pre as [|[[n o] ty] pre IH]; intros Hno.
  - cbn [app findBy]. rewrite String.eqb_refl. reflexivity.
  - cbn [names map existsb fst] in Hno. apply orb_false_elim in Hno.
    destruct Hno as [Hn Hpre].
    cbn [app findBy]. rewrite Hn, findBy_shift, (IH Hpre). reflexivity.
Qed.

Lemma distinct_middle (pre post : list string) (name : string) :
  distinct (pre ++ name :: post) = true ->
  existsb (String.eqb name) pre = false.
Proof.
  induction pre as [|n pre IH]; intros H; [reflexivity |].
  cbn [app distinct] in H. apply andb_prop in H. destruct H as [Hn Hd].
  apply negb_true_iff in Hn. cbn [existsb].
  rewrite (IH Hd), orb_false_r.
  destruct (String.eqb_spec name n) as [-> | Hne]; [| reflexivity].
  rewrite existsb_app in Hn. cbn [existsb] in Hn.
  rewrite String.eqb_refl, orb_true_r in Hn. discriminate.
Qed.

Lemma findField_middle (pre post : list (string * bool * GoType))
    (name : string) (omit : bool) (fty : GoType) :
  distinct (names (pre ++ (name, omit, fty) :: post)) = true ->
  findField name (pre ++ (name, omit, fty) :: post) = Some (length pre, name, fty).
Proof.
  intros Hd. unfold findField. rewrite findBy_middle; [reflexivity |].
  unfold names in *. rewrite map_app in Hd. apply (distinct_middle _ _ _ Hd).
Qed.

Lemma objectLoop_members (strict : bool) (tname : string)
    (fields : list (string * bool * GoType)) (ctx : Context) :
  distinct (names fields) = true ->
  forall fs vs ms,
    MembersOf fs vs ms ->
    forall (pre_fs : list (string * bool * GoType)) (pre_vs : list GoValue),
      fields = (pre_fs ++ fs)%list ->
      length pre_vs = length pre_fs ->
      objectLoop strict tname fields ctx
        (fun ctx' fty val sub => value strict ctx' fty val sub) ms
        (VStruct (pre_vs ++ map (fun f => zero (snd f)) fs))
      = (VStruct (pre_vs ++ vs), []).
Proof.
  intros Hd fs vs ms HM.
  induction HM as [| name omit fty fs vs ms HM IH
                   | name omit fty x j fs vs ms Hname Hdec HM IH];
    intros pre_fs pre_vs Hfields Hlen.
  - reflexivity.
  - specialize (IH (pre_fs ++ [(name, omit, fty)])%list (pre_vs ++ [zero fty])%list).
    rewrite <- !app_assoc in IH. cbn [app] in IH.
    cbn [map snd]. apply IH; [exact Hfields |].
    rewrite !length_app. simpl. lia.
  - cbn [objectLoop].
    destruct (encodeString_spec name "" Hname) as [_ Hunq]. rewrite Hunq.
    rewrite Hfields at 1. rewrite findField_middle by (rewrite <- Hfields; exact Hd).
    cbn [map snd].
    assert (Hget : getField (length pre_fs) fty
                     (VStruct (pre_vs ++ zero fty :: map (fun f => zero (snd f)) fs))
                   = zero fty).
    { unfold getField. rewrite list_lookup_middle by (symmetry; exact Hlen). reflexivity. }
    rewrite Hget, Hdec.
    assert (Hset : setField (length pre_fs) x
                     (VStruct (pre_vs ++ zero fty :: map (fun f => zero (snd f)) fs))
                   = VStruct ((pre_vs ++ [x]) ++ map (fun f => zero (snd f)) fs)).
    { unfold setField. f_equal. rewrite <- Hlen.
      replace (length pre_vs) with (length pre_vs + 0)%nat by lia.
      rewrite insert_app_r. cbn. rewrite <- app_assoc. reflexivity. }
    rewrite Hset.
    specialize (IH (pre_fs ++ [(name, omit, fty)])%list (pre_vs ++ [x])%list).
    rewrite <- !app_assoc in IH. cbn [app] in IH.
    rewrite <- app_assoc. cbn [app].
    rewrite IH; [reflexivity | exact Hfields |].
    rewrite !length_app. simpl. lia.
Qed.

(** Parsing what Marshal wrote *)

Lemma skipSpace_here (c : ascii) (r : string) (pos : Z) :
  isSpace c = false -> skipSpace (String c r) pos = (String c r, pos).
Proof. intros H. cbn [skipSpace]. rewrite H. reflexivity. Qed.

Lemma parseValue_literal (fuel : nat) (c : ascii) (rest X : string) (pos : Z) :
  isSpace c = false -> byte_is c "{" = false -> byte_is c "[" = false ->
  literalExtent (String c rest +:+ X) = String.length (String c rest) ->
  parseValue (S fuel) (String c rest +:+ X) pos
  = Some (Literal (String c rest) (pos + Z.of_nat (String.length (String c rest))),
          X, pos + Z.of_nat (String.length (String c rest))).
Proof.
  intros Hs Hb Ha Hext.
  change (String c rest +:+ X) with (String c (rest +:+ X)) in *.
  cbn [parseValue]. rewrite skipSpace_here by exact Hs. rewrite Hb, Ha, Hext.
  change (String c (rest +:+ X)) with (String c rest +:+ X).
  rewrite take_app, drop_app. reflexivity.
Qed.

Lemma numStart_plain (c : ascii) :
  isNumStart c = true ->
  isSpace c = false /\ byte_is c "{" = false /\ byte_is c "[" = false.
Proof.
  unfold isNumStart, isDigit, isSpace. rewrite !byte_is_val.
  change (byte_val "-") with 45. change (byte_val "{") with 123.
  change (byte_val "[") with 91.
  intros H. apply orb_prop in H.
  destruct H as [H | H];
    [apply andb_prop in H; destruct H as [A B]; apply Z.leb_le in A, B
    | apply Z.eqb_eq in H].
  all: repeat split; repeat (apply orb_false_iff; split); apply Z.eqb_neq; lia.
Qed.

Lemma Itoa_start (n : Z) :
  exists c rest, Itoa n = String c rest /\ isNumStart c = true.
Proof.
  unfold Itoa. destruct n as [|p |p]; cbn [Z.to_int NilZero.string_of_int].
  - exists "0"%char, "". split; reflexivity.
  - unfold NilZero.string_of_uint. pose proof (to_uint_nonnil p) as Hnn.
    destruct (Pos.to_uint p) eqn:Hd; try contradiction; rewrite <- Hd in *; clear Hd.
    all: destruct (uint_shape _ Hnn) as (c & rest & Hs & Hc).
    all: exists c, rest; split; [exact Hs |]; unfold isNumStart; rewrite Hc; reflexivity.
  - eexists "-"%char, _. split; reflexivity.
Qed.

Lemma empty_zero (ty : GoType) (x : GoValue) :
  conforms ty x = true -> isEmptyValue x = true -> x = zero ty.
Proof.
  destruct x as [b | n | s | vs]; destruct ty; try discriminate; intros _ H; simpl in *.
  - apply negb_true_iff in H. subst. reflexivity.
  - apply Z.eqb_eq in H. subst. reflexivity.
  - apply String.eqb_eq in H. subst. reflexivity.
Qed.

Lemma joinFields_cons (t : string) (ts : list string) :
  joinFields (t :: ts)
  = match ts with [] => t | _ => t +:+ "," +:+ joinFields ts end.
Proof. destruct ts; reflexivity. Qed.

Lemma Parses_members (vs : list GoValue) :
  Forall Parses vs ->
  forall (fs : list (string * bool * GoType)) (fuel : nat) (X : string) (pos : Z),
    conformsAll conforms vs fs = true -> fieldsWF fs = true ->
    exists ms pos',
      MembersOf fs vs ms
      /\ (encodeFields encodeValue vs fs = [] -> ms = [])
      /\ (encodeFields encodeValue vs fs <> [] ->
          (String.length (joinFields (encodeFields encodeValue vs fs)) < fuel)%nat ->
          parseMembers fuel
            (joinFields (encodeFields encodeValue vs fs) +:+ "}" +:+ X) pos
          = Some (ms, X, pos')).
Proof.
  induction vs as [|x vs IH]; intros HP fs fuel X pos Hconf Hwf.
  - destruct fs; [| discriminate]. exists [], pos.
    split; [constructor | split; [reflexivity | intros H; contradiction]].
  - destruct fs as [|[[name omit] fty] fs]; [discriminate |].
    inversion HP as [|? ? Hx Hvs]; subst.
    cbn [conformsAll] in Hconf. apply andb_prop in Hconf. destruct Hconf as [Hcx Hcvs].
    cbn [fieldsWF forallb fst snd] in Hwf. apply andb_prop in Hwf.
    destruct Hwf as [Hwf1 Hwfs]. apply andb_prop in Hwf1. destruct Hwf1 as [Hname Hwty].
    cbn [encodeFields]. fold (encodeFields encodeValue).
    destruct (omit && isEmptyValue x) eqn:Homit.
    + apply andb_prop in Homit. destruct Homit as [_ Hemp].
      rewrite (empty_zero _ _ Hcx Hemp).
      destruct (IH Hvs fs fuel X pos Hcvs Hwfs) as (ms & pos' & HM & Hnil & Hparse).
      exists ms, pos'. split; [constructor; exact HM | split; assumption].
    + set (E := encodeValue fty x).
      set (texts := encodeFields encodeValue vs fs) in *.
      destruct fuel as [|f].
      { destruct (IH Hvs fs 0%nat X pos Hcvs Hwfs) as (ms & pos' & HM & _ & _).
        (* no fuel: only the relation is asked for *)
        destruct (Hx fty (S (String.length E)) "}" 0 Hcx Hwty eq_refl (Nat.lt_succ_diag_r _))
          as (j & _ & _ & Hdec).
        exists ((encodeString name, j) :: ms), pos.
        split; [constructor; assumption |].
        split; [discriminate | intros _ Hlt; lia]. }
      (* what follows the member value *)
      set (W := match texts with
                | [] => "}" +:+ X
                | _ => "," +:+ joinFields texts +:+ "}" +:+ X
                end).
      assert (HW : endsValue W = true) by (unfold W; destruct texts; reflexivity).
      assert (Hwhole : joinFields ((encodeString name +:+ ":" +:+ E) :: texts) +:+ "}" +:+ X
                       = encodeString name +:+ ":" +:+ E +:+ W).
      { rewrite joinFields_cons. unfold W. destruct texts.
        - rewrite !append_assoc. reflexivity.
        - rewrite !append_assoc. reflexivity. }
      assert (Hlen : (String.length (joinFields ((encodeString name +:+ ":" +:+ E) :: texts))
                      = String.length (encodeString name) + 1 + String.length E
                        + match texts with
                          | [] => 0
                          | _ => 1 + String.length (joinFields texts)
                          end)%nat).
      { rewrite joinFields_cons. destruct texts.
        - rewrite !length_append. simpl. lia.
        - rewrite !length_append. simpl. lia. }
      destruct (encodeString_spec name (":" +:+ E +:+ W) Hname) as [Hext _].
      assert (Hparse_here :
        forall j p3 ms p5,
          (String.length (joinFields ((encodeString name +:+ ":" +:+ E) :: texts)) < S f)%nat ->
          parseValue f (E +:+ W)
            (pos + Z.of_nat (String.length (encodeString name)) + 1) = Some (j, W, p3) ->
          (texts <> [] ->
           parseMembers f (joinFields texts +:+ "}" +:+ X) (p3 + 1) = Some (ms, X, p5)) ->
          (texts = [] -> ms = [] /\ p5 = p3 + 1) ->
          parseMembers (S f)
            (joinFields ((encodeString name +:+ ":" +:+ E) :: texts) +:+ "}" +:+ X) pos
          = Some ((encodeString name, j) :: ms, X, p5)).
      { intros j p3 ms p5 _ Hpv Hpm Hlast. rewrite Hwhole.
        cbn [parseMembers].
        assert (Hk : encodeString name = String dquote (encodeBody (String.length name) name +:+ dq))
          by reflexivity.
        rewrite Hk at 1.
        change (String dquote (encodeBody (String.length name) name +:+ dq) +:+ ":" +:+ E +:+ W)
          with (String dquote ((encodeBody (String.length name) name +:+ dq) +:+ ":" +:+ E +:+ W)).
        rewrite skipSpace_here by reflexivity.
        change (String dquote ((encodeBody (String.length name) name +:+ dq) +:+ ":" +:+ E +:+ W))
          with (encodeString name +:+ ":" +:+ E +:+ W).
        rewrite Hext, take_app, drop_app.
        change (":" +:+ E +:+ W) with (String ":" (E +:+ W)).
        rewrite skipSpace_here by reflexivity.
        change (byte_is ":" ":") with true. cbn iota.
        rewrite Hpv.
        unfold W in *. destruct texts as [|t0 texts0].
        - destruct (Hlast eq_refl) as [-> ->].
          change ("}" +:+ X) with (String "}" X).
          rewrite skipSpace_here by reflexivity.
          change (byte_is "}" ",") with false. change (byte_is "}" "}") with true.
          reflexivity.
        - change ("," +:+ joinFields (t0 :: texts0) +:+ "}" +:+ X)
            with (String "," (joinFields (t0 :: texts0) +:+ "}" +:+ X)).
          rewrite skipSpace_here by reflexivity.
          change (byte_is "," ",") with true. cbn iota.
          rewrite Hpm by discriminate. reflexivity. }
      destruct (Nat.lt_ge_cases
                  (String.length (joinFields ((encodeString name +:+ ":" +:+ E) :: texts)))
                  (S f)) as [Hfuel | Hfuel].
      2:{ destruct (IH Hvs fs 0%nat X pos Hcvs Hwfs) as (ms & pos' & HM & _ & _).
          destruct (Hx fty (S (String.length E)) "}" 0 Hcx Hwty eq_refl (Nat.lt_succ_diag_r _))
            as (j & _ & _ & Hdec).
          exists ((encodeString name, j) :: ms), pos.
          split; [constructor; assumption |].
          split; [discriminate | intros _ Hlt; lia]. }
      assert (HfE : (String.length E < f)%nat) by (rewrite Hlen in Hfuel; lia).
      destruct (Hx fty f W (pos + Z.of_nat (String.length (encodeString name)) + 1)
                  Hcx Hwty HW HfE) as (j & p3 & Hpv & Hdec).
      destruct (IH Hvs fs f X (p3 + 1) Hcvs Hwfs) as (ms & p5 & HM & Hnil & Hpm).
      fold texts in Hnil, Hpm.
      destruct texts as [|t0 texts0] eqn:Htexts.
      * specialize (Hnil eq_refl). subst ms.
        exists [(encodeString name, j)], (p3 + 1).
        split; [constructor; assumption |].
        split; [discriminate |]. intros _ _.
        apply (Hparse_here j p3 [] (p3 + 1) Hfuel Hpv);
          [intros H; contradiction | intros _; split; reflexivity].
      * exists ((encodeString name, j) :: ms), p5.
        split; [constructor; assumption |].
        split; [discriminate |]. intros _ _.
        apply (Hparse_here j p3 ms p5 Hfuel Hpv).
        -- intros _. apply Hpm; [discriminate |]. rewrite Hlen in Hfuel. lia.
        -- discriminate.
Qed.

Lemma joinFields_start (texts : list string) :
  texts <> [] -> Forall (fun t => exists r, t = String dquote r) texts ->
  exists r, joinFields texts = String dquote r.
Proof.
  intros Hne Hall. destruct texts as [|t ts]; [contradiction |].
  inversion Hall as [|? ? [r ->] _]; subst. rewrite joinFields_cons.
  destruct ts; eexists; reflexivity.
Qed.

Lemma encodeFields_start (enc : GoType -> GoValue -> string) (vs : list GoValue) :
  forall fs, Forall (fun t => exists r, t = String dquote r) (encodeFields enc vs fs).
Proof.
  induction vs as [|x vs IH]; intros fs; [constructor |].
  destruct fs as [|[[name omit] fty] fs]; [constructor |].
  cbn [encodeFields]. destruct (omit && isEmptyValue x); [apply IH |].
  constructor; [eexists; reflexivity | apply IH].
Qed.

Lemma Parses_all (v : GoValue) : Parses v.
Proof.
  induction v as [b | n | s | vs IH] using GoValue_induction;
    intros ty fuel X pos Hconf Hwf HX Hfuel.
  - destruct ty; try discriminate. destruct fuel as [|f]; [lia |].
    destruct b; eexists _, _; (split; [reflexivity | intros strict ctx; reflexivity]).
  - destruct ty; try discriminate. destruct fuel as [|f]; [lia |].
    cbn [conforms] in Hconf. apply andb_prop in Hconf. destruct Hconf as [Hlo Hhi].
    apply Z.leb_le in Hlo, Hhi.
    destruct (Itoa_spec n (conj Hlo Hhi)) as (Hext & Hstore & _).
    destruct (Itoa_start n) as (c & rest & Hs & Hc).
    destruct (numStart_plain c Hc) as (Hsp & Hob & Har).
    cbn [encodeValue]. specialize (Hext X HX). rewrite Hs in Hext |- *.
    rewrite (parseValue_literal f c rest X pos Hsp Hob Har Hext).
    eexists _, _. split; [reflexivity |].
    intros strict ctx. cbn [value]. rewrite <- Hs. apply Hstore.
  - destruct ty; try discriminate. destruct fuel as [|f]; [lia |].
    cbn [conforms] in Hconf.
    destruct (encodeString_spec s X Hconf) as [Hext Hunq].
    cbn [encodeValue].
    assert (Hk : encodeString s = String dquote (encodeBody (String.length s) s +:+ dq))
      by reflexivity.
    rewrite Hk in Hext |- *.
    rewrite (parseValue_literal f dquote _ X pos eq_refl eq_refl eq_refl Hext).
    eexists _, _. split; [reflexivity |].
    intros strict ctx. cbn [value]. rewrite <- Hk.
    unfold literalStore. rewrite Hk at 1. rewrite Hunq. reflexivity.
  - destruct ty as [| | | tname tstr fs]; try discriminate.
    destruct fuel as [|f]; [lia |].
    cbn [conforms] in Hconf. fold (conformsAll conforms) in Hconf.
    cbn [wellFormed] in Hwf. apply andb_prop in Hwf. destruct Hwf as [Hdis Hfs].
    rewrite encodeValue_struct in Hfuel |- *.
    set (texts := encodeFields encodeValue vs fs) in *.
    assert (Hsplit : ("{" +:+ joinFields texts +:+ "}") +:+ X
                     = String "{" (joinFields texts +:+ "}" +:+ X)).
    { change ("{" +:+ joinFields texts +:+ "}")
        with (String "{" (joinFields texts +:+ "}")).
      change (String "{" (joinFields texts +:+ "}") +:+ X)
        with (String "{" ((joinFields texts +:+ "}") +:+ X)).
      rewrite append_assoc. reflexivity. }
    assert (Hlen : (String.length ("{" +:+ joinFields texts +:+ "}")
                    = 2 + String.length (joinFields texts))%nat).
    { change ("{" +:+ joinFields texts +:+ "}")
        with (String "{" (joinFields texts +:+ "}")).
      cbn [String.length]. rewrite length_append. simpl. lia. }
    rewrite Hsplit.
    destruct (Parses_members vs IH fs f X (pos + 1) Hconf Hfs)
      as (ms & p' & HM & Hnil & Hparse).
    fold texts in Hnil, Hparse.
    assert (Hdec : Decodes (TStruct tname tstr fs) (Object (pos + 1) ms) (VStruct vs)).
    { intros strict ctx. cbn [value zero].
      exact (objectLoop_members strict tname fs ctx Hdis fs vs ms HM [] [] eq_refl eq_refl). }
    cbn [parseValue]. rewrite skipSpace_here by reflexivity.
    change (byte_is "{" "{") with true. cbn iota.
    destruct texts as [|t0 ts] eqn:Htexts.
    + rewrite (Hnil eq_refl) in Hdec.
      change (joinFields [] +:+ "}" +:+ X) with (String "}" X).
      rewrite skipSpace_here by reflexivity.
      change (byte_is "}" "}") with true. cbn iota.
      eexists _, _. split; [reflexivity | exact Hdec].
    + destruct (joinFields_start (t0 :: ts)) as [r Hr]; [discriminate | |].
      { rewrite <- Htexts. apply encodeFields_start. }
      assert (Hhead : joinFields (t0 :: ts) +:+ "}" +:+ X
                      = String dquote (r +:+ "}" +:+ X)) by (rewrite Hr; reflexivity).
      rewrite Hhead. rewrite skipSpace_here by reflexivity.
      change (byte_is dquote "}") with false. cbn iota.
      rewrite <- Hhead. rewrite Hparse; [| discriminate | rewrite Hlen in Hfuel; lia].
      eexists _, _. split; [reflexivity | exact Hdec].
Qed.

(** Unmarshalling what Marshal wrote, into a zero value, gives the value
    back, with unknown fields allowed or not. *)
Lemma unmarshal_encodeValue (ty : GoType) (v : GoValue) (strict : bool) :
  wellFormed ty = true -> conforms ty v = true ->
  unmarshalInto ty strict (encodeValue ty v) (zero ty) = (v, None).
Proof.
  intros Hwf Hconf. unfold unmarshalInto, parse.
  destruct (Parses_all v ty (S (String.length (encodeValue ty v))) "" 0
              Hconf Hwf eq_refl (Nat.lt_succ_diag_r _)) as (j & p' & Hp & Hdec).
  rewrite append_nil_r in Hp. rewrite Hp, (Hdec strict None). reflexivity.
Qed.

End RoundTrip.

(** ** WriteJSON and ErrorJSON: what reaches the response *)

Section Response.

Variable t : Tools.

(** What a successful [WriteJSON] does to the response writer. *)
Lemma WriteJSON_effects {T : Type} {M : json.Marshaler T}
    (w : http.ResponseWriter) (S : Z) (V : T) (headers : list http.Header)
    (out : string) :
  json.Marshal V = inl out ->
  let w' := fst (WriteJSON t w S V headers) in
  snd (WriteJSON t w S V headers) = None
  /\ http.rw_calls w'
     = (http.rw_calls w ++ [http.CallWriteHeader S; http.CallWrite out])%list
  /\ http.rw_header w'
     = <["Content-Type" := ["application/json"]]>
         (givenHeaders headers ∪ http.rw_header w)
  /\ http.Get (http.rw_header w') "Content-Type" = "application/json"
  /\ (forall key : string,
        key <> "Content-Type" ->
        http.rw_header w' !! key = (givenHeaders headers ∪ http.rw_header w) !! key)
  /\ last (http.rw_calls w') = Some (http.CallWrite out).
Proof.
  intros HM w'. subst w'. rewrite (WriteJSON_ok t _ _ _ _ _ HM).
  cbn [fst snd]. unfold http.Write. cbn [fst http.rw_calls http.rw_header].
  rewrite prepared_calls, prepared_header.
  split; [reflexivity |]. split; [rewrite <- app_assoc; reflexivity |].
  split; [reflexivity |]. split; [| split].
  - unfold http.Get. rewrite lookup_insert_eq. reflexivity.
  - intros key Hne. rewrite lookup_insert_ne by congruence. reflexivity.
  - rewrite last_snoc. reflexivity.
Qed.

(** C8.  For every value [V] of a type [ty] whose JSON names are
    distinct and well-formed, with every string of [V] well-formed
    UTF-8 and every [int] in range, and for any status [S], [WriteJSON]
    returns nil after exactly two calls on the response writer,
    [WriteHeader S] and then [Write] of the serialization of [V]; the
    header map is the caller's header set laid over the previous
    headers with [Content-Type] then set to [application/json], so that
    is the content type whatever the caller supplied; and the body
    written, decoded into a zero value of [ty] with unknown fields
    allowed or not, gives [V] again and no error.  [V] is an immutable
    value here: nothing is done to it. *)
Theorem WriteJSON_writes (w : http.ResponseWriter) (S : Z) (ty : json.GoType)
    (V : json.GoValue) (headers : list http.Header) (strict : bool) :
  wellFormed ty = true ->
  conforms ty V = true ->
  let r := WriteJSON (M := json.Typed_Marshaler ty) t w S V headers in
  snd r = None
  /\ http.rw_calls (fst r)
     = (http.rw_calls w
        ++ [http.CallWriteHeader S; http.CallWrite (json.encodeValue ty V)])%list
  /\ http.rw_header (fst r)
     = <["Content-Type" := ["application/json"]]>
         (givenHeaders headers ∪ http.rw_header w)
  /\ http.Get (http.rw_header (fst r)) "Content-Type" = "application/json"
  /\ (forall key : string,
        key <> "Content-Type" ->
        http.rw_header (fst r) !! key
        = (givenHeaders headers ∪ http.rw_header w) !! key)
  /\ exists body : string,
       json.Marshal (Marshaler := json.Typed_Marshaler ty) V = inl body
       /\ last (http.rw_calls (fst r)) = Some (http.CallWrite body)
       /\ json.unmarshalValue (Unmarshaler := json.Typed_Unmarshaler ty)
            strict body (json.zero ty)
          = (V, None).
Proof.
  intros Hwf Hconf r. subst r.
  destruct (WriteJSON_effects (M := json.Typed_Marshaler ty) w S V headers
              (json.encodeValue ty V) eq_refl)
    as (Hnil & Hcalls & Hhdr & Hget & Hother & Hlast).
  repeat (split; [assumption |]).
  exists (json.encodeValue ty V).
  split; [reflexivity |]. split; [exact Hlast |].
  exact (unmarshal_encodeValue ty V strict Hwf Hconf).
Qed.

(** C9.  For every (non-nil) error [e], [ErrorJSON] builds the
    envelope with the failure flag set, the message [e.Error()] and no
    data, and is [WriteJSON] on that envelope with status 400 when no
    status is passed and with the first status passed otherwise;
    [json.Marshal] turns the envelope into an object with the members
    [error] and [message] only; that text is what is written after the
    status; and what [WriteJSON] returns is what [ErrorJSON] returns. *)
Theorem ErrorJSON_envelope (w : http.ResponseWriter) (e : error)
    (status : list Z) :
  ErrorJSON t w e status = WriteJSON t w (statusOf status) (errorEnvelope e) []
  /\ statusOf [] = 400
  /\ (forall (s : Z) (rest : list Z), statusOf (s :: rest) = s)
  /\ Error (errorEnvelope e) = true
  /\ Message (errorEnvelope e) = errors.Error e
  /\ Data (errorEnvelope e) = None
  /\ json.Marshal (errorEnvelope e) = inl (errorWire e)
  /\ http.rw_calls (fst (ErrorJSON t w e status))
     = (http.rw_calls w
        ++ [http.CallWriteHeader (statusOf status); http.CallWrite (errorWire e)])%list
  /\ snd (ErrorJSON t w e status)
     = snd (WriteJSON t w (statusOf status) (errorEnvelope e) []).
Proof.
  assert (HE : ErrorJSON t w e status
               = WriteJSON t w (statusOf status) (errorEnvelope e) []).
  { unfold ErrorJSON, statusOf, errorEnvelope. destruct status; reflexivity. }
  assert (HM : json.Marshal (errorEnvelope e) = inl (errorWire e)).
  { unfold errorWire. cbn [json.Marshal JSONResponse_Marshaler].
    unfold marshalJSONResponse. cbn [Data errorEnvelope Error Message json.encodeBool].
    rewrite !append_assoc. reflexivity. }
  split; [exact HE |]. do 5 (split; [reflexivity |]).
  split; [exact HM |]. split; [| rewrite HE; reflexivity].
  rewrite HE, (WriteJSON_ok t _ _ _ _ _ HM).
  unfold http.Write. cbn [fst http.rw_calls].
  rewrite prepared_calls, <- app_assoc. reflexivity.
Qed.

End Response.

(** ** The scanner on what [json.Marshal] writes *)

Section ScannerOnMarshal.
Import json.

Lemma scanBuffer_app (a : string) :
  forall (s : scanner) (n n' : nat) (s' : scanner) (b : string),
    scanBuffer s a n = BufferExhausted n' s' ->
    scanBuffer s (a +:+ b) n = scanBuffer s' b n'.
Proof.
  induction a as [|c a IH]; intros s n n' s' b H.
  - cbn [scanBuffer] in H. inversion H; subst. reflexivity.
  - change (String c a +:+ b) with (String c (a +:+ b)).
    cbn [scanBuffer] in *.
    destruct (scan_step (with_bytes s (bytes s + 1)) c) as [s1 op].
    destruct op; try discriminate; try (apply IH; exact H).
    + destruct (stateEndValue_ s1 " ") as [s2 op2].
      destruct (is_scanEnd op2); [discriminate | apply IH; exact H].
    + destruct (stateEndValue_ s1 " ") as [s2 op2].
      destruct (is_scanEnd op2); [discriminate | apply IH; exact H].
    + destruct (err s1); discriminate.
Qed.

Lemma RunsTo_nil (st : stepFn) (ps : list ParseFrame) : RunsTo st ps st ps "".
Proof. intros eT e b n. exists b. cbn [scanBuffer String.length]. rewrite Nat.add_0_r. reflexivity. Qed.

Lemma RunsTo_app (st st1 st2 : stepFn) (ps ps1 ps2 : list ParseFrame) (a b : string) :
  RunsTo st ps st1 ps1 a -> RunsTo st1 ps1 st2 ps2 b ->
  RunsTo st ps st2 ps2 (a +:+ b).
Proof.
  intros H1 H2 eT e b0 n.
  destruct (H1 eT e b0 n) as [b1 E1].
  destruct (H2 eT e b1 (n + String.length a)%nat) as [b2 E2].
  exists b2. rewrite (scanBuffer_app _ _ _ _ _ _ E1), E2, length_append.
  rewrite Nat.add_assoc. reflexivity.
Qed.

Lemma RunsTo_cons (st st1 st2 : stepFn) (ps ps1 ps2 : list ParseFrame)
    (c : ascii) (rest : string) :
  (forall eT e b, exists op,
      scan_step (mkScanner st eT ps e b) c = (mkScanner st1 eT ps1 e b, op)
      /\ continues op) ->
  RunsTo st1 ps1 st2 ps2 rest ->
  RunsTo st ps st2 ps2 (String c rest).
Proof.
  intros Hstep Hrest eT e b n. cbn [scanBuffer]. unfold with_bytes at 1.
  cbn [bytes step endTop parseState err].
  destruct (Hstep eT e (b + 1)) as (op & Hs & Hop). rewrite Hs.
  destruct (Hrest eT e (b + 1) (S n)) as [b' E].
  exists b'. cbn [String.length]. rewrite Nat.add_succ_r.
  destruct op; try contradiction; exact E.
Qed.

Lemma RunsTo_one (st st1 : stepFn) (ps ps1 : list ParseFrame) (c : ascii) :
  (forall eT e b, exists op,
      scan_step (mkScanner st eT ps e b) c = (mkScanner st1 eT ps1 e b, op)
      /\ continues op) ->
  RunsTo st ps st1 ps1 (String c "").
Proof. intros H. apply (RunsTo_cons _ _ _ _ _ _ _ _ H), RunsTo_nil. Qed.

(** Inside a string *)

Lemma inString_plain (ps : list ParseFrame) (c : ascii) :
  byte_is c dq = false -> byte_is c "\" = false -> (byte_val c <? 32) = false ->
  RunsTo stateInString ps stateInString ps (String c "").
Proof.
  intros H1 H2 H3. apply RunsTo_one. intros eT e b. exists scanContinue.
  unfold scan_step, stateInString_. cbn [step]. rewrite H1, H2, H3. split; [reflexivity | exact I].
Qed.

Lemma inString_high (ps : list ParseFrame) (t : string) :
  allHigh t = true -> RunsTo stateInString ps stateInString ps t.
Proof.
  induction t as [|c t IH]; intros H; [apply RunsTo_nil |].
  cbn [allHigh] in H. apply andb_prop in H. destruct H as [Hc Ht].
  apply Z.leb_le in Hc. destruct (high_not c Hc) as (Hb & Hq & H32 & _).
  change (String c t) with (String c "" +:+ t).
  apply (RunsTo_app _ stateInString _ _ ps); [apply inString_plain; assumption | apply IH; exact Ht].
Qed.

Lemma isHex_digit (z : Z) : 0 <= z < 16 -> isHex (hex_digit z) = true.
Proof.
  intros H.
  assert (Hc : z = 0 \/ z = 1 \/ z = 2 \/ z = 3 \/ z = 4 \/ z = 5 \/ z = 6 \/ z = 7
               \/ z = 8 \/ z = 9 \/ z = 10 \/ z = 11 \/ z = 12 \/ z = 13 \/ z = 14
               \/ z = 15) by lia.
  repeat (destruct Hc as [-> | Hc]; [reflexivity |]). subst. reflexivity.
Qed.

Lemma inString_escape (ps : list ParseFrame) (c : ascii) :
  (byte_is c "b" || byte_is c "f" || byte_is c "n" || byte_is c "r" || byte_is c "t"
   || byte_is c "\" || byte_is c "/" || byte_is c dq) = true ->
  RunsTo stateInString ps stateInString ps (String "\" (String c "")).
Proof.
  intros H. apply (RunsTo_cons _ stateInStringEsc _ _ ps).
  - intros eT e b. exists scanContinue. split; [reflexivity | exact I].
  - apply RunsTo_one. intros eT e b. exists scanContinue.
    unfold scan_step, stateInStringEsc_. cbn [step]. rewrite H.
    split; [reflexivity | exact I].
Qed.

Lemma inString_u (ps : list ParseFrame) (h1 h2 h3 h4 : ascii) :
  isHex h1 = true -> isHex h2 = true -> isHex h3 = true -> isHex h4 = true ->
  RunsTo stateInString ps stateInString ps
    (String "\" (String "u" (String h1 (String h2 (String h3 (String h4 "")))))).
Proof.
  intros H1 H2 H3 H4.
  apply (RunsTo_cons _ stateInStringEsc _ _ ps);
    [intros eT e b; exists scanContinue; split; [reflexivity | exact I] |].
  apply (RunsTo_cons _ stateInStringEscU _ _ ps);
    [intros eT e b; exists scanContinue; split; [reflexivity | exact I] |].
  apply (RunsTo_cons _ stateInStringEscU1 _ _ ps);
    [intros eT e b; exists scanContinue; unfold scan_step, hexStep; cbn [step];
     rewrite H1; split; [reflexivity | exact I] |].
  apply (RunsTo_cons _ stateInStringEscU12 _ _ ps);
    [intros eT e b; exists scanContinue; unfold scan_step, hexStep; cbn [step];
     rewrite H2; split; [reflexivity | exact I] |].
  apply (RunsTo_cons _ stateInStringEscU123 _ _ ps);
    [intros eT e b; exists scanContinue; unfold scan_step, hexStep; cbn [step];
     rewrite H3; split; [reflexivity | exact I] |].
  apply RunsTo_one.
  intros eT e b; exists scanContinue; unfold scan_step, hexStep; cbn [step];
    rewrite H4; split; [reflexivity | exact I].
Qed.

Lemma inString_encodeByte (ps : list ParseFrame) (c : ascii) :
  RunsTo stateInString ps stateInString ps (encodeByte c).
Proof.
  unfold encodeByte.
  destruct (byte_is c "\" || byte_is c dq) eqn:E1.
  { apply inString_escape. apply orb_prop in E1. destruct E1 as [-> | ->];
      rewrite ?orb_true_r; reflexivity. }
  apply orb_false_elim in E1. destruct E1 as [Hb Hq].
  destruct (byte_val c =? 8) eqn:E8; [apply inString_escape; reflexivity |].
  destruct (byte_val c =? 12) eqn:E12; [apply inString_escape; reflexivity |].
  destruct (byte_val c =? 10) eqn:E10; [apply inString_escape; reflexivity |].
  destruct (byte_val c =? 13) eqn:E13; [apply inString_escape; reflexivity |].
  destruct (byte_val c =? 9) eqn:E9; [apply inString_escape; reflexivity |].
  destruct ((byte_val c <? 32) || byte_is c "<" || byte_is c ">" || byte_is c "&") eqn:E.
  - pose proof (byte_val_range c) as Hr.
    change ("\u00" +:+ String (hex_digit (byte_val c / 16))
                         (String (hex_digit (byte_val c mod 16)) ""))
      with (String "\" (String "u" (String "0" (String "0"
              (String (hex_digit (byte_val c / 16))
                 (String (hex_digit (byte_val c mod 16)) "")))))).
    apply inString_u; try reflexivity; apply isHex_digit.
    + split; [apply Z.div_pos; lia | apply Z.div_lt_upper_bound; lia].
    + apply Z.mod_pos_bound. lia.
  - apply orb_false_elim in E. destruct E as [E _].
    apply orb_false_elim in E. destruct E as [E _].
    apply orb_false_elim in E. destruct E as [E _].
    apply inString_plain; assumption.
Qed.

Lemma DecodeRune_high (c : ascii) (rest : string) (r : Z) (w : nat) :
  128 <= byte_val c -> DecodeRune (String c rest) = (r, w) ->
  (r = RuneError /\ w = 1%nat) \/ (2 <= w)%nat.
Proof.
  intros Hc. unfold DecodeRune.
  destruct (byte_val c <? 128) eqn:E0; [apply Z.ltb_lt in E0; lia |].
  repeat match goal with
         | |- context [if ?x then _ else _] => destruct x
         | |- context [match ?x with _ => _ end] => is_var x; destruct x
         end;
    intros H; inversion H; subst; auto; right; lia.
Qed.

Lemma inString_encodeBody (ps : list ParseFrame) (fuel : nat) :
  forall s : string, RunsTo stateInString ps stateInString ps (encodeBody fuel s).
Proof.
  induction fuel as [|fuel IH]; intros s; [apply RunsTo_nil |].
  destruct s as [|c rest]; [apply RunsTo_nil |].
  cbn [encodeBody]. destruct (byte_val c <? 128) eqn:Hc.
  - apply (RunsTo_app _ stateInString _ _ ps); [apply inString_encodeByte | apply IH].
  - apply Z.ltb_ge in Hc.
    destruct (DecodeRune (String c rest)) as [r w] eqn:HD.
    destruct (DecodeRune_high _ _ _ _ Hc HD) as [[-> ->] | Hw].
    + change ((RuneError =? RuneError) && (1 =? 1)%nat) with true. cbn iota.
      apply (RunsTo_app _ stateInString _ _ ps); [| apply IH].
      apply inString_u; reflexivity.
    + replace ((r =? RuneError) && (w =? 1)%nat) with false
        by (symmetry; apply andb_false_iff; right; apply Nat.eqb_neq; lia).
      destruct (r =? 8232); [| destruct (r =? 8233)].
      * apply (RunsTo_app _ stateInString _ _ ps); [| apply IH].
        apply inString_u; reflexivity.
      * apply (RunsTo_app _ stateInString _ _ ps); [| apply IH].
        apply inString_u; reflexivity.
      * apply (RunsTo_app _ stateInString _ _ ps); [| apply IH].
        apply inString_high.
        destruct (DecodeRune_prefix _ "" _ _ HD Hw) as [_ Hh]. exact Hh.
Qed.

(** A string literal, where a value or a key may begin. *)
Lemma scan_encodeString (st : stepFn) (ps : list ParseFrame) (s : string) :
  st = stateBeginValue \/ keyStart st ->
  RunsTo st ps stateEndValue ps (encodeString s).
Proof.
  intros Hst. unfold encodeString.
  change (dq +:+ encodeBody (String.length s) s +:+ dq)
    with (String dquote (encodeBody (String.length s) s +:+ dq)).
  apply (RunsTo_cons _ stateInString _ _ ps).
  - intros eT e b. exists scanBeginLiteral.
    destruct Hst as [-> | [-> | ->]]; split; try reflexivity; exact I.
  - apply (RunsTo_app _ stateInString _ _ ps); [apply inString_encodeBody |].
    apply RunsTo_one. intros eT e b. exists scanContinue.
    split; [reflexivity | exact I].
Qed.


(** Numbers *)

Lemma scan_digits (ps : list ParseFrame) (u : Decimal.uint) :
  RunsTo state1 ps state1 ps (NilEmpty.string_of_uint u).
Proof.
  induction u; cbn [NilEmpty.string_of_uint]; [apply RunsTo_nil | ..];
    (apply (RunsTo_cons _ state1 _ _ ps);
     [intros eT e b; exists scanContinue; split; [reflexivity | exact I] | exact IHu]).
Qed.

Lemma to_uint_norm (p : positive) : Decimal.unorm (Pos.to_uint p) = Pos.to_uint p.
Proof.
  pose proof (DecimalPos.Unsigned.to_of (Pos.to_uint p)) as H.
  rewrite DecimalPos.Unsigned.of_to in H. symmetry. exact H.
Qed.

Lemma to_uint_head (p : positive) :
  match Pos.to_uint p with
  | Decimal.Nil | Decimal.D0 _ => False
  | _ => True
  end.
Proof.
  pose proof (to_uint_norm p) as Hn.
  pose proof (DecimalPos.Unsigned.to_uint_nonzero p) as Hz.
  destruct (Pos.to_uint p) as [|u| | | | | | | | |] eqn:E; try exact I.
  - apply (DecimalPos.Unsigned.to_uint_nonnil p). exact E.
  - rewrite DecimalFacts.unorm_D0 in Hn.
    destruct u as [|u'| | | | | | | | |] eqn:Eu; [apply Hz; reflexivity | ..];
      (assert (Hnn : u <> Decimal.Nil) by (rewrite Eu; discriminate);
       pose proof (DecimalFacts.nb_digits_unorm u Hnn) as Hle;
       rewrite Eu in Hle; rewrite Hn in Hle; cbn [Decimal.nb_digits] in Hle; lia).
Qed.

Lemma scan_positive (st : stepFn) (ps : list ParseFrame) (p : positive) :
  st = stateBeginValue \/ st = stateNeg ->
  RunsTo st ps state1 ps (NilEmpty.string_of_uint (Pos.to_uint p)).
Proof.
  intros Hst. pose proof (to_uint_head p) as Hh.
  destruct (Pos.to_uint p) as [|u|u|u|u|u|u|u|u|u|u]; try contradiction;
    cbn [NilEmpty.string_of_uint];
    (apply (RunsTo_cons _ state1 _ _ ps);
     [intros eT e b; destruct Hst as [-> | ->];
      [exists scanBeginLiteral | exists scanContinue];
      (split; [reflexivity | exact I])
     | apply scan_digits]).
Qed.

Lemma Itoa_pos (p : positive) :
  Itoa (Z.pos p) = NilEmpty.string_of_uint (Pos.to_uint p).
Proof.
  unfold Itoa. cbn [Z.to_int NilZero.string_of_int]. unfold NilZero.string_of_uint.
  pose proof (to_uint_head p) as Hh.
  destruct (Pos.to_uint p); try contradiction; reflexivity.
Qed.

Lemma Itoa_neg (p : positive) :
  Itoa (Z.neg p) = String "-" (NilEmpty.string_of_uint (Pos.to_uint p)).
Proof.
  unfold Itoa. cbn [Z.to_int NilZero.string_of_int]. unfold NilZero.string_of_uint.
  pose proof (to_uint_head p) as Hh.
  destruct (Pos.to_uint p); try contradiction; reflexivity.
Qed.

Lemma scan_Itoa (ps : list ParseFrame) (n : Z) :
  exists st', valueEnd st' /\ RunsTo stateBeginValue ps st' ps (Itoa n).
Proof.
  destruct n as [|p|p].
  - exists state0. split; [right; left; reflexivity |].
    change (Itoa 0) with (String "0" ""). apply RunsTo_one.
    intros eT e b. exists scanBeginLiteral. split; [reflexivity | exact I].
  - exists state1. split; [right; right; reflexivity |].
    rewrite Itoa_pos. apply scan_positive. left. reflexivity.
  - exists state1. split; [right; right; reflexivity |].
    rewrite Itoa_neg. apply (RunsTo_cons _ stateNeg _ _ ps).
    + intros eT e b. exists scanBeginLiteral. split; [reflexivity | exact I].
    + apply scan_positive. right. reflexivity.
Qed.

Lemma scan_encodeBool (ps : list ParseFrame) (b : bool) :
  RunsTo stateBeginValue ps stateEndValue ps (encodeBool b).
Proof.
  destruct b; cbn [encodeBool].
  - apply (RunsTo_cons _ stateT _ _ ps);
      [intros eT e b; exists scanBeginLiteral; split; [reflexivity | exact I] |].
    apply (RunsTo_cons _ stateTr _ _ ps);
      [intros eT e b; exists scanContinue; split; [reflexivity | exact I] |].
    apply (RunsTo_cons _ stateTru _ _ ps);
      [intros eT e b; exists scanContinue; split; [reflexivity | exact I] |].
    apply RunsTo_one.
    intros eT e b; exists scanContinue; split; [reflexivity | exact I].
  - apply (RunsTo_cons _ stateF _ _ ps);
      [intros eT e b; exists scanBeginLiteral; split; [reflexivity | exact I] |].
    apply (RunsTo_cons _ stateFa _ _ ps);
      [intros eT e b; exists scanContinue; split; [reflexivity | exact I] |].
    apply (RunsTo_cons _ stateFal _ _ ps);
      [intros eT e b; exists scanContinue; split; [reflexivity | exact I] |].
    apply (RunsTo_cons _ stateFals _ _ ps);
      [intros eT e b; exists scanContinue; split; [reflexivity | exact I] |].
    apply RunsTo_one.
    intros eT e b; exists scanContinue; split; [reflexivity | exact I].
Qed.

(** Punctuation of an object *)

Lemma scan_colon (ps : list ParseFrame) :
  RunsTo stateEndValue (parseObjectKey :: ps) stateBeginValue (parseObjectValue :: ps) ":".
Proof.
  apply RunsTo_one. intros eT e b. exists scanObjectKey. split; [reflexivity | exact I].
Qed.

Lemma scan_comma (st : stepFn) (ps : list ParseFrame) :
  valueEnd st ->
  RunsTo st (parseObjectValue :: ps) stateBeginString (parseObjectKey :: ps) ",".
Proof.
  intros Hst. apply RunsTo_one. intros eT e b. exists scanObjectValue.
  destruct Hst as [-> | [-> | ->]]; split; try reflexivity; exact I.
Qed.

Lemma scan_open (ps : list ParseFrame) :
  Z.of_nat (length ps) < 10000 ->
  RunsTo stateBeginValue ps stateBeginStringOrEmpty (parseObjectKey :: ps) "{".
Proof.
  intros Hd. apply RunsTo_one. intros eT e b. exists scanBeginObject.
  unfold scan_step, stateBeginValue_. cbn [step].
  change (isSpace "{") with false. change (byte_is "{" "{") with true. cbn iota.
  unfold pushParseState, with_stack, with_step, maxNestingDepth.
  cbn [step endTop parseState err bytes length].
  replace (Z.of_nat (S (length ps)) <=? 10000) with true
    by (symmetry; apply Z.leb_le; lia).
  split; [reflexivity | exact I].
Qed.

(** The closing brace of an object inside another value. *)
Lemma scan_close (st : stepFn) (p : ParseFrame) (q : ParseFrame) (ps : list ParseFrame) :
  (valueEnd st /\ p = parseObjectValue)
  \/ (st = stateBeginStringOrEmpty /\ p = parseObjectKey) ->
  RunsTo st (p :: q :: ps) stateEndValue (q :: ps) "}".
Proof.
  intros Hst eT e b n. exists (b + 1).
  cbn [String.length]. rewrite Nat.add_1_r.
  cbn [scanBuffer]. unfold with_bytes at 1. cbn [bytes step endTop parseState err].
  destruct Hst as [[[-> | [-> | ->]] ->] | [-> ->]]; reflexivity.
Qed.

(** The closing brace of the top-level object ends the value. *)
Lemma scan_close_top (st : stepFn) (p : ParseFrame) (eT : bool) (e : option error)
    (b : Z) (n : nat) :
  (valueEnd st /\ p = parseObjectValue)
  \/ (st = stateBeginStringOrEmpty /\ p = parseObjectKey) ->
  exists s', scanBuffer (mkScanner st eT [p] e b) "}" n = ValueEnds (S n) s'.
Proof.
  intros Hst. cbn [scanBuffer]. unfold with_bytes at 1.
  cbn [bytes step endTop parseState err].
  destruct Hst as [[[-> | [-> | ->]] ->] | [-> ->]]; eexists; reflexivity.
Qed.

(** Values *)

Lemma scan_members (vs : list GoValue) :
  Forall Scans vs ->
  forall (fs : list (string * bool * GoType)) (ps : list ParseFrame) (st : stepFn),
    keyStart st ->
    Z.of_nat (fold_right (fun x acc => Nat.max (nesting x) acc) 0%nat vs
              + S (length ps)) <= 10000 ->
    encodeFields encodeValue vs fs <> [] ->
    exists st', valueEnd st'
      /\ RunsTo st (parseObjectKey :: ps) st' (parseObjectValue :: ps)
           (joinFields (encodeFields encodeValue vs fs)).
Proof.
  induction vs as [|x vs IH]; intros HP fs ps st Hst Hd Hne; [contradiction |].
  destruct fs as [|[[name omit] fty] fs]; [contradiction |].
  inversion HP as [|? ? Hx Hvs]; subst.
  cbn [fold_right] in Hd.
  cbn [encodeFields] in *. fold (encodeFields encodeValue) in *.
  destruct (omit && isEmptyValue x).
  { apply (IH Hvs fs ps st Hst); [lia | exact Hne]. }
  destruct (Hx fty (parseObjectValue :: ps)) as (st1 & Hend1 & Hrun1);
    [cbn [length]; lia | left; discriminate |].
  assert (Hmember : RunsTo st (parseObjectKey :: ps) st1 (parseObjectValue :: ps)
                      (encodeString name +:+ ":" +:+ encodeValue fty x)).
  { apply (RunsTo_app _ stateEndValue _ _ (parseObjectKey :: ps));
      [apply scan_encodeString; right; exact Hst |].
    apply (RunsTo_app _ stateBeginValue _ _ (parseObjectValue :: ps));
      [apply scan_colon | exact Hrun1]. }
  rewrite joinFields_cons.
  destruct (encodeFields encodeValue vs fs) as [|t0 ts] eqn:Htexts.
  - exists st1. split; [exact Hend1 | exact Hmember].
  - destruct (IH Hvs fs ps stateBeginString) as (st2 & Hend2 & Hrun2);
      [right; reflexivity | lia | rewrite Htexts; discriminate |].
    rewrite Htexts in Hrun2.
    exists st2. split; [exact Hend2 |].
    apply (RunsTo_app _ st1 _ _ (parseObjectValue :: ps)); [exact Hmember |].
    apply (RunsTo_app _ stateBeginString _ _ (parseObjectKey :: ps));
      [apply scan_comma; exact Hend1 | exact Hrun2].
Qed.

(** The text of a struct up to its closing brace. *)
Lemma scan_struct_open (ty : GoType) (vs : list GoValue) (ps : list ParseFrame) :
  Forall Scans vs ->
  Z.of_nat (nesting (VStruct vs) + length ps) <= 10000 ->
  exists st p J,
    encodeValue ty (VStruct vs) = ("{" +:+ J) +:+ "}"
    /\ ((valueEnd st /\ p = parseObjectValue)
        \/ (st = stateBeginStringOrEmpty /\ p = parseObjectKey))
    /\ RunsTo stateBeginValue ps st (p :: ps) ("{" +:+ J).
Proof.
  intros HP Hd. cbn [nesting] in Hd.
  set (fs := match ty with TStruct _ _ fs => fs | _ => [] end).
  set (texts := encodeFields encodeValue vs fs).
  assert (Htext : encodeValue ty (VStruct vs) = ("{" +:+ joinFields texts) +:+ "}").
  { rewrite encodeValue_struct. fold fs. fold texts. reflexivity. }
  assert (Hopen : RunsTo stateBeginValue ps stateBeginStringOrEmpty (parseObjectKey :: ps) "{")
    by (apply scan_open; lia).
  destruct texts as [|t0 ts] eqn:Htexts.
  - exists stateBeginStringOrEmpty, parseObjectKey, "".
    split; [exact Htext |]. split; [right; split; reflexivity | exact Hopen].
  - destruct (scan_members vs HP fs ps stateBeginStringOrEmpty) as (st1 & Hend & Hrun);
      [left; reflexivity | lia | fold texts; rewrite Htexts; discriminate |].
    fold texts in Hrun. rewrite Htexts in Hrun.
    exists st1, parseObjectValue, (joinFields (t0 :: ts)).
    split; [exact Htext |]. split; [left; split; [exact Hend | reflexivity] |].
    apply (RunsTo_app _ stateBeginStringOrEmpty _ _ (parseObjectKey :: ps));
      [exact Hopen | exact Hrun].
Qed.

Lemma Scans_all (v : GoValue) : Scans v.
Proof.
  induction v as [b | n | s | vs IH] using GoValue_induction; intros ty ps Hd Hps.
  - exists stateEndValue. split; [left; reflexivity | apply scan_encodeBool].
  - apply scan_Itoa.
  - exists stateEndValue. split; [left; reflexivity |].
    apply scan_encodeString. left. reflexivity.
  - destruct Hps as [Hps | Hs]; [| discriminate].
    destruct ps as [|q ps]; [contradiction |].
    destruct (scan_struct_open ty vs (q :: ps) IH Hd) as (st & p & J & Htext & Hst & Hrun).
    exists stateEndValue. split; [left; reflexivity |].
    rewrite Htext.
    apply (RunsTo_app _ st _ _ (p :: q :: ps)); [exact Hrun |].
    apply scan_close. exact Hst.
Qed.

(** The stream decoder takes the whole text that [Marshal] wrote as one
    value. *)
Lemma settle_encodeValue (ty : GoType) (v : GoValue) (r : http.Reader)
    (strict : bool) :
  Z.of_nat (nesting v) <= 10000 ->
  http.rd_err r = errors.EOF ->
  exists d : Decoder,
    settle r (encodeValue ty v) strict (scanBuffer newScanner (encodeValue ty v) 0)
    = (d, inl (String.length (encodeValue ty v))).
Proof.
  intros Hd Heof. destruct (isStruct v) eqn:Hs.
  - destruct v as [| | | vs]; try discriminate.
    assert (HP : Forall Scans vs)
      by (clear; induction vs; constructor; [apply Scans_all | assumption]).
    destruct (scan_struct_open ty vs [] HP)
      as (st & p & J & Htext & Hst & Hrun); [cbn [length]; lia |].
    rewrite Htext. unfold newScanner.
    destruct (Hrun false None 0 0%nat) as [b' E].
    rewrite (scanBuffer_app _ _ _ _ _ _ E).
    destruct (scan_close_top st p false None b' (0 + String.length ("{" +:+ J)) Hst)
      as [s' E'].
    rewrite E'. cbn [settle]. eexists. f_equal. f_equal.
    rewrite (length_append ("{" +:+ J) "}"). change (String.length "}") with 1%nat. lia.
  - destruct (Scans_all v ty []) as (st & Hend & Hrun);
      [cbn [length]; lia | right; exact Hs |].
    unfold newScanner. destruct (Hrun false None 0 0%nat) as [b' E].
    rewrite E. cbn [settle]. rewrite Heof. cbn [errors.is_EOF Nat.add].
    destruct Hend as [-> | [-> | ->]]; eexists; reflexivity.
Qed.

End ScannerOnMarshal.

Section ScannerPositions.
Import json.

Ltac step_cases :=
  repeat first
    [ progress cbn [fst snd step endTop parseState err bytes]
    | match goal with
      | |- context [match ?x with _ => _ end] => is_var x; destruct x
      | |- context [if ?x then _ else _] => destruct x
      end ].

(** One step of a scanner that has not failed: a step that reports an
    error records the number of bytes read so far, any other step but
    the end of the top-level value leaves the count and the absence of
    an error as they are. *)
Lemma scan_step_inv (s : scanner) (c : ascii) :
  err s = None -> step s <> stateError ->
  match snd (scan_step s c) with
  | scanError => exists msg, err (fst (scan_step s c)) = Some (errors.SyntaxError msg (bytes s))
  | scanEnd => True
  | _ => err (fst (scan_step s c)) = None
         /\ bytes (fst (scan_step s c)) = bytes s
         /\ step (fst (scan_step s c)) <> stateError
  end.
Proof.
  destruct s as [st et ps e b]. cbn [err step bytes]. intros -> Hst.
  unfold scan_step; cbn [step].
  destruct st; try contradiction;
    unfold stateBeginValueOrEmpty_, stateBeginValue_, stateBeginStringOrEmpty_,
      stateBeginString_, stateInString_, stateInStringEsc_, hexStep,
      stateNeg_, state1_, state0_, stateDot_, stateDot0_, stateE_, stateESign_,
      stateE0_, letter, stateEndValue_, stateEndTop_, pushParseState,
      popParseState, with_step, with_stack, error_;
    step_cases; try exact I; eauto; repeat split; try discriminate; auto.
Qed.

Lemma endValue_space_inv (s : scanner) :
  err s = None ->
  is_scanEnd (snd (stateEndValue_ s " ")) = false ->
  err (fst (stateEndValue_ s " ")) = None
  /\ bytes (fst (stateEndValue_ s " ")) = bytes s
  /\ step (fst (stateEndValue_ s " ")) <> stateError.
Proof.
  destruct s as [st et ps e b]. cbn [err]. intros ->.
  unfold stateEndValue_, stateEndTop_. cbn [parseState].
  destruct ps as [|p ps]; [cbn; discriminate |].
  change (isSpace " ") with true. cbn. intros _. repeat split. discriminate.
Qed.

Lemma scanBuffer_Malformed (buf : string) :
  forall (s : scanner) (n : nat) (e : error) (s' : scanner),
    err s = None -> step s <> stateError ->
    scanBuffer s buf n = Malformed e s' ->
    exists (msg : string) (k : nat) (s'' : scanner),
      (k < String.length buf)%nat
      /\ e = errors.SyntaxError msg (bytes s + Z.of_nat k + 1)
      /\ scanBuffer s (take k buf) n = BufferExhausted (n + k) s''.
Proof.
  induction buf as [|c rest IH]; intros s n e s' He Hst H; [discriminate |].
  cbn [scanBuffer] in H.
  pose proof (scan_step_inv (with_bytes s (bytes s + 1)) c He Hst) as Hinv.
  destruct (scan_step (with_bytes s (bytes s + 1)) c) as [s1 op] eqn:Hstep.
  cbn [fst snd] in Hinv.
  assert (Hnext : forall s2,
             err s2 = None -> bytes s2 = bytes s + 1 -> step s2 <> stateError ->
             scanBuffer s2 rest (S n) = Malformed e s' ->
             (forall k, scanBuffer s (String c (take k rest)) n
                        = scanBuffer s2 (take k rest) (S n)) ->
             exists (msg : string) (k : nat) (s'' : scanner),
               (k < String.length (String c rest))%nat
               /\ e = errors.SyntaxError msg (bytes s + Z.of_nat k + 1)
               /\ scanBuffer s (take k (String c rest)) n = BufferExhausted (n + k) s'').
  { intros s2 He2 Hb2 Hst2 H2 Hsame.
    destruct (IH s2 (S n) e s' He2 Hst2 H2) as (msg & k & s'' & Hk & Heq & Hpre).
    exists msg, (S k), s''. split; [cbn [String.length]; lia |].
    split; [rewrite Heq, Hb2; f_equal; lia |].
    cbn [take]. rewrite Hsame, Hpre. f_equal. lia. }
  assert (Hcont : forall k,
             continues op ->
             scanBuffer s (String c (take k rest)) n = scanBuffer s1 (take k rest) (S n)).
  { intros k Hop. cbn [scanBuffer]. rewrite Hstep. destruct op; try contradiction; reflexivity. }
  destruct op;
    try (destruct Hinv as (He1 & Hb1 & Hst1);
         apply (Hnext s1 He1 Hb1 Hst1 H); intros k; apply Hcont; exact I).
  - (* scanEndObject *)
    destruct Hinv as (He1 & Hb1 & Hst1).
    pose proof (endValue_space_inv s1 He1) as Hsp.
    destruct (stateEndValue_ s1 " ") as [s2 op2] eqn:Hend. cbn [fst snd] in Hsp.
    destruct (is_scanEnd op2) eqn:Hop2; [discriminate |].
    destruct (Hsp eq_refl) as (He2 & Hb2 & Hst2).
    apply (Hnext s2 He2 (eq_trans Hb2 Hb1) Hst2 H).
    intros k. cbn [scanBuffer]. rewrite Hstep, Hend, Hop2. reflexivity.
  - (* scanEndArray *)
    destruct Hinv as (He1 & Hb1 & Hst1).
    pose proof (endValue_space_inv s1 He1) as Hsp.
    destruct (stateEndValue_ s1 " ") as [s2 op2] eqn:Hend. cbn [fst snd] in Hsp.
    destruct (is_scanEnd op2) eqn:Hop2; [discriminate |].
    destruct (Hsp eq_refl) as (He2 & Hb2 & Hst2).
    apply (Hnext s2 He2 (eq_trans Hb2 Hb1) Hst2 H).
    intros k. cbn [scanBuffer]. rewrite Hstep, Hend, Hop2. reflexivity.
  - (* scanEnd *) discriminate.
  - (* scanError *)
    destruct Hinv as [msg Herr]. rewrite Herr in H. inversion H; subst.
    exists msg, 0%nat, s. split; [cbn [String.length]; lia |].
    split; [cbn [with_bytes bytes]; f_equal; lia |].
    cbn [take scanBuffer]. f_equal. lia.
Qed.

End ScannerPositions.

(** ** ReadJSON: the edges of the body *)

Section BodyEdges.

Context {T : Type} {U : json.Unmarshaler T}.
Variable t : Tools.

(** What the first [Decode] of [ReadJSON] returns when the scan of the
    capped body fails. *)
Lemma readBody_scan_error (r : http.Request) (data : json.Target T)
    (d : json.Decoder) (e : error) :
  let body := http.MaxBytesReader (http.Body r) (maxBytesOf t) in
  json.settle (http.drain body) (http.rd_data body) (negb (AllowUnknownFields t))
    (json.scanBuffer json.newScanner (http.rd_data body) 0) = (d, inr e) ->
  readBody t r data
  = (http.mkRequest (http.Header_ r) (http.drain body), data,
     Some (classify (maxBytesOf t) e)).
Proof.
  intros body Hset.
  pose proof (settle_reader (http.drain body) (http.rd_data body)
                (negb (AllowUnknownFields t))
                (json.scanBuffer json.newScanner (http.rd_data body) 0)) as Hr.
  rewrite Hset in Hr. cbn [fst] in Hr.
  pose proof (readValue_open t r) as Hrv. cbv zeta in Hrv. fold body in Hrv.
  rewrite Hset in Hrv. rewrite (readValue_decides t r data _ _ Hrv), Hr.
  reflexivity.
Qed.

(** X5.  A body longer than the ceiling is never accepted. *)
Theorem ReadJSON_oversized_rejected (r : http.Request) (data : json.Target T) :
  maxBytesOf t < len (http.rd_data (http.Body r)) ->
  snd (ReadJSON t r data) <> None.
Proof.
  intros Hlen.
  destruct (acceptsContentType r) eqn:Hacc;
    [| rewrite (ReadJSON_rejected _ _ _ Hacc); discriminate].
  rewrite (ReadJSON_accepted _ _ _ Hacc). unfold readBody.
  destruct (json.Decode (openDecoder t r) data) as [[dec1 data1] [e1 |]] eqn:HD;
    [discriminate |].
  destruct data as [x | why].
  2:{ unfold json.Decode in HD. rewrite openDecoder_err in HD.
      destruct (json.readValue (openDecoder t r)) as [d [n | e]]; inversion HD. }
  assert (Hd1 : exists x', data1 = json.Pointer x').
  { unfold json.Decode in HD. rewrite openDecoder_err in HD.
    destruct (json.readValue (openDecoder t r)) as [d [n | e]]; [| inversion HD].
    destruct (json.unmarshalValue _ _ x) as [x' e']. inversion HD. eauto. }
  destruct Hd1 as [x' ->].
  destruct (Decode_open_ok _ _ _ _ _ HD) as (Hr & He & n & Hbuf & _).
  assert (Hpos : 0 < len (http.rd_data (http.Body r))).
  { destruct (Z.eq_dec (len (http.rd_data (http.Body r))) 0) as [H0 |];
      [| unfold len in *; lia].
    exfalso.
    assert (Hempty : http.rd_data (http.Body r) = "").
    { unfold len in H0. destruct (http.rd_data (http.Body r)); [reflexivity |].
      simpl in H0. lia. }
    unfold json.Decode in HD. rewrite openDecoder_err, readValue_open in HD.
    rewrite (MaxBytesReader_empty _ _ Hempty), Hempty in HD.
    cbn [json.scanBuffer json.settle http.drain http.rd_err] in HD.
    destruct (errors.is_EOF (http.rd_err (http.Body r))); inversion HD. }
  rewrite (MaxBytesReader_cut _ _ Hlen Hpos) in Hr.
  pose proof (second_Decode dec1 (json.zero json.emptyStruct) He) as H2.
  rewrite Hr in H2. specialize (H2 eq_refl). cbv zeta in H2.
  destruct H2 as [_ Hno].
  assert (Hne : snd (json.Decode (U := json.Typed_Unmarshaler json.emptyStruct) dec1
                       (json.Pointer (json.zero json.emptyStruct)))
                <> Some errors.EOF).
  { apply Hno. right. cbn [http.drain http.rd_err]. discriminate. }
  destruct (json.Decode dec1 (json.Pointer (json.zero json.emptyStruct)))
    as [[dec2 d2] e2].
  cbn [snd] in Hne. destruct e2 as [[] |]; cbn [snd]; try discriminate.
  contradiction.
Qed.


(** X6.  With a negative ceiling nothing of the body comes through: a body
    that is not empty is reported as too large, whatever it holds, and
    the message shows the negative number. *)
Theorem ReadJSON_negative_ceiling (r : http.Request) (data : json.Target T) :
  MaxJSONSize t < 0 ->
  acceptsContentType r = true ->
  http.rd_data (http.Body r) <> "" ->
  ReadJSON t r data
  = (http.mkRequest (http.Header_ r)
       {| http.rd_data := ""; http.rd_err := errors.MaxBytesError 0 |},
     data,
     Some (errors.errorString
             ("body must not be larger than " +:+ Itoa (MaxJSONSize t) +:+ " bytes"))).
Proof.
  intros Hneg Hacc Hne. rewrite (ReadJSON_accepted _ _ _ Hacc).
  assert (Hmax : maxBytesOf t = MaxJSONSize t).
  { unfold maxBytesOf. destruct (Z.eqb_spec (MaxJSONSize t) 0); [lia | reflexivity]. }
  assert (Hpos : 0 < len (http.rd_data (http.Body r))).
  { unfold len. destruct (http.rd_data (http.Body r)); [contradiction | simpl; lia]. }
  assert (Hcut : http.MaxBytesReader (http.Body r) (maxBytesOf t)
                 = {| http.rd_data := ""; http.rd_err := errors.MaxBytesError 0 |}).
  { rewrite MaxBytesReader_cut by lia. rewrite Z.max_l by lia.
    change (Z.to_nat 0) with 0%nat.
    destruct (http.rd_data (http.Body r)); reflexivity. }
  rewrite (readBody_scan_error r data
             (json.mkDecoder (http.drain (http.MaxBytesReader (http.Body r) (maxBytesOf t)))
                "" json.newScanner (Some (errors.MaxBytesError 0))
                (negb (AllowUnknownFields t)))
             (errors.MaxBytesError 0)).
  - rewrite Hcut, Hmax. reflexivity.
  - rewrite Hcut. reflexivity.
Qed.

(** X7.  A body of white space only is an empty body to [ReadJSON]. *)
Theorem ReadJSON_blank_body (r : http.Request) (data : json.Target T) :
  acceptsContentType r = true ->
  http.rd_err (http.Body r) = errors.EOF ->
  len (http.rd_data (http.Body r)) <= maxBytesOf t ->
  json.nonSpace (http.rd_data (http.Body r)) = false ->
  snd (ReadJSON t r data) = Some (errors.New "body must not be empty")
  /\ snd (fst (ReadJSON t r data)) = data.
Proof.
  intros Hacc Heof Hfit Hblank. rewrite (ReadJSON_accepted _ _ _ Hacc).
  destruct (scanBuffer_blank (http.rd_data (http.Body r)) json.newScanner 0
              Hblank eq_refl) as (s' & Hsb & Hst & _).
  assert (Hset : exists d,
             json.settle
               (http.drain (http.MaxBytesReader (http.Body r) (maxBytesOf t)))
               (http.rd_data (http.MaxBytesReader (http.Body r) (maxBytesOf t)))
               (negb (AllowUnknownFields t))
               (json.scanBuffer json.newScanner
                  (http.rd_data (http.MaxBytesReader (http.Body r) (maxBytesOf t))) 0)
             = (d, inr errors.EOF)).
  { rewrite (MaxBytesReader_fits _ _ Hfit), Hsb. unfold json.settle.
    cbn [http.drain http.rd_err]. rewrite Heof. cbn [errors.is_EOF].
    rewrite (scan_step_space s' " " Hst eq_refl). cbn [json.is_scanEnd].
    rewrite Hblank. eauto. }
  destruct Hset as [d Hset].
  rewrite (readBody_scan_error r data d _ Hset). split; reflexivity.
Qed.

(** X11.  The destination is looked at only once a value has been read: a
    destination that is no pointer is reported when the body holds a
    first value, and until then the body decides the error. *)
Theorem ReadJSON_invalid_destination (r : http.Request) (why : errors.InvalidTarget) :
  acceptsContentType r = true ->
  (forall (d : json.Decoder) (n : nat),
      json.readValue (openDecoder t r) = (d, inl n) ->
      snd (ReadJSON t r (@json.Invalid T why))
      = Some (errors.errorString
                ("error unmarshalling json: "
                 +:+ errors.Error (errors.InvalidUnmarshalError why))))
  /\ (forall (d : json.Decoder) (e : error) (data : json.Target T),
        json.readValue (openDecoder t r) = (d, inr e) ->
        snd (ReadJSON t r (@json.Invalid T why)) = snd (ReadJSON t r data)).
Proof.
  intros Hacc. split.
  - intros d n Hrv. rewrite (ReadJSON_accepted _ _ _ Hacc).
    assert (HD : json.Decode (openDecoder t r) (@json.Invalid T why)
                 = (json.mkDecoder (json.d_r d) (drop n (json.d_buf d)) (json.d_scan d)
                      (json.d_err d) (json.d_strict d),
                    json.Invalid why, Some (errors.InvalidUnmarshalError why))).
    { unfold json.Decode. rewrite openDecoder_err, Hrv. reflexivity. }
    rewrite (readBody_first_error _ _ _ _ _ _ HD). cbn [snd].
    destruct why; reflexivity.
  - intros d e data Hrv. rewrite !(ReadJSON_accepted _ _ _ Hacc).
    rewrite !(readValue_decides _ _ _ _ _ Hrv). reflexivity.
Qed.

(** X10.  A body whose transfer breaks off with an error [e] of the
    transport, while the bytes received open a value, is reported by
    what the [switch] makes of [e]: an [io.ErrUnexpectedEOF] of the
    transport reads as badly-formed JSON, and an error the [switch]
    has no case for comes back as it is. *)
Theorem ReadJSON_transport_error (r : http.Request) (data : json.Target T) :
  acceptsContentType r = true ->
  len (http.rd_data (http.Body r)) <= maxBytesOf t ->
  opensValue (http.rd_data (http.Body r)) = true ->
  errors.is_EOF (http.rd_err (http.Body r)) = false ->
  snd (ReadJSON t r data) = Some (classify (maxBytesOf t) (http.rd_err (http.Body r)))
  /\ (http.rd_err (http.Body r) = errors.ErrUnexpectedEOF ->
      snd (ReadJSON t r data) = Some (errors.New "body contains badly-formed JSON"))
  /\ (forall msg : string,
        http.rd_err (http.Body r) = errors.errorString msg ->
        HasPrefix msg "json: unknown field " = false ->
        msg <> "http: request body too large" ->
        snd (ReadJSON t r data) = Some (errors.errorString msg)).
Proof.
  intros Hacc Hfit Hopen Hne. rewrite (ReadJSON_accepted _ _ _ Hacc).
  unfold opensValue in Hopen.
  destruct (json.scanBuffer json.newScanner (http.rd_data (http.Body r)) 0)
    as [n s | e s | n s] eqn:Hsb; try discriminate.
  assert (Hset : json.settle
               (http.drain (http.MaxBytesReader (http.Body r) (maxBytesOf t)))
               (http.rd_data (http.MaxBytesReader (http.Body r) (maxBytesOf t)))
               (negb (AllowUnknownFields t))
               (json.scanBuffer json.newScanner
                  (http.rd_data (http.MaxBytesReader (http.Body r) (maxBytesOf t))) 0)
             = (json.mkDecoder (http.drain (http.Body r)) (http.rd_data (http.Body r)) s
                  (Some (http.rd_err (http.Body r))) (negb (AllowUnknownFields t)),
                inr (http.rd_err (http.Body r)))).
  { rewrite (MaxBytesReader_fits _ _ Hfit), Hsb. unfold json.settle.
    cbn [http.drain http.rd_err]. rewrite Hne. reflexivity. }
  rewrite (readBody_scan_error r data _ _ Hset). cbn [snd].
  split; [reflexivity | split].
  - intros ->. reflexivity.
  - intros msg -> Hpre Hmsg. unfold classify.
    cbn [errors.As_SyntaxError errors.Is_ErrUnexpectedEOF errors.As_UnmarshalTypeError
         errors.Is_EOF errors.Error errors.As_InvalidUnmarshalError].
    rewrite Hpre.
    destruct (String.eqb_spec msg "http: request body too large"); [contradiction |].
    reflexivity.
Qed.

End BodyEdges.

Section Storing.
Import json.

Variable ty : GoType.

Lemma settle_modes (r : http.Reader) (buf : string) (s1 s2 : bool)
    (res : ScanResult) :
  match settle r buf s1 res, settle r buf s2 res with
  | (d1, inl n1), (d2, inl n2) => n1 = n2 /\ d_buf d1 = d_buf d2
  | (_, inr e1), (_, inr e2) => e1 = e2
  | _, _ => False
  end.
Proof.
  unfold settle. destruct res as [m s | e s | m s]; cbn; auto.
  destruct (errors.is_EOF (http.rd_err r)); cbn; auto.
  destruct (scan_step s " ") as [s' op].
  destruct (is_scanEnd op); cbn; auto.
Qed.

Lemma firstValue_modes (t : Tools) (r : http.Request) (allow : bool) :
  firstValue (withUnknownFields t allow) r = firstValue t r.
Proof.
  unfold firstValue. rewrite !readValue_open. cbv zeta.
  change (maxBytesOf (withUnknownFields t allow)) with (maxBytesOf t).
  pose proof (settle_modes
                (http.drain (http.MaxBytesReader (http.Body r) (maxBytesOf t)))
                (http.rd_data (http.MaxBytesReader (http.Body r) (maxBytesOf t)))
                (negb (AllowUnknownFields (withUnknownFields t allow)))
                (negb (AllowUnknownFields t))
                (scanBuffer newScanner
                   (http.rd_data (http.MaxBytesReader (http.Body r) (maxBytesOf t))) 0))
    as H.
  destruct (settle _ _ (negb (AllowUnknownFields (withUnknownFields t allow))) _)
    as [d1 [n1 | e1]];
    destruct (settle _ _ (negb (AllowUnknownFields t)) _) as [d2 [n2 | e2]];
    try contradiction; [| reflexivity].
  destruct H as [-> ->]. reflexivity.
Qed.

(** Once the first value of the body is scanned, the destination holds
    what the decoder stores from it, error or not. *)
Lemma ReadJSON_stored (t : Tools) (r : http.Request) (x : GoValue) :
  acceptsContentType r = true ->
  snd (fst (ReadJSON (U := Typed_Unmarshaler ty) t r (Pointer x)))
  = Pointer (match firstValue t r with
             | Some j => fst (value false None ty j x)
             | None => x
             end).
Proof.
  intros Hacc. rewrite (ReadJSON_accepted _ _ _ Hacc). unfold readBody, firstValue.
  unfold Decode at 1. rewrite openDecoder_err.
  destruct (readValue (openDecoder t r)) as [d [n | e]]; [| reflexivity].
  cbn [unmarshalValue Typed_Unmarshaler]. unfold unmarshalInto.
  destruct (parse (take n (d_buf d))) as [j |]; [| reflexivity].
  destruct (value_modes j None ty x) as [Hsame _].
  assert (Hfst : fst (value (d_strict d) None ty j x) = fst (value false None ty j x))
    by (destruct (d_strict d); [exact Hsame | reflexivity]).
  destruct (value (d_strict d) None ty j x) as [v' errs]. cbn [fst] in Hfst.
  subst v'. destruct (head errs) as [e |]; [reflexivity |].
  match goal with
  | |- context [Decode ?dd (Pointer (zero emptyStruct))] =>
      destruct (Decode (U := Typed_Unmarshaler emptyStruct) dd
                  (Pointer (zero emptyStruct))) as [[dec2 d2] e2]
  end.
  destruct e2 as [[] |]; reflexivity.
Qed.

(** X13.  What [ReadJSON] leaves in the destination depends neither on
    [AllowUnknownFields] nor on the error it returns: a strict call that
    fails on an unknown key has stored all that the lenient call
    stores. *)
Theorem ReadJSON_destination (t : Tools) (r : http.Request) (x : GoValue)
    (allow : bool) :
  snd (fst (ReadJSON (U := Typed_Unmarshaler ty) (withUnknownFields t allow) r
              (Pointer x)))
  = snd (fst (ReadJSON (U := Typed_Unmarshaler ty) t r (Pointer x))).
Proof.
  destruct (acceptsContentType r) eqn:Hacc.
  - rewrite !ReadJSON_stored by exact Hacc. rewrite firstValue_modes. reflexivity.
  - rewrite !(ReadJSON_rejected _ _ _ Hacc). reflexivity.
Qed.


(** The error of [ReadJSON] past the content-type check, read off the
    scan of the capped body: the scan error if there is one, else the
    error of storing the first value, else the single-value check. *)
Lemma readBody_error {T : Type} {U : Unmarshaler T} (t : Tools)
    (r : http.Request) (x : T) :
  let body := http.MaxBytesReader (http.Body r) (maxBytesOf t) in
  let strict := negb (AllowUnknownFields t) in
  snd (readBody t r (Pointer x))
  = match settle (http.drain body) (http.rd_data body) strict
            (scanBuffer newScanner (http.rd_data body) 0) with
    | (_, inr e) => Some (classify (maxBytesOf t) e)
    | (_, inl n) =>
        match snd (unmarshalValue strict (take n (http.rd_data body)) x) with
        | Some e => Some (classify (maxBytesOf t) e)
        | None =>
            if nonSpace (drop n (http.rd_data body))
               || negb (errors.is_EOF (http.rd_err body))
            then Some singleValueError else None
        end
    end.
Proof.
  intros body strict. unfold readBody, Decode at 1.
  rewrite openDecoder_err, readValue_open. fold body. fold strict.
  destruct (settle (http.drain body) (http.rd_data body) strict
              (scanBuffer newScanner (http.rd_data body) 0))
    as [d [n | e]] eqn:Hset; [| reflexivity].
  apply settle_ok in Hset. destruct Hset as (Hr & Hb & He & Hs).
  rewrite Hb, Hs.
  destruct (unmarshalValue strict (take n (http.rd_data body)) x) as [x' [e' |]];
    [reflexivity |].
  cbn [snd].
  set (dec2 := mkDecoder (d_r d) (drop n (http.rd_data body)) (d_scan d) (d_err d) strict).
  pose proof (second_Decode dec2 (zero emptyStruct)) as H2.
  cbn [d_err d_r d_buf dec2] in H2. rewrite Hr in H2.
  specialize (H2 He eq_refl). cbv zeta in H2. destruct H2 as [Hyes Hno].
  cbn [http.drain http.rd_err] in Hyes, Hno.
  destruct (Decode (U := Typed_Unmarshaler emptyStruct) dec2
              (Pointer (zero emptyStruct))) as [[dec3 d3] e3].
  cbn [snd] in Hyes, Hno.
  destruct (nonSpace (drop n (http.rd_data body))) eqn:Hns.
  - cbn [orb]. assert (Hne : e3 <> Some errors.EOF) by (apply Hno; left; reflexivity).
    destruct e3 as [[] |]; try reflexivity. contradiction.
  - cbn [orb]. destruct (errors.is_EOF (http.rd_err body)) eqn:Heof.
    + apply is_EOF_spec in Heof. rewrite (Hyes eq_refl Heof). reflexivity.
    + assert (Hne : e3 <> Some errors.EOF).
      { apply Hno. right. intros Heq. rewrite Heq in Heof. discriminate. }
      destruct e3 as [[] |]; try reflexivity. contradiction.
Qed.

(** Without an unknown key the strict decoder is the lenient one. *)
Lemma value_known (j : Value) :
  forall (ctx : Context) (ty0 : GoType) (v : GoValue),
    unknownKeys ty0 j = [] -> value true ctx ty0 j v = value false ctx ty0 j v.
Proof.
  induction j as [item off | off elems _ | off ms IH] using Value_induction;
    intros ctx ty0 v Hk; try reflexivity.
  destruct ty0 as [| | | tname ts fields]; try reflexivity.
  cbn [value unknownKeys] in *. revert v.
  induction ms as [|[k val] ms IHms]; intros v; [reflexivity |].
  inversion IH as [|? ? Hval Hrest]; subst. cbn [snd] in Hval.
  cbn [flat_map fst snd] in Hk. apply app_eq_nil in Hk. destruct Hk as [Hk1 Hk2].
  specialize (IHms Hrest Hk2).
  cbn [objectLoop].
  destruct (findField (unquote k) fields) as [[[i name] fty] |]; [| discriminate].
  rewrite (Hval _ fty _ Hk1).
  destruct (value false _ fty val (getField i fty v)) as [sub errs].
  rewrite IHms. reflexivity.
Qed.

Lemma findBy_fold (key name : string) (fields : list (string * bool * GoType)) :
  In name (map (fun f => fst (fst f)) fields) ->
  EqualFold key name = true ->
  forall i, findBy equalFold key fields i <> None.
Proof.
  induction fields as [|[[n o] fty] fields IH]; intros Hin Hfold i; [contradiction |].
  cbn [findBy]. destruct (equalFold key n) eqn:E; [discriminate |].
  apply IH; [| exact Hfold].
  cbn [map fst In] in Hin. destruct Hin as [<- | Hin]; [| exact Hin].
  rewrite (EqualFold_equalFold _ _ Hfold) in E. discriminate.
Qed.

(** X14.  [AllowUnknownFields] matters only for a body that has an unknown
    key: otherwise the strict and the lenient call return the same
    error, or both none.  A key counts as known when it is the JSON
    name of a field up to ASCII case. *)
Theorem ReadJSON_modes_agree (t : Tools) (r : http.Request) (x : GoValue) :
  ((forall j : Value, firstValue t r = Some j -> unknownKeys ty j = []) ->
   forall allow : bool,
     snd (ReadJSON (U := Typed_Unmarshaler ty) (withUnknownFields t allow) r (Pointer x))
     = snd (ReadJSON (U := Typed_Unmarshaler ty) t r (Pointer x)))
  /\ (forall (tname ts : string) (fields : list (string * bool * GoType))
             (off : Z) (ms : list (string * Value)),
        Forall (fun m : string * Value =>
                  (exists item e, snd m = Literal item e)
                  /\ exists name, In name (map (fun f => fst (fst f)) fields)
                                  /\ EqualFold (unquote (fst m)) name = true) ms ->
        unknownKeys (TStruct tname ts fields) (Object off ms) = []).
Proof.
  split.
  - intros Hknown allow.
    destruct (acceptsContentType r) eqn:Hacc;
      [| rewrite !(ReadJSON_rejected _ _ _ Hacc); reflexivity].
    rewrite !(ReadJSON_accepted _ _ _ Hacc), !readBody_error. cbv zeta.
    change (maxBytesOf (withUnknownFields t allow)) with (maxBytesOf t).
    set (body := http.MaxBytesReader (http.Body r) (maxBytesOf t)).
    unfold firstValue in Hknown. rewrite readValue_open in Hknown.
    cbv zeta in Hknown. fold body in Hknown.
    pose proof (settle_modes (http.drain body) (http.rd_data body)
                  (negb (AllowUnknownFields (withUnknownFields t allow)))
                  (negb (AllowUnknownFields t))
                  (scanBuffer newScanner (http.rd_data body) 0)) as Hm.
    destruct (settle _ _ (negb (AllowUnknownFields (withUnknownFields t allow))) _)
      as [d1 [n1 | e1]];
      destruct (settle (http.drain body) (http.rd_data body)
                  (negb (AllowUnknownFields t)) _) as [d2 [n2 | e2]] eqn:Hset2;
      try contradiction; [| subst; reflexivity].
    destruct Hm as [-> _].
    apply settle_ok in Hset2. destruct Hset2 as (_ & Hb & _ & _).
    rewrite Hb in Hknown.
    cbn [unmarshalValue Typed_Unmarshaler]. unfold unmarshalInto.
    destruct (parse (take n2 (http.rd_data body))) as [j |]; [| reflexivity].
    specialize (Hknown j eq_refl).
    assert (Hv : forall b, value b None ty j x = value false None ty j x).
    { intros [|]; [apply value_known; exact Hknown | reflexivity]. }
    rewrite (Hv (negb (AllowUnknownFields t))),
      (Hv (negb (AllowUnknownFields (withUnknownFields t allow)))). reflexivity.
  - intros tname ts fields off ms Hall. cbn [unknownKeys].
    induction Hall as [|[k val] ms [[item [e Hlit]] [name [Hin Hfold]]] _ IH];
      [reflexivity |].
    cbn [flat_map fst snd] in *. rewrite IH, app_nil_r.
    unfold findField.
    destruct (findBy String.eqb (unquote k) fields 0) as [[[i n] fty] |].
    + subst val. reflexivity.
    + pose proof (findBy_fold _ _ fields Hin Hfold 0%nat) as Hne.
      destruct (findBy equalFold (unquote k) fields 0) as [[[i n] fty] |];
        [subst val; reflexivity | contradiction].
Qed.

(** X15.  [ReadJSON] does not reset the destination: a field that no member
    of the body selects keeps the value it had. *)
Theorem ReadJSON_keeps_absent_fields (t : Tools) (r : http.Request)
    (tname ts : string) (fields : list (string * bool * GoType))
    (vs : list GoValue) (off : Z) (ms : list (string * Value)) (i : nat) :
  ty = TStruct tname ts fields ->
  acceptsContentType r = true ->
  firstValue t r = Some (Object off ms) ->
  Forall (fun m : string * Value =>
            forall k name fty,
              findField (unquote (fst m)) fields = Some (k, name, fty) -> k <> i) ms ->
  exists vs' : list GoValue,
    snd (fst (ReadJSON (U := Typed_Unmarshaler ty) t r (Pointer (VStruct vs))))
    = Pointer (VStruct vs')
    /\ vs' !! i = vs !! i.
Proof.
  intros Hty Hacc Hfirst Habsent.
  rewrite (ReadJSON_stored _ _ _ Hacc), Hfirst, Hty. cbn [value].
  clear Hfirst Hacc Hty.
  assert (H : forall vs0 : list GoValue,
             exists vs' : list GoValue,
               fst (objectLoop false tname fields None
                      (fun ctx' fty val sub => value false ctx' fty val sub) ms
                      (VStruct vs0)) = VStruct vs'
               /\ vs' !! i = vs0 !! i).
  { induction Habsent as [|[k val] ms Hm _ IH]; intros vs0; [exists vs0; auto |].
    cbn [objectLoop]. cbn [fst] in Hm.
    destruct (findField (unquote k) fields) as [[[k0 name] fty] |] eqn:Hf.
    - specialize (Hm k0 name fty eq_refl).
      destruct (value false _ fty val (getField k0 fty (VStruct vs0))) as [sub errs].
      cbn [setField].
      destruct (IH (<[k0 := sub]> vs0)) as (vs' & Heq & Hlk).
      destruct (objectLoop false tname fields None _ ms (VStruct (<[k0 := sub]> vs0)))
        as [v' errs'].
      cbn [fst] in *. exists vs'. split; [exact Heq |].
      rewrite Hlk. apply list_lookup_insert_ne. exact Hm.
    - destruct (IH vs0) as (vs' & Heq & Hlk).
      destruct (objectLoop false tname fields None _ ms (VStruct vs0)) as [v' errs'].
      cbn [fst] in *. exists vs'. auto. }
  destruct (H vs) as (vs' & Heq & Hlk). exists vs'. rewrite Heq. auto.
Qed.

Lemma objectLoop_app (strict : bool) (tname : string)
    (fields : list (string * bool * GoType)) (ctx : Context)
    (rec : Context -> GoType -> Value -> GoValue -> GoValue * list error)
    (a b : list (string * Value)) :
  forall v : GoValue,
    fst (objectLoop strict tname fields ctx rec (a ++ b) v)
    = fst (objectLoop strict tname fields ctx rec b
             (fst (objectLoop strict tname fields ctx rec a v))).
Proof.
  induction a as [|[k val] a IH]; intros v; [reflexivity |].
  cbn [app objectLoop]. fold (objectLoop strict tname fields ctx rec).
  destruct (findField (unquote k) fields) as [[[i name] fty] |].
  - destruct (rec _ fty val (getField i fty v)) as [sub errs].
    specialize (IH (setField i sub v)).
    destruct (objectLoop strict tname fields ctx rec (a ++ b) (setField i sub v))
      as [v1 e1].
    destruct (objectLoop strict tname fields ctx rec a (setField i sub v)) as [v2 e2].
    exact IH.
  - specialize (IH v).
    destruct (objectLoop strict tname fields ctx rec (a ++ b) v) as [v1 e1].
    destruct (objectLoop strict tname fields ctx rec a v) as [v2 e2].
    exact IH.
Qed.

Lemma objectLoop_struct (strict : bool) (tname : string)
    (fields : list (string * bool * GoType)) (ctx : Context)
    (rec : Context -> GoType -> Value -> GoValue -> GoValue * list error)
    (ms : list (string * Value)) :
  forall vs : list GoValue,
    exists vs' : list GoValue,
      fst (objectLoop strict tname fields ctx rec ms (VStruct vs)) = VStruct vs'
      /\ length vs' = length vs.
Proof.
  induction ms as [|[k val] ms IH]; intros vs; [exists vs; auto |].
  cbn [objectLoop]. fold (objectLoop strict tname fields ctx rec).
  destruct (findField (unquote k) fields) as [[[i name] fty] |].
  - destruct (rec _ fty val (getField i fty (VStruct vs))) as [sub errs].
    cbn [setField]. destruct (IH (<[i := sub]> vs)) as (vs' & Heq & Hlen).
    destruct (objectLoop strict tname fields ctx rec ms (VStruct (<[i := sub]> vs)))
      as [v1 e1].
    exists vs'. split; [exact Heq |]. rewrite Hlen. apply length_insert.
  - destruct (IH vs) as (vs' & Heq & Hlen).
    destruct (objectLoop strict tname fields ctx rec ms (VStruct vs)) as [v1 e1].
    exists vs'. auto.
Qed.

(** X16.  The last member of the body decides its field: whatever members
    come before it, one under the same key included, the field holds
    what the last member stores. *)
Theorem ReadJSON_last_member_wins (t : Tools) (r : http.Request)
    (tname ts : string) (fields : list (string * bool * GoType))
    (vs : list GoValue) (off : Z) (ms : list (string * Value))
    (k item : string) (e : Z) (i : nat) (name : string) (fty : GoType)
    (v : GoValue) :
  ty = TStruct tname ts fields ->
  acceptsContentType r = true ->
  firstValue t r = Some (Object off (ms ++ [(k, Literal item e)])) ->
  findField (unquote k) fields = Some (i, name, fty) ->
  (forall ctx v0, literalStore ctx fty item e v0 = (v, [])) ->
  (i < length vs)%nat ->
  exists vs' : list GoValue,
    snd (fst (ReadJSON (U := Typed_Unmarshaler ty) t r (Pointer (VStruct vs))))
    = Pointer (VStruct vs')
    /\ vs' !! i = Some v.
Proof.
  intros Hty Hacc Hfirst Hfind Hstore Hi.
  rewrite (ReadJSON_stored _ _ _ Hacc), Hfirst, Hty. cbn [value].
  rewrite objectLoop_app.
  destruct (objectLoop_struct false tname fields None
              (fun ctx' fty0 val sub => value false ctx' fty0 val sub) ms vs)
    as (vs1 & Heq & Hlen).
  rewrite Heq. cbn [objectLoop]. rewrite Hfind. cbn [value]. rewrite Hstore.
  cbn [setField fst]. exists (<[i := v]> vs1). split; [reflexivity |].
  apply list_lookup_insert_eq. rewrite Hlen. exact Hi.
Qed.

End Storing.

(** ** ReadJSON: strict and lenient on unknown fields *)

Section Strictness.
Import json.

Variable ty : GoType.
Variable t : Tools.

(** What is left of an input stripped of its unknown members has no
    unknown key. *)
Lemma unknownKeys_prune (j : Value) :
  forall ty0 : GoType, unknownKeys ty0 (prune ty0 j) = [].
Proof.
  induction j as [item off | off elems _ | off ms IH] using Value_induction;
    intros ty0; try (destruct ty0; reflexivity).
  destruct ty0 as [| | | tname ts fields]; try reflexivity.
  cbn [prune unknownKeys].
  induction ms as [|[k val] ms IHms]; [reflexivity |].
  inversion IH as [|? ? Hval Hrest]; subst. specialize (IHms Hrest).
  cbn [snd] in Hval. cbn [flat_map fst snd].
  destruct (findField (unquote k) fields) as [[[i name] fty] |] eqn:Hf.
  - cbn [app flat_map fst snd]. rewrite Hf, Hval, IHms. reflexivity.
  - cbn [app]. exact IHms.
Qed.

(** The first value of a request, given as a tree, is the value the
    scanner cut out of the capped body. *)
Lemma firstValue_settle (r : http.Request) (j : Value) (strict : bool) :
  firstValue t r = Some j ->
  let body := http.MaxBytesReader (http.Body r) (maxBytesOf t) in
  exists (d : Decoder) (n : nat),
    settle (http.drain body) (http.rd_data body) strict
      (scanBuffer newScanner (http.rd_data body) 0) = (d, inl n)
    /\ parse (take n (http.rd_data body)) = Some j
    /\ afterFirstValue t r = drop n (http.rd_data body).
Proof.
  intros Hfirst body. unfold firstValue, afterFirstValue in *.
  rewrite readValue_open in *. cbv zeta in *. fold body in Hfirst. fold body.
  pose proof (settle_modes (http.drain body) (http.rd_data body)
                (negb (AllowUnknownFields t)) strict
                (scanBuffer newScanner (http.rd_data body) 0)) as Hm.
  destruct (settle (http.drain body) (http.rd_data body) (negb (AllowUnknownFields t)) _)
    as [d1 [n1 | e1]] eqn:H1; [| discriminate].
  destruct (settle (http.drain body) (http.rd_data body) strict _)
    as [d2 [n2 | e2]] eqn:H2; [| contradiction].
  destruct Hm as [<- _]. apply settle_ok in H1. destruct H1 as (_ & Hb & _ & _).
  rewrite Hb in *. exists d2, n1. auto.
Qed.

(** C4 (as the code has it).  Take a request that passes the
    content-type check, a destination of struct type [ty], and a body
    whose first value [j] has keys that select no field of [ty], [k]
    being the first of them, while [j] without those members is stored
    without error.  With [AllowUnknownFields] unset, [ReadJSON] fails
    with "body contains unknown key" followed by [k] as [%q] prints
    it: the name itself between double quotes when it is plain, with
    escapes otherwise.  With [AllowUnknownFields] set, the destination
    holds what [j] without its unknown members stores, and when the
    body holds nothing else but white space, ends normally and is
    within the ceiling, [ReadJSON] returns nil. *)
Theorem ReadJSON_unknown_field (r : http.Request) (x : GoValue) (j : Value)
    (k : string) (ks : list string) :
  acceptsContentType r = true ->
  firstValue t r = Some j ->
  unknownKeys ty j = k :: ks ->
  snd (value true None ty (prune ty j) x) = [] ->
  let strict := ReadJSON (U := Typed_Unmarshaler ty) (withUnknownFields t false) r
                  (Pointer x) in
  let lenient := ReadJSON (U := Typed_Unmarshaler ty) (withUnknownFields t true) r
                   (Pointer x) in
  snd strict = Some (errors.errorString ("body contains unknown key " +:+ Quote k))
  /\ (plain k = true ->
      snd strict
      = Some (errors.errorString ("body contains unknown key " +:+ dq +:+ k +:+ dq)))
  /\ snd (fst lenient) = Pointer (fst (value true None ty (prune ty j) x))
  /\ (nonSpace (afterFirstValue t r) = false ->
      http.rd_err (http.Body r) = errors.EOF ->
      len (http.rd_data (http.Body r)) <= maxBytesOf t ->
      snd lenient = None).
Proof.
  intros Hacc Hfirst Hunk Hclean strict lenient.
  (* what the two decoders make of [j] *)
  assert (Hknown : value true None ty (prune ty j) x
                   = value false None ty (prune ty j) x)
    by (apply value_known, unknownKeys_prune).
  rewrite Hknown in *. rewrite value_prune in *.
  destruct (value_modes j None ty x) as [Hsame Hstrict].
  destruct (value false None ty j x) as [xl errsl] eqn:Hvl.
  cbn [fst snd] in *. subst errsl. specialize (Hstrict eq_refl).
  rewrite Hunk in Hstrict.
  destruct (value true None ty j x) as [xs errss] eqn:Hvs.
  cbn [fst snd] in *. subst xs errss.
  assert (Hs : snd strict
               = Some (errors.errorString ("body contains unknown key " +:+ Quote k))).
  { subst strict. rewrite (ReadJSON_accepted _ _ _ Hacc), readBody_error. cbv zeta.
    change (maxBytesOf (withUnknownFields t false)) with (maxBytesOf t).
    change (AllowUnknownFields (withUnknownFields t false)) with false.
    change (negb false) with true.
    destruct (firstValue_settle r j true Hfirst) as (d & n & -> & Hp & _).
    cbn [unmarshalValue Typed_Unmarshaler]. unfold unmarshalInto.
    rewrite Hp, Hvs. cbn [snd map head].
    rewrite classify_unknownField. reflexivity. }
  split; [exact Hs | split; [| split]].
  - intros Hp. rewrite Hs, (Quote_plain _ Hp). reflexivity.
  - subst lenient. rewrite (ReadJSON_stored _ _ _ _ Hacc), firstValue_modes, Hfirst, Hvl.
    reflexivity.
  - intros Hns Heof Hlen. subst lenient.
    rewrite (ReadJSON_accepted _ _ _ Hacc), readBody_error. cbv zeta.
    change (maxBytesOf (withUnknownFields t true)) with (maxBytesOf t).
    change (AllowUnknownFields (withUnknownFields t true)) with true.
    change (negb true) with false.
    destruct (firstValue_settle r j false Hfirst) as (d & n & -> & Hp & Hrest).
    cbn [unmarshalValue Typed_Unmarshaler]. unfold unmarshalInto.
    rewrite Hp, Hvl. cbn [snd head].
    rewrite <- Hrest, Hns, (MaxBytesReader_fits _ _ Hlen), Heof. reflexivity.
Qed.

End Strictness.

Section WriteThenRead.
Import json.

Lemma take_whole (a : string) : take (String.length a) a = a.
Proof. rewrite <- (append_nil_r a) at 2. apply take_app. Qed.

Lemma drop_whole (a : string) : drop (String.length a) a = "".
Proof. rewrite <- (append_nil_r a) at 2. apply drop_app. Qed.

(** What [ReadJSON] past the content-type check leaves in the
    destination, read off the scan of the capped body. *)
Lemma readBody_stored {T : Type} {U : Unmarshaler T} (t : Tools)
    (r : http.Request) (x : T) :
  let body := http.MaxBytesReader (http.Body r) (maxBytesOf t) in
  let strict := negb (AllowUnknownFields t) in
  snd (fst (readBody t r (Pointer x)))
  = match settle (http.drain body) (http.rd_data body) strict
            (scanBuffer newScanner (http.rd_data body) 0) with
    | (_, inr e) => Pointer x
    | (_, inl n) => Pointer (fst (unmarshalValue strict (take n (http.rd_data body)) x))
    end.
Proof.
  intros body strict. unfold readBody, Decode at 1.
  rewrite openDecoder_err, readValue_open. fold body. fold strict.
  destruct (settle (http.drain body) (http.rd_data body) strict
              (scanBuffer newScanner (http.rd_data body) 0))
    as [d [n | e]] eqn:Hset; [| reflexivity].
  apply settle_ok in Hset. destruct Hset as (Hr & Hb & He & Hs).
  rewrite Hb, Hs.
  destruct (unmarshalValue strict (take n (http.rd_data body)) x) as [x' [e' |]];
    [reflexivity |].
  match goal with
  | |- context [Decode ?dd (Pointer (zero emptyStruct))] =>
      destruct (Decode (U := Typed_Unmarshaler emptyStruct) dd
                  (Pointer (zero emptyStruct))) as [[dec2 d2] e2]
  end.
  destruct e2 as [[] |]; reflexivity.
Qed.

(** A request whose body is the serialization of [V] is read back as
    [V]. *)
Lemma ReadJSON_encodeValue (t : Tools) (r : http.Request) (ty : GoType)
    (V : GoValue) :
  wellFormed ty = true -> conforms ty V = true ->
  Z.of_nat (nesting V) <= 10000 ->
  acceptsContentType r = true ->
  http.Body r = http.mkReader (encodeValue ty V) errors.EOF ->
  len (encodeValue ty V) <= maxBytesOf t ->
  snd (ReadJSON (U := Typed_Unmarshaler ty) t r (Pointer (zero ty))) = None
  /\ snd (fst (ReadJSON (U := Typed_Unmarshaler ty) t r (Pointer (zero ty))))
     = Pointer V.
Proof.
  intros Hwf Hconf Hnest Hacc Hbody Hfit.
  rewrite (ReadJSON_accepted _ _ _ Hacc), readBody_error, readBody_stored. cbv zeta.
  assert (HM : http.MaxBytesReader (http.Body r) (maxBytesOf t)
               = http.mkReader (encodeValue ty V) errors.EOF)
    by (rewrite Hbody; apply MaxBytesReader_fits; exact Hfit).
  rewrite HM. unfold http.drain. cbn [http.rd_data http.rd_err].
  destruct (settle_encodeValue ty V (http.mkReader "" errors.EOF)
              (negb (AllowUnknownFields t)) Hnest eq_refl) as [d Hset].
  rewrite Hset. cbn [unmarshalValue Typed_Unmarshaler].
  rewrite take_whole, drop_whole, (unmarshal_encodeValue ty V _ Hwf Hconf).
  split; reflexivity.
Qed.

(** X1.  What [WriteJSON] writes for [V], [ReadJSON] reads back as [V]:
    sent as the body of a request, within the ceiling of the reader,
    the text decodes into a zero destination without an error, with
    unknown fields allowed or not.  [V] is a value of a type with
    distinct, well-formed JSON names, its strings are well-formed UTF-8
    and its structs nest no deeper than the scanner follows. *)
Theorem ReadJSON_reads_WriteJSON (tw tr : Tools) (w : http.ResponseWriter)
    (S : Z) (ty : GoType) (V : GoValue) (headers : list http.Header)
    (body : string) (r : http.Request) :
  wellFormed ty = true -> conforms ty V = true ->
  Z.of_nat (nesting V) <= maxNestingDepth ->
  last (http.rw_calls (fst (WriteJSON (M := Typed_Marshaler ty) tw w S V headers)))
  = Some (http.CallWrite body) ->
  acceptsContentType r = true ->
  http.Body r = http.mkReader body errors.EOF ->
  len body <= maxBytesOf tr ->
  snd (ReadJSON (U := Typed_Unmarshaler ty) tr r (Pointer (zero ty))) = None
  /\ snd (fst (ReadJSON (U := Typed_Unmarshaler ty) tr r (Pointer (zero ty))))
     = Pointer V.
Proof.
  intros Hwf Hconf Hnest Hlast Hacc Hbody Hfit.
  assert (Hb : body = encodeValue ty V).
  { rewrite (WriteJSON_ok (M := Typed_Marshaler ty) tw w S V headers
               (encodeValue ty V) eq_refl) in Hlast.
    unfold http.Write in Hlast. cbn [fst http.rw_calls] in Hlast.
    rewrite last_snoc in Hlast. inversion Hlast. reflexivity. }
  subst body. apply ReadJSON_encodeValue; assumption.
Qed.

End WriteThenRead.

Section Reporting.

Context {T : Type} {U : json.Unmarshaler T}.
Variable t : Tools.

(** X8.  The character number in the message for badly-formed JSON is the
    position, counted from 1, of the first byte at which the body stops
    being the beginning of a JSON value: the bytes before it scan
    without complaint.  The destination is left alone. *)
Theorem ReadJSON_syntax_error (r : http.Request) (data : json.Target T)
    (e : error) (s : json.scanner) :
  acceptsContentType r = true ->
  let capped := http.rd_data (http.MaxBytesReader (http.Body r) (maxBytesOf t)) in
  json.scanBuffer json.newScanner capped 0 = json.Malformed e s ->
  exists k : nat,
    (k < String.length capped)%nat
    /\ opensValue (take k capped) = true
    /\ snd (ReadJSON t r data)
       = Some (errors.errorString
                 ("body contains badly-formed JSON (at character "
                  +:+ Itoa (Z.of_nat k + 1) +:+ ")"))
    /\ snd (fst (ReadJSON t r data)) = data.
Proof.
  intros Hacc capped Hsb.
  destruct (scanBuffer_Malformed capped json.newScanner 0 e s eq_refl) as
    (msg & k & s'' & Hk & He & Hpre); [discriminate | exact Hsb |].
  exists k. split; [exact Hk |]. split; [unfold opensValue; rewrite Hpre; reflexivity |].
  rewrite (ReadJSON_accepted _ _ _ Hacc).
  rewrite (readBody_scan_error t r data
             (json.mkDecoder
                (http.drain (http.MaxBytesReader (http.Body r) (maxBytesOf t)))
                capped s (Some e) (negb (AllowUnknownFields t))) e).
  - subst e. cbn [json.bytes json.newScanner]. split; reflexivity.
  - fold capped. rewrite Hsb. reflexivity.
Qed.

(** X12.  The content type is compared whole: [application/json] in any
    ASCII case goes on to the body, and the same followed by anything,
    a [charset] parameter for one, is refused. *)
Theorem ReadJSON_media_type (r : http.Request) (data : json.Target T) :
  let ct := http.Get (http.Header_ r) "Content-Type" in
  (EqualFold ct "application/json" = true -> ReadJSON t r data = readBody t r data)
  /\ (forall p suffix : string,
        ct = p +:+ suffix -> EqualFold p "application/json" = true -> suffix <> "" ->
        ReadJSON t r data = (r, data, Some wrongContentType)).
Proof.
  intros ct. split.
  - intros Hf. apply ReadJSON_accepted. unfold acceptsContentType. fold ct.
    rewrite (ToLower_json _ Hf). apply orb_true_r.
  - intros p suffix Hct Hf Hs. apply ReadJSON_rejected. unfold acceptsContentType.
    fold ct. rewrite Hct, (ToLower_json_longer _ _ Hf Hs).
    destruct p; [discriminate | reflexivity].
Qed.

End Reporting.

Section ErrorResponses.
Import json.

(** [ErrorJSON], unfolded. *)
Lemma ErrorJSON_written (t : Tools) (w : http.ResponseWriter) (e : error)
    (status : list Z) :
  ErrorJSON t w e status
  = (fst (http.Write (prepared w (statusOf status) []) (errorWire e)), None).
Proof.
  assert (HM : Marshal (errorEnvelope e) = inl (errorWire e)).
  { unfold errorWire. cbn [Marshal JSONResponse_Marshaler].
    unfold marshalJSONResponse. cbn [Data errorEnvelope Error Message encodeBool].
    rewrite !append_assoc. reflexivity. }
  assert (HE : ErrorJSON t w e status
               = WriteJSON t w (statusOf status) (errorEnvelope e) []).
  { unfold ErrorJSON, statusOf, errorEnvelope. destruct status; reflexivity. }
  rewrite HE. apply (WriteJSON_ok t _ _ _ _ _ HM).
Qed.

(** X3.  [ErrorJSON] never returns an error: the envelope always
    serializes, and on a writer whose transport fails with [e0] the
    write of the body fails with [e0] and nil is returned all the
    same. *)
Theorem ErrorJSON_returns_nil (t : Tools) (w : http.ResponseWriter) (e : error)
    (status : list Z) :
  snd (ErrorJSON t w e status) = None
  /\ forall e0 : error,
       http.rw_broken w = Some e0 ->
       snd (http.Write (prepared w (statusOf status) []) (errorWire e)) = (0, Some e0).
Proof.
  rewrite ErrorJSON_written. split; [reflexivity |].
  intros e0 He0. unfold http.Write. rewrite prepared_broken, He0. reflexivity.
Qed.

Lemma errorWire_encodeValue (e : error) :
  errorWire e
  = encodeValue errorReply (VStruct [VBool true; VString (errors.Error e)]).
Proof.
  rewrite encodeValue_struct. unfold errorWire, errorReply.
  cbn [encodeFields andb isEmptyValue encodeValue encodeBool joinFields].
  rewrite !append_assoc. reflexivity.
Qed.

(** X2.  The body [ErrorJSON] writes reads back as the failure flag and the
    text of the error, whatever that text holds that JSON escapes. *)
Theorem ErrorJSON_read_back (tw tr : Tools) (w : http.ResponseWriter) (e : error)
    (status : list Z) (body : string) (r : http.Request) :
  ValidUTF8 (errors.Error e) = true ->
  last (http.rw_calls (fst (ErrorJSON tw w e status))) = Some (http.CallWrite body) ->
  acceptsContentType r = true ->
  http.Body r = http.mkReader body errors.EOF ->
  len body <= maxBytesOf tr ->
  snd (ReadJSON (U := Typed_Unmarshaler errorReply) tr r (Pointer (zero errorReply)))
  = None
  /\ snd (fst (ReadJSON (U := Typed_Unmarshaler errorReply) tr r
                 (Pointer (zero errorReply))))
     = Pointer (VStruct [VBool true; VString (errors.Error e)]).
Proof.
  intros Hv Hlast Hacc Hbody Hfit.
  rewrite ErrorJSON_written in Hlast. unfold http.Write in Hlast.
  cbn [fst http.rw_calls] in Hlast. rewrite last_snoc in Hlast.
  inversion Hlast as [Hb]. clear Hlast.
  rewrite errorWire_encodeValue in Hb. subst body.
  apply ReadJSON_encodeValue; try assumption.
  - reflexivity.
  - cbn [conforms conformsAll]. rewrite Hv. reflexivity.
  - cbn. lia.
Qed.

End ErrorResponses.

(** ** What is written holds no raw markup *)

Section SafeOutput.
Import json.

Lemma wireSafe_app (a b : string) : wireSafe (a +:+ b) = wireSafe a && wireSafe b.
Proof.
  induction a as [|c a IH]; [reflexivity |].
  change (String c a +:+ b) with (String c (a +:+ b)).
  cbn [wireSafe]. rewrite IH. rewrite !andb_assoc. reflexivity.
Qed.

Lemma wireSafe_hex (z : Z) :
  0 <= z < 16 -> wireSafe (String (hex_digit z) "") = true.
Proof.
  intros H.
  assert (Hc : z = 0 \/ z = 1 \/ z = 2 \/ z = 3 \/ z = 4 \/ z = 5 \/ z = 6 \/ z = 7
               \/ z = 8 \/ z = 9 \/ z = 10 \/ z = 11 \/ z = 12 \/ z = 13 \/ z = 14
               \/ z = 15) by lia.
  repeat (destruct Hc as [-> | Hc]; [reflexivity |]). subst. reflexivity.
Qed.

Lemma byte_is_eq (c d : ascii) : byte_is c (String d "") = true -> c = d.
Proof.
  unfold byte_is. intros H. apply String.eqb_eq in H. inversion H. reflexivity.
Qed.

Lemma wireSafe_encodeByte (c : ascii) : wireSafe (encodeByte c) = true.
Proof.
  unfold encodeByte.
  destruct (byte_is c "\" || byte_is c dq) eqn:E1.
  { apply orb_prop in E1. destruct E1 as [E | E]; apply byte_is_eq in E; subst;
      reflexivity. }
  destruct (byte_val c =? 8); [reflexivity |].
  destruct (byte_val c =? 12); [reflexivity |].
  destruct (byte_val c =? 10); [reflexivity |].
  destruct (byte_val c =? 13); [reflexivity |].
  destruct (byte_val c =? 9); [reflexivity |].
  destruct ((byte_val c <? 32) || byte_is c "<" || byte_is c ">" || byte_is c "&") eqn:E.
  - pose proof (byte_val_range c) as Hr.
    change ("\u00" +:+ String (hex_digit (byte_val c / 16))
                         (String (hex_digit (byte_val c mod 16)) ""))
      with ("\u00" +:+ String (hex_digit (byte_val c / 16)) ""
            +:+ String (hex_digit (byte_val c mod 16)) "").
    rewrite !wireSafe_app, !wireSafe_hex; [reflexivity | |].
    + apply Z.mod_pos_bound. lia.
    + split; [apply Z.div_pos; lia | apply Z.div_lt_upper_bound; lia].
  - apply orb_false_elim in E. destruct E as [E Ha].
    apply orb_false_elim in E. destruct E as [E Hg].
    apply orb_false_elim in E. destruct E as [E Hl].
    cbn [wireSafe]. rewrite Hl, Hg, Ha.
    apply Z.ltb_ge in E. apply Z.leb_le in E. rewrite E. reflexivity.
Qed.

Lemma wireSafe_high (t : string) : allHigh t = true -> wireSafe t = true.
Proof.
  induction t as [|c t IH]; [reflexivity |]. cbn [allHigh wireSafe]. intros H.
  apply andb_prop in H. destruct H as [Hc Ht]. apply Z.leb_le in Hc.
  rewrite (IH Ht), !byte_is_val.
  change (byte_val "<") with 60. change (byte_val ">") with 62.
  change (byte_val "&") with 38.
  replace (32 <=? byte_val c) with true by (symmetry; apply Z.leb_le; lia).
  replace (byte_val c =? 60) with false by (symmetry; apply Z.eqb_neq; lia).
  replace (byte_val c =? 62) with false by (symmetry; apply Z.eqb_neq; lia).
  replace (byte_val c =? 38) with false by (symmetry; apply Z.eqb_neq; lia).
  reflexivity.
Qed.

Lemma wireSafe_encodeBody (fuel : nat) :
  forall s : string, wireSafe (encodeBody fuel s) = true.
Proof.
  induction fuel as [|fuel IH]; intros s; [reflexivity |].
  destruct s as [|c rest]; [reflexivity |].
  cbn [encodeBody]. destruct (byte_val c <? 128) eqn:Hc.
  - rewrite wireSafe_app, wireSafe_encodeByte, IH. reflexivity.
  - apply Z.ltb_ge in Hc.
    destruct (DecodeRune (String c rest)) as [r w] eqn:HD.
    destruct (DecodeRune_high _ _ _ _ Hc HD) as [[-> ->] | Hw].
    + change ((RuneError =? RuneError) && (1 =? 1)%nat) with true. cbn iota.
      rewrite wireSafe_app, IH. reflexivity.
    + replace ((r =? RuneError) && (w =? 1)%nat) with false
        by (symmetry; apply andb_false_iff; right; apply Nat.eqb_neq; lia).
      destruct (r =? 8232); [| destruct (r =? 8233)];
        rewrite wireSafe_app, IH; [reflexivity | reflexivity |].
      destruct (DecodeRune_prefix _ "" _ _ HD Hw) as [_ Hh].
      rewrite (wireSafe_high _ Hh). reflexivity.
Qed.

Lemma wireSafe_encodeString (s : string) : wireSafe (encodeString s) = true.
Proof.
  unfold encodeString. rewrite !wireSafe_app, wireSafe_encodeBody. reflexivity.
Qed.

Lemma wireSafe_uint (u : Decimal.uint) : wireSafe (NilEmpty.string_of_uint u) = true.
Proof. induction u; cbn [NilEmpty.string_of_uint]; try reflexivity; exact IHu. Qed.

Lemma wireSafe_Itoa (n : Z) : wireSafe (Itoa n) = true.
Proof.
  destruct n as [|p|p]; [reflexivity | |].
  - rewrite Itoa_pos. apply wireSafe_uint.
  - rewrite Itoa_neg. exact (wireSafe_uint _).
Qed.

Lemma wireSafe_joinFields (texts : list string) :
  Forall (fun x => wireSafe x = true) texts -> wireSafe (joinFields texts) = true.
Proof.
  induction 1 as [|x texts Hx Hall IH]; [reflexivity |].
  rewrite joinFields_cons. destruct texts; [exact Hx |].
  rewrite !wireSafe_app, Hx, IH. reflexivity.
Qed.

Lemma wireSafe_encodeValue (v : GoValue) :
  forall ty : GoType, wireSafe (encodeValue ty v) = true.
Proof.
  induction v as [b | n | s | vs IH] using GoValue_induction; intros ty.
  - destruct b; reflexivity.
  - apply wireSafe_Itoa.
  - apply wireSafe_encodeString.
  - rewrite encodeValue_struct, !wireSafe_app.
    rewrite wireSafe_joinFields; [reflexivity |].
    generalize (match ty with TStruct _ _ fs => fs | _ => [] end).
    induction IH as [|x vs Hx _ IHvs]; intros fs; [constructor |].
    destruct fs as [|[[name omit] fty] fs]; [constructor |].
    cbn [encodeFields]. fold (encodeFields encodeValue).
    destruct (omit && isEmptyValue x); [apply IHvs |].
    constructor; [| apply IHvs].
    rewrite !wireSafe_app, wireSafe_encodeString, Hx. reflexivity.
Qed.

(** X4.  What [WriteJSON] sends for a value of the types followed here, and
    what [ErrorJSON] sends for any error, holds no control byte and
    none of the characters [<], [>] and [&]: [json.Marshal] writes them
    as escapes. *)
Theorem WriteJSON_body_safe (t : Tools) (w : http.ResponseWriter) (body : string) :
  (forall (S : Z) (ty : GoType) (V : GoValue) (headers : list http.Header),
      last (http.rw_calls (fst (WriteJSON (M := Typed_Marshaler ty) t w S V headers)))
      = Some (http.CallWrite body) ->
      wireSafe body = true)
  /\ (forall (e : error) (status : list Z),
        last (http.rw_calls (fst (ErrorJSON t w e status))) = Some (http.CallWrite body) ->
        wireSafe body = true).
Proof.
  split.
  - intros S ty V headers Hlast.
    rewrite (WriteJSON_ok (M := Typed_Marshaler ty) t w S V headers
               (encodeValue ty V) eq_refl) in Hlast.
    unfold http.Write in Hlast. cbn [fst http.rw_calls] in Hlast.
    rewrite last_snoc in Hlast. inversion Hlast. apply wireSafe_encodeValue.
  - intros e status Hlast.
    rewrite ErrorJSON_written in Hlast.
    unfold http.Write in Hlast. cbn [fst http.rw_calls] in Hlast.
    rewrite last_snoc in Hlast. inversion Hlast.
    unfold errorWire. rewrite !wireSafe_app, !wireSafe_encodeString. reflexivity.
Qed.

End SafeOutput.

(** ** ReadJSON: a value of the wrong type, end to end *)

Section Mismatch.
Import json.

Lemma oneMember_encodeValue (name s : string) :
  oneMember name s
  = encodeValue (TStruct "" "" [(name, false, TString)]) (VStruct [VString s]).
Proof. reflexivity. Qed.

Lemma encodeString_head (s : string) :
  encodeString s = String dquote (encodeBody (String.length s) s +:+ dq).
Proof. reflexivity. Qed.

Lemma parse_object1 (K E kb eb : string) :
  K = String dquote kb -> E = String dquote eb ->
  literalExtent (K +:+ ":" +:+ E +:+ "}") = String.length K ->
  literalExtent (E +:+ "}") = String.length E ->
  parse (String "{" (K +:+ ":" +:+ E +:+ "}"))
  = Some (Object 1
            [(K, Literal E (1 + Z.of_nat (String.length K) + 1
                            + Z.of_nat (String.length E)))]).
Proof.
  intros HK HE HextK HextE. subst K. unfold parse.
  remember (":" +:+ E +:+ "}") as X eqn:HX.
  change (String dquote kb +:+ X) with (String dquote (kb +:+ X)) in *.
  assert (HlX : exists g, String.length X = S g).
  { rewrite HX. change (":" +:+ E +:+ "}") with (String ":" (E +:+ "}")).
    eexists. reflexivity. }
  destruct HlX as [g Hg].
  cbn [String.length]. rewrite length_append, Hg, Nat.add_succ_r.
  cbn [parseValue]. rewrite skipSpace_here by reflexivity.
  change (byte_is "{" "{") with true. cbn iota.
  rewrite skipSpace_here by reflexivity.
  change (byte_is dquote "}") with false. cbn iota.
  cbn [parseMembers]. rewrite skipSpace_here by reflexivity.
  rewrite HextK.
  change (String dquote (kb +:+ X)) with (String dquote kb +:+ X).
  rewrite take_app, drop_app, HX.
  change (":" +:+ E +:+ "}") with (String ":" (E +:+ "}")).
  rewrite skipSpace_here by reflexivity.
  change (byte_is ":" ":") with true. cbn iota.
  rewrite HE in HextE.
  pose proof (parseValue_literal (S (String.length kb + g)) dquote eb "}"
                (0 + 1 + Z.of_nat (String.length (String dquote kb)) + 1)
                eq_refl eq_refl eq_refl HextE) as Hlit.
  rewrite <- HE in Hlit. rewrite Hlit.
  change "}" with (String "}" "") at 1.
  rewrite skipSpace_here by reflexivity.
  change (byte_is "}" ",") with false. change (byte_is "}" "}") with true. cbn iota.
  reflexivity.
Qed.

Lemma parse_oneMember (name s : string) :
  ValidUTF8 name = true -> ValidUTF8 s = true ->
  parse (oneMember name s)
  = Some (Object 1
            [(encodeString name,
              Literal (encodeString s)
                (1 + Z.of_nat (String.length (encodeString name)) + 1
                 + Z.of_nat (String.length (encodeString s))))]).
Proof.
  intros Hn Hs.
  assert (Htext : oneMember name s
                  = String "{" (encodeString name +:+ ":" +:+ encodeString s +:+ "}")).
  { unfold oneMember.
    change ("{" +:+ (encodeString name +:+ ":" +:+ encodeString s) +:+ "}")
      with (String "{" ((encodeString name +:+ ":" +:+ encodeString s) +:+ "}")).
    rewrite !append_assoc. reflexivity. }
  rewrite Htext.
  destruct (encodeString_spec name (":" +:+ encodeString s +:+ "}") Hn) as [HextK _].
  destruct (encodeString_spec s "}" Hs) as [HextE _].
  exact (parse_object1 _ _ _ _ (encodeString_head name) (encodeString_head s)
           HextK HextE).
Qed.

(** X9.  A string sent where the destination has an [int]: the message names
    the field, as [%q] prints it, and gives the offset just after the
    string, and the destination is left as it was. *)
Theorem ReadJSON_string_for_int (t : Tools) (r : http.Request)
    (tname ts name s : string) (omit : bool) (x : GoValue) :
  let ty := TStruct tname ts [(name, omit, TInt)] in
  ValidUTF8 name = true -> ValidUTF8 s = true ->
  acceptsContentType r = true ->
  http.Body r = http.mkReader (oneMember name s) errors.EOF ->
  len (oneMember name s) <= maxBytesOf t ->
  snd (ReadJSON (U := Typed_Unmarshaler ty) t r (Pointer x))
  = Some (errors.errorString
            ("body contains incorrect JSON type for field " +:+ Quote name
             +:+ " at offset " +:+ Itoa (len (oneMember name s) - 1)))
  /\ snd (fst (ReadJSON (U := Typed_Unmarshaler ty) t r (Pointer x))) = Pointer x.
Proof.
  intros ty Hn Hs Hacc Hbody Hfit.
  rewrite (ReadJSON_accepted _ _ _ Hacc), readBody_error, readBody_stored. cbv zeta.
  assert (HM : http.MaxBytesReader (http.Body r) (maxBytesOf t)
               = http.mkReader (oneMember name s) errors.EOF)
    by (rewrite Hbody; apply MaxBytesReader_fits; exact Hfit).
  rewrite HM. unfold http.drain. cbn [http.rd_data http.rd_err].
  destruct (settle_encodeValue (TStruct "" "" [(name, false, TString)])
              (VStruct [VString s]) (http.mkReader "" errors.EOF)
              (negb (AllowUnknownFields t))) as [d Hset];
    [vm_compute; discriminate | reflexivity |].
  rewrite <- oneMember_encodeValue in Hset. rewrite Hset.
  cbn [unmarshalValue Typed_Unmarshaler]. rewrite take_whole.
  unfold unmarshalInto. rewrite (parse_oneMember _ _ Hn Hs).
  destruct (encodeString_spec name "" Hn) as [_ Hunq].
  unfold ty. cbn [value objectLoop]. rewrite Hunq.
  unfold findField. cbn [findBy]. rewrite String.eqb_refl.
  cbn [value]. unfold literalStore. rewrite encodeString_head.
  change (byte_is dquote "n") with false.
  change (byte_is dquote "t" || byte_is dquote "f") with false.
  change (byte_is dquote dq) with true. cbn iota.
  rewrite <- encodeString_head.
  assert (Hsame : setField 0 (getField 0 TInt x) x = x).
  { destruct x as [| | | vs]; try reflexivity. cbn [getField setField].
    destruct vs as [|x0 vs]; reflexivity. }
  rewrite Hsame. cbn [app head snd fst fieldStack typeError join typeString].
  unfold classify.
  cbn [errors.As_SyntaxError errors.Is_ErrUnexpectedEOF errors.As_UnmarshalTypeError].
  split; [| reflexivity].
  do 3 f_equal.
  unfold len, oneMember.
  change ("{" +:+ (encodeString name +:+ ":" +:+ encodeString s) +:+ "}")
    with (String "{" ((encodeString name +:+ ":" +:+ encodeString s) +:+ "}")).
  cbn [String.length]. rewrite !length_append.
  change (String.length ":") with 1%nat. change (String.length "}") with 1%nat.
  do 3 f_equal. lia.
Qed.

End Mismatch.

(** ** ReadJSON: one read, and how deep it follows *)

Section Once.

(** The request [ReadJSON] hands back past the content-type check has
    the capped body, read to its end. *)
Lemma readBody_request {T : Type} {U : json.Unmarshaler T} (t : Tools)
    (r : http.Request) (data : json.Target T) :
  fst (fst (readBody t r data))
  = http.mkRequest (http.Header_ r)
      (http.drain (http.MaxBytesReader (http.Body r) (maxBytesOf t))).
Proof.
  set (body := http.MaxBytesReader (http.Body r) (maxBytesOf t)).
  unfold readBody.
  destruct (json.Decode (openDecoder t r) data) as [[dec1 data1] e1] eqn:HD.
  assert (Hr1 : json.d_r dec1 = http.drain body
                /\ (e1 = None -> json.d_err dec1 = None)).
  { unfold json.Decode in HD. rewrite openDecoder_err, readValue_open in HD.
    fold body in HD.
    pose proof (settle_reader (http.drain body) (http.rd_data body)
                  (negb (AllowUnknownFields t))
                  (json.scanBuffer json.newScanner (http.rd_data body) 0)) as Hs.
    destruct (json.settle _ _ _ _) as [d [n | e]] eqn:Hset; cbn [fst] in Hs.
    - apply settle_ok in Hset. destruct Hset as (_ & _ & Hd & _).
      destruct data as [x | why].
      + destruct (json.unmarshalValue _ _ x) as [x' e'].
        inversion HD; subst; cbn. split; [exact Hs | intros _; exact Hd].
      + inversion HD; subst; cbn. split; [exact Hs | discriminate].
    - inversion HD; subst. split; [exact Hs | discriminate]. }
  destruct Hr1 as [Hr1 Herr1].
  destruct e1 as [e1 |]; [cbn; rewrite Hr1; reflexivity |].
  specialize (Herr1 eq_refl).
  destruct (json.Decode dec1 _) as [[dec2 data2] e2] eqn:HD2.
  assert (Hr2 : json.d_r dec2 = json.d_r dec1).
  { unfold json.Decode in HD2. rewrite Herr1 in HD2.
    unfold json.readValue in HD2.
    assert (Hdd : http.drain (json.d_r dec1) = json.d_r dec1)
      by (rewrite Hr1; reflexivity).
    destruct (json.scanBuffer (json.reset (json.d_scan dec1)) (json.d_buf dec1) 0)
      as [n s | e s | n s] eqn:Hsb.
    all: match type of HD2 with
         | context [json.settle ?a ?b ?c ?d] =>
             pose proof (settle_reader a b c d) as Hs;
             destruct (json.settle a b c d) as [d' [n' | e']]
         end; cbn [fst] in Hs.
    all: try (destruct (json.unmarshalValue _ _ _) as [x' e'']).
    all: inversion HD2; subst; cbn; rewrite Hs; try rewrite Hdd; reflexivity. }
  destruct e2 as [[] |]; cbn; rewrite Hr2, Hr1; reflexivity.
Qed.

(** X17.  A request is read once: after a call that returned nil the body
    is used up, and a second call on the request handed back, whatever
    its configuration and destination, fails with the error of an empty
    body. *)
Theorem ReadJSON_reads_once {T : Type} {U : json.Unmarshaler T} {T' : Type}
    {U' : json.Unmarshaler T'} (t t' : Tools) (r r' : http.Request) (x : T)
    (d : json.Target T) (data' : json.Target T') :
  ReadJSON t r (json.Pointer x) = (r', d, None) ->
  r' = http.mkRequest (http.Header_ r) (http.mkReader "" errors.EOF)
  /\ snd (ReadJSON t' r' data') = Some (errors.New "body must not be empty").
Proof.
  intros H.
  destruct (acceptsContentType r) eqn:Hacc;
    [| rewrite (ReadJSON_rejected _ _ _ Hacc) in H; inversion H].
  rewrite (ReadJSON_accepted _ _ _ Hacc) in H.
  pose proof (readBody_request t r (json.Pointer x)) as Hreq.
  pose proof (readBody_error t r x) as Herr. cbv zeta in Herr.
  rewrite H in Hreq, Herr. cbn [fst snd] in Hreq, Herr.
  set (body := http.MaxBytesReader (http.Body r) (maxBytesOf t)) in *.
  assert (Heof : http.rd_err body = errors.EOF).
  { destruct (json.settle _ _ _ _) as [d0 [n | e]]; [| discriminate].
    destruct (snd (json.unmarshalValue _ _ x)); [discriminate |].
    destruct (errors.is_EOF (http.rd_err body)) eqn:E;
      [apply is_EOF_spec; exact E |].
    rewrite orb_true_r in Herr. discriminate. }
  assert (Hr' : r' = http.mkRequest (http.Header_ r) (http.mkReader "" errors.EOF)).
  { rewrite Hreq. unfold http.drain. rewrite Heof. reflexivity. }
  split; [exact Hr' |]. rewrite Hr'.
  assert (Hacc' : acceptsContentType
                    (http.mkRequest (http.Header_ r) (http.mkReader "" errors.EOF))
                  = true) by exact Hacc.
  rewrite (ReadJSON_accepted (U := U') t' _ data' Hacc').
  rewrite (readBody_scan_error (U := U') t' _ data'
             (json.mkDecoder (http.mkReader "" errors.EOF) "" json.newScanner
                (Some errors.EOF) (negb (AllowUnknownFields t')))
             errors.EOF).
  - reflexivity.
  - cbn [http.Body]. rewrite MaxBytesReader_empty by reflexivity. reflexivity.
Qed.

End Once.

Section Depth.
Import json.

Lemma scan_brackets (n : nat) :
  forall (st : stepFn) (ps : list ParseFrame) (eT : bool) (e : option error)
         (b : Z) (m : nat),
    st = stateBeginValue \/ st = stateBeginValueOrEmpty ->
    Z.of_nat (length ps + S n) <= maxNestingDepth ->
    exists ps' : list ParseFrame,
      length ps' = (length ps + S n)%nat
      /\ scanBuffer (mkScanner st eT ps e b) (brackets (S n)) m
         = BufferExhausted (m + S n)
             (mkScanner stateBeginValueOrEmpty eT ps' e (b + Z.of_nat (S n))).
Proof.
  unfold maxNestingDepth.
  induction n as [|n IH]; intros st ps eT e b m Hst Hd.
  - exists (parseArrayValue :: ps). split; [cbn [length]; lia |].
    cbn [brackets scanBuffer]. unfold with_bytes.
    cbn [bytes step endTop parseState err].
    assert (Hstep : scan_step (mkScanner st eT ps e (b + 1)) "["
                    = (mkScanner stateBeginValueOrEmpty eT (parseArrayValue :: ps) e (b + 1),
                       scanBeginArray)).
    { destruct Hst as [-> | ->]; unfold scan_step; cbn [step];
        unfold stateBeginValueOrEmpty_, stateBeginValue_;
        change (isSpace "[") with false; change (byte_is "[" "]") with false;
        change (byte_is "[" "{") with false; change (byte_is "[" "[") with true;
        cbn iota; unfold pushParseState, with_stack, with_step, maxNestingDepth;
        cbn [step endTop parseState err bytes length];
        (replace (Z.of_nat (S (length ps)) <=? 10000) with true
           by (symmetry; apply Z.leb_le; lia)); reflexivity. }
    rewrite Hstep. repeat (f_equal; try lia).
  - change (brackets (S (S n))) with (String "[" (brackets (S n))).
    cbn [scanBuffer]. unfold with_bytes at 1.
    cbn [bytes step endTop parseState err].
    assert (Hstep : scan_step (mkScanner st eT ps e (b + 1)) "["
                    = (mkScanner stateBeginValueOrEmpty eT (parseArrayValue :: ps) e (b + 1),
                       scanBeginArray)).
    { destruct Hst as [-> | ->]; unfold scan_step; cbn [step];
        unfold stateBeginValueOrEmpty_, stateBeginValue_;
        change (isSpace "[") with false; change (byte_is "[" "]") with false;
        change (byte_is "[" "{") with false; change (byte_is "[" "[") with true;
        cbn iota; unfold pushParseState, with_stack, with_step, maxNestingDepth;
        cbn [step endTop parseState err bytes length];
        (replace (Z.of_nat (S (length ps)) <=? 10000) with true
           by (symmetry; apply Z.leb_le; lia)); reflexivity. }
    rewrite Hstep.
    destruct (IH stateBeginValueOrEmpty (parseArrayValue :: ps) eT e (b + 1) (S m))
      as (ps' & Hlen & Hrun); [right; reflexivity | cbn [length]; lia |].
    exists ps'. split; [rewrite Hlen; cbn [length]; lia |].
    rewrite Hrun. repeat (f_equal; try lia).
Qed.

(** X18.  The scanner follows arrays ten thousand deep and no deeper: the
    bracket that opens one more is a syntax error, whatever comes
    after, and [ReadJSON] reports its position. *)
Theorem ReadJSON_nesting_limit {T : Type} {U : Unmarshaler T} (t : Tools)
    (r : http.Request) (data : Target T) (rest : string) :
  acceptsContentType r = true ->
  http.rd_data (http.Body r)
  = brackets (Z.to_nat maxNestingDepth) +:+ String "[" rest ->
  len (http.rd_data (http.Body r)) <= maxBytesOf t ->
  opensValue (brackets (Z.to_nat maxNestingDepth)) = true
  /\ snd (ReadJSON t r data)
     = Some (errors.errorString "body contains badly-formed JSON (at character 10001)")
  /\ snd (fst (ReadJSON t r data)) = data.
Proof.
  intros Hacc Hbody Hfit.
  assert (Hn : exists n, Z.to_nat maxNestingDepth = S n /\ Z.of_nat (S n) = 10000).
  { exists (Z.to_nat 9999). unfold maxNestingDepth. split; lia. }
  destruct Hn as (n & Hn & Hn').
  destruct (scan_brackets n stateBeginValue [] false None 0 0%nat)
    as (ps' & Hlen & Hrun);
    [left; reflexivity | unfold maxNestingDepth; cbn [length]; lia |].
  rewrite Hn in *. split.
  { unfold opensValue, newScanner. rewrite Hrun. reflexivity. }
  rewrite (ReadJSON_accepted _ _ _ Hacc).
  set (e := errors.SyntaxError "invalid character '[' exceeded max depth" 10001).
  rewrite (readBody_scan_error t r data
             (mkDecoder
                (http.drain (http.MaxBytesReader (http.Body r) (maxBytesOf t)))
                (http.rd_data (http.Body r))
                (mkScanner stateError false (parseArrayValue :: ps') (Some e) 10001)
                (Some e) (negb (AllowUnknownFields t))) e).
  - split; reflexivity.
  - rewrite (MaxBytesReader_fits _ _ Hfit), Hbody.
    unfold newScanner. rewrite (scanBuffer_app _ _ _ _ _ _ Hrun).
    cbn [scanBuffer]. unfold with_bytes at 1.
    cbn [bytes step endTop parseState err].
    unfold scan_step; cbn [step]. unfold stateBeginValueOrEmpty_, stateBeginValue_.
    change (isSpace "[") with false. change (byte_is "[" "]") with false.
    change (byte_is "[" "{") with false. change (byte_is "[" "[") with true.
    cbn iota. unfold pushParseState, with_stack, with_step, maxNestingDepth.
    cbn [step endTop parseState err bytes length].
    replace (Z.of_nat (S (length ps')) <=? 10000) with false
      by (symmetry; apply Z.leb_gt; rewrite Hlen; cbn [length]; lia).
    unfold error_. cbn [step endTop parseState err bytes fst snd].
    replace (0 + Z.of_nat (S n) + 1) with 10001 by lia.
    reflexivity.
Qed.

End Depth.

(** ** The envelope with its data *)

Section Envelopes.
Import json.

Lemma envelope_encodeValue (failed : bool) (message : string) (ty : GoType)
    (V : GoValue) :
  isEmptyValue V = false ->
  Marshal (envelopeWith failed message ty V)
  = inl (encodeValue (envelopeOf ty) (VStruct [VBool failed; VString message; V])).
Proof.
  intros Hne. cbn [Marshal JSONResponse_Marshaler]. unfold marshalJSONResponse.
  cbn [Data Error Message envelopeWith]. unfold MarshalDynamic.
  cbn [dyn_type dyn_marshaler dyn_value Marshal Typed_Marshaler].
  rewrite encodeValue_struct. unfold envelopeOf.
  cbn [encodeFields andb isEmptyValue]. rewrite Hne.
  cbn [encodeValue joinFields]. rewrite !append_assoc. reflexivity.
Qed.

(** X19.  An envelope with data goes out and comes back: what [WriteJSON]
    writes for a [JSONResponse] whose data is a struct [V] of type
    [ty] reads back, into a destination with the data typed as [ty], as
    the flag, the message and [V]. *)
Theorem WriteJSON_envelope_read_back (tw tr : Tools) (w : http.ResponseWriter)
    (S : Z) (failed : bool) (message : string) (ty : GoType) (V : GoValue)
    (headers : list http.Header) (body : string) (r : http.Request) :
  wellFormed ty = true -> conforms ty V = true -> isStruct V = true ->
  ValidUTF8 message = true ->
  Z.of_nat (nesting V) < maxNestingDepth ->
  last (http.rw_calls (fst (WriteJSON tw w S (envelopeWith failed message ty V) headers)))
  = Some (http.CallWrite body) ->
  acceptsContentType r = true ->
  http.Body r = http.mkReader body errors.EOF ->
  len body <= maxBytesOf tr ->
  snd (ReadJSON (U := Typed_Unmarshaler (envelopeOf ty)) tr r
         (Pointer (zero (envelopeOf ty)))) = None
  /\ snd (fst (ReadJSON (U := Typed_Unmarshaler (envelopeOf ty)) tr r
                 (Pointer (zero (envelopeOf ty)))))
     = Pointer (VStruct [VBool failed; VString message; V]).
Proof.
  intros Hwf Hconf Hs Hmsg Hnest Hlast Hacc Hbody Hfit.
  assert (Hne : isEmptyValue V = false) by (destruct V; try discriminate; reflexivity).
  rewrite (WriteJSON_ok tw w S _ headers _ (envelope_encodeValue failed message ty V Hne))
    in Hlast.
  unfold http.Write in Hlast. cbn [fst http.rw_calls] in Hlast.
  rewrite last_snoc in Hlast. inversion Hlast as [Hb]. clear Hlast. subst body.
  apply ReadJSON_encodeValue; try assumption.
  - cbn [wellFormed envelopeOf map fst snd distinct existsb forallb].
    rewrite Hwf. reflexivity.
  - cbn [conforms conformsAll envelopeOf]. rewrite Hmsg, Hconf. reflexivity.
  - unfold maxNestingDepth in Hnest. cbn [nesting fold_right]. lia.
Qed.

End Envelopes.

(** * The properties at work on concrete requests *)

Import json.

(** The first value is accepted and a second one follows. *)
Lemma ReadJSON_single_value_witness :
  let t := tools 0 false in
  let r := request (Some "application/json") (quoted "{'A':1}{'A':2}") in
  let dec1 := fst (fst (Decode (U := Typed_Unmarshaler shapeA) (openDecoder t r)
                          (Pointer (zero shapeA)))) in
  acceptsContentType r = true
  /\ Decode (U := Typed_Unmarshaler shapeA) (openDecoder t r) (Pointer (zero shapeA))
     = (dec1, Pointer (VStruct [VInt 1]), None)
  /\ d_buf dec1 = quoted "{'A':2}"
  /\ snd (ReadJSON (U := Typed_Unmarshaler shapeA) t r (Pointer (zero shapeA)))
     = Some singleValueError.
Proof.
  intros t r dec1.
  assert (Hacc : acceptsContentType r = true) by (vm_compute; reflexivity).
  assert (HD : Decode (U := Typed_Unmarshaler shapeA) (openDecoder t r)
                 (Pointer (zero shapeA))
               = (dec1, Pointer (VStruct [VInt 1]), None))
    by (vm_compute; reflexivity).
  split; [exact Hacc |]. split; [exact HD |]. split; [vm_compute; reflexivity |].
  destruct (ReadJSON_single_value (U := Typed_Unmarshaler shapeA)
              t r (zero shapeA) (VStruct [VInt 1]) dec1 Hacc HD)
    as (_ & Hmany & _).
  apply Hmany. left. vm_compute. reflexivity.
Defined.

(** The scenario of the design: a ceiling of 10 bytes and an 11-byte
    body whose value is still open at the ceiling. *)
Lemma ReadJSON_body_too_large_witness :
  let t := tools 10 false in
  let r := request None (quoted "{'a':12345}") in
  acceptsContentType r = true
  /\ maxBytesOf t < len (http.rd_data (http.Body r))
  /\ 0 < len (http.rd_data (http.Body r))
  /\ opensValue (take (Z.to_nat (maxBytesOf t)) (http.rd_data (http.Body r))) = true
  /\ snd (ReadJSON (U := Typed_Unmarshaler shapeA) t r (Pointer (zero shapeA)))
     = Some (errors.errorString "body must not be larger than 10 bytes").
Proof.
  intros t r.
  assert (Hacc : acceptsContentType r = true) by (vm_compute; reflexivity).
  assert (Hlen : maxBytesOf t < len (http.rd_data (http.Body r)))
    by (vm_compute; reflexivity).
  assert (Hpos : 0 < len (http.rd_data (http.Body r))) by (vm_compute; reflexivity).
  assert (Hopen : opensValue (take (Z.to_nat (maxBytesOf t))
                                (http.rd_data (http.Body r))) = true)
    by (vm_compute; reflexivity).
  repeat (split; [assumption |]).
  exact (proj1 (proj2 (ReadJSON_body_too_large (U := Typed_Unmarshaler shapeA)
                         t r (Pointer (zero shapeA))) Hacc Hlen Hpos Hopen)).
Defined.

(** A body longer than the ceiling is not always reported as too large:
    with a ceiling of 10 bytes, a complete value in 7 bytes followed by
    four spaces is read as a value with something behind it. *)
Lemma ReadJSON_body_too_large_counterexample :
  ~ (forall (t : Tools) (r : http.Request) (data : Target GoValue),
       maxBytesOf t < len (http.rd_data (http.Body r)) ->
       snd (ReadJSON (U := Typed_Unmarshaler shapeA) t r data)
       = Some (bodyTooLarge (maxBytesOf t))).
Proof.
  intros H.
  specialize (H (tools 10 false) (request None (quoted "{'A':1}    "))
                (Pointer (zero shapeA))).
  assert (Hlen : maxBytesOf (tools 10 false)
                 < len (http.rd_data (http.Body (request None (quoted "{'A':1}    ")))))
    by (vm_compute; reflexivity).
  specialize (H Hlen). vm_compute in H. discriminate H.
Qed.

(** U+0130, the capital I with a dot above, lowers to [i]: a content
    type spelt with it is not [application/json] up to ASCII case, nor
    under Unicode simple case folding, where U+0130 folds onto nothing
    else, and it passes the check all the same. *)
Lemma ReadJSON_content_type_counterexample :
  ~ (forall (t : Tools) (r : http.Request) (data : Target GoValue),
       let ct := http.Get (http.Header_ r) "Content-Type" in
       ct <> "" ->
       EqualFold ct "application/json" = false ->
       equalFold ct "application/json" = false ->
       snd (ReadJSON (U := Typed_Unmarshaler shapeA) t r data) = Some wrongContentType).
Proof.
  intros H.
  specialize (H (tools 0 false)
                (request (Some ("appl" +:+ EncodeRune 304 +:+ "cation/json"))
                   (quoted "{'A':1}"))
                (Pointer (zero shapeA))).
  cbv zeta in H.
  assert (H1 : http.Get (http.Header_
                 (request (Some ("appl" +:+ EncodeRune 304 +:+ "cation/json"))
                    (quoted "{'A':1}"))) "Content-Type" <> "")
    by (vm_compute; discriminate).
  specialize (H H1 ltac:(vm_compute; reflexivity) ltac:(vm_compute; reflexivity)).
  vm_compute in H. discriminate H.
Qed.

Lemma ReadJSON_content_type_witness :
  let t := tools 0 false in
  let html := request (Some "text/html") (quoted "{'A':1}") in
  let bare := request None (quoted "{'A':1}") in
  (http.Get (http.Header_ html) "Content-Type" <> ""
   /\ ToLower (http.Get (http.Header_ html) "Content-Type") <> "application/json"
   /\ EqualFold (http.Get (http.Header_ html) "Content-Type") "application/json" = false
   /\ Contains (http.Get (http.Header_ html) "Content-Type") (EncodeRune 304) = false
   /\ ReadJSON (U := Typed_Unmarshaler shapeA) t html (Pointer (zero shapeA))
      = (html, Pointer (zero shapeA), Some wrongContentType))
  /\ (http.Get (http.Header_ bare) "Content-Type" = ""
      /\ acceptsContentType bare = true
      /\ ReadJSON (U := Typed_Unmarshaler shapeA) t bare (Pointer (zero shapeA))
         = readBody (U := Typed_Unmarshaler shapeA) t bare (Pointer (zero shapeA))).
Proof.
  intros t html bare. split.
  - assert (H1 : http.Get (http.Header_ html) "Content-Type" <> "")
      by (vm_compute; discriminate).
    assert (H2 : ToLower (http.Get (http.Header_ html) "Content-Type")
                 <> "application/json") by (vm_compute; discriminate).
    assert (H3 : EqualFold (http.Get (http.Header_ html) "Content-Type")
                   "application/json" = false) by (vm_compute; reflexivity).
    assert (H4 : Contains (http.Get (http.Header_ html) "Content-Type")
                   (EncodeRune 304) = false) by (vm_compute; reflexivity).
    repeat (split; [assumption |]).
    exact (proj1 (proj2 (ReadJSON_content_type (U := Typed_Unmarshaler shapeA)
                           t html (Pointer (zero shapeA)))) H1 H3 H4).
  - assert (H1 : http.Get (http.Header_ bare) "Content-Type" = "")
      by (vm_compute; reflexivity).
    split; [exact H1 |].
    exact (proj2 (proj2 (ReadJSON_content_type (U := Typed_Unmarshaler shapeA)
                           t bare (Pointer (zero shapeA)))) H1).
Defined.

(** Destination [{A}], input with an extra member [B]. *)
(** The zero-width space U+200B is no printable rune: [%q] writes it as
    an escape, and the message for a key that ends in it does not hold
    the key. *)
Lemma ReadJSON_unknown_field_counterexample :
  ~ (forall (r : http.Request) (x : GoValue) (j : Value) (k : string),
       acceptsContentType r = true ->
       firstValue (tools 0 false) r = Some j ->
       In k (unknownKeys shapeA j) ->
       exists msg : string,
         snd (ReadJSON (U := Typed_Unmarshaler shapeA) (tools 0 false) r (Pointer x))
         = Some (errors.errorString msg)
         /\ Contains msg k = true).
Proof.
  intros H.
  pose (body := quoted "{'A':1,'B" +:+ EncodeRune 8203 +:+ quoted "':2}").
  pose (key := "B" +:+ EncodeRune 8203).
  destruct (H (request None body) (zero shapeA)
              (Object 1 [(quoted "'A'", Literal "1" 6);
                         (dq +:+ key +:+ dq, Literal "2" 15)])
              key)
    as (msg & Hmsg & Hin).
  - vm_compute; reflexivity.
  - vm_compute; reflexivity.
  - vm_compute. left. reflexivity.
  - vm_compute in Hmsg. inversion Hmsg; subst msg. vm_compute in Hin. discriminate Hin.
Qed.

Lemma ReadJSON_unknown_field_witness :
  let t := tools 0 false in
  let r := request (Some "application/json") (quoted "{'A':1,'B':2}") in
  let j := Object 1 [(quoted "'A'", Literal "1" 6); (quoted "'B'", Literal "2" 12)] in
  acceptsContentType r = true
  /\ firstValue t r = Some j
  /\ unknownKeys shapeA j = ["B"]
  /\ snd (value true None shapeA (prune shapeA j) (zero shapeA)) = []
  /\ nonSpace (afterFirstValue t r) = false
  /\ http.rd_err (http.Body r) = errors.EOF
  /\ len (http.rd_data (http.Body r)) <= maxBytesOf t
  /\ snd (ReadJSON (U := Typed_Unmarshaler shapeA) (withUnknownFields t false) r
            (Pointer (zero shapeA)))
     = Some (errors.errorString ("body contains unknown key " +:+ dq +:+ "B" +:+ dq))
  /\ snd (fst (ReadJSON (U := Typed_Unmarshaler shapeA) (withUnknownFields t true) r
                 (Pointer (zero shapeA))))
     = Pointer (fst (value true None shapeA (prune shapeA j) (zero shapeA)))
  /\ snd (ReadJSON (U := Typed_Unmarshaler shapeA) (withUnknownFields t true) r
            (Pointer (zero shapeA)))
     = None.
Proof.
  intros t r j.
  assert (Hacc : acceptsContentType r = true) by (vm_compute; reflexivity).
  assert (Hj : firstValue t r = Some j) by (vm_compute; reflexivity).
  assert (Hk : unknownKeys shapeA j = ["B"]) by (vm_compute; reflexivity).
  assert (Hc : snd (value true None shapeA (prune shapeA j) (zero shapeA)) = [])
    by (vm_compute; reflexivity).
  assert (Hns : nonSpace (afterFirstValue t r) = false) by (vm_compute; reflexivity).
  assert (He : http.rd_err (http.Body r) = errors.EOF) by reflexivity.
  assert (Hl : len (http.rd_data (http.Body r)) <= maxBytesOf t)
    by (vm_compute; discriminate).
  repeat (split; [assumption |]).
  destruct (ReadJSON_unknown_field shapeA t r (zero shapeA) j "B" [] Hacc Hj Hk Hc)
    as (_ & Hplain & Hdest & Hnil).
  split; [exact (Hplain eq_refl) | split; [exact Hdest | exact (Hnil Hns He Hl)]].
Defined.

(** An empty body and a body cut off after a colon. *)
Lemma ReadJSON_empty_vs_truncated_witness :
  let t := tools 0 false in
  let empty := request None "" in
  let cut := request None (quoted "{'a':") in
  (acceptsContentType empty = true
   /\ http.rd_err (http.Body empty) = errors.EOF
   /\ http.rd_data (http.Body empty) = ""
   /\ snd (ReadJSON (U := Typed_Unmarshaler shapeA) t empty (Pointer (zero shapeA)))
      = Some (errors.New "body must not be empty"))
  /\ (acceptsContentType cut = true
      /\ http.rd_err (http.Body cut) = errors.EOF
      /\ len (http.rd_data (http.Body cut)) <= maxBytesOf t
      /\ endsMidValue (http.rd_data (http.Body cut)) = true
      /\ snd (ReadJSON (U := Typed_Unmarshaler shapeA) t cut (Pointer (zero shapeA)))
         = Some (errors.New "body contains badly-formed JSON")).
Proof.
  intros t empty cut. split.
  - assert (H1 : acceptsContentType empty = true) by (vm_compute; reflexivity).
    assert (H2 : http.rd_err (http.Body empty) = errors.EOF) by reflexivity.
    assert (H3 : http.rd_data (http.Body empty) = "") by reflexivity.
    repeat (split; [assumption |]).
    exact (proj1 (ReadJSON_empty_vs_truncated (U := Typed_Unmarshaler shapeA)
                    t empty (Pointer (zero shapeA)) H1 H2) H3).
  - assert (H1 : acceptsContentType cut = true) by (vm_compute; reflexivity).
    assert (H2 : http.rd_err (http.Body cut) = errors.EOF) by reflexivity.
    assert (H3 : len (http.rd_data (http.Body cut)) <= maxBytesOf t)
      by (vm_compute; discriminate).
    assert (H4 : endsMidValue (http.rd_data (http.Body cut)) = true)
      by (vm_compute; reflexivity).
    repeat (split; [assumption |]).
    exact (proj1 (proj2 (ReadJSON_empty_vs_truncated (U := Typed_Unmarshaler shapeA)
                           t cut (Pointer (zero shapeA)) H1 H2)) H3 H4).
Defined.

(** Field [A] expects a number and is given a string. *)
Lemma ReadJSON_type_mismatch_witness :
  let t := tools 0 false in
  let r := request (Some "application/json") (quoted "{'A':'x'}") in
  let dec1 := fst (fst (Decode (U := Typed_Unmarshaler shapeA) (openDecoder t r)
                          (Pointer (zero shapeA)))) in
  acceptsContentType r = true
  /\ Decode (U := Typed_Unmarshaler shapeA) (openDecoder t r) (Pointer (zero shapeA))
     = (dec1, Pointer (zero shapeA),
        Some (errors.UnmarshalTypeError "string" "int" 8 "" "A"))
  /\ snd (ReadJSON (U := Typed_Unmarshaler shapeA) t r (Pointer (zero shapeA)))
     = Some (errors.errorString
               ("body contains incorrect JSON type for field " +:+ Quote "A"
                +:+ " at offset 8")).
Proof.
  intros t r dec1.
  assert (Hacc : acceptsContentType r = true) by (vm_compute; reflexivity).
  assert (HD : Decode (U := Typed_Unmarshaler shapeA) (openDecoder t r)
                 (Pointer (zero shapeA))
               = (dec1, Pointer (zero shapeA),
                  Some (errors.UnmarshalTypeError "string" "int" 8 "" "A")))
    by (vm_compute; reflexivity).
  repeat (split; [assumption |]).
  exact (proj1 (ReadJSON_type_mismatch (U := Typed_Unmarshaler shapeA)
                  t r (Pointer (zero shapeA)) (Pointer (zero shapeA)) dec1
                  "string" "int" "" "A" 8 Hacc HD)).
Defined.

(** A channel cannot be serialized. *)
Lemma WriteJSON_marshal_failure_witness :
  Marshal (mkChan "int") = inr (errors.UnsupportedTypeError "chan int")
  /\ WriteJSON (tools 0 false) freshWriter 200 (mkChan "int") []
     = (freshWriter, Some (errors.UnsupportedTypeError "chan int")).
Proof.
  assert (HM : Marshal (mkChan "int") = inr (errors.UnsupportedTypeError "chan int"))
    by reflexivity.
  split; [exact HM |].
  exact (WriteJSON_marshal_failure (tools 0 false) freshWriter 200 (mkChan "int") []
           (errors.UnsupportedTypeError "chan int") HM).
Defined.

(** A broker payload goes out and comes back. *)
Lemma WriteJSON_writes_witness :
  let out := quoted "{'action':'auth','auth':{'email':'me@example.com','password':'secret'}}" in
  (wellFormed BrokerRequestPayload = true
   /\ conforms BrokerRequestPayload brokerPayload = true)
  /\ http.rw_calls (fst (WriteJSON (M := Typed_Marshaler BrokerRequestPayload)
                           (tools 0 false) freshWriter 202 brokerPayload []))
     = [http.CallWriteHeader 202; http.CallWrite out]
  /\ http.Get (http.rw_header (fst (WriteJSON (M := Typed_Marshaler BrokerRequestPayload)
                                      (tools 0 false) freshWriter 202 brokerPayload [])))
       "Content-Type"
     = "application/json"
  /\ unmarshalValue (Unmarshaler := Typed_Unmarshaler BrokerRequestPayload) true out
       (zero BrokerRequestPayload)
     = (brokerPayload, None).
Proof.
  intros out.
  assert (Hwf : wellFormed BrokerRequestPayload = true) by (vm_compute; reflexivity).
  assert (Hconf : conforms BrokerRequestPayload brokerPayload = true)
    by (vm_compute; reflexivity).
  assert (Hout : encodeValue BrokerRequestPayload brokerPayload = out)
    by (vm_compute; reflexivity).
  split; [split; assumption |].
  destruct (WriteJSON_writes (tools 0 false) freshWriter 202 BrokerRequestPayload
              brokerPayload [] true Hwf Hconf)
    as (_ & Hcalls & _ & Hget & _ & body & HM & _ & HU).
  change (@inl string error (encodeValue BrokerRequestPayload brokerPayload) = inl body)
    in HM.
  rewrite Hout in HM, Hcalls. injection HM as HM. subst body.
  split; [exact Hcalls |]. split; [exact Hget | exact HU].
Defined.

(** A string that is not well-formed UTF-8 does not come back: the byte
    255 is written as the escape of the replacement rune, which decodes
    to the three bytes of that rune. *)
Lemma WriteJSON_writes_counterexample :
  ~ (forall (s : string) (S : Z),
       exists body : string,
         Marshal (Marshaler := Typed_Marshaler TString) (VString s) = inl body
         /\ last (http.rw_calls (fst (WriteJSON (M := Typed_Marshaler TString)
                                        (tools 0 false) freshWriter S (VString s) [])))
            = Some (http.CallWrite body)
         /\ unmarshalValue (Unmarshaler := Typed_Unmarshaler TString) false body
              (zero TString)
            = (VString s, None)).
Proof.
  intros H.
  destruct (H (String (byte_of 255) "") 200) as (body & HM & _ & HU).
  vm_compute in HM. injection HM as <-.
  vm_compute in HU. discriminate HU.
Qed.

(** The transport refuses the body and [WriteJSON] still reports success. *)
Lemma WriteJSON_discards_write_error_witness :
  let payload := errorEnvelope (errors.New "nope") in
  Marshal payload = inl (errorWire (errors.New "nope"))
  /\ http.rw_broken brokenWriter = Some (errors.New "write: broken pipe")
  /\ snd (WriteJSON (tools 0 false) brokenWriter 500 payload []) = None
  /\ snd (http.Write (prepared brokenWriter 500 []) (errorWire (errors.New "nope")))
     = (0, Some (errors.New "write: broken pipe")).
Proof.
  intros payload.
  assert (HM : Marshal payload = inl (errorWire (errors.New "nope")))
    by (vm_compute; reflexivity).
  assert (HB : http.rw_broken brokenWriter = Some (errors.New "write: broken pipe"))
    by reflexivity.
  split; [exact HM |]. split; [exact HB |].
  destruct (WriteJSON_discards_write_error (tools 0 false) brokenWriter 500 payload []
              (errorWire (errors.New "nope")) HM) as [Hnil Hwrite].
  split; [exact Hnil | exact (Hwrite _ HB)].
Defined.

(** ** Scenarios of the design *)

(** Strict mode, destination [{Name string}], an extra member. *)
Example scenario_extra_member :
  snd (ReadJSON (U := Typed_Unmarshaler shapeName) (tools 0 false)
         (request (Some "application/json") (quoted "{'Name':'x','Extra':1}"))
         (Pointer (zero shapeName)))
  = Some (errors.errorString ("body contains unknown key " +:+ Quote "Extra")).
Proof. vm_compute. reflexivity. Qed.

(** White space after the value is not a second value. *)
Example scenario_trailing_space :
  snd (ReadJSON (U := Typed_Unmarshaler shapeA) (tools 0 false)
         (request (Some "Application/JSON") (quoted "  {'a': 7}  "))
         (Pointer (zero shapeA)))
  = None
  /\ snd (fst (ReadJSON (U := Typed_Unmarshaler shapeA) (tools 0 false)
                 (request (Some "Application/JSON") (quoted "  {'a': 7}  "))
                 (Pointer (zero shapeA))))
     = Pointer (VStruct [VInt 7]).
Proof. split; vm_compute; reflexivity. Qed.

(** A syntax error is reported with the count of bytes read. *)
Example scenario_syntax_error :
  snd (ReadJSON (U := Typed_Unmarshaler shapeA) (tools 0 false)
         (request None (quoted "{'A':1,}")) (Pointer (zero shapeA)))
  = Some (errors.errorString "body contains badly-formed JSON (at character 8)").
Proof. vm_compute. reflexivity. Qed.

(** A destination that is not a pointer, once the body has scanned. *)
Example scenario_invalid_target :
  snd (ReadJSON (U := Typed_Unmarshaler shapeA) (tools 0 false)
         (request None (quoted "{'A':1}")) (Invalid (errors.NonPointer "int")))
  = Some (errors.errorString
            "error unmarshalling json: json: Unmarshal(non-pointer int)").
Proof. vm_compute. reflexivity. Qed.

(** A broker request is decoded into its nested payload. *)
Example scenario_broker_request :
  ReadJSON (U := Typed_Unmarshaler BrokerRequestPayload) (tools 0 false)
    (request (Some "application/json")
       (quoted "{'action':'auth','auth':{'email':'me@example.com','password':'secret'}}"))
    (Pointer (zero BrokerRequestPayload))
  = (request (Some "application/json") "", Pointer brokerPayload, None).
Proof. vm_compute. reflexivity. Qed.

(** [ErrorJSON] without a status: 400 and the two-member envelope. *)
Example scenario_error_response :
  http.rw_calls (fst (ErrorJSON (tools 0 false) freshWriter (errors.New "bad input") []))
  = [http.CallWriteHeader 400;
     http.CallWrite (quoted "{'error':true,'message':'bad input'}")].
Proof. vm_compute. reflexivity. Qed.

(** Beyond ASCII.  [strings.ToLower] lowers U+0130 to [i] and U+00C9 to
    U+00E9, and writes the replacement rune for a byte that is not
    UTF-8. *)
Example scenario_lower_case :
  ToLower ("appl" +:+ EncodeRune 304 +:+ "cation/json") = "application/json"
  /\ ToLower (EncodeRune 201 +:+ "TAT") = EncodeRune 233 +:+ "tat"
  /\ ToLower (String (byte_of 255) "Z") = EncodeRune RuneError +:+ "z".
Proof. repeat split; vm_compute; reflexivity. Qed.

(** A key spelt with the long s (U+017F) selects the field named with
    [s], and the Kelvin sign (U+212A) stands for [k]; U+0130 does not
    fold onto [i]. *)
Example scenario_folded_key :
  snd (fst (ReadJSON (U := Typed_Unmarshaler AuthPayload) (tools 0 false)
              (request None
                 (quoted "{'pa" +:+ EncodeRune 383 +:+ EncodeRune 383
                  +:+ quoted "word':'new'}"))
              (Pointer (VStruct [VString "me@example.com"; VString "old"]))))
  = Pointer (VStruct [VString "me@example.com"; VString "new"])
  /\ equalFold (EncodeRune 8490 +:+ "ey") "key" = true
  /\ equalFold (EncodeRune 304 +:+ "d") "id" = false.
Proof. repeat split; vm_compute; reflexivity. Qed.

(** [%q] writes the zero-width space U+200B as an escape and copies
    U+00E9. *)
Example scenario_quoted_key :
  Quote ("B" +:+ EncodeRune 8203) = dq +:+ "B" +:+ "\" +:+ "u200b" +:+ dq
  /\ Quote (EncodeRune 233) = dq +:+ EncodeRune 233 +:+ dq.
Proof. split; vm_compute; reflexivity. Qed.

(** ** Further properties at work *)

(** A broker payload written by one service is read by another. *)
Lemma ReadJSON_reads_WriteJSON_witness :
  let body := quoted "{'action':'auth','auth':{'email':'me@example.com','password':'secret'}}" in
  let r := request (Some "application/json") body in
  snd (ReadJSON (U := Typed_Unmarshaler BrokerRequestPayload) (tools 0 false) r
         (Pointer (zero BrokerRequestPayload))) = None
  /\ snd (fst (ReadJSON (U := Typed_Unmarshaler BrokerRequestPayload) (tools 0 false) r
                 (Pointer (zero BrokerRequestPayload))))
     = Pointer brokerPayload.
Proof.
  intros body r.
  apply (ReadJSON_reads_WriteJSON (tools 0 true) (tools 0 false) freshWriter 202
           BrokerRequestPayload brokerPayload [] body r).
  - vm_compute; reflexivity.
  - vm_compute; reflexivity.
  - vm_compute; discriminate.
  - vm_compute; reflexivity.
  - vm_compute; reflexivity.
  - reflexivity.
  - vm_compute; discriminate.
Defined.

(** An error text with characters that JSON escapes comes back as it
    was. *)
Lemma ErrorJSON_read_back_witness :
  let e := errors.New "no such file: C:\temp" in
  let body := quoted "{'error':true,'message':'no such file: C:\\temp'}" in
  let r := request None body in
  last (http.rw_calls (fst (ErrorJSON (tools 0 false) freshWriter e [])))
  = Some (http.CallWrite body)
  /\ snd (fst (ReadJSON (U := Typed_Unmarshaler errorReply) (tools 0 false) r
                 (Pointer (zero errorReply))))
     = Pointer (VStruct [VBool true; VString "no such file: C:\temp"]).
Proof.
  intros e body r.
  assert (Hlast : last (http.rw_calls (fst (ErrorJSON (tools 0 false) freshWriter e [])))
                  = Some (http.CallWrite body)) by (vm_compute; reflexivity).
  split; [exact Hlast |].
  apply (ErrorJSON_read_back (tools 0 false) (tools 0 false) freshWriter e [] body r).
  - vm_compute; reflexivity.
  - exact Hlast.
  - vm_compute; reflexivity.
  - reflexivity.
  - vm_compute; discriminate.
Defined.

(** Eleven bytes under a ceiling of ten: a complete value and white
    space, refused. *)
Lemma ReadJSON_oversized_rejected_witness :
  snd (ReadJSON (U := Typed_Unmarshaler shapeA) (tools 10 false)
         (request None (quoted "{'A':1}    ")) (Pointer (zero shapeA)))
  <> None.
Proof.
  apply (ReadJSON_oversized_rejected (U := Typed_Unmarshaler shapeA) (tools 10 false)
           (request None (quoted "{'A':1}    ")) (Pointer (zero shapeA))).
  vm_compute; reflexivity.
Defined.

Lemma ReadJSON_negative_ceiling_witness :
  snd (ReadJSON (U := Typed_Unmarshaler shapeA) (tools (-1) false)
         (request None (quoted "{'A':1}")) (Pointer (zero shapeA)))
  = Some (errors.errorString "body must not be larger than -1 bytes").
Proof.
  rewrite (ReadJSON_negative_ceiling (U := Typed_Unmarshaler shapeA) (tools (-1) false)
             (request None (quoted "{'A':1}")) (Pointer (zero shapeA))).
  - reflexivity.
  - vm_compute; reflexivity.
  - vm_compute; reflexivity.
  - vm_compute; discriminate.
Defined.

Lemma ReadJSON_blank_body_witness :
  snd (ReadJSON (U := Typed_Unmarshaler shapeA) (tools 0 false)
         (request (Some "application/json") "   ") (Pointer (zero shapeA)))
  = Some (errors.New "body must not be empty").
Proof.
  apply (ReadJSON_blank_body (U := Typed_Unmarshaler shapeA) (tools 0 false)
           (request (Some "application/json") "   ") (Pointer (zero shapeA))).
  - vm_compute; reflexivity.
  - reflexivity.
  - vm_compute; discriminate.
  - vm_compute; reflexivity.
Defined.

(** The value of member A is missing: the sixth byte breaks the syntax. *)
Lemma ReadJSON_syntax_error_witness :
  let r := request None (quoted "{'A':}") in
  exists k : nat,
    (k < String.length
           (http.rd_data (http.MaxBytesReader (http.Body r) (maxBytesOf (tools 0 false)))))%nat
    /\ opensValue
         (take k (http.rd_data
                    (http.MaxBytesReader (http.Body r) (maxBytesOf (tools 0 false)))))
       = true
    /\ snd (ReadJSON (U := Typed_Unmarshaler shapeA) (tools 0 false) r
              (Pointer (zero shapeA)))
       = Some (errors.errorString
                 ("body contains badly-formed JSON (at character "
                  +:+ Itoa (Z.of_nat k + 1) +:+ ")"))
    /\ snd (fst (ReadJSON (U := Typed_Unmarshaler shapeA) (tools 0 false) r
                   (Pointer (zero shapeA))))
       = Pointer (zero shapeA).
Proof.
  intros r.
  apply (ReadJSON_syntax_error (U := Typed_Unmarshaler shapeA) (tools 0 false) r
           (Pointer (zero shapeA))
           (errors.SyntaxError "invalid character '}' looking for beginning of value" 6)
           (mkScanner stateError false [parseObjectValue]
              (Some (errors.SyntaxError
                       "invalid character '}' looking for beginning of value" 6))
              6)).
  - vm_compute; reflexivity.
  - vm_compute; reflexivity.
Defined.

(** The connection is reset while an object is still open. *)
Lemma ReadJSON_transport_error_witness :
  let reset := errors.errorString "read: connection reset by peer" in
  let r := http.mkRequest ∅ (http.mkReader (quoted "{'A':") reset) in
  snd (ReadJSON (U := Typed_Unmarshaler shapeA) (tools 0 false) r (Pointer (zero shapeA)))
  = Some reset.
Proof.
  intros reset r.
  destruct (ReadJSON_transport_error (U := Typed_Unmarshaler shapeA) (tools 0 false) r
              (Pointer (zero shapeA))) as (_ & _ & Hmsg).
  - vm_compute; reflexivity.
  - vm_compute; discriminate.
  - vm_compute; reflexivity.
  - vm_compute; reflexivity.
  - apply (Hmsg "read: connection reset by peer").
    + reflexivity.
    + vm_compute; reflexivity.
    + discriminate.
Defined.

Lemma ReadJSON_invalid_destination_witness :
  let r := request None (quoted "{'A':1}") in
  snd (ReadJSON (U := Typed_Unmarshaler shapeA) (tools 0 false) r
         (Invalid errors.NilInterface))
  = Some (errors.errorString "error unmarshalling json: json: Unmarshal(nil)").
Proof.
  intros r.
  destruct (ReadJSON_invalid_destination (U := Typed_Unmarshaler shapeA) (tools 0 false) r
              errors.NilInterface) as [Hval _]; [vm_compute; reflexivity |].
  destruct (readValue (openDecoder (tools 0 false) r)) as [d [n | e]] eqn:Hrv.
  - exact (Hval d n eq_refl).
  - vm_compute in Hrv. discriminate Hrv.
Defined.

Lemma ReadJSON_media_type_witness :
  let r := request (Some "application/json; charset=utf-8") (quoted "{'A':1}") in
  ReadJSON (U := Typed_Unmarshaler shapeA) (tools 0 false) r (Pointer (zero shapeA))
  = (r, Pointer (zero shapeA), Some wrongContentType).
Proof.
  intros r.
  destruct (ReadJSON_media_type (U := Typed_Unmarshaler shapeA) (tools 0 false) r
              (Pointer (zero shapeA))) as [_ H].
  apply (H "application/json" "; charset=utf-8").
  - vm_compute; reflexivity.
  - vm_compute; reflexivity.
  - discriminate.
Defined.

(** The key a selects the field A: strict and lenient agree. *)
Lemma ReadJSON_modes_agree_witness :
  let r := request None (quoted "{'a':1}") in
  snd (ReadJSON (U := Typed_Unmarshaler shapeA)
         (withUnknownFields (tools 0 true) false) r (Pointer (zero shapeA)))
  = snd (ReadJSON (U := Typed_Unmarshaler shapeA) (tools 0 true) r (Pointer (zero shapeA))).
Proof.
  intros r.
  destruct (ReadJSON_modes_agree shapeA (tools 0 true) r (zero shapeA)) as [H _].
  apply H. intros j Hj. vm_compute in Hj. inversion Hj. reflexivity.
Defined.

(** Only the action is sent: the credentials already in the
    destination stay. *)
Lemma ReadJSON_keeps_absent_fields_witness :
  let r := request None (quoted "{'action':'ping'}") in
  exists vs' : list GoValue,
    snd (fst (ReadJSON (U := Typed_Unmarshaler BrokerRequestPayload) (tools 0 false) r
                (Pointer brokerPayload)))
    = Pointer (VStruct vs')
    /\ vs' !! 1%nat
       = Some (VStruct [VString "me@example.com"; VString "secret"]).
Proof.
  intros r.
  apply (ReadJSON_keeps_absent_fields BrokerRequestPayload (tools 0 false) r
           "BrokerRequestPayload" "goMicroServiceUtils.BrokerRequestPayload"
           [("action", false, TString); ("auth", true, AuthPayload)]
           [VString "auth"; VStruct [VString "me@example.com"; VString "secret"]]
           1 [(quoted "'action'", Literal (quoted "'ping'") 16)] 1%nat).
  - reflexivity.
  - vm_compute; reflexivity.
  - vm_compute; reflexivity.
  - constructor; [| constructor].
    intros k name fty Hf. vm_compute in Hf. inversion Hf. discriminate.
Defined.

Lemma WriteJSON_body_safe_witness :
  let body := quoted "{'Name':'\u003cb\u003e'}" in
  last (http.rw_calls
          (fst (WriteJSON (M := Typed_Marshaler shapeName) (tools 0 false) freshWriter 200
                  (VStruct [VString "<b>"]) [])))
  = Some (http.CallWrite body)
  /\ wireSafe body = true.
Proof.
  intros body.
  assert (Hlast : last (http.rw_calls
                          (fst (WriteJSON (M := Typed_Marshaler shapeName) (tools 0 false)
                                  freshWriter 200 (VStruct [VString "<b>"]) [])))
                  = Some (http.CallWrite body)) by (vm_compute; reflexivity).
  split; [exact Hlast |].
  destruct (WriteJSON_body_safe (tools 0 false) freshWriter body) as [H _].
  exact (H 200 shapeName (VStruct [VString "<b>"]) [] Hlast).
Defined.

(** A string for the int field A: the offset is that of the byte after
    the string. *)
Lemma ReadJSON_string_for_int_witness :
  let r := request None (quoted "{'A':'x'}") in
  snd (ReadJSON (U := Typed_Unmarshaler shapeA) (tools 0 false) r (Pointer (zero shapeA)))
  = Some (errors.errorString
            (quoted "body contains incorrect JSON type for field 'A' at offset 8"))
  /\ snd (fst (ReadJSON (U := Typed_Unmarshaler shapeA) (tools 0 false) r
                 (Pointer (zero shapeA))))
     = Pointer (zero shapeA).
Proof.
  intros r.
  apply (ReadJSON_string_for_int (tools 0 false) r "" "struct { A int }" "A" "x" false
           (zero shapeA)).
  - vm_compute; reflexivity.
  - vm_compute; reflexivity.
  - vm_compute; reflexivity.
  - reflexivity.
  - vm_compute; discriminate.
Defined.

(** The same key twice: the second value stays. *)
Lemma ReadJSON_last_member_wins_witness :
  let r := request None (quoted "{'A':1,'A':2}") in
  exists vs' : list GoValue,
    snd (fst (ReadJSON (U := Typed_Unmarshaler shapeA) (tools 0 false) r
                (Pointer (VStruct [VInt 0]))))
    = Pointer (VStruct vs')
    /\ vs' !! 0%nat = Some (VInt 2).
Proof.
  intros r.
  apply (ReadJSON_last_member_wins shapeA (tools 0 false) r "" "struct { A int }"
           [("A", false, TInt)] [VInt 0] 1 [(quoted "'A'", Literal "1" 6)]
           (quoted "'A'") "2" 12 0%nat "A" TInt (VInt 2)).
  - reflexivity.
  - vm_compute; reflexivity.
  - vm_compute; reflexivity.
  - vm_compute; reflexivity.
  - intros ctx v0. reflexivity.
  - simpl; lia.
Defined.

(** A request that was read has nothing left to read. *)
Lemma ReadJSON_reads_once_witness :
  let r := request None (quoted "{'A':1}") in
  let r' := http.mkRequest (http.Header_ r) (http.mkReader "" errors.EOF) in
  ReadJSON (U := Typed_Unmarshaler shapeA) (tools 0 false) r (Pointer (zero shapeA))
  = (r', Pointer (VStruct [VInt 1]), None)
  /\ snd (ReadJSON (U := Typed_Unmarshaler shapeName) (tools 0 true) r'
            (Pointer (zero shapeName)))
     = Some (errors.New "body must not be empty").
Proof.
  intros r r'.
  assert (H : ReadJSON (U := Typed_Unmarshaler shapeA) (tools 0 false) r
                (Pointer (zero shapeA))
              = (r', Pointer (VStruct [VInt 1]), None)) by (vm_compute; reflexivity).
  split; [exact H |].
  exact (proj2 (ReadJSON_reads_once (U := Typed_Unmarshaler shapeA)
                  (U' := Typed_Unmarshaler shapeName) (tools 0 false) (tools 0 true)
                  r r' (zero shapeA) (Pointer (VStruct [VInt 1]))
                  (Pointer (zero shapeName)) H)).
Defined.

(** Ten thousand and one arrays, one inside the other. *)
Lemma ReadJSON_nesting_limit_witness :
  let r := request None (brackets (Z.to_nat maxNestingDepth) +:+ String "[" "") in
  snd (ReadJSON (U := Typed_Unmarshaler shapeA) (tools 0 false) r (Pointer (zero shapeA)))
  = Some (errors.errorString "body contains badly-formed JSON (at character 10001)").
Proof.
  intros r.
  destruct (ReadJSON_nesting_limit (U := Typed_Unmarshaler shapeA) (tools 0 false) r
              (Pointer (zero shapeA)) "") as (_ & H & _).
  - vm_compute; reflexivity.
  - reflexivity.
  - vm_compute; discriminate.
  - exact H.
Defined.

(** A success response that carries credentials as its data. *)
Lemma WriteJSON_envelope_read_back_witness :
  let V := VStruct [VString "me@example.com"; VString "secret"] in
  let body :=
    quoted "{'error':false,'message':'ok','data':{'email':'me@example.com','password':'secret'}}" in
  let r := request (Some "application/json") body in
  last (http.rw_calls
          (fst (WriteJSON (tools 0 false) freshWriter 202
                  (envelopeWith false "ok" AuthPayload V) [])))
  = Some (http.CallWrite body)
  /\ snd (fst (ReadJSON (U := Typed_Unmarshaler (envelopeOf AuthPayload)) (tools 0 false) r
                 (Pointer (zero (envelopeOf AuthPayload)))))
     = Pointer (VStruct [VBool false; VString "ok"; V]).
Proof.
  intros V body r.
  assert (Hlast : last (http.rw_calls
                          (fst (WriteJSON (tools 0 false) freshWriter 202
                                  (envelopeWith false "ok" AuthPayload V) [])))
                  = Some (http.CallWrite body)) by (vm_compute; reflexivity).
  split; [exact Hlast |].
  apply (WriteJSON_envelope_read_back (tools 0 false) (tools 0 false) freshWriter 202
           false "ok" AuthPayload V [] body r).
  - vm_compute; reflexivity.
  - vm_compute; reflexivity.
  - reflexivity.
  - vm_compute; reflexivity.
  - vm_compute; reflexivity.
  - exact Hlast.
  - vm_compute; reflexivity.
  - reflexivity.
  - vm_compute; discriminate.
Defined.
